(** * Render-state tracking and pipeline-state caching of the Diligent
      graphics backend (Source/Urho3D/Graphics/Diligent)

    A shallow embedding of [Graphics] and [GraphicsImpl] from
    DiligentGraphics.cpp and DiligentGraphicsImpl.h, together with the parts
    of DiligentTexture.cpp and DiligentConstantBuffer.cpp they call.  The
    state of the C++ objects is one record that is threaded through every
    member function; calls into the Diligent device context are appended to
    a trace. *)

From stdpp Require Import gmap list strings.
From coqutil Require Import Datatypes.RecordSettersUsingExistingGetters.

Open Scope Z_scope.

(** ** Machine integers *)

(** [unsigned] is a 32-bit integer and [unsigned long long] a 64-bit one;
    both are kept as [Z] and wrapped where the source can overflow. *)
Definition wrap32 (z : Z) : Z := z mod 2 ^ 32.
Definition wrap64 (z : Z) : Z := z mod 2 ^ 64.

(** Modelled from the spec: [M_MAX_UNSIGNED] of MathDefs.h, which is not
    among the sources; the largest [unsigned], used as the "no dirty range"
    sentinel. *)
Definition M_MAX_UNSIGNED : Z := 4294967295.

(** Modelled from the spec: [Clamp] of MathDefs.h, which is not among the
    sources ("clamped to lie within"). *)
Definition Clamp (value lo hi : Z) : Z :=
  if value <? lo then lo else if hi <? value then hi else value.

(** ** Enumerations

    Modelled from the spec: the enumerations of GraphicsDefs.h, which is not
    among the sources.  The enumerators are the ones DiligentGraphics.cpp
    names, numbered in the order in which its lookup tables
    ([diligentBlendEnable], [diligentCmpFunc], [diligentStencilOp],
    [diligentCullMode], [diligentFillMode]) list their entries. *)

Inductive BlendMode :=
  | BLEND_REPLACE | BLEND_ADD | BLEND_MULTIPLY | BLEND_ALPHA | BLEND_ADDALPHA
  | BLEND_PREMULALPHA | BLEND_INVDESTALPHA | BLEND_SUBTRACT | BLEND_SUBTRACTALPHA.

Inductive CompareMode :=
  | CMP_ALWAYS | CMP_EQUAL | CMP_NOTEQUAL | CMP_LESS | CMP_LESSEQUAL
  | CMP_GREATER | CMP_GREATEREQUAL.

Inductive StencilOp := OP_KEEP | OP_ZERO | OP_REF | OP_INCR | OP_DECR.

Inductive CullMode := CULL_NONE | CULL_CCW | CULL_CW.

Inductive FillMode := FILL_SOLID | FILL_WIREFRAME | FILL_POINT.

Inductive PrimitiveType :=
  | TRIANGLE_LIST | LINE_LIST | POINT_LIST | TRIANGLE_STRIP | LINE_STRIP
  | TRIANGLE_FAN.

Inductive TextureUsage :=
  | TEXTURE_STATIC | TEXTURE_DYNAMIC | TEXTURE_RENDERTARGET
  | TEXTURE_DEPTHSTENCIL.

Inductive ShaderType := VS | PS.

Definition BlendMode_to_Z (m : BlendMode) : Z :=
  match m with
  | BLEND_REPLACE => 0 | BLEND_ADD => 1 | BLEND_MULTIPLY => 2
  | BLEND_ALPHA => 3 | BLEND_ADDALPHA => 4 | BLEND_PREMULALPHA => 5
  | BLEND_INVDESTALPHA => 6 | BLEND_SUBTRACT => 7 | BLEND_SUBTRACTALPHA => 8
  end.

Definition CompareMode_to_Z (m : CompareMode) : Z :=
  match m with
  | CMP_ALWAYS => 0 | CMP_EQUAL => 1 | CMP_NOTEQUAL => 2 | CMP_LESS => 3
  | CMP_LESSEQUAL => 4 | CMP_GREATER => 5 | CMP_GREATEREQUAL => 6
  end.

Definition StencilOp_to_Z (o : StencilOp) : Z :=
  match o with
  | OP_KEEP => 0 | OP_ZERO => 1 | OP_REF => 2 | OP_INCR => 3 | OP_DECR => 4
  end.

Definition CullMode_to_Z (m : CullMode) : Z :=
  match m with CULL_NONE => 0 | CULL_CCW => 1 | CULL_CW => 2 end.

Definition FillMode_to_Z (m : FillMode) : Z :=
  match m with FILL_SOLID => 0 | FILL_WIREFRAME => 1 | FILL_POINT => 2 end.

Definition ShaderType_to_Z (t : ShaderType) : Z :=
  match t with VS => 0 | PS => 1 end.

Definition PrimitiveType_to_nat (t : PrimitiveType) : nat :=
  match t with
  | TRIANGLE_LIST => 0 | LINE_LIST => 1 | POINT_LIST => 2
  | TRIANGLE_STRIP => 3 | LINE_STRIP => 4 | TRIANGLE_FAN => 5
  end%nat.

Definition PrimitiveType_of_nat (n : nat) : PrimitiveType :=
  match n with
  | 0 => TRIANGLE_LIST | 1 => LINE_LIST | 2 => POINT_LIST
  | 3 => TRIANGLE_STRIP | 4 => LINE_STRIP | _ => TRIANGLE_FAN
  end%nat.

#[global] Instance BlendMode_eq_dec : EqDecision BlendMode.
Proof. solve_decision. Defined.
#[global] Instance CompareMode_eq_dec : EqDecision CompareMode.
Proof. solve_decision. Defined.
#[global] Instance StencilOp_eq_dec : EqDecision StencilOp.
Proof. solve_decision. Defined.
#[global] Instance CullMode_eq_dec : EqDecision CullMode.
Proof. solve_decision. Defined.
#[global] Instance FillMode_eq_dec : EqDecision FillMode.
Proof. solve_decision. Defined.
#[global] Instance PrimitiveType_eq_dec : EqDecision PrimitiveType.
Proof. solve_decision. Defined.
#[global] Instance TextureUsage_eq_dec : EqDecision TextureUsage.
Proof. solve_decision. Defined.
#[global] Instance ShaderType_eq_dec : EqDecision ShaderType.
Proof. solve_decision. Defined.

Lemma PrimitiveType_of_to_nat (t : PrimitiveType) :
  PrimitiveType_of_nat (PrimitiveType_to_nat t) = t.
Proof. by destruct t. Qed.

#[global] Instance PrimitiveType_countable : Countable PrimitiveType :=
  inj_countable' PrimitiveType_to_nat PrimitiveType_of_nat
    PrimitiveType_of_to_nat.

(** ** Plain data *)

Record IntRect := mkIntRect { left_ : Z; top_ : Z; right_ : Z; bottom_ : Z }.

#[global] Instance IntRect_eq_dec : EqDecision IntRect.
Proof. solve_decision. Defined.

Definition IntRect_ZERO : IntRect := mkIntRect 0 0 0 0.

(** C arrays of pointers are lists of optional object identities, [None]
    being the null pointer; a read is guarded by the source's own bound
    checks, and a slot that does not exist reads as null. *)
Definition at_ {A} (a : list (option A)) (i : nat) : option A := mjoin (a !! i).

Definition atZ (a : list Z) (i : nat) : Z := default 0 (a !! i).

(** ** Objects the graphics state points to

    Objects live in stores keyed by their identity (the pointer); a field is
    listed when one of the modelled member functions reads or writes it. *)

Inductive TextureKind := KindTexture2D | KindTextureCube | KindOther.

#[global] Instance TextureKind_eq_dec : EqDecision TextureKind.
Proof. solve_decision. Defined.

Record Texture := mkTexture {
  backupTexture_ : option nat;
  multiSample_ : Z;
  autoResolve_ : bool;
  tex_resolveDirty_ : bool;
  levelsDirty_ : bool;
  parametersDirty_ : bool;
  sampler_ : option nat;
  shaderResourceView_ : option nat;
  tex_object_ : option nat;
  resolveTexture_ : option nat;
  levels_ : Z;
  tex_kind : TextureKind;
  tex_format_ : Z;
  renderSurface_ : option nat;
  faceSurfaces_ : list nat
}.

Record RenderSurface := mkRenderSurface {
  parentTexture_ : nat;
  surf_usage_ : TextureUsage;
  surf_width_ : Z;
  surf_height_ : Z;
  surf_resolveDirty_ : bool;
  renderTargetView_ : option nat;
  readOnlyView_ : option nat
}.

Record VertexElement := mkVertexElement {
  ve_type_ : Z;
  ve_semantic_ : Z;
  ve_index_ : Z;
  perInstance_ : bool;
  ve_offset_ : Z
}.

(** [vb_bufferHash] stands for [VertexBuffer::GetBufferHash], declared in
    VertexBuffer.h: the per-slot contribution of a buffer to the
    vertex-declaration hash. *)
Record VertexBuffer := mkVertexBuffer {
  elements_ : list VertexElement;
  vertexSize_ : Z;
  vb_object_ : option nat;
  vb_bufferHash : nat -> Z
}.

Record IndexBuffer := mkIndexBuffer {
  indexSize_ : Z;
  ib_object_ : option nat
}.

Record ShaderParameter := mkShaderParameter {
  sp_type_ : ShaderType;
  sp_buffer_ : nat;
  sp_offset_ : nat;
  sp_bufferPtr_ : option nat
}.

(** What the device reports for a compiled shader is an attribute of the
    variation: [sv_createResult] is the object (or null) and the emptiness
    of the compiler output that [ShaderVariation::Create] ends with,
    [sv_clipPlaneVariation] the variation its owner returns for
    [GetDefinesClipPlane], [sv_textureVariables] the texture unit and the
    variable handle of every texture resource its resource binding lists. *)
Record ShaderVariation := mkShaderVariation {
  sv_object_ : option nat;
  sv_compilerOutputEmpty : bool;
  sv_createResult : option nat * bool;
  sv_clipPlaneVariation : option nat;
  constantBufferSizes_ : list Z;
  constantBufferNames_ : list string;
  sv_parameters_ : gmap Z ShaderParameter;
  sv_textureVariables : list (Z * nat)
}.

Record ShaderProgram := mkShaderProgram {
  vsConstantBuffers_ : list (option nat);
  psConstantBuffers_ : list (option nat);
  parameters_ : gmap Z ShaderParameter
}.

(** [cb_graphics_] says whether [graphics_], the weak pointer of
    [GPUObject] to the graphics subsystem, is non-null; a buffer that
    [Graphics] creates has it. *)
Record ConstantBuffer := mkConstantBuffer {
  dirty_ : bool;
  cb_object_ : option nat;
  size_ : Z;
  shadowData_ : list Z;
  cb_graphics_ : bool
}.

#[global] Instance Texture_inhabited : Inhabited Texture :=
  populate (mkTexture None 1 false false false false None None None None 1
                      KindOther 0 None []).
#[global] Instance RenderSurface_inhabited : Inhabited RenderSurface :=
  populate (mkRenderSurface 0 TEXTURE_STATIC 0 0 false None None).
#[global] Instance VertexBuffer_inhabited : Inhabited VertexBuffer :=
  populate (mkVertexBuffer [] 0 None (fun _ => 0)).
#[global] Instance IndexBuffer_inhabited : Inhabited IndexBuffer :=
  populate (mkIndexBuffer 0 None).
#[global] Instance ShaderVariation_inhabited : Inhabited ShaderVariation :=
  populate (mkShaderVariation None true (None, false) None [] [] ∅ []).
#[global] Instance ShaderProgram_inhabited : Inhabited ShaderProgram :=
  populate (mkShaderProgram [] [] ∅).
#[global] Instance ConstantBuffer_inhabited : Inhabited ConstantBuffer :=
  populate (mkConstantBuffer false None 0 [] true).

#[global] Instance set_tex_resolveDirty_ : Setter tex_resolveDirty_ := ltac:(setter Texture tex_resolveDirty_).
#[global] Instance set_levelsDirty_ : Setter levelsDirty_ := ltac:(setter Texture levelsDirty_).
#[global] Instance set_parametersDirty_ : Setter parametersDirty_ := ltac:(setter Texture parametersDirty_).
#[global] Instance set_sampler_ : Setter sampler_ := ltac:(setter Texture sampler_).
#[global] Instance set_surf_resolveDirty_ : Setter surf_resolveDirty_ := ltac:(setter RenderSurface surf_resolveDirty_).
#[global] Instance set_sv_object_ : Setter sv_object_ := ltac:(setter ShaderVariation sv_object_).
#[global] Instance set_sv_compilerOutputEmpty : Setter sv_compilerOutputEmpty := ltac:(setter ShaderVariation sv_compilerOutputEmpty).
#[global] Instance set_dirty_ : Setter dirty_ := ltac:(setter ConstantBuffer dirty_).
#[global] Instance set_shadowData_ : Setter shadowData_ := ltac:(setter ConstantBuffer shadowData_).

(** ** The pipeline cache *)

(** The composite key made by [std::make_tuple] in [PrepareDraw]: vertex
    shader, pixel shader, blend, depth and rasterizer state hashes,
    vertex-declaration hash, primitive type. *)
Definition PipelineKey : Type :=
  option nat * option nat * Z * Z * Z * Z * PrimitiveType.

Record TextureMapEntry := mkTextureMapEntry {
  textureUnit : nat;
  variable : nat
}.

(** [GraphicsImpl::PipelineState]: the cached triple. *)
Record PipelineState := mkPipelineState {
  pipelineState_ : nat;
  shaderResourceBinding_ : nat;
  textureMap_ : list TextureMapEntry
}.

(** ** The platform

    What the sources leave to headers, to the compiler and to the device
    is collected in one interface.

    [float] values are kept abstract: the source compares them, converts
    products of them to [int], and hands them to the device.
    [float_ne a b] is [a != b]; [float_scaled_to_int x k] is [(int)(x * k)]
    for an integer constant [k]; [float_le_zero] and [float_ge_one] are the
    comparisons [x <= 0.0f] and [x >= 1.0f] of [SetScissorTest];
    [float_to_pixels neg x size] is [(int)((x + 1.0f) * 0.5f * size)], with
    [x] negated first when [neg] is set; [float_zero] is [0.0f] and
    [Rect_FULL] is [Rect::FULL] of Math/Rect.h, the default rectangle of
    [SetScissorTest].

    The [MAX_...] constants are the array bounds of GraphicsDefs.h, which is
    not among the sources, and [VSP_CLIPPLANE] is the [StringHash] of the
    clip plane parameter.

    [deviceSucceeds n] says whether a device call that can fail
    ([MapBuffer], [CreateSampler], [CreateBuffer]) succeeds when [n] device
    calls were made before it. *)

Record Rect (F : Type) := mkRect { min_x : F; min_y : F; max_x : F; max_y : F }.
Arguments mkRect {F}.
Arguments min_x {F}.
Arguments min_y {F}.
Arguments max_x {F}.
Arguments max_y {F}.

Class Platform := mkPlatform {
  float : Type;
  float_ne : float -> float -> bool;
  float_scaled_to_int : float -> Z -> Z;
  float_le_zero : float -> bool;
  float_ge_one : float -> bool;
  float_to_pixels : bool -> float -> Z -> Z;
  float_zero : float;
  Rect_FULL : Rect float;
  MAX_VERTEX_STREAMS : nat;
  MAX_TEXTURE_UNITS : nat;
  MAX_RENDERTARGETS : nat;
  MAX_SHADER_PARAMETER_GROUPS : nat;
  VSP_CLIPPLANE : Z;
  deviceSucceeds : nat -> bool
}.

Section Diligent.

Context {platform : Platform}.

(** ** The state of [Graphics] and [GraphicsImpl] *)

(** The fields of [GraphicsPipelineStateCreateInfo] that [PrepareDraw] fills
    from the tracked state. *)
Record PipelineDesc := mkPipelineDesc {
  desc_pVS : option nat;
  desc_pPS : option nat;
  desc_PrimitiveTopology : PrimitiveType;
  desc_AlphaToCoverageEnable : bool;
  desc_BlendMode : BlendMode;
  desc_RenderTargetWriteAll : bool;
  desc_DepthWriteEnable : bool;
  desc_DepthFunc : CompareMode;
  desc_StencilEnable : bool;
  desc_StencilReadMask : Z;
  desc_StencilWriteMask : Z;
  desc_StencilFailOp : StencilOp;
  desc_StencilDepthFailOp : StencilOp;
  desc_StencilPassOp : StencilOp;
  desc_StencilFunc : CompareMode;
  desc_FillMode : FillMode;
  desc_CullMode : CullMode;
  desc_DepthBias : Z;
  desc_SlopeScaledDepthBias : float;
  desc_ScissorEnable : bool;
  desc_AntialiasedLineEnable : bool
}.

Inductive DeviceCall :=
  | DevSetRenderTargets (views : list (option nat)) (depthStencil : option nat)
  | DevSetViewports (topLeftX topLeftY width height : Z)
  | DevSetScissorRects (rect : IntRect)
  | DevSetVertexBuffers (start count : Z) (buffers : list (option nat))
                        (offsets : list Z)
  | DevSetIndexBuffer (buffer : option nat)
  | DevSetBlendFactors
  | DevCreateGraphicsPipelineState (desc : PipelineDesc) (result : nat)
  | DevSetStaticVariable (stage : ShaderType) (group : nat) (buffer : option nat)
  | DevCreateShaderResourceBinding (pipeline : nat) (result : nat)
  | DevSetPipelineState (pipeline : option nat)
  | DevSetSampler (view : nat) (sampler : option nat)
  | DevSetVariable (var : nat) (view : nat)
  | DevCommitShaderResources (binding : option nat)
  | DevMapBuffer (buffer : nat) (mapped : bool)
  | DevCopyToMapped (buffer : nat) (data : list Z)
  | DevUnmapBuffer (buffer : nat)
  | DevDraw (numVertices startVertex : Z)
  | DevDrawIndexed (indexSize firstIndex numIndices baseVertex numInstances : Z)
  | DevGenerateMips (view : nat)
  | DevCreateSampler (result : option nat)
  | DevCreateBuffer (size : Z) (result : option nat)
  | DevResolveTextureSubresource (source dest : nat) (slice : Z).

(** One record holds the members of [Graphics] (Graphics.h), the members of
    the [GraphicsImpl] it owns ([impl_->...] in the source;
    [impl_vertexBuffers_] is [impl_->vertexBuffers_]), the objects they
    point to, and the trace of device calls. *)
Record Graphics := mkGraphics {
  (* Graphics: window, counters and bindings *)
  width_ : Z;
  height_ : Z;
  numPrimitives_ : Z;
  numBatches_ : Z;
  vertexBuffers_ : list (option nat);
  indexBuffer_ : option nat;
  vertexDeclarationHash_ : Z;
  vertexShader_ : option nat;
  pixelShader_ : option nat;
  textures_ : list (option nat);
  renderTargets_ : list (option nat);
  depthStencil_ : option nat;
  (* Graphics: cached render state *)
  viewport_ : IntRect;
  blendMode_ : BlendMode;
  alphaToCoverage_ : bool;
  colorWrite_ : bool;
  cullMode_ : CullMode;
  constantDepthBias_ : float;
  slopeScaledDepthBias_ : float;
  depthTestMode_ : CompareMode;
  depthWrite_ : bool;
  fillMode_ : FillMode;
  lineAntiAlias_ : bool;
  scissorTest_ : bool;
  scissorRect_ : IntRect;
  stencilTest_ : bool;
  stencilTestMode_ : CompareMode;
  stencilPass_ : StencilOp;
  stencilFail_ : StencilOp;
  stencilZFail_ : StencilOp;
  stencilRef_ : Z;
  stencilCompareMask_ : Z;
  stencilWriteMask_ : Z;
  useClipPlane_ : bool;
  clipPlane_ : list Z;
  (* GraphicsImpl *)
  pipelineStates_ : gmap PipelineKey PipelineState;
  currentPipelineState_ : option nat;
  currentShaderResourceBinding_ : option nat;
  currentTextureMap_ : option (list TextureMapEntry);
  defaultRenderTargetView_ : option nat;
  defaultDepthStencilView_ : option nat;
  renderTargetViews_ : list (option nat);
  depthStencilView_ : option nat;
  renderTargetsDirty_ : bool;
  texturesDirty_ : bool;
  vertexDeclarationDirty_ : bool;
  vertexShaderDirty_ : bool;
  pixelShaderDirty_ : bool;
  blendStateDirty_ : bool;
  depthStateDirty_ : bool;
  rasterizerStateDirty_ : bool;
  scissorRectDirty_ : bool;
  stencilRefDirty_ : bool;
  firstDirtyTexture_ : Z;
  lastDirtyTexture_ : Z;
  shaderResourceViews_ : list (option nat);
  samplers_ : list (option nat);
  impl_vertexBuffers_ : list (option nat);
  vertexSizes_ : list Z;
  vertexOffsets_ : list Z;
  firstDirtyVB_ : Z;
  lastDirtyVB_ : Z;
  allConstantBuffers_ : gmap Z nat;
  dirtyConstantBuffers_ : list nat;
  shaderPrograms_ : gmap (nat * nat) nat;
  shaderProgram_ : option nat;
  blendStateHash_ : Z;
  depthStateHash_ : Z;
  rasterizerStateHash_ : Z;
  primitiveType_ : PrimitiveType;
  primitiveTypeDirty_ : bool;
  (* the objects the pointers above refer to *)
  textureObjects : gmap nat Texture;
  renderSurfaces : gmap nat RenderSurface;
  vertexBufferObjects : gmap nat VertexBuffer;
  indexBufferObjects : gmap nat IndexBuffer;
  shaderVariations : gmap nat ShaderVariation;
  shaderProgramObjects : gmap nat ShaderProgram;
  constantBufferObjects : gmap nat ConstantBuffer;
  (* calls made to the device context, and logged errors *)
  deviceTrace : list DeviceCall;
  logMessages : list string
}.

#[global] Instance set_width_ : Setter width_ := ltac:(setter Graphics width_).
#[global] Instance set_height_ : Setter height_ := ltac:(setter Graphics height_).
#[global] Instance set_numPrimitives_ : Setter numPrimitives_ := ltac:(setter Graphics numPrimitives_).
#[global] Instance set_numBatches_ : Setter numBatches_ := ltac:(setter Graphics numBatches_).
#[global] Instance set_vertexBuffers_ : Setter vertexBuffers_ := ltac:(setter Graphics vertexBuffers_).
#[global] Instance set_indexBuffer_ : Setter indexBuffer_ := ltac:(setter Graphics indexBuffer_).
#[global] Instance set_vertexDeclarationHash_ : Setter vertexDeclarationHash_ := ltac:(setter Graphics vertexDeclarationHash_).
#[global] Instance set_vertexShader_ : Setter vertexShader_ := ltac:(setter Graphics vertexShader_).
#[global] Instance set_pixelShader_ : Setter pixelShader_ := ltac:(setter Graphics pixelShader_).
#[global] Instance set_textures_ : Setter textures_ := ltac:(setter Graphics textures_).
#[global] Instance set_renderTargets_ : Setter renderTargets_ := ltac:(setter Graphics renderTargets_).
#[global] Instance set_depthStencil_ : Setter depthStencil_ := ltac:(setter Graphics depthStencil_).
#[global] Instance set_viewport_ : Setter viewport_ := ltac:(setter Graphics viewport_).
#[global] Instance set_blendMode_ : Setter blendMode_ := ltac:(setter Graphics blendMode_).
#[global] Instance set_alphaToCoverage_ : Setter alphaToCoverage_ := ltac:(setter Graphics alphaToCoverage_).
#[global] Instance set_colorWrite_ : Setter colorWrite_ := ltac:(setter Graphics colorWrite_).
#[global] Instance set_cullMode_ : Setter cullMode_ := ltac:(setter Graphics cullMode_).
#[global] Instance set_constantDepthBias_ : Setter constantDepthBias_ := ltac:(setter Graphics constantDepthBias_).
#[global] Instance set_slopeScaledDepthBias_ : Setter slopeScaledDepthBias_ := ltac:(setter Graphics slopeScaledDepthBias_).
#[global] Instance set_depthTestMode_ : Setter depthTestMode_ := ltac:(setter Graphics depthTestMode_).
#[global] Instance set_depthWrite_ : Setter depthWrite_ := ltac:(setter Graphics depthWrite_).
#[global] Instance set_fillMode_ : Setter fillMode_ := ltac:(setter Graphics fillMode_).
#[global] Instance set_lineAntiAlias_ : Setter lineAntiAlias_ := ltac:(setter Graphics lineAntiAlias_).
#[global] Instance set_scissorTest_ : Setter scissorTest_ := ltac:(setter Graphics scissorTest_).
#[global] Instance set_scissorRect_ : Setter scissorRect_ := ltac:(setter Graphics scissorRect_).
#[global] Instance set_stencilTest_ : Setter stencilTest_ := ltac:(setter Graphics stencilTest_).
#[global] Instance set_stencilTestMode_ : Setter stencilTestMode_ := ltac:(setter Graphics stencilTestMode_).
#[global] Instance set_stencilPass_ : Setter stencilPass_ := ltac:(setter Graphics stencilPass_).
#[global] Instance set_stencilFail_ : Setter stencilFail_ := ltac:(setter Graphics stencilFail_).
#[global] Instance set_stencilZFail_ : Setter stencilZFail_ := ltac:(setter Graphics stencilZFail_).
#[global] Instance set_stencilRef_ : Setter stencilRef_ := ltac:(setter Graphics stencilRef_).
#[global] Instance set_stencilCompareMask_ : Setter stencilCompareMask_ := ltac:(setter Graphics stencilCompareMask_).
#[global] Instance set_stencilWriteMask_ : Setter stencilWriteMask_ := ltac:(setter Graphics stencilWriteMask_).
#[global] Instance set_useClipPlane_ : Setter useClipPlane_ := ltac:(setter Graphics useClipPlane_).
#[global] Instance set_clipPlane_ : Setter clipPlane_ := ltac:(setter Graphics clipPlane_).
#[global] Instance set_pipelineStates_ : Setter pipelineStates_ := ltac:(setter Graphics pipelineStates_).
#[global] Instance set_currentPipelineState_ : Setter currentPipelineState_ := ltac:(setter Graphics currentPipelineState_).
#[global] Instance set_currentShaderResourceBinding_ : Setter currentShaderResourceBinding_ := ltac:(setter Graphics currentShaderResourceBinding_).
#[global] Instance set_currentTextureMap_ : Setter currentTextureMap_ := ltac:(setter Graphics currentTextureMap_).
#[global] Instance set_defaultRenderTargetView_ : Setter defaultRenderTargetView_ := ltac:(setter Graphics defaultRenderTargetView_).
#[global] Instance set_defaultDepthStencilView_ : Setter defaultDepthStencilView_ := ltac:(setter Graphics defaultDepthStencilView_).
#[global] Instance set_renderTargetViews_ : Setter renderTargetViews_ := ltac:(setter Graphics renderTargetViews_).
#[global] Instance set_depthStencilView_ : Setter depthStencilView_ := ltac:(setter Graphics depthStencilView_).
#[global] Instance set_renderTargetsDirty_ : Setter renderTargetsDirty_ := ltac:(setter Graphics renderTargetsDirty_).
#[global] Instance set_texturesDirty_ : Setter texturesDirty_ := ltac:(setter Graphics texturesDirty_).
#[global] Instance set_vertexDeclarationDirty_ : Setter vertexDeclarationDirty_ := ltac:(setter Graphics vertexDeclarationDirty_).
#[global] Instance set_vertexShaderDirty_ : Setter vertexShaderDirty_ := ltac:(setter Graphics vertexShaderDirty_).
#[global] Instance set_pixelShaderDirty_ : Setter pixelShaderDirty_ := ltac:(setter Graphics pixelShaderDirty_).
#[global] Instance set_blendStateDirty_ : Setter blendStateDirty_ := ltac:(setter Graphics blendStateDirty_).
#[global] Instance set_depthStateDirty_ : Setter depthStateDirty_ := ltac:(setter Graphics depthStateDirty_).
#[global] Instance set_rasterizerStateDirty_ : Setter rasterizerStateDirty_ := ltac:(setter Graphics rasterizerStateDirty_).
#[global] Instance set_scissorRectDirty_ : Setter scissorRectDirty_ := ltac:(setter Graphics scissorRectDirty_).
#[global] Instance set_stencilRefDirty_ : Setter stencilRefDirty_ := ltac:(setter Graphics stencilRefDirty_).
#[global] Instance set_firstDirtyTexture_ : Setter firstDirtyTexture_ := ltac:(setter Graphics firstDirtyTexture_).
#[global] Instance set_lastDirtyTexture_ : Setter lastDirtyTexture_ := ltac:(setter Graphics lastDirtyTexture_).
#[global] Instance set_shaderResourceViews_ : Setter shaderResourceViews_ := ltac:(setter Graphics shaderResourceViews_).
#[global] Instance set_samplers_ : Setter samplers_ := ltac:(setter Graphics samplers_).
#[global] Instance set_impl_vertexBuffers_ : Setter impl_vertexBuffers_ := ltac:(setter Graphics impl_vertexBuffers_).
#[global] Instance set_vertexSizes_ : Setter vertexSizes_ := ltac:(setter Graphics vertexSizes_).
#[global] Instance set_vertexOffsets_ : Setter vertexOffsets_ := ltac:(setter Graphics vertexOffsets_).
#[global] Instance set_firstDirtyVB_ : Setter firstDirtyVB_ := ltac:(setter Graphics firstDirtyVB_).
#[global] Instance set_lastDirtyVB_ : Setter lastDirtyVB_ := ltac:(setter Graphics lastDirtyVB_).
#[global] Instance set_allConstantBuffers_ : Setter allConstantBuffers_ := ltac:(setter Graphics allConstantBuffers_).
#[global] Instance set_dirtyConstantBuffers_ : Setter dirtyConstantBuffers_ := ltac:(setter Graphics dirtyConstantBuffers_).
#[global] Instance set_shaderPrograms_ : Setter shaderPrograms_ := ltac:(setter Graphics shaderPrograms_).
#[global] Instance set_shaderProgram_ : Setter shaderProgram_ := ltac:(setter Graphics shaderProgram_).
#[global] Instance set_blendStateHash_ : Setter blendStateHash_ := ltac:(setter Graphics blendStateHash_).
#[global] Instance set_depthStateHash_ : Setter depthStateHash_ := ltac:(setter Graphics depthStateHash_).
#[global] Instance set_rasterizerStateHash_ : Setter rasterizerStateHash_ := ltac:(setter Graphics rasterizerStateHash_).
#[global] Instance set_primitiveType_ : Setter primitiveType_ := ltac:(setter Graphics primitiveType_).
#[global] Instance set_primitiveTypeDirty_ : Setter primitiveTypeDirty_ := ltac:(setter Graphics primitiveTypeDirty_).
#[global] Instance set_textureObjects : Setter textureObjects := ltac:(setter Graphics textureObjects).
#[global] Instance set_renderSurfaces : Setter renderSurfaces := ltac:(setter Graphics renderSurfaces).
#[global] Instance set_vertexBufferObjects : Setter vertexBufferObjects := ltac:(setter Graphics vertexBufferObjects).
#[global] Instance set_indexBufferObjects : Setter indexBufferObjects := ltac:(setter Graphics indexBufferObjects).
#[global] Instance set_shaderVariations : Setter shaderVariations := ltac:(setter Graphics shaderVariations).
#[global] Instance set_shaderProgramObjects : Setter shaderProgramObjects := ltac:(setter Graphics shaderProgramObjects).
#[global] Instance set_constantBufferObjects : Setter constantBufferObjects := ltac:(setter Graphics constantBufferObjects).
#[global] Instance set_deviceTrace : Setter deviceTrace := ltac:(setter Graphics deviceTrace).
#[global] Instance set_logMessages : Setter logMessages := ltac:(setter Graphics logMessages).

(** ** Access to the stores, the device and the log *)

Definition texture (g : Graphics) (t : nat) : Texture := textureObjects g !!! t.
Definition surface (g : Graphics) (s : nat) : RenderSurface := renderSurfaces g !!! s.
Definition vertexBuffer (g : Graphics) (b : nat) : VertexBuffer := vertexBufferObjects g !!! b.
Definition indexBuffer (g : Graphics) (b : nat) : IndexBuffer := indexBufferObjects g !!! b.
Definition shader (g : Graphics) (v : nat) : ShaderVariation := shaderVariations g !!! v.
Definition program (g : Graphics) (p : nat) : ShaderProgram := shaderProgramObjects g !!! p.
Definition constantBuffer (g : Graphics) (b : nat) : ConstantBuffer := constantBufferObjects g !!! b.

Definition updTexture (t : nat) (f : Texture -> Texture) (g : Graphics) : Graphics :=
  g <| textureObjects := <[t := f (texture g t)]> (textureObjects g) |>.
Definition updSurface (s : nat) (f : RenderSurface -> RenderSurface) (g : Graphics) : Graphics :=
  g <| renderSurfaces := <[s := f (surface g s)]> (renderSurfaces g) |>.
Definition updShader (v : nat) (f : ShaderVariation -> ShaderVariation) (g : Graphics) : Graphics :=
  g <| shaderVariations := <[v := f (shader g v)]> (shaderVariations g) |>.
Definition updConstantBuffer (b : nat) (f : ConstantBuffer -> ConstantBuffer) (g : Graphics) : Graphics :=
  g <| constantBufferObjects := <[b := f (constantBuffer g b)]> (constantBufferObjects g) |>.

Definition deviceCall (c : DeviceCall) (g : Graphics) : Graphics :=
  g <| deviceTrace := deviceTrace g ++ [c] |>.

(** The answer of the device to the fallible call that is made next. *)
Definition deviceAnswer (g : Graphics) : bool :=
  deviceSucceeds (length (deviceTrace g)).

(** An object created by the device is identified by the position of the
    creating call in the trace. *)
Definition freshObject (g : Graphics) : nat := length (deviceTrace g).

Definition logError (msg : string) (g : Graphics) : Graphics :=
  g <| logMessages := logMessages g ++ [msg] |>.

(** The update of a (first, last) dirty range by one index, as written out
    in [SetTexture] and [SetVertexBuffers]. *)
Definition extendDirtyRange (first last i : Z) : Z * Z :=
  if first =? M_MAX_UNSIGNED then (i, i)
  else (if i <? first then i else first, if last <? i then i else last).

(** ** State setters without side effects on objects *)

Definition SetBlendMode (mode : BlendMode) (alphaToCoverage : bool) (g : Graphics) : Graphics :=
  if negb (bool_decide (mode = blendMode_ g)) || negb (eqb alphaToCoverage (alphaToCoverage_ g))
  then g <| blendMode_ := mode |> <| alphaToCoverage_ := alphaToCoverage |>
         <| blendStateDirty_ := true |>
  else g.

Definition SetColorWrite (enable : bool) (g : Graphics) : Graphics :=
  if negb (eqb enable (colorWrite_ g))
  then g <| colorWrite_ := enable |> <| blendStateDirty_ := true |>
  else g.

Definition SetCullMode (mode : CullMode) (g : Graphics) : Graphics :=
  if negb (bool_decide (mode = cullMode_ g))
  then g <| cullMode_ := mode |> <| rasterizerStateDirty_ := true |>
  else g.

Definition SetDepthBias (constantBias slopeScaledBias : float) (g : Graphics) : Graphics :=
  if float_ne constantBias (constantDepthBias_ g)
     || float_ne slopeScaledBias (slopeScaledDepthBias_ g)
  then g <| constantDepthBias_ := constantBias |>
         <| slopeScaledDepthBias_ := slopeScaledBias |>
         <| rasterizerStateDirty_ := true |>
  else g.

Definition SetDepthTest (mode : CompareMode) (g : Graphics) : Graphics :=
  if negb (bool_decide (mode = depthTestMode_ g))
  then g <| depthTestMode_ := mode |> <| depthStateDirty_ := true |>
  else g.

Definition SetDepthWrite (enable : bool) (g : Graphics) : Graphics :=
  if negb (eqb enable (depthWrite_ g))
  then g <| depthWrite_ := enable |> <| depthStateDirty_ := true |>
         <| renderTargetsDirty_ := true |>
  else g.

Definition SetFillMode (mode : FillMode) (g : Graphics) : Graphics :=
  if negb (bool_decide (mode = fillMode_ g))
  then g <| fillMode_ := mode |> <| rasterizerStateDirty_ := true |>
  else g.

Definition SetLineAntiAlias (enable : bool) (g : Graphics) : Graphics :=
  if negb (eqb enable (lineAntiAlias_ g))
  then g <| lineAntiAlias_ := enable |> <| rasterizerStateDirty_ := true |>
  else g.

Definition GetRenderTargetDimensions (g : Graphics) : Z * Z :=
  match at_ (renderTargets_ g) 0 with
  | Some rt => (surf_width_ (surface g rt), surf_height_ (surface g rt))
  | None =>
      match depthStencil_ g with
      | Some ds => (surf_width_ (surface g ds), surf_height_ (surface g ds))
      | None => (width_ g, height_ g)
      end
  end.

(** The tail shared by both overloads of [SetScissorTest]: fix up an empty
    rectangle, give up on an inverted one, record a changed rectangle, then
    record a changed enable flag. *)
Definition fixedScissorRect (r : IntRect) : IntRect :=
  mkIntRect (left_ r) (top_ r)
    (if right_ r =? left_ r then right_ r + 1 else right_ r)
    (if bottom_ r =? top_ r then bottom_ r + 1 else bottom_ r).

(** An inverted rectangle switches the scissor test off. *)
Definition scissorEnabled (enable : bool) (intRect : option IntRect) : bool :=
  match intRect with
  | Some r =>
      if (right_ (fixedScissorRect r) <? left_ (fixedScissorRect r))
         || (bottom_ (fixedScissorRect r) <? top_ (fixedScissorRect r))
      then false else enable
  | None => enable
  end.

Definition storeScissor (enable : bool) (intRect : option IntRect) (g : Graphics) : Graphics :=
  let enable := scissorEnabled enable intRect in
  let g :=
    match intRect with
    | Some r =>
        if enable && negb (bool_decide (fixedScissorRect r = scissorRect_ g))
        then g <| scissorRect_ := fixedScissorRect r |> <| scissorRectDirty_ := true |>
        else g
    | None => g
    end in
  if negb (eqb enable (scissorTest_ g))
  then g <| scissorTest_ := enable |> <| rasterizerStateDirty_ := true |>
  else g.

(** Whether a normalized rectangle covers the whole viewport. *)
Definition coversViewport (rect : Rect float) : bool :=
  float_le_zero (min_x rect) && float_le_zero (min_y rect)
  && float_ge_one (max_x rect) && float_ge_one (max_y rect).

(** The pixel rectangle that [SetScissorTest] computes from a normalized
    rectangle: scaled to the viewport and clamped to the render target. *)
Definition scissorPixels (rect : Rect float) (borderInclusive : bool) (g : Graphics) : IntRect :=
  let rtSize := GetRenderTargetDimensions g in
  let viewSizeX := right_ (viewport_ g) - left_ (viewport_ g) in
  let viewSizeY := bottom_ (viewport_ g) - top_ (viewport_ g) in
  let viewPosX := left_ (viewport_ g) in
  let viewPosY := top_ (viewport_ g) in
  let expand := if borderInclusive then 1 else 0 in
  mkIntRect
    (Clamp (float_to_pixels false (min_x rect) viewSizeX + viewPosX) 0 (rtSize.1 - 1))
    (Clamp (float_to_pixels true (max_y rect) viewSizeY + viewPosY) 0 (rtSize.2 - 1))
    (Clamp (float_to_pixels false (max_x rect) viewSizeX + viewPosX + expand) 0 rtSize.1)
    (Clamp (float_to_pixels true (min_y rect) viewSizeY + viewPosY + expand) 0 rtSize.2).

(** The overload of [SetScissorTest] that takes a [Rect].  During some light
    rendering loops a full rect is toggled on and off repeatedly; the
    scissor test is disabled in that case. *)
Definition SetScissorTest (enable : bool) (rect : Rect float) (borderInclusive : bool)
    (g : Graphics) : Graphics :=
  let enable := if coversViewport rect then false else enable in
  if enable then storeScissor enable (Some (scissorPixels rect borderInclusive g)) g
  else storeScissor enable None g.

(** The pixel rectangle that the [IntRect] overload computes: moved to the
    viewport and clamped to the render target. *)
Definition scissorPixelsInt (rect : IntRect) (g : Graphics) : IntRect :=
  let rtSize := GetRenderTargetDimensions g in
  let viewPosX := left_ (viewport_ g) in
  let viewPosY := top_ (viewport_ g) in
  mkIntRect
    (Clamp (left_ rect + viewPosX) 0 (rtSize.1 - 1))
    (Clamp (top_ rect + viewPosY) 0 (rtSize.2 - 1))
    (Clamp (right_ rect + viewPosX) 0 rtSize.1)
    (Clamp (bottom_ rect + viewPosY) 0 rtSize.2).

(** The overload of [SetScissorTest] that takes an [IntRect]. *)
Definition SetScissorTestInt (enable : bool) (rect : IntRect) (g : Graphics) : Graphics :=
  if enable then storeScissor enable (Some (scissorPixelsInt rect g)) g
  else storeScissor enable None g.

Definition SetViewport (rect : IntRect) (g : Graphics) : Graphics :=
  let size := GetRenderTargetDimensions g in
  let right := if right_ rect <=? left_ rect then left_ rect + 1 else right_ rect in
  let bottom := if bottom_ rect <=? top_ rect then top_ rect + 1 else bottom_ rect in
  let rectCopy :=
    mkIntRect (Clamp (left_ rect) 0 size.1) (Clamp (top_ rect) 0 size.2)
              (Clamp right 0 size.1) (Clamp bottom 0 size.2) in
  let g := deviceCall (DevSetViewports (left_ rectCopy) (top_ rectCopy)
                         (right_ rectCopy - left_ rectCopy)
                         (bottom_ rectCopy - top_ rectCopy)) g in
  let g := g <| viewport_ := rectCopy |> in
  (* Disable scissor test, needs to be re-enabled by the user *)
  SetScissorTest false Rect_FULL true g.

Definition SetStencilTest (enable : bool) (mode : CompareMode)
    (pass fail zFail : StencilOp) (stencilRef compareMask writeMask : Z)
    (g : Graphics) : Graphics :=
  let g :=
    if negb (eqb enable (stencilTest_ g))
    then g <| stencilTest_ := enable |> <| depthStateDirty_ := true |>
    else g in
  if enable then
    let g := if negb (bool_decide (mode = stencilTestMode_ g))
             then g <| stencilTestMode_ := mode |> <| depthStateDirty_ := true |> else g in
    let g := if negb (bool_decide (pass = stencilPass_ g))
             then g <| stencilPass_ := pass |> <| depthStateDirty_ := true |> else g in
    let g := if negb (bool_decide (fail = stencilFail_ g))
             then g <| stencilFail_ := fail |> <| depthStateDirty_ := true |> else g in
    let g := if negb (bool_decide (zFail = stencilZFail_ g))
             then g <| stencilZFail_ := zFail |> <| depthStateDirty_ := true |> else g in
    let g := if negb (compareMask =? stencilCompareMask_ g)
             then g <| stencilCompareMask_ := compareMask |> <| depthStateDirty_ := true |> else g in
    let g := if negb (writeMask =? stencilWriteMask_ g)
             then g <| stencilWriteMask_ := writeMask |> <| depthStateDirty_ := true |> else g in
    if negb (stencilRef =? stencilRef_ g)
    then g <| stencilRef_ := stencilRef |> <| stencilRefDirty_ := true |>
           <| depthStateDirty_ := true |>
    else g
  else g.

Definition SetDepthStencil (depthStencil : option nat) (g : Graphics) : Graphics :=
  if negb (bool_decide (depthStencil = depthStencil_ g))
  then g <| depthStencil_ := depthStencil |> <| renderTargetsDirty_ := true |>
  else g.

(** The overload of [SetDepthStencil] that takes a [Texture2D]. *)
Definition SetDepthStencilTexture (tex : option nat) (g : Graphics) : Graphics :=
  let depthStencil :=
    match tex with Some t => renderSurface_ (texture g t) | None => None end in
  let g := SetDepthStencil depthStencil g in
  (* Constant depth bias depends on the bitdepth *)
  g <| rasterizerStateDirty_ := true |>.

Definition SetIndexBuffer (buffer : option nat) (g : Graphics) : Graphics :=
  if negb (bool_decide (buffer = indexBuffer_ g)) then
    let g :=
      match buffer with
      | Some b => deviceCall (DevSetIndexBuffer (ib_object_ (indexBuffer g b))) g
      | None => deviceCall (DevSetIndexBuffer None) g
      end in
    g <| indexBuffer_ := buffer |>
  else g.

(** Modelled from the spec: [GraphicsImpl::SetPrimitiveType], declared in
    DiligentGraphicsImpl.h but defined outside the sources.  It "notifies
    the pipeline cache of the primitive topology": like the other setters
    it records the value and raises [primitiveTypeDirty_] when the value
    changes. *)
Definition SetPrimitiveType (primitiveType : PrimitiveType) (g : Graphics) : Graphics :=
  if negb (bool_decide (primitiveType = primitiveType_ g))
  then g <| primitiveType_ := primitiveType |> <| primitiveTypeDirty_ := true |>
  else g.

(** ** Textures *)

(** [Texture::GetParametersDirty] (DiligentTexture.cpp). *)
Definition GetParametersDirty (t : Texture) : bool :=
  parametersDirty_ t || negb (bool_decide (is_Some (sampler_ t))).

(** [Texture::UpdateParameters] (DiligentTexture.cpp): the fields of the
    sampler description are arguments of the device call only. *)
Definition UpdateParameters (t : nat) (g : Graphics) : Graphics :=
  if (negb (parametersDirty_ (texture g t)) && bool_decide (is_Some (sampler_ (texture g t))))
     || negb (bool_decide (is_Some (tex_object_ (texture g t))))
  then g
  else
    let result := if deviceAnswer g then Some (freshObject g) else None in
    let g := deviceCall (DevCreateSampler result) g in
    let g := updTexture t (fun x => x <| sampler_ := result |>) g in
    let g := if bool_decide (result = None)
             then logError "Failed to create sampler state" g else g in
    updTexture t (fun x => x <| parametersDirty_ := false |>) g.

(** [Texture::RegenerateLevels] (DiligentTexture.cpp). *)
Definition RegenerateLevels (t : nat) (g : Graphics) : Graphics :=
  match shaderResourceView_ (texture g t) with
  | None => g
  | Some view =>
      let g := deviceCall (DevGenerateMips view) g in
      updTexture t (fun x => x <| levelsDirty_ := false |>) g
  end.

(** Modelled from the spec: [Texture::SetLevelsDirty] of Texture.cpp, which
    is not among the sources; it "marks that texture for mip regeneration
    on next read". *)
Definition SetLevelsDirty (t : nat) (g : Graphics) : Graphics :=
  updTexture t (fun x => x <| levelsDirty_ := true |>) g.

(** [Graphics::ResolveToTexture] for a [Texture2D]; the result is not used
    by its caller [SetTexture]. *)
Definition ResolveToTexture2D (t : nat) (g : Graphics) : Graphics :=
  match renderSurface_ (texture g t) with
  | None => g
  | Some surf =>
      let g := updTexture t (fun x => x <| tex_resolveDirty_ := false |>) g in
      let g := updSurface surf (fun x => x <| surf_resolveDirty_ := false |>) g in
      match tex_object_ (texture g t), resolveTexture_ (texture g t) with
      | Some source, Some dest =>
          deviceCall (DevResolveTextureSubresource source dest 0) g
      | _, _ => g
      end
  end.

(** [Graphics::ResolveToTexture] for a [TextureCube]. *)
Definition ResolveToTextureCube (t : nat) (g : Graphics) : Graphics :=
  let g := updTexture t (fun x => x <| tex_resolveDirty_ := false |>) g in
  match tex_object_ (texture g t), resolveTexture_ (texture g t) with
  | Some source, Some dest =>
      foldl (fun g (face : nat * nat) =>
               if surf_resolveDirty_ (surface g face.2) then
                 let g := updSurface face.2 (fun x => x <| surf_resolveDirty_ := false |>) g in
                 deviceCall (DevResolveTextureSubresource source dest (Z.of_nat face.1)) g
               else g)
            g (imap pair (faceSurfaces_ (texture g t)))
  | _, _ => g
  end.

(** Whether [t] is the parent texture of the render surface bound as
    render target 0. *)
Definition isBoundRenderTarget (t : nat) (g : Graphics) : bool :=
  bool_decide ((λ rt, parentTexture_ (surface g rt)) <$> at_ (renderTargets_ g) 0 = Some t).

(** The texture that [SetTexture] goes on with: the backup texture (or null)
    of a texture that is bound as render target 0. *)
Definition redirectedTexture (tex : option nat) (g : Graphics) : option nat :=
  match tex with
  | Some t => if isBoundRenderTarget t g then backupTexture_ (texture g t) else Some t
  | None => None
  end.

(** Resolve multisampled texture now as necessary. *)
Definition resolveMultisampled (t : nat) (g : Graphics) : Graphics :=
  if (1 <? multiSample_ (texture g t)) && autoResolve_ (texture g t)
     && tex_resolveDirty_ (texture g t)
  then
    let g := if bool_decide (tex_kind (texture g t) = KindTexture2D)
             then ResolveToTexture2D t g else g in
    if bool_decide (tex_kind (texture g t) = KindTextureCube)
    then ResolveToTextureCube t g else g
  else g.

(** The blocks of [SetTexture] that bring the texture it goes on with up to
    date: regenerate dirty mip levels, update dirty sampler parameters and,
    after such an update, null the unit to force a reassignment. *)
Definition refreshTexture (index : nat) (texture' : option nat) (g : Graphics) : Graphics :=
  match texture' with
  | Some t =>
      let g := if levelsDirty_ (texture g t) then RegenerateLevels t g else g in
      if GetParametersDirty (texture g t) then
        let g := UpdateParameters t g in
        g <| textures_ := <[index := None]> (textures_ g) |> (* Force reassign *)
      else g
  | None => g
  end.

(** The last block of [SetTexture]: a texture that differs from the one
    recorded for the unit is recorded with its view and sampler, and the
    unit joins the dirty range. *)
Definition recordTexture (index : nat) (texture' : option nat) (g : Graphics) : Graphics :=
  if negb (bool_decide (texture' = at_ (textures_ g) index)) then
    let range := extendDirtyRange (firstDirtyTexture_ g) (lastDirtyTexture_ g)
                   (Z.of_nat index) in
    g <| firstDirtyTexture_ := range.1 |> <| lastDirtyTexture_ := range.2 |>
      <| textures_ := <[index := texture']> (textures_ g) |>
      <| shaderResourceViews_ :=
           <[index := texture' ≫= (λ t, shaderResourceView_ (texture g t))]>
             (shaderResourceViews_ g) |>
      <| samplers_ :=
           <[index := texture' ≫= (λ t, sampler_ (texture g t))]> (samplers_ g) |>
      <| texturesDirty_ := true |>
  else g.

Definition SetTexture (index : nat) (tex : option nat) (g : Graphics) : Graphics :=
  if bool_decide (MAX_TEXTURE_UNITS <= index)%nat then g
  else
    (* Check if texture is currently bound as a rendertarget. In that case,
       use its backup texture, or blank if not defined *)
    let texture' := redirectedTexture tex g in
    let g :=
      match tex with
      | Some t => if isBoundRenderTarget t g then g else resolveMultisampled t g
      | None => g
      end in
    recordTexture index texture' (refreshTexture index texture' g).

(** ** Render targets *)

Definition SetRenderTarget (index : nat) (renderTarget : option nat) (g : Graphics) : Graphics :=
  if bool_decide (MAX_RENDERTARGETS <= index)%nat then g
  else if negb (bool_decide (renderTarget = at_ (renderTargets_ g) index)) then
    let g := g <| renderTargets_ := <[index := renderTarget]> (renderTargets_ g) |>
               <| renderTargetsDirty_ := true |> in
    (* If the rendertarget is also bound as a texture, replace with backup
       texture or null *)
    match renderTarget with
    | Some rt =>
        let parentTexture := parentTexture_ (surface g rt) in
        let g :=
          foldl (fun g i =>
                   if bool_decide (at_ (textures_ g) i = Some parentTexture)
                   then SetTexture i (backupTexture_ (texture g parentTexture)) g
                   else g)
                g (seq 0 MAX_TEXTURE_UNITS) in
        (* If multisampled, mark the texture & surface needing resolve *)
        let g :=
          if (1 <? multiSample_ (texture g parentTexture))
             && autoResolve_ (texture g parentTexture)
          then
            let g := updTexture parentTexture (fun x => x <| tex_resolveDirty_ := true |>) g in
            updSurface rt (fun x => x <| surf_resolveDirty_ := true |>) g
          else g in
        (* If mipmapped, mark the levels needing regeneration *)
        if 1 <? levels_ (texture g parentTexture)
        then SetLevelsDirty parentTexture g else g
    | None => g
    end
  else g.

(** The overload of [SetRenderTarget] that takes a [Texture2D]. *)
Definition SetRenderTargetTexture (index : nat) (tex : option nat) (g : Graphics) : Graphics :=
  SetRenderTarget index (tex ≫= (λ t, renderSurface_ (texture g t))) g.

(** ** Vertex buffers *)

(** The locals of the loop body of [SetVertexBuffers] for stream [i]: the
    buffer of the stream, its offset, and whether the stream changes. *)
Definition streamBuffer (buffers : list (option nat)) (i : nat) : option nat :=
  if bool_decide (i < length buffers)%nat then at_ buffers i else None.

Definition streamOffset (buffer : option nat) (instanceOffset : Z) (g : Graphics) : Z :=
  match buffer with
  | Some b =>
      (* Check if buffer has per-instance data *)
      let hasInstanceData :=
        match elements_ (vertexBuffer g b) with
        | e :: _ => perInstance_ e
        | [] => false
        end in
      if hasInstanceData
      then wrap32 (instanceOffset * vertexSize_ (vertexBuffer g b))
      else 0
  | None => 0
  end.

Definition streamChanged (buffers : list (option nat)) (instanceOffset : Z)
    (g : Graphics) (i : nat) : bool :=
  match streamBuffer buffers i with
  | Some b =>
      negb (bool_decide (Some b = at_ (vertexBuffers_ g) i))
      || negb (streamOffset (Some b) instanceOffset g =? atZ (vertexOffsets_ g) i)
  | None => bool_decide (is_Some (at_ (vertexBuffers_ g) i))
  end.

(** One iteration of the loop of [SetVertexBuffers] over the streams. *)
Definition SetVertexBuffers_stream (buffers : list (option nat)) (instanceOffset : Z)
    (g : Graphics) (i : nat) : Graphics :=
  if streamChanged buffers instanceOffset g i then
    let g :=
      match streamBuffer buffers i with
      | Some b =>
          g <| vertexBuffers_ := <[i := Some b]> (vertexBuffers_ g) |>
            <| impl_vertexBuffers_ := <[i := vb_object_ (vertexBuffer g b)]> (impl_vertexBuffers_ g) |>
            <| vertexSizes_ := <[i := vertexSize_ (vertexBuffer g b)]> (vertexSizes_ g) |>
            <| vertexOffsets_ := <[i := streamOffset (Some b) instanceOffset g]> (vertexOffsets_ g) |>
      | None =>
          g <| vertexBuffers_ := <[i := None]> (vertexBuffers_ g) |>
            <| impl_vertexBuffers_ := <[i := None]> (impl_vertexBuffers_ g) |>
            <| vertexSizes_ := <[i := 0]> (vertexSizes_ g) |>
            <| vertexOffsets_ := <[i := 0]> (vertexOffsets_ g) |>
      end in
    let range := extendDirtyRange (firstDirtyVB_ g) (lastDirtyVB_ g) (Z.of_nat i) in
    g <| vertexDeclarationDirty_ := true |>
      <| firstDirtyVB_ := range.1 |> <| lastDirtyVB_ := range.2 |>
  else g.

Definition SetVertexBuffers (buffers : list (option nat)) (instanceOffset : Z)
    (g : Graphics) : Graphics * bool :=
  if bool_decide (MAX_VERTEX_STREAMS < length buffers)%nat
  then (logError "Too many vertex buffers" g, false)
  else (foldl (SetVertexBuffers_stream buffers instanceOffset) g
              (seq 0 MAX_VERTEX_STREAMS), true).

Definition SetVertexBuffer (buffer : option nat) (g : Graphics) : Graphics :=
  (SetVertexBuffers [buffer] 0 g).1.

(** ** Constant buffers and shader programs *)

(** [ConstantBuffer::SetSize] (DiligentConstantBuffer.cpp), preceded by the
    [Release] it starts with.  The GPU object is created only for a buffer
    that has a graphics subsystem ([if (graphics_)]). *)
Definition ConstantBuffer_SetSize (b : nat) (size : Z) (g : Graphics) : Graphics * bool :=
  let g := updConstantBuffer b
             (fun x => mkConstantBuffer (dirty_ x) None 0 [] (cb_graphics_ x)) g in
  if size =? 0 then
    (logError "Can not create zero-sized constant buffer" g, false)
  else
    (* Round up to next 16 bytes *)
    let size := Z.land (wrap32 (size + 15)) 4294967280 in
    let g := updConstantBuffer b
               (fun x => mkConstantBuffer false (cb_object_ x) size
                           (replicate (Z.to_nat size) 0) (cb_graphics_ x)) g in
    if cb_graphics_ (constantBuffer g b) then
      let result := if deviceAnswer g then Some (freshObject g) else None in
      let g := deviceCall (DevCreateBuffer size result) g in
      let g := updConstantBuffer b
                 (fun x => mkConstantBuffer (dirty_ x) result (size_ x) (shadowData_ x)
                             (cb_graphics_ x)) g in
      if bool_decide (result = None)
      then (logError "Failed to create constant buffer" g, false)
      else (g, true)
    else (g, true).

(** [ConstantBuffer::Apply] (DiligentConstantBuffer.cpp). *)
Definition ConstantBuffer_Apply (b : nat) (g : Graphics) : Graphics :=
  match cb_object_ (constantBuffer g b) with
  | Some buffer =>
      if dirty_ (constantBuffer g b) then
        let mapped := deviceAnswer g in
        let g := deviceCall (DevMapBuffer buffer mapped) g in
        let g :=
          if mapped then
            let g := deviceCall (DevCopyToMapped buffer (shadowData_ (constantBuffer g b))) g in
            deviceCall (DevUnmapBuffer buffer) g
          else g in
        updConstantBuffer b (fun x => x <| dirty_ := false |>) g
      else g
  | None => g
  end.

(** Modelled from the spec: [ConstantBuffer::SetParameter] of
    ConstantBuffer.cpp, which is not among the sources.  A parameter write
    stores the bytes in the shadow copy and the buffer "becomes dirty on any
    parameter write". *)
Definition ConstantBuffer_SetParameter (b : nat) (offset : nat) (data : list Z)
    (g : Graphics) : Graphics :=
  updConstantBuffer b
    (fun x => x <| shadowData_ := list_inserts offset data (shadowData_ x) |>
                <| dirty_ := true |>) g.

Definition GetOrCreateConstantBuffer (type : ShaderType) (index : nat) (size : Z)
    (g : Graphics) : nat * Graphics :=
  (* Ensure that different shader types and index slots get unique buffers,
     even if the size is same *)
  let key := wrap32 (Z.lor (Z.lor (ShaderType_to_Z type) (Z.shiftl (Z.of_nat index) 1))
                           (Z.shiftl size 4)) in
  match allConstantBuffers_ g !! key with
  | Some b => (b, g)
  | None =>
      let b := fresh (dom (constantBufferObjects g)) in
      let g := g <| constantBufferObjects :=
                      <[b := mkConstantBuffer false None 0 [] true]> (constantBufferObjects g) |> in
      let g := (ConstantBuffer_SetSize b size g).1 in
      (b, g <| allConstantBuffers_ := <[key := b]> (allConstantBuffers_ g) |>)
  end.

(** The constant buffers one stage of a new shader program asks for: one
    per parameter group with a non-zero size. *)
Definition createStageBuffers (type : ShaderType) (sizes : list Z) (g : Graphics)
    : list (option nat) * Graphics :=
  foldl (fun (acc : list (option nat) * Graphics) i =>
           if atZ sizes i =? 0 then (acc.1 ++ [None], acc.2)
           else
             let r := GetOrCreateConstantBuffer type i (atZ sizes i) acc.2 in
             (acc.1 ++ [Some r.1], r.2))
        ([], g) (seq 0 MAX_SHADER_PARAMETER_GROUPS).

(** Modelled from the spec: the constructor of [ShaderProgram]
    (ShaderProgram.h, not among the sources).  The program of a vertex and
    pixel shader pair "owns the association between shader parameter names
    and constant-buffer storage slots": it obtains the constant buffers of
    both stages from [GetOrCreateConstantBuffer] and links every parameter
    of the two shaders to the buffer of its group. *)
Definition ShaderProgram_new (vs ps : nat) (g : Graphics) : ShaderProgram * Graphics :=
  let rv := createStageBuffers VS (constantBufferSizes_ (shader g vs)) g in
  let rp := createStageBuffers PS (constantBufferSizes_ (shader g ps)) rv.2 in
  let link (buffers : list (option nat)) (p : ShaderParameter) :=
    mkShaderParameter (sp_type_ p) (sp_buffer_ p) (sp_offset_ p)
                      (at_ buffers (sp_buffer_ p)) in
  (mkShaderProgram rv.1 rp.1
     ((link rp.1 <$> sv_parameters_ (shader g ps))
        ∪ (link rv.1 <$> sv_parameters_ (shader g vs))),
   rp.2).

(** ** Shaders *)

(** [ShaderVariation::Create] (DiligentShaderVariation.cpp) ends with the
    object and compiler output the variation's compilation yields, and
    returns whether the object is non-null. *)
Definition ShaderVariation_Create (v : nat) (g : Graphics) : Graphics * bool :=
  let result := sv_createResult (shader g v) in
  (updShader v (fun x => x <| sv_object_ := result.1 |>
                           <| sv_compilerOutputEmpty := result.2 |>) g,
   bool_decide (is_Some result.1)).

(** The block of [SetShaders] that creates a newly set shader if it is not
    yet created; yields the shader that stays recorded. *)
Definition createShaderNow (s : option nat) (msg : string) (g : Graphics)
    : option nat * Graphics :=
  match s with
  | Some v =>
      if negb (bool_decide (is_Some (sv_object_ (shader g v)))) then
        if sv_compilerOutputEmpty (shader g v) then
          let r := ShaderVariation_Create v g in
          if r.2 then (Some v, r.1) else (None, logError msg r.1)
        else (None, g)
      else (Some v, g)
  | None => (None, g)
  end.

Definition SetShaderParameter (param : Z) (data : list Z) (g : Graphics) : Graphics :=
  match shaderProgram_ g with
  | None => g
  | Some p =>
      match parameters_ (program g p) !! param with
      | None => g
      | Some sp =>
          match sp_bufferPtr_ sp with
          | Some buffer =>
              let g := if negb (dirty_ (constantBuffer g buffer))
                       then g <| dirtyConstantBuffers_ := dirtyConstantBuffers_ g ++ [buffer] |>
                       else g in
              ConstantBuffer_SetParameter buffer (sp_offset_ sp) data g
          | None => g
          end
      end
  end.

(** [if (vs != vertexShader_)]: record a different vertex shader. *)
Definition setVertexShader (vs : option nat) (g : Graphics) : Graphics :=
  if negb (bool_decide (vs = vertexShader_ g)) then
    let g := g <| vertexShader_ := vs |> <| vertexShaderDirty_ := true |>
               <| vertexDeclarationDirty_ := true |> in
    (* Create the shader now if not yet created. If already attempted, do
       not retry *)
    let r := createShaderNow vs "Failed to compile vertex shader" g in
    r.2 <| vertexShader_ := r.1 |>
  else g.

(** [if (ps != pixelShader_)]: record a different pixel shader. *)
Definition setPixelShader (ps : option nat) (g : Graphics) : Graphics :=
  if negb (bool_decide (ps = pixelShader_ g)) then
    let g := g <| pixelShader_ := ps |> <| pixelShaderDirty_ := true |> in
    let r := createShaderNow ps "Failed to compile pixel shader" g in
    r.2 <| pixelShader_ := r.1 |>
  else g.

(** [if (vertexShader_ && pixelShader_)]: look up or create the program of
    the shader pair. *)
Definition selectShaderProgram (g : Graphics) : Graphics :=
  match vertexShader_ g, pixelShader_ g with
  | Some v, Some p =>
      match shaderPrograms_ g !! (v, p) with
      | Some prog => g <| shaderProgram_ := Some prog |>
      | None =>
          let r := ShaderProgram_new v p g in
          let prog := fresh (dom (shaderProgramObjects r.2)) in
          r.2 <| shaderProgramObjects := <[prog := r.1]> (shaderProgramObjects r.2) |>
              <| shaderPrograms_ := <[(v, p) := prog]> (shaderPrograms_ r.2) |>
              <| shaderProgram_ := Some prog |>
      end
  | _, _ => g <| shaderProgram_ := None |>
  end.

(** [SetShaders]; the bookkeeping of [shaderParameterSources_] and the
    shader precache, which touch no tracked state, are left out. *)
Definition SetShaders (vs ps : option nat) (g : Graphics) : Graphics :=
  (* Switch to the clip plane variations if necessary *)
  let vs := if useClipPlane_ g
            then vs ≫= (λ v, sv_clipPlaneVariation (shader g v)) else vs in
  let ps := if useClipPlane_ g
            then ps ≫= (λ p, sv_clipPlaneVariation (shader g p)) else ps in
  let g := setVertexShader vs g in
  let g := setPixelShader ps g in
  let g := selectShaderProgram g in
  (* Update clip plane parameter if necessary *)
  if useClipPlane_ g then SetShaderParameter VSP_CLIPPLANE (clipPlane_ g) g else g.

(** [SetClipPlane]; [clipPlane] is the byte image of the plane already
    transformed by the view-projection matrix. *)
Definition SetClipPlane (enable : bool) (clipPlane : list Z) (g : Graphics) : Graphics :=
  let g := g <| useClipPlane_ := enable |> in
  if enable then
    let g := g <| clipPlane_ := clipPlane |> in
    SetShaderParameter VSP_CLIPPLANE (clipPlane_ g) g
  else g.

(** ** Preparing a draw call *)

(** The format code the source compares a depth-stencil's parent texture
    with (dxgiformat.h). *)
Definition DXGI_FORMAT_R16_TYPELESS : Z := 53.

(** The block of [PrepareDraw] under [if (impl_->renderTargetsDirty_)]. *)
Definition resolveRenderTargets (g : Graphics) : Graphics :=
  let dsv :=
    match depthStencil_ g with
    | Some ds =>
        if bool_decide (surf_usage_ (surface g ds) = TEXTURE_DEPTHSTENCIL)
        then renderTargetView_ (surface g ds)
        else defaultDepthStencilView_ g
    | None => defaultDepthStencilView_ g
    end in
  (* If possible, bind a read-only depth stencil view to allow reading depth
     in shader *)
  let dsv :=
    match depthStencil_ g with
    | Some ds =>
        if negb (depthWrite_ g) && bool_decide (is_Some (readOnlyView_ (surface g ds)))
        then readOnlyView_ (surface g ds) else dsv
    | None => dsv
    end in
  let views :=
    (λ i, match at_ (renderTargets_ g) i with
          | Some rt =>
              if bool_decide (surf_usage_ (surface g rt) = TEXTURE_RENDERTARGET)
              then renderTargetView_ (surface g rt) else None
          | None => None
          end) <$> seq 0 MAX_RENDERTARGETS in
  (* If rendertarget 0 is null and not doing depth-only rendering, render to
     the backbuffer *)
  let views :=
    if bool_decide (at_ (renderTargets_ g) 0 = None)
       && match depthStencil_ g with
          | None => true
          | Some ds => (surf_width_ (surface g ds) =? width_ g)
                       && (surf_height_ (surface g ds) =? height_ g)
          end
    then <[0%nat := defaultRenderTargetView_ g]> views else views in
  let g := g <| depthStencilView_ := dsv |> <| renderTargetViews_ := views |> in
  let g := deviceCall (DevSetRenderTargets views dsv) g in
  let g := SetViewport (viewport_ g) g in
  g <| renderTargetsDirty_ := false |>.

(** The stages below thread the local [pipelineStateDirty] of [PrepareDraw]
    next to the state. *)

(** [if (impl_->vertexDeclarationDirty_ && vertexShader_)]. *)
Definition resolveVertexDeclaration (s : Graphics * bool) : Graphics * bool :=
  let g := s.1 in
  if vertexDeclarationDirty_ g && bool_decide (is_Some (vertexShader_ g)) then
    let g :=
      if firstDirtyVB_ g <? M_MAX_UNSIGNED then
        let first := Z.to_nat (firstDirtyVB_ g) in
        let count := wrap32 (lastDirtyVB_ g - firstDirtyVB_ g + 1) in
        let g := deviceCall
                   (DevSetVertexBuffers (firstDirtyVB_ g) count
                      (take (Z.to_nat count) (drop first (impl_vertexBuffers_ g)))
                      (take (Z.to_nat count) (drop first (vertexOffsets_ g)))) g in
        g <| firstDirtyVB_ := M_MAX_UNSIGNED |> <| lastDirtyVB_ := M_MAX_UNSIGNED |>
      else g in
    let newVertexDeclarationHash :=
      foldl (fun h i =>
               match at_ (vertexBuffers_ g) i with
               | Some b => Z.lor h (vb_bufferHash (vertexBuffer g b) i)
               | None => h
               end)
            0 (seq 0 MAX_VERTEX_STREAMS) in
    if negb (newVertexDeclarationHash =? 0)
       && negb (newVertexDeclarationHash =? vertexDeclarationHash_ g)
    then (g <| vertexDeclarationHash_ := newVertexDeclarationHash |>, true)
    else (g, s.2)
  else s.

(** [if (impl_->primitiveTypeDirty_)]. *)
Definition resolvePrimitiveType (s : Graphics * bool) : Graphics * bool :=
  if primitiveTypeDirty_ s.1
  then (s.1 <| primitiveTypeDirty_ := false |>, true)
  else s.

Definition b2z (b : bool) (v : Z) : Z := if b then v else 0.

Definition blendStateHashOf (colorWrite alphaToCoverage : bool) (blendMode : BlendMode) : Z :=
  wrap32 (Z.lor (Z.lor (b2z colorWrite 1) (b2z alphaToCoverage 2))
                (Z.shiftl (BlendMode_to_Z blendMode) 2)).

Definition depthStateHashOf (depthWrite stencilTest : bool) (depthTestMode : CompareMode)
    (stencilCompareMask stencilWriteMask : Z) (stencilTestMode : CompareMode)
    (stencilFail stencilZFail stencilPass : StencilOp) : Z :=
  wrap32
    (Z.lor (Z.lor (Z.lor (Z.lor (Z.lor (Z.lor
       (b2z depthWrite 1)
       (b2z stencilTest 2))
       (Z.shiftl (CompareMode_to_Z depthTestMode) 2))
       (Z.shiftl (Z.land stencilCompareMask 255) 5))
       (Z.shiftl (Z.land stencilWriteMask 255) 13))
       (Z.shiftl (CompareMode_to_Z stencilTestMode) 21))
       (Z.shiftl (StencilOp_to_Z stencilFail + StencilOp_to_Z stencilZFail * 5
                  + StencilOp_to_Z stencilPass * 25) 24)).

Definition rasterizerStateHashOf (scissorTest lineAntiAlias : bool) (fillMode : FillMode)
    (cullMode : CullMode) (scaledDepthBias slopeScaledBias100 : Z) : Z :=
  wrap32
    (Z.lor (Z.lor (Z.lor (Z.lor (Z.lor
       (b2z scissorTest 1)
       (b2z lineAntiAlias 2))
       (Z.shiftl (FillMode_to_Z fillMode) 2))
       (Z.shiftl (CullMode_to_Z cullMode) 4))
       (Z.shiftl (Z.land scaledDepthBias 8191) 6))
       (Z.shiftl (Z.land slopeScaledBias100 8191) 19)).

Definition newBlendStateHash (g : Graphics) : Z :=
  blendStateHashOf (colorWrite_ g) (alphaToCoverage_ g) (blendMode_ g).

Definition newDepthStateHash (g : Graphics) : Z :=
  depthStateHashOf (depthWrite_ g) (stencilTest_ g) (depthTestMode_ g)
    (stencilCompareMask_ g) (stencilWriteMask_ g) (stencilTestMode_ g)
    (stencilFail_ g) (stencilZFail_ g) (stencilPass_ g).

(** [scaledDepthBias] of [PrepareDraw]: the constant bias scaled by the
    depth resolution of the bound depth-stencil. *)
Definition scaledDepthBias (g : Graphics) : Z :=
  let depthBits :=
    match depthStencil_ g with
    | Some ds =>
        if tex_format_ (texture g (parentTexture_ (surface g ds))) =? DXGI_FORMAT_R16_TYPELESS
        then 16 else 24
    | None => 24
    end in
  float_scaled_to_int (constantDepthBias_ g) (Z.shiftl 1 depthBits).

Definition newRasterizerStateHash (g : Graphics) : Z :=
  rasterizerStateHashOf (scissorTest_ g) (lineAntiAlias_ g) (fillMode_ g) (cullMode_ g)
    (scaledDepthBias g) (float_scaled_to_int (slopeScaledDepthBias_ g) 100).

(** [if (impl_->blendStateDirty_)]. *)
Definition resolveBlendState (s : Graphics * bool) : Graphics * bool :=
  let g := s.1 in
  if blendStateDirty_ g then
    let s :=
      if negb (newBlendStateHash g =? blendStateHash_ g) then
        (deviceCall DevSetBlendFactors (g <| blendStateHash_ := newBlendStateHash g |>), true)
      else s in
    (s.1 <| blendStateDirty_ := false |>, s.2)
  else s.

(** [if (impl_->depthStateDirty_)]. *)
Definition resolveDepthState (s : Graphics * bool) : Graphics * bool :=
  let g := s.1 in
  if depthStateDirty_ g then
    let s :=
      if negb (newDepthStateHash g =? depthStateHash_ g) || stencilRefDirty_ g then
        (g <| depthStateHash_ := newDepthStateHash g |>, true)
      else s in
    (s.1 <| depthStateDirty_ := false |>, s.2)
  else s.

(** [if (impl_->rasterizerStateDirty_)]. *)
Definition resolveRasterizerState (s : Graphics * bool) : Graphics * bool :=
  let g := s.1 in
  if rasterizerStateDirty_ g then
    let s :=
      if negb (newRasterizerStateHash g =? rasterizerStateHash_ g) then
        (g <| rasterizerStateHash_ := newRasterizerStateHash g |>, true)
      else s in
    (s.1 <| rasterizerStateDirty_ := false |>, s.2)
  else s.

(** The state-diffing part of [PrepareDraw]: every dirty hash is recomputed
    and the result says whether the pipeline has to be looked up again
    ([pipelineStateDirty]). *)
Definition resolveStateHashes (g : Graphics) : Graphics * bool :=
  let s := (g, vertexShaderDirty_ g || pixelShaderDirty_ g) in
  let s := resolveVertexDeclaration s in
  let s := resolvePrimitiveType s in
  let s := resolveBlendState s in
  let s := resolveDepthState s in
  let s := resolveRasterizerState s in
  (s.1 <| vertexShaderDirty_ := false |> <| pixelShaderDirty_ := false |>, s.2).

Definition pipelineKey (g : Graphics) : PipelineKey :=
  (vertexShader_ g, pixelShader_ g, blendStateHash_ g, depthStateHash_ g,
   rasterizerStateHash_ g, vertexDeclarationHash_ g, primitiveType_ g).

Definition pipelineDesc (g : Graphics) : PipelineDesc :=
  {| desc_pVS := vertexShader_ g ≫= (λ v, sv_object_ (shader g v));
     desc_pPS := pixelShader_ g ≫= (λ p, sv_object_ (shader g p));
     desc_PrimitiveTopology := primitiveType_ g;
     desc_AlphaToCoverageEnable := alphaToCoverage_ g;
     desc_BlendMode := blendMode_ g;
     desc_RenderTargetWriteAll := colorWrite_ g;
     desc_DepthWriteEnable := depthWrite_ g;
     desc_DepthFunc := depthTestMode_ g;
     desc_StencilEnable := stencilTest_ g;
     desc_StencilReadMask := Z.land (stencilCompareMask_ g) 255;
     desc_StencilWriteMask := Z.land (stencilWriteMask_ g) 255;
     desc_StencilFailOp := stencilFail_ g;
     desc_StencilDepthFailOp := stencilZFail_ g;
     desc_StencilPassOp := stencilPass_ g;
     desc_StencilFunc := stencilTestMode_ g;
     desc_FillMode := fillMode_ g;
     desc_CullMode := cullMode_ g;
     desc_DepthBias := scaledDepthBias g;
     desc_SlopeScaledDepthBias := slopeScaledDepthBias_ g;
     desc_ScissorEnable := scissorTest_ g;
     desc_AntialiasedLineEnable := lineAntiAlias_ g |}.

(** Binding the shared constant buffers of one stage to the static
    variables of a new pipeline. *)
Definition bindStageBuffers (type : ShaderType) (v : nat) (buffers : list (option nat))
    (g : Graphics) : Graphics :=
  foldl (fun g i =>
           if (0 <? atZ (constantBufferSizes_ (shader g v)) i)
              && negb (bool_decide (default EmptyString (constantBufferNames_ (shader g v) !! i)
                                    = EmptyString))
           then deviceCall
                  (DevSetStaticVariable type i
                     (at_ buffers i ≫= (λ b, cb_object_ (constantBuffer g b)))) g
           else g)
        g (seq 0 MAX_SHADER_PARAMETER_GROUPS).

Definition stageTextureMap (v : nat) (g : Graphics) : list TextureMapEntry :=
  omap (fun e : Z * nat =>
          if e.1 <? Z.of_nat MAX_TEXTURE_UNITS
          then Some (mkTextureMapEntry (Z.to_nat e.1) e.2) else None)
       (sv_textureVariables (shader g v)).

(** The cache-miss branch of [PrepareDraw]: build the pipeline object, its
    resource binding and its texture map.  The input layout and the list of
    dynamic resource variables are arguments of the creating call only; the
    source asserts that both creations succeed. *)
Definition buildPipelineState (g : Graphics) : PipelineState * Graphics :=
  let pipelineState := freshObject g in
  let g := deviceCall (DevCreateGraphicsPipelineState (pipelineDesc g) pipelineState) g in
  let g :=
    match vertexShader_ g, shaderProgram_ g with
    | Some v, Some p => bindStageBuffers VS v (vsConstantBuffers_ (program g p)) g
    | _, _ => g
    end in
  let g :=
    match pixelShader_ g, shaderProgram_ g with
    | Some v, Some p => bindStageBuffers PS v (psConstantBuffers_ (program g p)) g
    | _, _ => g
    end in
  let shaderResourceBinding := freshObject g in
  let g := deviceCall (DevCreateShaderResourceBinding pipelineState shaderResourceBinding) g in
  let textureMap :=
    from_option (λ v, stageTextureMap v g) [] (vertexShader_ g)
    ++ from_option (λ v, stageTextureMap v g) [] (pixelShader_ g) in
  (mkPipelineState pipelineState shaderResourceBinding textureMap, g).

(** [if (impl_->currentPipelineState_ != pipelineState)]: adopt a pipeline
    that differs from the current one.  The result says whether the
    pipeline changed ([pipelineStateChanged]). *)
Definition adoptPipelineState (ps : PipelineState) (g : Graphics) : Graphics * bool :=
  if negb (bool_decide (currentPipelineState_ g = Some (pipelineState_ ps))) then
    (g <| currentPipelineState_ := Some (pipelineState_ ps) |>
       <| currentShaderResourceBinding_ := Some (shaderResourceBinding_ ps) |>
       <| currentTextureMap_ := Some (textureMap_ ps) |>, true)
  else (g, false).

(** [if (pipelineStateDirty)]: look the composite key up, build on a miss,
    and adopt the result. *)
Definition resolvePipelineState (g : Graphics) : Graphics * bool :=
  let key := pipelineKey g in
  match pipelineStates_ g !! key with
  | None =>
      let r := buildPipelineState g in
      adoptPipelineState r.1 (r.2 <| pipelineStates_ := <[key := r.1]> (pipelineStates_ r.2) |>)
  | Some cached => adoptPipelineState cached g
  end.

(** The texture block of [PrepareDraw]. *)
Definition commitTextures (pipelineStateChanged : bool) (g : Graphics) : Graphics :=
  if pipelineStateChanged
     || (texturesDirty_ g && (firstDirtyTexture_ g <? M_MAX_UNSIGNED)) then
    let g :=
      match currentTextureMap_ g with
      | Some textureMap =>
          foldl (fun g e =>
                   match at_ (shaderResourceViews_ g) (textureUnit e) with
                   | Some view =>
                       if pipelineStateChanged
                          || ((firstDirtyTexture_ g <=? Z.of_nat (textureUnit e))
                              && (Z.of_nat (textureUnit e) <=? lastDirtyTexture_ g))
                       then
                         let g := deviceCall (DevSetSampler view (at_ (samplers_ g) (textureUnit e))) g in
                         deviceCall (DevSetVariable (variable e) view) g
                       else g
                   | None => g
                   end)
                g textureMap
      | None => g
      end in
    g <| firstDirtyTexture_ := M_MAX_UNSIGNED |> <| lastDirtyTexture_ := M_MAX_UNSIGNED |>
      <| texturesDirty_ := false |>
  else g.

(** The last loop of [PrepareDraw]: apply every listed constant buffer, then
    clear the list. *)
Definition flushConstantBuffers (g : Graphics) : Graphics :=
  let g := foldl (fun g b => ConstantBuffer_Apply b g) g (dirtyConstantBuffers_ g) in
  g <| dirtyConstantBuffers_ := [] |>.

(** Whether [PrepareDraw] enters the state-diffing block. *)
Definition anyStateDirty (g : Graphics) : bool :=
  vertexShaderDirty_ g || pixelShaderDirty_ g || blendStateDirty_ g
  || depthStateDirty_ g || rasterizerStateDirty_ g || primitiveTypeDirty_ g
  || vertexDeclarationDirty_ g.

(** The part of [PrepareDraw] between the shader check and the binding of
    the pipeline. *)
Definition resolvePipeline (g : Graphics) : Graphics * bool :=
  if anyStateDirty g then
    let s := resolveStateHashes g in
    if s.2 then resolvePipelineState s.1 else (s.1, false)
  else (g, false).

(** The part of [PrepareDraw] after the pipeline is resolved, up to the
    constant buffers: bind the pipeline, push the textures, commit the
    resource bindings and apply a pending scissor rectangle. *)
Definition bindDraw (s : Graphics * bool) : Graphics :=
  let g := deviceCall (DevSetPipelineState (currentPipelineState_ s.1)) s.1 in
  let g := commitTextures s.2 g in
  let g := deviceCall (DevCommitShaderResources (currentShaderResourceBinding_ g)) g in
  if scissorRectDirty_ g then
    (deviceCall (DevSetScissorRects (scissorRect_ g)) g) <| scissorRectDirty_ := false |>
  else g.

(** The part of [PrepareDraw] after the pipeline is resolved. *)
Definition commitDraw (s : Graphics * bool) : Graphics :=
  flushConstantBuffers (bindDraw s).

Definition PrepareDraw (g : Graphics) : Graphics :=
  let g := if renderTargetsDirty_ g then resolveRenderTargets g else g in
  if bool_decide (vertexShader_ g = None) || bool_decide (pixelShader_ g = None)
  then g
  else commitDraw (resolvePipeline g).

(** ** Draw calls *)

Definition GetPrimitiveCount (elementCount : Z) (type : PrimitiveType) : Z :=
  match type with
  | TRIANGLE_LIST => elementCount / 3
  | LINE_LIST => elementCount / 2
  | POINT_LIST => elementCount
  | TRIANGLE_STRIP => wrap32 (elementCount - 2)
  | LINE_STRIP => wrap32 (elementCount - 1)
  | TRIANGLE_FAN => 0 (* Triangle fan is not supported *)
  end.

(** What the draw functions share once the guard has passed: coerce the
    primitive type under point fill mode, hand it to the pipeline cache,
    prepare, issue the device call, count. *)
Definition submitDraw (type : PrimitiveType) (call : DeviceCall) (primitives : PrimitiveType -> Z)
    (g : Graphics) : Graphics :=
  let type := if bool_decide (fillMode_ g = FILL_POINT) then POINT_LIST else type in
  let g := SetPrimitiveType type g in
  let g := PrepareDraw g in
  let g := deviceCall call g in
  g <| numPrimitives_ := wrap32 (numPrimitives_ g + primitives type) |>
    <| numBatches_ := wrap32 (numBatches_ g + 1) |>.

(** [Draw(type, vertexStart, vertexCount)]. *)
Definition Draw (type : PrimitiveType) (vertexStart vertexCount : Z) (g : Graphics) : Graphics :=
  if (vertexCount =? 0) || negb (bool_decide (is_Some (shaderProgram_ g))) then g
  else submitDraw type (DevDraw vertexCount vertexStart)
         (GetPrimitiveCount vertexCount) g.

(** The indexed draws read the index size through [indexBuffer_]; with a
    null index buffer the source dereferences a null pointer, and the model
    has no result ([None]). *)

(** [Draw(type, indexStart, indexCount, minVertex, vertexCount)]. *)
Definition DrawIndexed (type : PrimitiveType) (indexStart indexCount minVertex vertexCount : Z)
    (g : Graphics) : option Graphics :=
  if (vertexCount =? 0) || negb (bool_decide (is_Some (shaderProgram_ g))) then Some g
  else
    ib ← indexBuffer_ g;
    Some (submitDraw type
            (DevDrawIndexed (indexSize_ (indexBuffer g ib)) indexStart indexCount 0 1)
            (GetPrimitiveCount indexCount) g).

(** [Draw(type, indexStart, indexCount, baseVertexIndex, minVertex, vertexCount)]. *)
Definition DrawIndexedBase (type : PrimitiveType)
    (indexStart indexCount baseVertexIndex minVertex vertexCount : Z)
    (g : Graphics) : option Graphics :=
  if (vertexCount =? 0) || negb (bool_decide (is_Some (shaderProgram_ g))) then Some g
  else
    ib ← indexBuffer_ g;
    Some (submitDraw type
            (DevDrawIndexed (indexSize_ (indexBuffer g ib)) indexStart indexCount
               baseVertexIndex 1)
            (GetPrimitiveCount indexCount) g).

(** [DrawInstanced(type, indexStart, indexCount, minVertex, vertexCount, instanceCount)]. *)
Definition DrawInstanced (type : PrimitiveType)
    (indexStart indexCount minVertex vertexCount instanceCount : Z)
    (g : Graphics) : option Graphics :=
  if (indexCount =? 0) || (instanceCount =? 0)
     || negb (bool_decide (is_Some (shaderProgram_ g))) then Some g
  else
    ib ← indexBuffer_ g;
    Some (submitDraw type
            (DevDrawIndexed (indexSize_ (indexBuffer g ib)) indexStart indexCount 0
               instanceCount)
            (λ t, wrap32 (instanceCount * GetPrimitiveCount indexCount t)) g).

(** [DrawInstanced(type, indexStart, indexCount, baseVertexIndex, minVertex,
    vertexCount, instanceCount)]. *)
Definition DrawInstancedBase (type : PrimitiveType)
    (indexStart indexCount baseVertexIndex minVertex vertexCount instanceCount : Z)
    (g : Graphics) : option Graphics :=
  if (indexCount =? 0) || (instanceCount =? 0)
     || negb (bool_decide (is_Some (shaderProgram_ g))) then Some g
  else
    ib ← indexBuffer_ g;
    Some (submitDraw type
            (DevDrawIndexed (indexSize_ (indexBuffer g ib)) indexStart indexCount
               baseVertexIndex instanceCount)
            (λ t, wrap32 (instanceCount * GetPrimitiveCount indexCount t)) g).

(** ** The state after construction *)

Definition ResetCachedState (g : Graphics) : Graphics :=
  g <| vertexBuffers_ := replicate MAX_VERTEX_STREAMS None |>
    <| impl_vertexBuffers_ := replicate MAX_VERTEX_STREAMS None |>
    <| vertexSizes_ := replicate MAX_VERTEX_STREAMS 0 |>
    <| vertexOffsets_ := replicate MAX_VERTEX_STREAMS 0 |>
    <| textures_ := replicate MAX_TEXTURE_UNITS None |>
    <| shaderResourceViews_ := replicate MAX_TEXTURE_UNITS None |>
    <| samplers_ := replicate MAX_TEXTURE_UNITS None |>
    <| renderTargets_ := replicate MAX_RENDERTARGETS None |>
    <| renderTargetViews_ := replicate MAX_RENDERTARGETS None |>
    <| depthStencil_ := None |>
    <| depthStencilView_ := None |>
    <| viewport_ := mkIntRect 0 0 (width_ g) (height_ g) |>
    <| indexBuffer_ := None |>
    <| vertexDeclarationHash_ := 0 |>
    <| vertexShader_ := None |>
    <| pixelShader_ := None |>
    <| blendMode_ := BLEND_REPLACE |>
    <| alphaToCoverage_ := false |>
    <| colorWrite_ := true |>
    <| cullMode_ := CULL_CCW |>
    <| constantDepthBias_ := float_zero |>
    <| slopeScaledDepthBias_ := float_zero |>
    <| depthTestMode_ := CMP_LESSEQUAL |>
    <| depthWrite_ := true |>
    <| fillMode_ := FILL_SOLID |>
    <| lineAntiAlias_ := false |>
    <| scissorTest_ := false |>
    <| scissorRect_ := IntRect_ZERO |>
    <| stencilTest_ := false |>
    <| stencilTestMode_ := CMP_ALWAYS |>
    <| stencilPass_ := OP_KEEP |>
    <| stencilFail_ := OP_KEEP |>
    <| stencilZFail_ := OP_KEEP |>
    <| stencilRef_ := 0 |>
    <| stencilCompareMask_ := M_MAX_UNSIGNED |>
    <| stencilWriteMask_ := M_MAX_UNSIGNED |>
    <| useClipPlane_ := false |>
    <| shaderProgram_ := None |>
    <| renderTargetsDirty_ := true |>
    <| texturesDirty_ := true |>
    <| vertexDeclarationDirty_ := true |>
    <| blendStateDirty_ := true |>
    <| depthStateDirty_ := true |>
    <| rasterizerStateDirty_ := true |>
    <| scissorRectDirty_ := true |>
    <| stencilRefDirty_ := true |>
    <| blendStateHash_ := M_MAX_UNSIGNED |>
    <| depthStateHash_ := M_MAX_UNSIGNED |>
    <| rasterizerStateHash_ := M_MAX_UNSIGNED |>
    <| firstDirtyTexture_ := M_MAX_UNSIGNED |>
    <| lastDirtyTexture_ := M_MAX_UNSIGNED |>
    <| firstDirtyVB_ := M_MAX_UNSIGNED |>
    <| lastDirtyVB_ := M_MAX_UNSIGNED |>
    <| dirtyConstantBuffers_ := [] |>.

(** A [Graphics] right after its constructor, for a window of the given
    size and the given objects: the member initialisers of
    DiligentGraphicsImpl.h, empty caches, then [ResetCachedState]. *)
Definition newGraphics (width height : Z) (defaultRenderTargetView defaultDepthStencilView : option nat)
    (textures : gmap nat Texture) (surfaces : gmap nat RenderSurface)
    (vertexBuffers : gmap nat VertexBuffer) (indexBuffers : gmap nat IndexBuffer)
    (shaders : gmap nat ShaderVariation) : Graphics :=
  ResetCachedState
    {| width_ := width; height_ := height; numPrimitives_ := 0; numBatches_ := 0;
       vertexBuffers_ := []; indexBuffer_ := None; vertexDeclarationHash_ := 0;
       vertexShader_ := None; pixelShader_ := None; textures_ := [];
       renderTargets_ := []; depthStencil_ := None; viewport_ := IntRect_ZERO;
       blendMode_ := BLEND_REPLACE; alphaToCoverage_ := false; colorWrite_ := false;
       cullMode_ := CULL_NONE; constantDepthBias_ := float_zero;
       slopeScaledDepthBias_ := float_zero; depthTestMode_ := CMP_ALWAYS;
       depthWrite_ := false; fillMode_ := FILL_SOLID; lineAntiAlias_ := false;
       scissorTest_ := false; scissorRect_ := IntRect_ZERO; stencilTest_ := false;
       stencilTestMode_ := CMP_ALWAYS; stencilPass_ := OP_KEEP; stencilFail_ := OP_KEEP;
       stencilZFail_ := OP_KEEP; stencilRef_ := 0; stencilCompareMask_ := 0;
       stencilWriteMask_ := 0; useClipPlane_ := false; clipPlane_ := [];
       pipelineStates_ := ∅; currentPipelineState_ := None;
       currentShaderResourceBinding_ := None; currentTextureMap_ := None;
       defaultRenderTargetView_ := defaultRenderTargetView;
       defaultDepthStencilView_ := defaultDepthStencilView;
       renderTargetViews_ := []; depthStencilView_ := None;
       renderTargetsDirty_ := false; texturesDirty_ := false;
       vertexDeclarationDirty_ := false; vertexShaderDirty_ := false;
       pixelShaderDirty_ := false; blendStateDirty_ := false; depthStateDirty_ := false;
       rasterizerStateDirty_ := false; scissorRectDirty_ := false;
       stencilRefDirty_ := false; firstDirtyTexture_ := 0; lastDirtyTexture_ := 0;
       shaderResourceViews_ := []; samplers_ := []; impl_vertexBuffers_ := [];
       vertexSizes_ := []; vertexOffsets_ := []; firstDirtyVB_ := M_MAX_UNSIGNED;
       lastDirtyVB_ := M_MAX_UNSIGNED; allConstantBuffers_ := ∅;
       dirtyConstantBuffers_ := []; shaderPrograms_ := ∅; shaderProgram_ := None;
       blendStateHash_ := 0; depthStateHash_ := 0; rasterizerStateHash_ := 0;
       primitiveType_ := TRIANGLE_LIST; primitiveTypeDirty_ := false;
       textureObjects := textures; renderSurfaces := surfaces;
       vertexBufferObjects := vertexBuffers; indexBufferObjects := indexBuffers;
       shaderVariations := shaders; shaderProgramObjects := ∅;
       constantBufferObjects := ∅; deviceTrace := []; logMessages := [] |}.

(** ** Sequences of calls *)

Inductive Call :=
  | CSetVertexBuffers (buffers : list (option nat)) (instanceOffset : Z)
  | CSetIndexBuffer (buffer : option nat)
  | CSetShaders (vs ps : option nat)
  | CSetShaderParameter (param : Z) (data : list Z)
  | CSetTexture (index : nat) (tex : option nat)
  | CSetRenderTarget (index : nat) (renderTarget : option nat)
  | CSetRenderTargetTexture (index : nat) (tex : option nat)
  | CSetDepthStencil (depthStencil : option nat)
  | CSetDepthStencilTexture (tex : option nat)
  | CSetViewport (rect : IntRect)
  | CSetBlendMode (mode : BlendMode) (alphaToCoverage : bool)
  | CSetColorWrite (enable : bool)
  | CSetCullMode (mode : CullMode)
  | CSetDepthBias (constantBias slopeScaledBias : float)
  | CSetDepthTest (mode : CompareMode)
  | CSetDepthWrite (enable : bool)
  | CSetFillMode (mode : FillMode)
  | CSetLineAntiAlias (enable : bool)
  | CSetScissorTest (enable : bool) (rect : Rect float) (borderInclusive : bool)
  | CSetScissorTestInt (enable : bool) (rect : IntRect)
  | CSetStencilTest (enable : bool) (mode : CompareMode) (pass fail zFail : StencilOp)
                    (stencilRef compareMask writeMask : Z)
  | CSetClipPlane (enable : bool) (clipPlane : list Z)
  | CPrepareDraw
  | CDraw (type : PrimitiveType) (vertexStart vertexCount : Z)
  | CDrawIndexed (type : PrimitiveType) (indexStart indexCount minVertex vertexCount : Z)
  | CDrawIndexedBase (type : PrimitiveType)
                     (indexStart indexCount baseVertexIndex minVertex vertexCount : Z)
  | CDrawInstanced (type : PrimitiveType)
                   (indexStart indexCount minVertex vertexCount instanceCount : Z)
  | CDrawInstancedBase (type : PrimitiveType)
                       (indexStart indexCount baseVertexIndex minVertex vertexCount
                        instanceCount : Z).

(** [CPrepareDraw] is the bare [PrepareDraw] that [Clear] makes. *)
Definition exec (c : Call) (g : Graphics) : option Graphics :=
  match c with
  | CSetVertexBuffers buffers instanceOffset => Some (SetVertexBuffers buffers instanceOffset g).1
  | CSetIndexBuffer buffer => Some (SetIndexBuffer buffer g)
  | CSetShaders vs ps => Some (SetShaders vs ps g)
  | CSetShaderParameter param data => Some (SetShaderParameter param data g)
  | CSetTexture index tex => Some (SetTexture index tex g)
  | CSetRenderTarget index rt => Some (SetRenderTarget index rt g)
  | CSetRenderTargetTexture index tex => Some (SetRenderTargetTexture index tex g)
  | CSetDepthStencil ds => Some (SetDepthStencil ds g)
  | CSetDepthStencilTexture tex => Some (SetDepthStencilTexture tex g)
  | CSetViewport rect => Some (SetViewport rect g)
  | CSetBlendMode mode a2c => Some (SetBlendMode mode a2c g)
  | CSetColorWrite enable => Some (SetColorWrite enable g)
  | CSetCullMode mode => Some (SetCullMode mode g)
  | CSetDepthBias c s => Some (SetDepthBias c s g)
  | CSetDepthTest mode => Some (SetDepthTest mode g)
  | CSetDepthWrite enable => Some (SetDepthWrite enable g)
  | CSetFillMode mode => Some (SetFillMode mode g)
  | CSetLineAntiAlias enable => Some (SetLineAntiAlias enable g)
  | CSetScissorTest enable rect border => Some (SetScissorTest enable rect border g)
  | CSetScissorTestInt enable rect => Some (SetScissorTestInt enable rect g)
  | CSetStencilTest enable mode pass fail zFail ref cm wm =>
      Some (SetStencilTest enable mode pass fail zFail ref cm wm g)
  | CSetClipPlane enable plane => Some (SetClipPlane enable plane g)
  | CPrepareDraw => Some (PrepareDraw g)
  | CDraw type vs vc => Some (Draw type vs vc g)
  | CDrawIndexed type i0 ic mv vc => DrawIndexed type i0 ic mv vc g
  | CDrawIndexedBase type i0 ic bv mv vc => DrawIndexedBase type i0 ic bv mv vc g
  | CDrawInstanced type i0 ic mv vc n => DrawInstanced type i0 ic mv vc n g
  | CDrawInstancedBase type i0 ic bv mv vc n => DrawInstancedBase type i0 ic bv mv vc n g
  end.

Fixpoint run (cs : list Call) (g : Graphics) : option Graphics :=
  match cs with
  | [] => Some g
  | c :: cs => exec c g ≫= run cs
  end.

(** * Properties of the model *)

(** ** Frame reasoning

    Most steps of a member function leave most of the state alone.  A frame
    goal has the form [view e = v], where [view] reads some fields of the
    state that the expression [e] computes.  [frame_rec] walks through [e]
    from the outside: a record update that does not touch the fields is
    skipped, both branches of a conditional are followed, a [let]-bound
    state is replaced by a variable that is only known to agree on [view],
    loops are handled by [foldl_frame], and calls of functions are resolved
    with the lemmas of the hint database [frame]. *)

Ltac record_simpl :=
  cbn [
    width_ height_ numPrimitives_ numBatches_ vertexBuffers_ indexBuffer_
    vertexDeclarationHash_ vertexShader_ pixelShader_ textures_
    renderTargets_ depthStencil_ viewport_ blendMode_ alphaToCoverage_
    colorWrite_ cullMode_ constantDepthBias_ slopeScaledDepthBias_
    depthTestMode_ depthWrite_ fillMode_ lineAntiAlias_ scissorTest_
    scissorRect_ stencilTest_ stencilTestMode_ stencilPass_ stencilFail_
    stencilZFail_ stencilRef_ stencilCompareMask_ stencilWriteMask_
    useClipPlane_ clipPlane_ pipelineStates_ currentPipelineState_
    currentShaderResourceBinding_ currentTextureMap_ defaultRenderTargetView_
    defaultDepthStencilView_ renderTargetViews_ depthStencilView_
    renderTargetsDirty_ texturesDirty_ vertexDeclarationDirty_
    vertexShaderDirty_ pixelShaderDirty_ blendStateDirty_ depthStateDirty_
    rasterizerStateDirty_ scissorRectDirty_ stencilRefDirty_
    firstDirtyTexture_ lastDirtyTexture_ shaderResourceViews_ samplers_
    impl_vertexBuffers_ vertexSizes_ vertexOffsets_ firstDirtyVB_
    lastDirtyVB_ allConstantBuffers_ dirtyConstantBuffers_ shaderPrograms_
    shaderProgram_ blendStateHash_ depthStateHash_ rasterizerStateHash_
    primitiveType_ primitiveTypeDirty_ textureObjects renderSurfaces
    vertexBufferObjects indexBufferObjects shaderVariations
    shaderProgramObjects constantBufferObjects deviceTrace logMessages
    set_width_ set_height_ set_numPrimitives_ set_numBatches_
    set_vertexBuffers_ set_indexBuffer_ set_vertexDeclarationHash_
    set_vertexShader_ set_pixelShader_ set_textures_ set_renderTargets_
    set_depthStencil_ set_viewport_ set_blendMode_ set_alphaToCoverage_
    set_colorWrite_ set_cullMode_ set_constantDepthBias_
    set_slopeScaledDepthBias_ set_depthTestMode_ set_depthWrite_
    set_fillMode_ set_lineAntiAlias_ set_scissorTest_ set_scissorRect_
    set_stencilTest_ set_stencilTestMode_ set_stencilPass_ set_stencilFail_
    set_stencilZFail_ set_stencilRef_ set_stencilCompareMask_
    set_stencilWriteMask_ set_useClipPlane_ set_clipPlane_
    set_pipelineStates_ set_currentPipelineState_
    set_currentShaderResourceBinding_ set_currentTextureMap_
    set_defaultRenderTargetView_ set_defaultDepthStencilView_
    set_renderTargetViews_ set_depthStencilView_ set_renderTargetsDirty_
    set_texturesDirty_ set_vertexDeclarationDirty_ set_vertexShaderDirty_
    set_pixelShaderDirty_ set_blendStateDirty_ set_depthStateDirty_
    set_rasterizerStateDirty_ set_scissorRectDirty_ set_stencilRefDirty_
    set_firstDirtyTexture_ set_lastDirtyTexture_ set_shaderResourceViews_
    set_samplers_ set_impl_vertexBuffers_ set_vertexSizes_ set_vertexOffsets_
    set_firstDirtyVB_ set_lastDirtyVB_ set_allConstantBuffers_
    set_dirtyConstantBuffers_ set_shaderPrograms_ set_shaderProgram_
    set_blendStateHash_ set_depthStateHash_ set_rasterizerStateHash_
    set_primitiveType_ set_primitiveTypeDirty_ set_textureObjects
    set_renderSurfaces set_vertexBufferObjects set_indexBufferObjects
    set_shaderVariations set_shaderProgramObjects set_constantBufferObjects
    set_deviceTrace set_logMessages
    set fst snd];
  cbv beta delta [RecordSettersUsingExistingGetters.const].

Lemma foldl_frame {A B V} (view : A -> V) (f : A -> B -> A) (l : list B) (a : A) (v : V) :
  view a = v ->
  (forall a x, view a = v -> view (f a x) = v) ->
  view (foldl f a l) = v.
Proof.
  intros Ha Hf. revert a Ha.
  induction l as [|x l IH]; intros a Ha; cbn; [done|].
  apply IH. by apply Hf.
Qed.

Ltac frame_close :=
  lazymatch goal with
  | |- ?a = ?a => reflexivity
  | H : ?G |- ?G => exact H
  end.

Ltac frame_rec view :=
  lazymatch goal with
  | |- view ?E = ?V =>
    lazymatch E with
    | (let x := ?A in @?B x) =>
        frame_let view V A ltac:(fun y V' => change (view (B y) = V'))
    | fst (let x := ?A in @?B x) =>
        frame_let view V A ltac:(fun y V' => change (view (fst (B y)) = V'))
    | snd (let x := ?A in @?B x) =>
        frame_let view V A ltac:(fun y V' => change (view (snd (B y)) = V'))
    | (if ?c then _ else _) => destruct c; frame_rec view
    | (match ?x with _ => _ end) => destruct x; frame_rec view
    | set ?f ?v ?r =>
        let H := fresh "Hset" in
        assert (H : forall r', view (set f v r') = view r') by (intros; reflexivity);
        refine (eq_trans (H r) _); clear H; frame_rec view
    | fst (if ?c then _ else _) => destruct c; frame_rec view
    | snd (if ?c then _ else _) => destruct c; frame_rec view
    | fst (match ?x with _ => _ end) => destruct x; frame_rec view
    | snd (match ?x with _ => _ end) => destruct x; frame_rec view
    | fst (_, _) => cbn [fst]; frame_rec view
    | snd (_, _) => cbn [snd]; frame_rec view
    | foldl _ _ _ =>
        apply (foldl_frame view);
        [ frame_rec view
        | let a := fresh "g" in let x := fresh "x" in let H := fresh "Hfr" in
          intros a x H; cbv beta; frame_rec view ]
    | snd (foldl _ _ _) =>
        apply (foldl_frame (fun r => view (snd r)));
        [ cbv beta; frame_rec view
        | let a := fresh "r" in let x := fresh "x" in let H := fresh "Hfr" in
          intros a x H; cbv beta; frame_rec view ]
    | fst (foldl _ _ _) =>
        apply (foldl_frame (fun r => view (fst r)));
        [ cbv beta; frame_rec view
        | let a := fresh "r" in let x := fresh "x" in let H := fresh "Hfr" in
          intros a x H; cbv beta; frame_rec view ]
    | _ =>
        first
          [ frame_close
          | etransitivity; [ solve [ eauto 2 with frame nocore ] | ]; frame_rec view
          | idtac ]
    end
  end
with frame_let view V A reshape :=
  tryif (lazymatch A with
         | fst ?v => is_var v
         | snd ?v => is_var v
         | ?v => is_var v
         end)
  then (reshape A V; cbv beta; frame_rec view)
  else
  lazymatch type of A with
  | Graphics =>
      let H := fresh "Hfr" in
      assert (H : view A = V); [ frame_rec view | ];
      let y := fresh "g" in
      generalize dependent A; intros y H; lazymatch goal with |- _ = ?V' => reshape y V' end;
      cbv beta; frame_rec view
  | (_ * Graphics)%type =>
      let H := fresh "Hfr" in
      assert (H : view (snd A) = V); [ frame_rec view | ];
      let y := fresh "r" in
      generalize dependent A; intros y H; lazymatch goal with |- _ = ?V' => reshape y V' end;
      cbv beta; frame_rec view
  | (Graphics * _)%type =>
      let H := fresh "Hfr" in
      assert (H : view (fst A) = V); [ frame_rec view | ];
      let y := fresh "r" in
      generalize dependent A; intros y H; lazymatch goal with |- _ = ?V' => reshape y V' end;
      cbv beta; frame_rec view
  | _ =>
      let y := fresh "x" in
      generalize dependent A; intros y; lazymatch goal with |- _ = ?V' => reshape y V' end;
      cbv beta; frame_rec view
  end.

(** [frame F] proves that the function [F] leaves the fields of a view
    alone, from the same facts about the functions [F] calls. *)
Tactic Notation "frame" constr(F) :=
  intros; cbv beta delta [F];
  lazymatch goal with |- ?view _ = _ => frame_rec view end.

Create HintDb frame discriminated.

(** The part of the state that only the shader setter, the primitive type
    setter and [PrepareDraw] itself write: the pipeline cache, the current
    pipeline, the components of the composite key with the dirty flags that
    guard them, and the frame counters. *)
Definition cacheView (g : Graphics) :=
  (pipelineStates_ g, currentPipelineState_ g, currentShaderResourceBinding_ g,
   currentTextureMap_ g, vertexShader_ g, pixelShader_ g, blendStateHash_ g,
   depthStateHash_ g, rasterizerStateHash_ g, vertexDeclarationHash_ g,
   primitiveType_ g, vertexShaderDirty_ g, pixelShaderDirty_ g,
   primitiveTypeDirty_ g, numPrimitives_ g, numBatches_ g).

Lemma deviceCall_cache c g : cacheView (deviceCall c g) = cacheView g.
Proof. frame deviceCall. Qed.
#[local] Hint Resolve deviceCall_cache : frame.

Lemma logError_cache msg g : cacheView (logError msg g) = cacheView g.
Proof. frame logError. Qed.
#[local] Hint Resolve logError_cache : frame.

Lemma updTexture_cache t f g : cacheView (updTexture t f g) = cacheView g.
Proof. frame updTexture. Qed.
#[local] Hint Resolve updTexture_cache : frame.

Lemma updSurface_cache s f g : cacheView (updSurface s f g) = cacheView g.
Proof. frame updSurface. Qed.
#[local] Hint Resolve updSurface_cache : frame.

Lemma updShader_cache v f g : cacheView (updShader v f g) = cacheView g.
Proof. frame updShader. Qed.
#[local] Hint Resolve updShader_cache : frame.

Lemma updConstantBuffer_cache b f g : cacheView (updConstantBuffer b f g) = cacheView g.
Proof. frame updConstantBuffer. Qed.
#[local] Hint Resolve updConstantBuffer_cache : frame.

Lemma SetBlendMode_cache mode a g : cacheView (SetBlendMode mode a g) = cacheView g.
Proof. frame SetBlendMode. Qed.
#[local] Hint Resolve SetBlendMode_cache : frame.

Lemma SetColorWrite_cache enable g : cacheView (SetColorWrite enable g) = cacheView g.
Proof. frame SetColorWrite. Qed.
#[local] Hint Resolve SetColorWrite_cache : frame.

Lemma SetCullMode_cache mode g : cacheView (SetCullMode mode g) = cacheView g.
Proof. frame SetCullMode. Qed.
#[local] Hint Resolve SetCullMode_cache : frame.

Lemma SetDepthBias_cache c s g : cacheView (SetDepthBias c s g) = cacheView g.
Proof. frame SetDepthBias. Qed.
#[local] Hint Resolve SetDepthBias_cache : frame.

Lemma SetDepthTest_cache mode g : cacheView (SetDepthTest mode g) = cacheView g.
Proof. frame SetDepthTest. Qed.
#[local] Hint Resolve SetDepthTest_cache : frame.

Lemma SetDepthWrite_cache enable g : cacheView (SetDepthWrite enable g) = cacheView g.
Proof. frame SetDepthWrite. Qed.
#[local] Hint Resolve SetDepthWrite_cache : frame.

Lemma SetFillMode_cache mode g : cacheView (SetFillMode mode g) = cacheView g.
Proof. frame SetFillMode. Qed.
#[local] Hint Resolve SetFillMode_cache : frame.

Lemma SetLineAntiAlias_cache enable g : cacheView (SetLineAntiAlias enable g) = cacheView g.
Proof. frame SetLineAntiAlias. Qed.
#[local] Hint Resolve SetLineAntiAlias_cache : frame.

Lemma storeScissor_cache enable r g : cacheView (storeScissor enable r g) = cacheView g.
Proof. frame storeScissor. Qed.
#[local] Hint Resolve storeScissor_cache : frame.

Lemma SetScissorTest_cache enable rect b g : cacheView (SetScissorTest enable rect b g) = cacheView g.
Proof. frame SetScissorTest. Qed.
#[local] Hint Resolve SetScissorTest_cache : frame.

Lemma SetScissorTestInt_cache enable rect g : cacheView (SetScissorTestInt enable rect g) = cacheView g.
Proof. frame SetScissorTestInt. Qed.
#[local] Hint Resolve SetScissorTestInt_cache : frame.

Lemma SetViewport_cache rect g : cacheView (SetViewport rect g) = cacheView g.
Proof. frame SetViewport. Qed.
#[local] Hint Resolve SetViewport_cache : frame.

Lemma SetStencilTest_cache e m p f z r cm wm g : cacheView (SetStencilTest e m p f z r cm wm g) = cacheView g.
Proof. frame SetStencilTest. Qed.
#[local] Hint Resolve SetStencilTest_cache : frame.

Lemma SetDepthStencil_cache ds g : cacheView (SetDepthStencil ds g) = cacheView g.
Proof. frame SetDepthStencil. Qed.
#[local] Hint Resolve SetDepthStencil_cache : frame.

Lemma SetDepthStencilTexture_cache tex g : cacheView (SetDepthStencilTexture tex g) = cacheView g.
Proof. frame SetDepthStencilTexture. Qed.
#[local] Hint Resolve SetDepthStencilTexture_cache : frame.

Lemma SetIndexBuffer_cache b g : cacheView (SetIndexBuffer b g) = cacheView g.
Proof. frame SetIndexBuffer. Qed.
#[local] Hint Resolve SetIndexBuffer_cache : frame.

Lemma UpdateParameters_cache t g : cacheView (UpdateParameters t g) = cacheView g.
Proof. frame UpdateParameters. Qed.
#[local] Hint Resolve UpdateParameters_cache : frame.

Lemma RegenerateLevels_cache t g : cacheView (RegenerateLevels t g) = cacheView g.
Proof. frame RegenerateLevels. Qed.
#[local] Hint Resolve RegenerateLevels_cache : frame.

Lemma SetLevelsDirty_cache t g : cacheView (SetLevelsDirty t g) = cacheView g.
Proof. frame SetLevelsDirty. Qed.
#[local] Hint Resolve SetLevelsDirty_cache : frame.

Lemma ResolveToTexture2D_cache t g : cacheView (ResolveToTexture2D t g) = cacheView g.
Proof. frame ResolveToTexture2D. Qed.
#[local] Hint Resolve ResolveToTexture2D_cache : frame.

Lemma ResolveToTextureCube_cache t g : cacheView (ResolveToTextureCube t g) = cacheView g.
Proof. frame ResolveToTextureCube. Qed.
#[local] Hint Resolve ResolveToTextureCube_cache : frame.

Lemma resolveMultisampled_cache t g : cacheView (resolveMultisampled t g) = cacheView g.
Proof. frame resolveMultisampled. Qed.
#[local] Hint Resolve resolveMultisampled_cache : frame.

Lemma refreshTexture_cache index tex g : cacheView (refreshTexture index tex g) = cacheView g.
Proof. frame refreshTexture. Qed.
#[local] Hint Resolve refreshTexture_cache : frame.

Lemma recordTexture_cache index tex g : cacheView (recordTexture index tex g) = cacheView g.
Proof. frame recordTexture. Qed.
#[local] Hint Resolve recordTexture_cache : frame.

Lemma SetTexture_cache index tex g : cacheView (SetTexture index tex g) = cacheView g.
Proof. frame SetTexture. Qed.
#[local] Hint Resolve SetTexture_cache : frame.

Lemma SetRenderTarget_cache index rt g : cacheView (SetRenderTarget index rt g) = cacheView g.
Proof. frame SetRenderTarget. Qed.
#[local] Hint Resolve SetRenderTarget_cache : frame.

Lemma SetRenderTargetTexture_cache index tex g : cacheView (SetRenderTargetTexture index tex g) = cacheView g.
Proof. frame SetRenderTargetTexture. Qed.
#[local] Hint Resolve SetRenderTargetTexture_cache : frame.

Lemma SetVertexBuffers_stream_cache buffers off g i : cacheView (SetVertexBuffers_stream buffers off g i) = cacheView g.
Proof. frame SetVertexBuffers_stream. Qed.
#[local] Hint Resolve SetVertexBuffers_stream_cache : frame.

Lemma SetVertexBuffers_cache buffers off g : cacheView (fst (SetVertexBuffers buffers off g)) = cacheView g.
Proof. frame SetVertexBuffers. Qed.
#[local] Hint Resolve SetVertexBuffers_cache : frame.

Lemma SetVertexBuffer_cache b g : cacheView (SetVertexBuffer b g) = cacheView g.
Proof. frame SetVertexBuffer. Qed.
#[local] Hint Resolve SetVertexBuffer_cache : frame.

Lemma ConstantBuffer_SetSize_cache b size g : cacheView (fst (ConstantBuffer_SetSize b size g)) = cacheView g.
Proof. frame ConstantBuffer_SetSize. Qed.
#[local] Hint Resolve ConstantBuffer_SetSize_cache : frame.

Lemma ConstantBuffer_Apply_cache b g : cacheView (ConstantBuffer_Apply b g) = cacheView g.
Proof. frame ConstantBuffer_Apply. Qed.
#[local] Hint Resolve ConstantBuffer_Apply_cache : frame.

Lemma ConstantBuffer_SetParameter_cache b off data g : cacheView (ConstantBuffer_SetParameter b off data g) = cacheView g.
Proof. frame ConstantBuffer_SetParameter. Qed.
#[local] Hint Resolve ConstantBuffer_SetParameter_cache : frame.

Lemma GetOrCreateConstantBuffer_cache type index size g : cacheView (snd (GetOrCreateConstantBuffer type index size g)) = cacheView g.
Proof. frame GetOrCreateConstantBuffer. Qed.
#[local] Hint Resolve GetOrCreateConstantBuffer_cache : frame.

Lemma createStageBuffers_cache type sizes g : cacheView (snd (createStageBuffers type sizes g)) = cacheView g.
Proof. frame createStageBuffers. Qed.
#[local] Hint Resolve createStageBuffers_cache : frame.

Lemma ShaderProgram_new_cache vs ps g : cacheView (snd (ShaderProgram_new vs ps g)) = cacheView g.
Proof. frame ShaderProgram_new. Qed.
#[local] Hint Resolve ShaderProgram_new_cache : frame.

Lemma ShaderVariation_Create_cache v g : cacheView (fst (ShaderVariation_Create v g)) = cacheView g.
Proof. frame ShaderVariation_Create. Qed.
#[local] Hint Resolve ShaderVariation_Create_cache : frame.

Lemma createShaderNow_cache s msg g : cacheView (snd (createShaderNow s msg g)) = cacheView g.
Proof. frame createShaderNow. Qed.
#[local] Hint Resolve createShaderNow_cache : frame.

Lemma SetShaderParameter_cache param data g : cacheView (SetShaderParameter param data g) = cacheView g.
Proof. frame SetShaderParameter. Qed.
#[local] Hint Resolve SetShaderParameter_cache : frame.

Lemma SetClipPlane_cache enable plane g : cacheView (SetClipPlane enable plane g) = cacheView g.
Proof. frame SetClipPlane. Qed.
#[local] Hint Resolve SetClipPlane_cache : frame.

Lemma resolveRenderTargets_cache g : cacheView (resolveRenderTargets g) = cacheView g.
Proof. frame resolveRenderTargets. Qed.
#[local] Hint Resolve resolveRenderTargets_cache : frame.

Lemma bindStageBuffers_cache type v buffers g : cacheView (bindStageBuffers type v buffers g) = cacheView g.
Proof. frame bindStageBuffers. Qed.
#[local] Hint Resolve bindStageBuffers_cache : frame.

Lemma commitTextures_cache changed g : cacheView (commitTextures changed g) = cacheView g.
Proof. frame commitTextures. Qed.
#[local] Hint Resolve commitTextures_cache : frame.

Lemma flushConstantBuffers_cache g : cacheView (flushConstantBuffers g) = cacheView g.
Proof. frame flushConstantBuffers. Qed.
#[local] Hint Resolve flushConstantBuffers_cache : frame.

Lemma bindDraw_cache s : cacheView (bindDraw s) = cacheView s.1.
Proof. frame bindDraw. Qed.
#[local] Hint Resolve bindDraw_cache : frame.

(** The frame counters. *)
Definition counters (g : Graphics) := (numPrimitives_ g, numBatches_ g).

Lemma cacheView_counters g g' : cacheView g = cacheView g' -> counters g = counters g'.
Proof. unfold cacheView, counters. congruence. Qed.
#[local] Hint Resolve cacheView_counters : frame.

Lemma SetPrimitiveType_counters t g : counters (SetPrimitiveType t g) = counters g.
Proof. frame SetPrimitiveType. Qed.
#[local] Hint Resolve SetPrimitiveType_counters : frame.

Lemma resolveVertexDeclaration_counters s :
  counters (resolveVertexDeclaration s).1 = counters s.1.
Proof. frame resolveVertexDeclaration. Qed.
#[local] Hint Resolve resolveVertexDeclaration_counters : frame.

Lemma resolvePrimitiveType_counters s :
  counters (resolvePrimitiveType s).1 = counters s.1.
Proof. frame resolvePrimitiveType. Qed.
#[local] Hint Resolve resolvePrimitiveType_counters : frame.

Lemma resolveBlendState_counters s :
  counters (resolveBlendState s).1 = counters s.1.
Proof. frame resolveBlendState. Qed.
#[local] Hint Resolve resolveBlendState_counters : frame.

Lemma resolveDepthState_counters s :
  counters (resolveDepthState s).1 = counters s.1.
Proof. frame resolveDepthState. Qed.
#[local] Hint Resolve resolveDepthState_counters : frame.

Lemma resolveRasterizerState_counters s :
  counters (resolveRasterizerState s).1 = counters s.1.
Proof. frame resolveRasterizerState. Qed.
#[local] Hint Resolve resolveRasterizerState_counters : frame.

Lemma resolveStateHashes_counters g :
  counters (resolveStateHashes g).1 = counters g.
Proof. frame resolveStateHashes. Qed.
#[local] Hint Resolve resolveStateHashes_counters : frame.

Lemma buildPipelineState_counters g :
  counters (buildPipelineState g).2 = counters g.
Proof. frame buildPipelineState. Qed.
#[local] Hint Resolve buildPipelineState_counters : frame.

Lemma adoptPipelineState_counters ps g :
  counters (adoptPipelineState ps g).1 = counters g.
Proof. frame adoptPipelineState. Qed.
#[local] Hint Resolve adoptPipelineState_counters : frame.

Lemma resolvePipelineState_counters g :
  counters (resolvePipelineState g).1 = counters g.
Proof. frame resolvePipelineState. Qed.
#[local] Hint Resolve resolvePipelineState_counters : frame.

Lemma resolvePipeline_counters g :
  counters (resolvePipeline g).1 = counters g.
Proof. frame resolvePipeline. Qed.
#[local] Hint Resolve resolvePipeline_counters : frame.

Lemma commitDraw_counters s : counters (commitDraw s) = counters s.1.
Proof. frame commitDraw. Qed.
#[local] Hint Resolve commitDraw_counters : frame.

Lemma PrepareDraw_counters g : counters (PrepareDraw g) = counters g.
Proof. frame PrepareDraw. Qed.
#[local] Hint Resolve PrepareDraw_counters : frame.

(** * The claims *)

(** ** Out-of-range setter inputs *)

Lemma logError_only_logs msg g :
  (logError msg g) <| logMessages := logMessages g |> = g.
Proof. destruct g. reflexivity. Qed.

(** C9.  [SetVertexBuffers] with more buffers than [MAX_VERTEX_STREAMS] logs
    an error and returns [false], and apart from the log the state is the
    one before the call; [SetTexture] with a unit at or beyond
    [MAX_TEXTURE_UNITS] and [SetRenderTarget] with an index at or beyond
    [MAX_RENDERTARGETS] return the state unchanged. *)
Theorem out_of_range_setters_change_nothing (g : Graphics) :
  (forall buffers instanceOffset,
      (MAX_VERTEX_STREAMS < length buffers)%nat ->
      let r := SetVertexBuffers buffers instanceOffset g in
      r.2 = false
      /\ logMessages r.1 = logMessages g ++ ["Too many vertex buffers"%string]
      /\ (r.1) <| logMessages := logMessages g |> = g)
  /\ (forall index tex,
         (MAX_TEXTURE_UNITS <= index)%nat -> SetTexture index tex g = g)
  /\ (forall index renderTarget,
         (MAX_RENDERTARGETS <= index)%nat ->
         SetRenderTarget index renderTarget g = g).
Proof.
  split; [|split].
  - intros buffers instanceOffset Hlen r. subst r. unfold SetVertexBuffers.
    rewrite bool_decide_eq_true_2 by done. cbn [fst snd].
    split; [done|]. split; [done|]. apply logError_only_logs.
  - intros index tex Hidx. unfold SetTexture.
    by rewrite bool_decide_eq_true_2.
  - intros index rt Hidx. unfold SetRenderTarget.
    by rewrite bool_decide_eq_true_2.
Qed.

(** ** Draw refusal *)

(** The guard of each draw function: the plain and indexed [Draw] look at
    the vertex count, the two [DrawInstanced] at the index count and the
    instance count; all look at the bound shader program. *)
Definition drawRefused (c : Call) (g : Graphics) : Prop :=
  match c with
  | CDraw _ _ vertexCount
  | CDrawIndexed _ _ _ _ vertexCount
  | CDrawIndexedBase _ _ _ _ _ vertexCount =>
      vertexCount = 0 \/ shaderProgram_ g = None
  | CDrawInstanced _ _ indexCount _ _ instanceCount
  | CDrawInstancedBase _ _ indexCount _ _ _ instanceCount =>
      indexCount = 0 \/ instanceCount = 0 \/ shaderProgram_ g = None
  | _ => False
  end.

Lemma draw_guard_holds (count : Z) (g : Graphics) :
  count = 0 \/ shaderProgram_ g = None ->
  (count =? 0) || negb (bool_decide (is_Some (shaderProgram_ g))) = true.
Proof.
  intros [-> | ->]; [done|].
  rewrite bool_decide_eq_false_2; [by rewrite orb_true_r | by intros [? ?]].
Qed.

Lemma instanced_guard_holds (indexCount instanceCount : Z) (g : Graphics) :
  indexCount = 0 \/ instanceCount = 0 \/ shaderProgram_ g = None ->
  (indexCount =? 0) || (instanceCount =? 0)
  || negb (bool_decide (is_Some (shaderProgram_ g))) = true.
Proof.
  intros [-> | [-> | ->]]; [done | by rewrite orb_true_r |].
  rewrite bool_decide_eq_false_2; [by rewrite orb_true_r | by intros [? ?]].
Qed.

(** C7 (as amended).  A draw call whose guard fires returns at once: the
    state after the call is the state before it, so no device call was
    made, no pipeline was prepared and no counter moved.  The guard of
    [Draw] is a zero vertex count or no bound shader program; the guard of
    [DrawInstanced] is a zero index count, a zero instance count or no
    bound shader program. *)
Theorem refused_draw_changes_nothing (c : Call) (g : Graphics) :
  drawRefused c g -> exec c g = Some g.
Proof.
  destruct c; cbn [drawRefused exec]; try done; intros H.
  - unfold Draw. by rewrite draw_guard_holds.
  - unfold DrawIndexed. by rewrite draw_guard_holds.
  - unfold DrawIndexedBase. by rewrite draw_guard_holds.
  - unfold DrawInstanced. by rewrite instanced_guard_holds.
  - unfold DrawInstancedBase. by rewrite instanced_guard_holds.
Qed.

(** ** Primitive counting *)

Lemma submitDraw_counters type call primitives g :
  counters (submitDraw type call primitives g)
  = (wrap32 (numPrimitives_ g
             + primitives (if bool_decide (fillMode_ g = FILL_POINT)
                           then POINT_LIST else type)),
     wrap32 (numBatches_ g + 1)).
Proof.
  unfold submitDraw.
  set (type' := if bool_decide (fillMode_ g = FILL_POINT) then POINT_LIST else type).
  set (g1 := deviceCall call (PrepareDraw (SetPrimitiveType type' g))).
  assert (H : counters g1 = counters g).
  { unfold g1. etransitivity; [apply cacheView_counters, deviceCall_cache|].
    by rewrite PrepareDraw_counters, SetPrimitiveType_counters. }
  clearbody g1. unfold counters in *. record_simpl. congruence.
Qed.

Lemma Draw_counters type vertexStart vertexCount g :
  vertexCount <> 0 -> is_Some (shaderProgram_ g) -> fillMode_ g = FILL_SOLID ->
  counters (Draw type vertexStart vertexCount g)
  = (wrap32 (numPrimitives_ g + GetPrimitiveCount vertexCount type),
     wrap32 (numBatches_ g + 1)).
Proof.
  intros Hcount Hprog Hfill. unfold Draw.
  rewrite (proj2 (Z.eqb_neq _ _) Hcount), bool_decide_eq_true_2 by done.
  cbn [negb orb]. rewrite submitDraw_counters, Hfill.
  by rewrite bool_decide_eq_false_2.
Qed.

(** C8.  With a shader program bound and solid fill mode, [Draw] of a
    triangle list of 9 vertices adds 3 to the primitive counter and 1 to the
    batch counter, a triangle strip of 5 vertices adds 3 primitives, a
    triangle fan adds none, a line list adds [n / 2], a line strip [n - 1]
    and a point list [n]; the counters are [unsigned] and wrap at [2 ^ 32]. *)
Theorem primitive_counting (g : Graphics) (vertexStart : Z) :
  is_Some (shaderProgram_ g) -> fillMode_ g = FILL_SOLID ->
  counters (Draw TRIANGLE_LIST vertexStart 9 g)
    = (wrap32 (numPrimitives_ g + 3), wrap32 (numBatches_ g + 1))
  /\ numPrimitives_ (Draw TRIANGLE_STRIP vertexStart 5 g) = wrap32 (numPrimitives_ g + 3)
  /\ (forall n, n <> 0 ->
        numPrimitives_ (Draw TRIANGLE_FAN vertexStart n g) = wrap32 (numPrimitives_ g + 0))
  /\ (forall n, n <> 0 ->
        numPrimitives_ (Draw LINE_LIST vertexStart n g) = wrap32 (numPrimitives_ g + n / 2))
  /\ (forall n, 0 < n < 2 ^ 32 ->
        numPrimitives_ (Draw LINE_STRIP vertexStart n g) = wrap32 (numPrimitives_ g + (n - 1)))
  /\ (forall n, n <> 0 ->
        numPrimitives_ (Draw POINT_LIST vertexStart n g) = wrap32 (numPrimitives_ g + n)).
Proof.
  intros Hprog Hfill.
  assert (Hc : forall type n, n <> 0 ->
             numPrimitives_ (Draw type vertexStart n g)
             = wrap32 (numPrimitives_ g + GetPrimitiveCount n type)).
  { intros type n Hn.
    pose proof (Draw_counters type vertexStart n g Hn Hprog Hfill) as H.
    unfold counters in H. congruence. }
  split; [by rewrite Draw_counters|].
  split; [by rewrite Hc|].
  split; [intros n Hn; by rewrite Hc|].
  split; [intros n Hn; by rewrite Hc|].
  split; [|intros n Hn; by rewrite Hc].
  intros n Hn. rewrite Hc by lia. cbn [GetPrimitiveCount]. unfold wrap32.
  change (2 ^ 32) with 4294967296 in *.
  by rewrite (Z.mod_small (n - 1)) by lia.
Qed.

(** ** The viewport *)

Lemma Clamp_range value lo hi : lo <= hi -> lo <= Clamp value lo hi <= hi.
Proof.
  unfold Clamp. intros.
  destruct (Z.ltb_spec value lo); [lia|]. destruct (Z.ltb_spec hi value); lia.
Qed.

Lemma Clamp_mono a b lo hi : lo <= hi -> a <= b -> Clamp a lo hi <= Clamp b lo hi.
Proof.
  unfold Clamp. intros.
  destruct (Z.ltb_spec a lo), (Z.ltb_spec hi a), (Z.ltb_spec b lo), (Z.ltb_spec hi b); lia.
Qed.

Lemma SetScissorTest_off rect border g :
  SetScissorTest false rect border g
  = if scissorTest_ g
    then g <| scissorTest_ := false |> <| rasterizerStateDirty_ := true |>
    else g.
Proof.
  unfold SetScissorTest.
  assert (E : (if coversViewport rect then false else false) = false) by (by case_match).
  rewrite E. unfold storeScissor. by destruct (scissorTest_ g).
Qed.

(** The rectangle [SetViewport] records for a requested one: a degenerate
    request is widened to one pixel first, then every edge is clamped to the
    render-target dimensions. *)
Definition clampedViewport (rect : IntRect) (size : Z * Z) : IntRect :=
  mkIntRect
    (Clamp (left_ rect) 0 size.1)
    (Clamp (top_ rect) 0 size.2)
    (Clamp (if right_ rect <=? left_ rect then left_ rect + 1 else right_ rect) 0 size.1)
    (Clamp (if bottom_ rect <=? top_ rect then top_ rect + 1 else bottom_ rect) 0 size.2).



(** ** The stencil reference value *)

(** The packed inputs of the depth-state hash. *)
Definition depthInputs (g : Graphics) :=
  (depthWrite_ g, stencilTest_ g, depthTestMode_ g,
   Z.land (stencilCompareMask_ g) 255, Z.land (stencilWriteMask_ g) 255,
   stencilTestMode_ g, stencilFail_ g, stencilZFail_ g, stencilPass_ g).

Lemma newDepthStateHash_inputs g h :
  depthInputs g = depthInputs h -> newDepthStateHash g = newDepthStateHash h.
Proof.
  unfold depthInputs, newDepthStateHash, depthStateHashOf. intros [=].
  repeat match goal with H : _ = _ |- _ => rewrite H; clear H end. reflexivity.
Qed.

(** What [resolveDepthState] reads. *)
Definition depthView (g : Graphics) :=
  (depthInputs g, depthStateDirty_ g, stencilRefDirty_ g, depthStateHash_ g).

Lemma deviceCall_depth c g : depthView (deviceCall c g) = depthView g.
Proof. frame deviceCall. Qed.
#[local] Hint Resolve deviceCall_depth : frame.

Lemma storeScissor_depth enable r g : depthView (storeScissor enable r g) = depthView g.
Proof. frame storeScissor. Qed.
#[local] Hint Resolve storeScissor_depth : frame.

Lemma SetScissorTest_depth enable rect b g :
  depthView (SetScissorTest enable rect b g) = depthView g.
Proof. frame SetScissorTest. Qed.
#[local] Hint Resolve SetScissorTest_depth : frame.

Lemma SetViewport_depth rect g : depthView (SetViewport rect g) = depthView g.
Proof. frame SetViewport. Qed.
#[local] Hint Resolve SetViewport_depth : frame.

Lemma resolveRenderTargets_depth g : depthView (resolveRenderTargets g) = depthView g.
Proof. frame resolveRenderTargets. Qed.
#[local] Hint Resolve resolveRenderTargets_depth : frame.

Lemma resolveVertexDeclaration_depth s :
  depthView (resolveVertexDeclaration s).1 = depthView s.1.
Proof. frame resolveVertexDeclaration. Qed.
#[local] Hint Resolve resolveVertexDeclaration_depth : frame.

Lemma resolvePrimitiveType_depth s :
  depthView (resolvePrimitiveType s).1 = depthView s.1.
Proof. frame resolvePrimitiveType. Qed.
#[local] Hint Resolve resolvePrimitiveType_depth : frame.

Lemma resolveBlendState_depth s :
  depthView (resolveBlendState s).1 = depthView s.1.
Proof. frame resolveBlendState. Qed.
#[local] Hint Resolve resolveBlendState_depth : frame.

(** After [resolveDepthState] the recorded hash is the one it started with
    or the hash of the packed inputs. *)
Lemma resolveDepthState_hash s :
  depthStateHash_ (resolveDepthState s).1 = depthStateHash_ s.1
  \/ depthStateHash_ (resolveDepthState s).1 = newDepthStateHash s.1.
Proof.
  unfold resolveDepthState.
  destruct (depthStateDirty_ s.1); [|by left].
  destruct (negb _ || _); [right|left]; reflexivity.
Qed.

Lemma resolveDepthState_synced s :
  depthStateHash_ s.1 = newDepthStateHash s.1 ->
  depthStateHash_ (resolveDepthState s).1 = depthStateHash_ s.1.
Proof. intros Hs. destruct (resolveDepthState_hash s); congruence. Qed.

(** A dirty stencil reference value makes [resolveDepthState] ask for a
    lookup whatever the hash. *)
Lemma resolveDepthState_forced s :
  depthStateDirty_ s.1 = true -> stencilRefDirty_ s.1 = true ->
  (resolveDepthState s).2 = true.
Proof.
  intros Hd Hr. unfold resolveDepthState. rewrite Hd, Hr, orb_true_r. reflexivity.
Qed.

Lemma resolveRasterizerState_keeps s :
  s.2 = true -> (resolveRasterizerState s).2 = true.
Proof.
  intros Hs. unfold resolveRasterizerState.
  destruct (rasterizerStateDirty_ s.1); [|done].
  by destruct (negb _).
Qed.

Lemma cacheView_depthStateHash g g' :
  cacheView g = cacheView g' -> depthStateHash_ g = depthStateHash_ g'.
Proof. unfold cacheView. congruence. Qed.
#[local] Hint Resolve cacheView_depthStateHash : frame.

Lemma resolveRasterizerState_depthStateHash s :
  depthStateHash_ (resolveRasterizerState s).1 = depthStateHash_ s.1.
Proof. frame resolveRasterizerState. Qed.

Lemma buildPipelineState_depthStateHash g :
  depthStateHash_ (buildPipelineState g).2 = depthStateHash_ g.
Proof. frame buildPipelineState. Qed.
#[local] Hint Resolve buildPipelineState_depthStateHash : frame.

Lemma adoptPipelineState_depthStateHash ps g :
  depthStateHash_ (adoptPipelineState ps g).1 = depthStateHash_ g.
Proof. frame adoptPipelineState. Qed.
#[local] Hint Resolve adoptPipelineState_depthStateHash : frame.

Lemma resolvePipelineState_depthStateHash g :
  depthStateHash_ (resolvePipelineState g).1 = depthStateHash_ g.
Proof. frame resolvePipelineState. Qed.

Lemma depthView_eq g h :
  depthView g = depthView h ->
  depthStateDirty_ g = depthStateDirty_ h /\ stencilRefDirty_ g = stencilRefDirty_ h
  /\ depthStateHash_ g = depthStateHash_ h /\ newDepthStateHash g = newDepthStateHash h.
Proof.
  unfold depthView. intros H.
  assert (Hi : depthInputs g = depthInputs h) by congruence.
  repeat split; [congruence..|by apply newDepthStateHash_inputs].
Qed.

(** The state in which [resolveDepthState] runs agrees with the one
    [resolveStateHashes] starts from on what [resolveDepthState] reads. *)
Lemma resolveStateHashes_before_depth g b :
  depthView (resolveBlendState (resolvePrimitiveType (resolveVertexDeclaration (g, b)))).1
  = depthView g.
Proof.
  by rewrite resolveBlendState_depth, resolvePrimitiveType_depth,
    resolveVertexDeclaration_depth.
Qed.

Lemma resolveStateHashes_forced g :
  depthStateDirty_ g = true -> stencilRefDirty_ g = true ->
  (resolveStateHashes g).2 = true.
Proof.
  intros Hd Hr. cbv beta zeta delta [resolveStateHashes]. cbn [snd].
  destruct (depthView_eq _ _ (resolveStateHashes_before_depth g
              (vertexShaderDirty_ g || pixelShaderDirty_ g))) as (Hd' & Hr' & _).
  apply resolveRasterizerState_keeps, resolveDepthState_forced; congruence.
Qed.

Lemma resolveStateHashes_depthStateHash g :
  depthStateHash_ g = newDepthStateHash g ->
  depthStateHash_ (resolveStateHashes g).1 = depthStateHash_ g.
Proof.
  intros Hs. cbv beta zeta delta [resolveStateHashes]. record_simpl.
  destruct (depthView_eq _ _ (resolveStateHashes_before_depth g
              (vertexShaderDirty_ g || pixelShaderDirty_ g))) as (_ & _ & Hh & Hn).
  rewrite resolveRasterizerState_depthStateHash.
  rewrite resolveDepthState_synced; congruence.
Qed.

Lemma resolvePipeline_depthStateHash g :
  depthStateHash_ g = newDepthStateHash g ->
  depthStateHash_ (resolvePipeline g).1 = depthStateHash_ g.
Proof.
  intros Hs. pose proof (resolveStateHashes_depthStateHash g Hs) as H.
  cbv beta delta [resolvePipeline]. destruct (anyStateDirty g); [|done].
  cbv zeta. destruct (resolveStateHashes g) as [g' b]. cbn [fst snd] in *.
  destruct b; [|done]. by rewrite resolvePipelineState_depthStateHash.
Qed.

Lemma commitDraw_cache s : cacheView (commitDraw s) = cacheView s.1.
Proof. frame commitDraw. Qed.

(** A depth-state hash that agrees with its packed inputs is left alone by
    [PrepareDraw]. *)
Lemma PrepareDraw_depthStateHash g :
  depthStateHash_ g = newDepthStateHash g ->
  depthStateHash_ (PrepareDraw g) = depthStateHash_ g.
Proof.
  intros Hs. unfold PrepareDraw.
  set (g2 := if renderTargetsDirty_ g then resolveRenderTargets g else g).
  assert (Hv : depthView g2 = depthView g).
  { subst g2. destruct (renderTargetsDirty_ g); [apply resolveRenderTargets_depth|done]. }
  destruct (depthView_eq _ _ Hv) as (_ & _ & Hh & Hn).
  destruct (_ || _); [done|].
  rewrite (cacheView_depthStateHash _ _ (commitDraw_cache _)).
  rewrite resolvePipeline_depthStateHash; congruence.
Qed.

(** A [let]-bound state whose update is guarded by a comparison that came
    out equal is the state before. *)
Ltac let_skip :=
  lazymatch goal with
  | |- (let x := (if negb true then _ else ?g) in @?B x) = ?R =>
      change (B g = R); cbv beta
  end.

Lemma SetStencilTest_ref_only g stencilRef :
  stencilTest_ g = true -> stencilRef <> stencilRef_ g ->
  SetStencilTest true (stencilTestMode_ g) (stencilPass_ g) (stencilFail_ g)
    (stencilZFail_ g) stencilRef (stencilCompareMask_ g) (stencilWriteMask_ g) g
  = g <| stencilRef_ := stencilRef |> <| stencilRefDirty_ := true |>
      <| depthStateDirty_ := true |>.
Proof.
  intros He Hr. cbv beta delta [SetStencilTest]. rewrite He.
  change (eqb true true) with true. let_skip.
  rewrite (bool_decide_eq_true_2 (stencilTestMode_ g = stencilTestMode_ g) eq_refl). let_skip.
  rewrite (bool_decide_eq_true_2 (stencilPass_ g = stencilPass_ g) eq_refl). let_skip.
  rewrite (bool_decide_eq_true_2 (stencilFail_ g = stencilFail_ g) eq_refl). let_skip.
  rewrite (bool_decide_eq_true_2 (stencilZFail_ g = stencilZFail_ g) eq_refl). let_skip.
  rewrite (Z.eqb_refl (stencilCompareMask_ g)). let_skip.
  rewrite (Z.eqb_refl (stencilWriteMask_ g)). let_skip.
  by rewrite (proj2 (Z.eqb_neq _ _) Hr).
Qed.

(** C4.  A [SetStencilTest] call that changes the stencil reference value
    and nothing else leaves the hash of the packed depth-state inputs as it
    was, yet the state diffing of the next [PrepareDraw] reports the
    pipeline state dirty, so that with both shaders bound [PrepareDraw] goes
    through the pipeline lookup; and a recorded depth-state hash that agrees
    with the packed inputs is not changed by [PrepareDraw]. *)
Theorem stencil_ref_forces_lookup (g : Graphics) (stencilRef : Z) :
  stencilTest_ g = true -> stencilRef <> stencilRef_ g ->
  let g1 := SetStencilTest true (stencilTestMode_ g) (stencilPass_ g) (stencilFail_ g)
              (stencilZFail_ g) stencilRef (stencilCompareMask_ g) (stencilWriteMask_ g) g in
  let g2 := if renderTargetsDirty_ g1 then resolveRenderTargets g1 else g1 in
  stencilRef_ g1 = stencilRef
  /\ depthInputs g1 = depthInputs g
  /\ newDepthStateHash g1 = newDepthStateHash g
  /\ (resolveStateHashes g2).2 = true
  /\ (is_Some (vertexShader_ g) -> is_Some (pixelShader_ g) ->
      PrepareDraw g1 = commitDraw (resolvePipelineState (resolveStateHashes g2).1))
  /\ (depthStateHash_ g = newDepthStateHash g ->
      depthStateHash_ (PrepareDraw g1) = depthStateHash_ g).
Proof.
  intros He Hr g1 g2.
  assert (Hg1 : g1 = g <| stencilRef_ := stencilRef |> <| stencilRefDirty_ := true |>
                       <| depthStateDirty_ := true |>)
    by (by apply SetStencilTest_ref_only).
  assert (Hin : depthInputs g1 = depthInputs g) by (by rewrite Hg1).
  assert (Hv : depthView g2 = depthView g1).
  { subst g2. destruct (renderTargetsDirty_ g1); [apply resolveRenderTargets_depth|done]. }
  assert (Hc : cacheView g2 = cacheView g).
  { subst g2. destruct (renderTargetsDirty_ g1).
    - by rewrite resolveRenderTargets_cache, Hg1.
    - by rewrite Hg1. }
  destruct (depthView_eq _ _ Hv) as (Hd & Hrd & _ & _).
  assert (Hd1 : depthStateDirty_ g2 = true) by (by rewrite Hd, Hg1).
  assert (Hr1 : stencilRefDirty_ g2 = true) by (by rewrite Hrd, Hg1).
  pose proof (resolveStateHashes_forced g2 Hd1 Hr1) as Hforced.
  split; [by rewrite Hg1|]. split; [done|].
  split; [by apply newDepthStateHash_inputs|]. split; [done|]. split.
  - intros [v Hvs] [p Hps]. unfold PrepareDraw. fold g1. fold g2.
    assert (vertexShader_ g2 = Some v /\ pixelShader_ g2 = Some p) as [-> ->].
    { unfold cacheView in Hc. injection Hc as _ _ _ _ -> -> _ _ _ _ _ _ _ _ _ _. done. }
    rewrite !bool_decide_eq_false_2 by done. cbn [orb].
    unfold resolvePipeline, anyStateDirty.
    rewrite Hd1, !orb_true_r. cbn [orb]. by rewrite Hforced.
  - intros Hs. rewrite PrepareDraw_depthStateHash.
    + by rewrite Hg1.
    + rewrite (newDepthStateHash_inputs _ _ Hin). by rewrite Hg1.
Qed.


(** ** Texture redirection *)

Lemma at_insert {A} (l : list (option A)) (i : nat) (v : option A) :
  (i < length l)%nat -> at_ (<[i := v]> l) i = v.
Proof. intros Hi. unfold at_. by rewrite list_lookup_insert_eq. Qed.

(** What [SetTexture] records about the texture units besides the textures
    themselves. *)
Definition unitsView (g : Graphics) :=
  (shaderResourceViews_ g, samplers_ g, texturesDirty_ g,
   firstDirtyTexture_ g, lastDirtyTexture_ g).

Lemma deviceCall_textures c g : textures_ (deviceCall c g) = textures_ g.
Proof. frame deviceCall. Qed.
#[local] Hint Resolve deviceCall_textures : frame.

Lemma logError_textures msg g : textures_ (logError msg g) = textures_ g.
Proof. frame logError. Qed.
#[local] Hint Resolve logError_textures : frame.

Lemma updTexture_textures t f g : textures_ (updTexture t f g) = textures_ g.
Proof. frame updTexture. Qed.
#[local] Hint Resolve updTexture_textures : frame.

Lemma UpdateParameters_textures t g : textures_ (UpdateParameters t g) = textures_ g.
Proof. frame UpdateParameters. Qed.
#[local] Hint Resolve UpdateParameters_textures : frame.

Lemma RegenerateLevels_textures t g : textures_ (RegenerateLevels t g) = textures_ g.
Proof. frame RegenerateLevels. Qed.
#[local] Hint Resolve RegenerateLevels_textures : frame.

Lemma deviceCall_units c g : unitsView (deviceCall c g) = unitsView g.
Proof. frame deviceCall. Qed.
#[local] Hint Resolve deviceCall_units : frame.

Lemma logError_units msg g : unitsView (logError msg g) = unitsView g.
Proof. frame logError. Qed.
#[local] Hint Resolve logError_units : frame.

Lemma updTexture_units t f g : unitsView (updTexture t f g) = unitsView g.
Proof. frame updTexture. Qed.
#[local] Hint Resolve updTexture_units : frame.

Lemma UpdateParameters_units t g : unitsView (UpdateParameters t g) = unitsView g.
Proof. frame UpdateParameters. Qed.
#[local] Hint Resolve UpdateParameters_units : frame.

Lemma RegenerateLevels_units t g : unitsView (RegenerateLevels t g) = unitsView g.
Proof. frame RegenerateLevels. Qed.
#[local] Hint Resolve RegenerateLevels_units : frame.

Lemma refreshTexture_units index tex g :
  unitsView (refreshTexture index tex g) = unitsView g.
Proof. frame refreshTexture. Qed.

(** [refreshTexture] leaves the recorded textures alone or nulls the unit of
    a texture it goes on with. *)
Lemma refreshTexture_textures index tex g :
  textures_ (refreshTexture index tex g) = textures_ g
  \/ (is_Some tex /\ textures_ (refreshTexture index tex g) = <[index := None]> (textures_ g)).
Proof.
  unfold refreshTexture. destruct tex as [t|]; [|by left].
  set (g1 := if levelsDirty_ (texture g t) then RegenerateLevels t g else g).
  assert (H1 : textures_ g1 = textures_ g).
  { subst g1. destruct (levelsDirty_ _); [apply RegenerateLevels_textures|done]. }
  cbv zeta. destruct (GetParametersDirty (texture g1 t)); [right|by left].
  split; [done|]. record_simpl. by rewrite UpdateParameters_textures, H1.
Qed.

(** A texture bound as render target 0 is replaced by its backup texture
    before anything is done with it. *)
Lemma SetTexture_bound index t g :
  (index < MAX_TEXTURE_UNITS)%nat -> isBoundRenderTarget t g = true ->
  SetTexture index (Some t) g
  = recordTexture index (backupTexture_ (texture g t))
      (refreshTexture index (backupTexture_ (texture g t)) g).
Proof.
  intros Hi Hb. unfold SetTexture, redirectedTexture.
  rewrite bool_decide_eq_false_2 by lia. by rewrite Hb.
Qed.

Lemma extendDirtyRange_covers first last i :
  (extendDirtyRange first last i).1 <= i <= (extendDirtyRange first last i).2.
Proof.
  unfold extendDirtyRange. destruct (first =? M_MAX_UNSIGNED); cbn [fst snd]; [lia|].
  destruct (Z.ltb_spec i first), (Z.ltb_spec last i); lia.
Qed.

(** ** Idempotent dirty tracking *)

(** Every dirty flag and dirty range of [GraphicsImpl]. *)
Definition dirtyState (g : Graphics) :=
  (renderTargetsDirty_ g, texturesDirty_ g, vertexDeclarationDirty_ g, vertexShaderDirty_ g,
   pixelShaderDirty_ g, blendStateDirty_ g, depthStateDirty_ g, rasterizerStateDirty_ g,
   scissorRectDirty_ g, stencilRefDirty_ g, primitiveTypeDirty_ g,
   firstDirtyTexture_ g, lastDirtyTexture_ g, firstDirtyVB_ g, lastDirtyVB_ g).

Lemma deviceCall_dirty c g : dirtyState (deviceCall c g) = dirtyState g.
Proof. frame deviceCall. Qed.
#[local] Hint Resolve deviceCall_dirty : frame.

Lemma logError_dirty msg g : dirtyState (logError msg g) = dirtyState g.
Proof. frame logError. Qed.
#[local] Hint Resolve logError_dirty : frame.

Lemma updTexture_dirty t f g : dirtyState (updTexture t f g) = dirtyState g.
Proof. frame updTexture. Qed.
#[local] Hint Resolve updTexture_dirty : frame.

Lemma updSurface_dirty s f g : dirtyState (updSurface s f g) = dirtyState g.
Proof. frame updSurface. Qed.
#[local] Hint Resolve updSurface_dirty : frame.

Lemma updShader_dirty v f g : dirtyState (updShader v f g) = dirtyState g.
Proof. frame updShader. Qed.
#[local] Hint Resolve updShader_dirty : frame.

Lemma updConstantBuffer_dirty b f g : dirtyState (updConstantBuffer b f g) = dirtyState g.
Proof. frame updConstantBuffer. Qed.
#[local] Hint Resolve updConstantBuffer_dirty : frame.

Lemma UpdateParameters_dirty t g : dirtyState (UpdateParameters t g) = dirtyState g.
Proof. frame UpdateParameters. Qed.
#[local] Hint Resolve UpdateParameters_dirty : frame.

Lemma RegenerateLevels_dirty t g : dirtyState (RegenerateLevels t g) = dirtyState g.
Proof. frame RegenerateLevels. Qed.
#[local] Hint Resolve RegenerateLevels_dirty : frame.

Lemma ResolveToTexture2D_dirty t g : dirtyState (ResolveToTexture2D t g) = dirtyState g.
Proof. frame ResolveToTexture2D. Qed.
#[local] Hint Resolve ResolveToTexture2D_dirty : frame.

Lemma ResolveToTextureCube_dirty t g : dirtyState (ResolveToTextureCube t g) = dirtyState g.
Proof. frame ResolveToTextureCube. Qed.
#[local] Hint Resolve ResolveToTextureCube_dirty : frame.

Lemma resolveMultisampled_dirty t g : dirtyState (resolveMultisampled t g) = dirtyState g.
Proof. frame resolveMultisampled. Qed.
#[local] Hint Resolve resolveMultisampled_dirty : frame.

Lemma refreshTexture_dirty index tex g : dirtyState (refreshTexture index tex g) = dirtyState g.
Proof. frame refreshTexture. Qed.
#[local] Hint Resolve refreshTexture_dirty : frame.

Lemma ConstantBuffer_SetSize_dirty b size g : dirtyState (fst (ConstantBuffer_SetSize b size g)) = dirtyState g.
Proof. frame ConstantBuffer_SetSize. Qed.
#[local] Hint Resolve ConstantBuffer_SetSize_dirty : frame.

Lemma ConstantBuffer_SetParameter_dirty b off data g : dirtyState (ConstantBuffer_SetParameter b off data g) = dirtyState g.
Proof. frame ConstantBuffer_SetParameter. Qed.
#[local] Hint Resolve ConstantBuffer_SetParameter_dirty : frame.

Lemma GetOrCreateConstantBuffer_dirty type index size g : dirtyState (snd (GetOrCreateConstantBuffer type index size g)) = dirtyState g.
Proof. frame GetOrCreateConstantBuffer. Qed.
#[local] Hint Resolve GetOrCreateConstantBuffer_dirty : frame.

Lemma createStageBuffers_dirty type sizes g : dirtyState (snd (createStageBuffers type sizes g)) = dirtyState g.
Proof. frame createStageBuffers. Qed.
#[local] Hint Resolve createStageBuffers_dirty : frame.

Lemma ShaderProgram_new_dirty vs ps g : dirtyState (snd (ShaderProgram_new vs ps g)) = dirtyState g.
Proof. frame ShaderProgram_new. Qed.
#[local] Hint Resolve ShaderProgram_new_dirty : frame.

Lemma SetShaderParameter_dirty param data g : dirtyState (SetShaderParameter param data g) = dirtyState g.
Proof. frame SetShaderParameter. Qed.
#[local] Hint Resolve SetShaderParameter_dirty : frame.


(** Whether the sampler of texture [t] is out of date. *)
Definition samplerState (t : nat) (g : Graphics) :=
  (parametersDirty_ (texture g t), sampler_ (texture g t)).

Lemma samplerState_dirty t g :
  GetParametersDirty (texture g t)
  = (samplerState t g).1 || negb (bool_decide (is_Some (samplerState t g).2)).
Proof. reflexivity. Qed.

Lemma updTexture_sampler t t0 f g :
  (forall x, (parametersDirty_ (f x), sampler_ (f x)) = (parametersDirty_ x, sampler_ x)) ->
  samplerState t (updTexture t0 f g) = samplerState t g.
Proof.
  intros Hf. unfold samplerState, updTexture, texture. record_simpl.
  destruct (decide (t = t0)) as [->|Hne].
  - rewrite lookup_total_insert_eq. apply Hf.
  - by rewrite lookup_total_insert_ne.
Qed.
#[local] Hint Resolve updTexture_sampler : frame.
#[local] Hint Extern 1 (forall x : Texture, (parametersDirty_ _, sampler_ _) = _) =>
  intros; reflexivity : frame.

Lemma deviceCall_sampler t c g : samplerState t (deviceCall c g) = samplerState t g.
Proof. frame deviceCall. Qed.
#[local] Hint Resolve deviceCall_sampler : frame.

Lemma updSurface_sampler t s f g : samplerState t (updSurface s f g) = samplerState t g.
Proof. frame updSurface. Qed.
#[local] Hint Resolve updSurface_sampler : frame.

Lemma RegenerateLevels_sampler t t0 g :
  samplerState t (RegenerateLevels t0 g) = samplerState t g.
Proof. frame RegenerateLevels. Qed.
#[local] Hint Resolve RegenerateLevels_sampler : frame.

Lemma ResolveToTexture2D_sampler t t0 g :
  samplerState t (ResolveToTexture2D t0 g) = samplerState t g.
Proof. frame ResolveToTexture2D. Qed.
#[local] Hint Resolve ResolveToTexture2D_sampler : frame.

Lemma ResolveToTextureCube_sampler t t0 g :
  samplerState t (ResolveToTextureCube t0 g) = samplerState t g.
Proof. frame ResolveToTextureCube. Qed.
#[local] Hint Resolve ResolveToTextureCube_sampler : frame.

Lemma resolveMultisampled_sampler t t0 g :
  samplerState t (resolveMultisampled t0 g) = samplerState t g.
Proof. frame resolveMultisampled. Qed.
#[local] Hint Resolve resolveMultisampled_sampler : frame.

Lemma updSurface_textures s f g : textures_ (updSurface s f g) = textures_ g.
Proof. frame updSurface. Qed.
#[local] Hint Resolve updSurface_textures : frame.

Lemma ResolveToTexture2D_textures t g : textures_ (ResolveToTexture2D t g) = textures_ g.
Proof. frame ResolveToTexture2D. Qed.
#[local] Hint Resolve ResolveToTexture2D_textures : frame.

Lemma ResolveToTextureCube_textures t g : textures_ (ResolveToTextureCube t g) = textures_ g.
Proof. frame ResolveToTextureCube. Qed.
#[local] Hint Resolve ResolveToTextureCube_textures : frame.

Lemma resolveMultisampled_textures t g : textures_ (resolveMultisampled t g) = textures_ g.
Proof. frame resolveMultisampled. Qed.
#[local] Hint Resolve resolveMultisampled_textures : frame.

(** *** Calls that set the recorded value *)

(** [SetScissorTest] arrives at the recorded enable flag and, with the test
    on, at the recorded rectangle. *)
Definition storesCurrentScissor (enable : bool) (intRect : option IntRect) (g : Graphics) : Prop :=
  scissorEnabled enable intRect = scissorTest_ g
  /\ (scissorEnabled enable intRect = true ->
      forall r, intRect = Some r -> fixedScissorRect r = scissorRect_ g).

(** The call [c] asks for what the state [g] records already.  Object
    references are compared after the substitutions the setter makes: the
    backup texture of a bound render target, the render surface of a
    texture, the clip-plane variation of a shader.  For a texture unit this
    asks in addition that the sampler of the texture is up to date. *)
Definition setsCurrent (c : Call) (g : Graphics) : Prop :=
  match c with
  | CSetBlendMode mode alphaToCoverage =>
      mode = blendMode_ g /\ alphaToCoverage = alphaToCoverage_ g
  | CSetColorWrite enable => enable = colorWrite_ g
  | CSetCullMode mode => mode = cullMode_ g
  | CSetDepthBias constantBias slopeScaledBias =>
      float_ne constantBias (constantDepthBias_ g) = false
      /\ float_ne slopeScaledBias (slopeScaledDepthBias_ g) = false
  | CSetDepthTest mode => mode = depthTestMode_ g
  | CSetDepthWrite enable => enable = depthWrite_ g
  | CSetFillMode mode => mode = fillMode_ g
  | CSetLineAntiAlias enable => enable = lineAntiAlias_ g
  | CSetScissorTest enable rect borderInclusive =>
      let enable := if coversViewport rect then false else enable in
      storesCurrentScissor enable
        (if enable then Some (scissorPixels rect borderInclusive g) else None) g
  | CSetScissorTestInt enable rect =>
      storesCurrentScissor enable
        (if enable then Some (scissorPixelsInt rect g) else None) g
  | CSetStencilTest enable mode pass fail zFail stencilRef compareMask writeMask =>
      enable = stencilTest_ g
      /\ (enable = true ->
          mode = stencilTestMode_ g /\ pass = stencilPass_ g /\ fail = stencilFail_ g
          /\ zFail = stencilZFail_ g /\ stencilRef = stencilRef_ g
          /\ compareMask = stencilCompareMask_ g /\ writeMask = stencilWriteMask_ g)
  | CSetTexture index tex =>
      redirectedTexture tex g = at_ (textures_ g) index
      /\ (forall t, redirectedTexture tex g = Some t -> GetParametersDirty (texture g t) = false)
  | CSetVertexBuffers buffers instanceOffset =>
      (length buffers <= MAX_VERTEX_STREAMS)%nat
      /\ (forall i, (i < MAX_VERTEX_STREAMS)%nat ->
                    streamChanged buffers instanceOffset g i = false)
  | CSetIndexBuffer buffer => buffer = indexBuffer_ g
  | CSetRenderTarget index renderTarget => renderTarget = at_ (renderTargets_ g) index
  | CSetRenderTargetTexture index tex =>
      tex ≫= (λ t, renderSurface_ (texture g t)) = at_ (renderTargets_ g) index
  | CSetDepthStencil depthStencil => depthStencil = depthStencil_ g
  | CSetShaders vs ps =>
      (if useClipPlane_ g then vs ≫= (λ v, sv_clipPlaneVariation (shader g v)) else vs)
        = vertexShader_ g
      /\ (if useClipPlane_ g then ps ≫= (λ p, sv_clipPlaneVariation (shader g p)) else ps)
        = pixelShader_ g
  | _ => False
  end.

(** Move the outermost [let] of the state expression into the context. *)
Ltac let_in x :=
  lazymatch goal with
  | |- ?view (let y := ?A in @?B y) = ?V =>
      pose (x := A); change (view (B x) = V); cbv beta
  | |- (let y := ?A in @?B y) = ?V =>
      pose (x := A); change (B x = V); cbv beta
  end.

Lemma storeScissor_current enable intRect g :
  storesCurrentScissor enable intRect g -> storeScissor enable intRect g = g.
Proof.
  intros [He Hr]. cbv beta delta [storeScissor].
  let_in e. let_in g1.
  assert (Hg1 : g1 = g).
  { subst g1. destruct intRect as [r|]; [|done].
    destruct e eqn:Ee; [|done].
    by rewrite (bool_decide_eq_true_2 _ (Hr Ee r eq_refl)). }
  clearbody g1. subst g1. subst e. by rewrite He, Bool.eqb_reflx.
Qed.

Lemma SetStencilTest_current enable mode pass fail zFail stencilRef compareMask writeMask g :
  setsCurrent (CSetStencilTest enable mode pass fail zFail stencilRef compareMask writeMask) g ->
  SetStencilTest enable mode pass fail zFail stencilRef compareMask writeMask g = g.
Proof.
  intros [-> Hf]. cbv beta delta [SetStencilTest].
  rewrite Bool.eqb_reflx. let_skip.
  destruct (stencilTest_ g); [|done].
  destruct (Hf eq_refl) as (-> & -> & -> & -> & -> & -> & ->).
  rewrite (bool_decide_eq_true_2 (stencilTestMode_ g = stencilTestMode_ g) eq_refl). let_skip.
  rewrite (bool_decide_eq_true_2 (stencilPass_ g = stencilPass_ g) eq_refl). let_skip.
  rewrite (bool_decide_eq_true_2 (stencilFail_ g = stencilFail_ g) eq_refl). let_skip.
  rewrite (bool_decide_eq_true_2 (stencilZFail_ g = stencilZFail_ g) eq_refl). let_skip.
  rewrite (Z.eqb_refl (stencilCompareMask_ g)). let_skip.
  rewrite (Z.eqb_refl (stencilWriteMask_ g)). let_skip.
  by rewrite Z.eqb_refl.
Qed.

(** With an up-to-date sampler [refreshTexture] does not null the unit. *)
Lemma refreshTexture_clean index tex g :
  (forall t, tex = Some t -> GetParametersDirty (texture g t) = false) ->
  textures_ (refreshTexture index tex g) = textures_ g.
Proof.
  intros Hclean. cbv beta delta [refreshTexture]. destruct tex as [t|]; [|done].
  let_in g1.
  assert (Ht : textures_ g1 = textures_ g).
  { subst g1. destruct (levelsDirty_ _); [apply RegenerateLevels_textures|done]. }
  assert (Hs : samplerState t g1 = samplerState t g).
  { subst g1. destruct (levelsDirty_ _); [apply RegenerateLevels_sampler|done]. }
  rewrite samplerState_dirty, Hs, <- samplerState_dirty, (Hclean t eq_refl). done.
Qed.

Lemma SetTexture_current index tex g :
  setsCurrent (CSetTexture index tex) g ->
  dirtyState (SetTexture index tex g) = dirtyState g.
Proof.
  intros [Hrec Hclean]. cbv beta delta [SetTexture].
  destruct (bool_decide _); [done|].
  let_in texture'. let_in g1.
  assert (Hd : dirtyState g1 = dirtyState g).
  { subst g1. destruct tex; [|done].
    destruct (isBoundRenderTarget _ _); [done|apply resolveMultisampled_dirty]. }
  assert (Ht : textures_ g1 = textures_ g).
  { subst g1. destruct tex; [|done].
    destruct (isBoundRenderTarget _ _); [done|apply resolveMultisampled_textures]. }
  assert (Hs : forall t, samplerState t g1 = samplerState t g).
  { intros t. subst g1. destruct tex; [|done].
    destruct (isBoundRenderTarget _ _); [done|apply resolveMultisampled_sampler]. }
  clearbody g1.
  assert (Hr : textures_ (refreshTexture index texture' g1) = textures_ g).
  { rewrite refreshTexture_clean; [done|].
    intros t Ht'. rewrite samplerState_dirty, Hs, <- samplerState_dirty. by apply Hclean. }
  unfold recordTexture. rewrite Hr, (bool_decide_eq_true_2 _ Hrec). cbn [negb].
  by rewrite refreshTexture_dirty.
Qed.

Lemma SetVertexBuffers_current buffers instanceOffset g :
  setsCurrent (CSetVertexBuffers buffers instanceOffset) g ->
  (SetVertexBuffers buffers instanceOffset g).1 = g.
Proof.
  intros [Hlen Hcur]. unfold SetVertexBuffers.
  rewrite bool_decide_eq_false_2 by lia. cbn [fst].
  assert (Hl : forall i, i ∈ seq 0 MAX_VERTEX_STREAMS -> (i < MAX_VERTEX_STREAMS)%nat).
  { intros i Hi. apply elem_of_seq in Hi. lia. }
  induction (seq 0 MAX_VERTEX_STREAMS) as [|i l IH]; [done|].
  cbn [foldl]. unfold SetVertexBuffers_stream at 2.
  rewrite Hcur by (apply Hl; left).
  apply IH. intros j Hj. apply Hl. by right.
Qed.

Lemma SetShaders_current vs ps g :
  setsCurrent (CSetShaders vs ps) g ->
  dirtyState (SetShaders vs ps g) = dirtyState g.
Proof.
  intros [Hvs Hps]. cbv beta delta [SetShaders].
  let_in vs'. let_in ps'. let_in g1.
  assert (Hg1 : g1 = g).
  { subst g1 vs'. unfold setVertexShader. by rewrite (bool_decide_eq_true_2 _ Hvs). }
  clearbody g1. subst g1. let_in g2.
  assert (Hg2 : g2 = g).
  { subst g2 ps'. unfold setPixelShader. by rewrite (bool_decide_eq_true_2 _ Hps). }
  clearbody g2. subst g2. let_in g3.
  assert (Hd : dirtyState g3 = dirtyState g).
  { subst g3. cbv beta delta [selectShaderProgram]. frame_rec dirtyState. }
  clearbody g3. destruct (useClipPlane_ g3); [|done].
  by rewrite SetShaderParameter_dirty.
Qed.



(** ** Flushing the constant buffers *)

(** The constant buffers and the list of those to apply. *)
Definition bufferView (g : Graphics) := (dirtyConstantBuffers_ g, constantBufferObjects g).

Lemma deviceCall_buffers c g : bufferView (deviceCall c g) = bufferView g.
Proof. frame deviceCall. Qed.
#[local] Hint Resolve deviceCall_buffers : frame.

Lemma logError_buffers msg g : bufferView (logError msg g) = bufferView g.
Proof. frame logError. Qed.
#[local] Hint Resolve logError_buffers : frame.

Lemma storeScissor_buffers enable r g : bufferView (storeScissor enable r g) = bufferView g.
Proof. frame storeScissor. Qed.
#[local] Hint Resolve storeScissor_buffers : frame.

Lemma SetScissorTest_buffers enable rect b g :
  bufferView (SetScissorTest enable rect b g) = bufferView g.
Proof. frame SetScissorTest. Qed.
#[local] Hint Resolve SetScissorTest_buffers : frame.

Lemma SetViewport_buffers rect g : bufferView (SetViewport rect g) = bufferView g.
Proof. frame SetViewport. Qed.
#[local] Hint Resolve SetViewport_buffers : frame.

Lemma resolveRenderTargets_buffers g : bufferView (resolveRenderTargets g) = bufferView g.
Proof. frame resolveRenderTargets. Qed.
#[local] Hint Resolve resolveRenderTargets_buffers : frame.

Lemma resolveVertexDeclaration_buffers s :
  bufferView ((resolveVertexDeclaration s).1) = bufferView s.1.
Proof. frame resolveVertexDeclaration. Qed.
#[local] Hint Resolve resolveVertexDeclaration_buffers : frame.

Lemma resolvePrimitiveType_buffers s : bufferView ((resolvePrimitiveType s).1) = bufferView s.1.
Proof. frame resolvePrimitiveType. Qed.
#[local] Hint Resolve resolvePrimitiveType_buffers : frame.

Lemma resolveBlendState_buffers s : bufferView ((resolveBlendState s).1) = bufferView s.1.
Proof. frame resolveBlendState. Qed.
#[local] Hint Resolve resolveBlendState_buffers : frame.

Lemma resolveDepthState_buffers s : bufferView ((resolveDepthState s).1) = bufferView s.1.
Proof. frame resolveDepthState. Qed.
#[local] Hint Resolve resolveDepthState_buffers : frame.

Lemma resolveRasterizerState_buffers s :
  bufferView ((resolveRasterizerState s).1) = bufferView s.1.
Proof. frame resolveRasterizerState. Qed.
#[local] Hint Resolve resolveRasterizerState_buffers : frame.

Lemma resolveStateHashes_buffers g : bufferView ((resolveStateHashes g).1) = bufferView g.
Proof. frame resolveStateHashes. Qed.
#[local] Hint Resolve resolveStateHashes_buffers : frame.

Lemma bindStageBuffers_buffers type v buffers g :
  bufferView (bindStageBuffers type v buffers g) = bufferView g.
Proof. frame bindStageBuffers. Qed.
#[local] Hint Resolve bindStageBuffers_buffers : frame.

Lemma buildPipelineState_buffers g : bufferView ((buildPipelineState g).2) = bufferView g.
Proof. frame buildPipelineState. Qed.
#[local] Hint Resolve buildPipelineState_buffers : frame.

Lemma adoptPipelineState_buffers ps g :
  bufferView (adoptPipelineState ps g).1 = bufferView g.
Proof. frame adoptPipelineState. Qed.
#[local] Hint Resolve adoptPipelineState_buffers : frame.

Lemma resolvePipelineState_buffers g : bufferView ((resolvePipelineState g).1) = bufferView g.
Proof. frame resolvePipelineState. Qed.
#[local] Hint Resolve resolvePipelineState_buffers : frame.

Lemma resolvePipeline_buffers g : bufferView ((resolvePipeline g).1) = bufferView g.
Proof. frame resolvePipeline. Qed.
#[local] Hint Resolve resolvePipeline_buffers : frame.

Lemma commitTextures_buffers changed g : bufferView (commitTextures changed g) = bufferView g.
Proof. frame commitTextures. Qed.
#[local] Hint Resolve commitTextures_buffers : frame.

Lemma bindDraw_buffers s : bufferView (bindDraw s) = bufferView s.1.
Proof. frame bindDraw. Qed.
#[local] Hint Resolve bindDraw_buffers : frame.


Lemma constantBuffer_upd b b' f g :
  constantBuffer (updConstantBuffer b f g) b'
  = if decide (b' = b) then f (constantBuffer g b) else constantBuffer g b'.
Proof.
  unfold constantBuffer, updConstantBuffer. record_simpl.
  destruct (decide (b' = b)) as [->|Hne].
  - by rewrite lookup_total_insert_eq.
  - by rewrite lookup_total_insert_ne.
Qed.

(** What [ConstantBuffer::Apply] sends to the device for a dirty buffer. *)
Definition uploadCalls (buffer : nat) (mapped : bool) (data : list Z) : list DeviceCall :=
  DevMapBuffer buffer mapped
  :: (if mapped then [DevCopyToMapped buffer data; DevUnmapBuffer buffer] else []).

(** [g'] has the constant buffers of [g], some of them no longer dirty. *)
Definition buffersApplied (g g' : Graphics) : Prop :=
  forall b,
    cb_object_ (constantBuffer g' b) = cb_object_ (constantBuffer g b)
    /\ shadowData_ (constantBuffer g' b) = shadowData_ (constantBuffer g b)
    /\ (dirty_ (constantBuffer g' b) = true -> dirty_ (constantBuffer g b) = true).

Lemma buffersApplied_refl g : buffersApplied g g.
Proof. by intros b. Qed.

Lemma buffersApplied_trans g1 g2 g3 :
  buffersApplied g1 g2 -> buffersApplied g2 g3 -> buffersApplied g1 g3.
Proof.
  intros H12 H23 b. destruct (H12 b) as (Ho & Hs & Hd), (H23 b) as (Ho' & Hs' & Hd').
  repeat split; [congruence..|auto].
Qed.

Lemma ConstantBuffer_Apply_effect b g :
  exists calls,
    deviceTrace (ConstantBuffer_Apply b g) = deviceTrace g ++ calls
    /\ buffersApplied g (ConstantBuffer_Apply b g)
    /\ dirtyConstantBuffers_ (ConstantBuffer_Apply b g) = dirtyConstantBuffers_ g
    /\ (forall buffer, cb_object_ (constantBuffer g b) = Some buffer ->
        dirty_ (constantBuffer (ConstantBuffer_Apply b g) b) = false
        /\ (dirty_ (constantBuffer g b) = true ->
            calls = uploadCalls buffer (deviceAnswer g) (shadowData_ (constantBuffer g b)))).
Proof.
  unfold ConstantBuffer_Apply.
  destruct (cb_object_ (constantBuffer g b)) as [buffer|] eqn:Ho.
  2: { exists []. rewrite app_nil_r. split; [done|]. split; [apply buffersApplied_refl|].
       split; [done|]. intros ? [=]. }
  destruct (dirty_ (constantBuffer g b)) eqn:Hd.
  2: { exists []. rewrite app_nil_r. split; [done|]. split; [apply buffersApplied_refl|].
       split; [done|]. intros ? [= <-]. by rewrite Hd. }
  exists (uploadCalls buffer (deviceAnswer g) (shadowData_ (constantBuffer g b))).
  cbv zeta. unfold uploadCalls.
  split; [|split; [|split]].
  - destruct (deviceAnswer g); unfold updConstantBuffer, deviceCall; record_simpl;
      by rewrite <- ?app_assoc.
  - intros b'. rewrite constantBuffer_upd.
    destruct (decide (b' = b)) as [->|Hne]; destruct (deviceAnswer g);
      unfold constantBuffer, deviceCall; record_simpl; fold (constantBuffer g b);
      rewrite ?Ho, ?Hd; done.
  - by destruct (deviceAnswer g).
  - intros ? [= <-]. rewrite constantBuffer_upd, decide_True by done. done.
Qed.

(** The loop of [flushConstantBuffers]. *)
Lemma flush_loop_effect (l : list nat) (g : Graphics) :
  let g' := foldl (fun g b => ConstantBuffer_Apply b g) g l in
  exists uploads,
    deviceTrace g' = deviceTrace g ++ uploads
    /\ buffersApplied g g'
    /\ dirtyConstantBuffers_ g' = dirtyConstantBuffers_ g
    /\ (forall b buffer,
          b ∈ l -> cb_object_ (constantBuffer g b) = Some buffer ->
          dirty_ (constantBuffer g' b) = false
          /\ (dirty_ (constantBuffer g b) = true ->
              exists pre post,
                uploads = pre ++ uploadCalls buffer
                                   (deviceSucceeds (length (deviceTrace g ++ pre)))
                                   (shadowData_ (constantBuffer g b))
                            ++ post)).
Proof.
  revert g. induction l as [|b0 l IH]; intros g; cbn [foldl].
  { exists []. rewrite app_nil_r. split; [done|]. split; [apply buffersApplied_refl|].
    split; [done|]. intros b buffer Hb. by apply elem_of_nil in Hb. }
  destruct (ConstantBuffer_Apply_effect b0 g) as (calls & Ht0 & Ha0 & Hl0 & Hb0).
  destruct (IH (ConstantBuffer_Apply b0 g)) as (uploads & Ht & Ha & Hl & Hb).
  exists (calls ++ uploads).
  split; [by rewrite Ht, Ht0, app_assoc|].
  split; [by eapply buffersApplied_trans|].
  split; [congruence|].
  intros b buffer Hin Ho.
  destruct (decide (b = b0)) as [->|Hne].
  - destruct (Hb0 buffer Ho) as [Hclean Hcalls]. split.
    + destruct (dirty_ (constantBuffer (foldl _ _ l) b0)) eqn:Hd; [|done].
      apply (Ha b0) in Hd. congruence.
    + intros Hd. exists [], uploads. by rewrite (Hcalls Hd), app_nil_r.
  - apply elem_of_cons in Hin as [?|Hin]; [done|].
    destruct (Ha0 b) as (Ho1 & Hs1 & Hd1).
    destruct (Hb b buffer Hin) as [Hclean Hup]; [congruence|].
    split; [done|]. intros Hd.
    assert (Hsame : constantBuffer (ConstantBuffer_Apply b0 g) b = constantBuffer g b).
    { unfold ConstantBuffer_Apply.
      destruct (cb_object_ (constantBuffer g b0)); [|done].
      destruct (dirty_ (constantBuffer g b0)); [|done].
      cbv zeta. rewrite constantBuffer_upd, decide_False by done.
      by destruct (deviceAnswer g). }
    destruct Hup as (pre & post & ->); [by rewrite Hsame|].
    exists (calls ++ pre), post. by rewrite Hsame, Ht0, <- !app_assoc.
Qed.

(** A buffer without GPU object is not applied. *)
Lemma flush_loop_without_object (l : list nat) (g : Graphics) (b : nat) :
  cb_object_ (constantBuffer g b) = None ->
  constantBuffer (foldl (fun g b => ConstantBuffer_Apply b g) g l) b = constantBuffer g b.
Proof.
  revert g. induction l as [|b0 l IH]; intros g Ho; cbn [foldl]; [done|].
  assert (Hsame : constantBuffer (ConstantBuffer_Apply b0 g) b = constantBuffer g b).
  { unfold ConstantBuffer_Apply.
    destruct (cb_object_ (constantBuffer g b0)) eqn:Ho0; [|done].
    destruct (dirty_ (constantBuffer g b0)); [|done].
    cbv zeta. rewrite constantBuffer_upd.
    destruct (decide (b = b0)) as [->|Hne]; [congruence|].
    by destruct (deviceAnswer g). }
  rewrite IH by (by rewrite Hsame). exact Hsame.
Qed.

(** A parameter write through [SetShaderParameter] stores the data in the
    shadow copy of the buffer of the parameter, marks the buffer dirty and,
    unless it was dirty already, puts it on the list. *)
Lemma SetShaderParameter_marks param data g p sp b :
  shaderProgram_ g = Some p ->
  parameters_ (program g p) !! param = Some sp ->
  sp_bufferPtr_ sp = Some b ->
  dirty_ (constantBuffer (SetShaderParameter param data g) b) = true
  /\ shadowData_ (constantBuffer (SetShaderParameter param data g) b)
     = list_inserts (sp_offset_ sp) data (shadowData_ (constantBuffer g b))
  /\ (dirty_ (constantBuffer g b) = false ->
      b ∈ dirtyConstantBuffers_ (SetShaderParameter param data g))
  /\ (forall b', b' ∈ dirtyConstantBuffers_ g ->
                 b' ∈ dirtyConstantBuffers_ (SetShaderParameter param data g)).
Proof.
  intros Hp Hsp Hb. unfold SetShaderParameter. rewrite Hp, Hsp, Hb. cbv zeta.
  set (g1 := if negb (dirty_ (constantBuffer g b)) then _ else g).
  assert (Hc : constantBuffer g1 b = constantBuffer g b)
    by (subst g1; by destruct (negb _)).
  assert (Hl : forall b', b' ∈ dirtyConstantBuffers_ g -> b' ∈ dirtyConstantBuffers_ g1).
  { subst g1. destruct (negb _); [|done]. record_simpl. intros b' Hin.
    apply elem_of_app. by left. }
  assert (Hin : dirty_ (constantBuffer g b) = false -> b ∈ dirtyConstantBuffers_ g1).
  { intros Hd. subst g1. rewrite Hd. cbn [negb]. record_simpl.
    apply elem_of_app. right. by apply list_elem_of_singleton. }
  clearbody g1. unfold ConstantBuffer_SetParameter.
  rewrite constantBuffer_upd, decide_True by done. rewrite Hc.
  split; [done|]. split; [done|]. split; [exact Hin|exact Hl].
Qed.

(** With both shaders bound [PrepareDraw] ends with the flush, and nothing
    before the flush touches the constant buffers or their list. *)
Lemma PrepareDraw_ends_with_flush g :
  is_Some (vertexShader_ g) -> is_Some (pixelShader_ g) ->
  exists before,
    PrepareDraw g = flushConstantBuffers before /\ bufferView before = bufferView g.
Proof.
  intros [v Hv] [p Hp]. unfold PrepareDraw.
  set (g1 := if renderTargetsDirty_ g then resolveRenderTargets g else g).
  assert (Hc : cacheView g1 = cacheView g).
  { subst g1. destruct (renderTargetsDirty_ g); [apply resolveRenderTargets_cache|done]. }
  assert (Hb : bufferView g1 = bufferView g).
  { subst g1. destruct (renderTargetsDirty_ g); [apply resolveRenderTargets_buffers|done]. }
  clearbody g1.
  assert (vertexShader_ g1 = Some v /\ pixelShader_ g1 = Some p) as [-> ->].
  { unfold cacheView in Hc. injection Hc as _ _ _ _ -> -> _ _ _ _ _ _ _ _ _ _. done. }
  rewrite !bool_decide_eq_false_2 by done. cbn [orb].
  exists (bindDraw (resolvePipeline g1)). split; [done|].
  by rewrite bindDraw_buffers, resolvePipeline_buffers.
Qed.

(** C5, as the code has it.  With both shaders bound, [PrepareDraw] ends
    by applying every listed constant buffer, and the list is empty
    afterwards.  A listed buffer that has a device object is no longer
    dirty afterwards, and if it was dirty it has been mapped; its shadow
    data has been copied and unmapped if the device mapped it, and nothing
    has been copied if the mapping failed.  A listed buffer without device
    object is left as it was.  These device calls are the last ones of
    [PrepareDraw], and a draw that prepares from this state issues its
    device call after [PrepareDraw] has returned, leaving the constant
    buffers as [PrepareDraw] left them.  A buffer is listed, dirty and holds
    the written data when the state results from a [SetShaderParameter]
    write to it while it was not dirty. *)
Theorem constant_buffers_flushed_before_draw (g : Graphics) :
  is_Some (vertexShader_ g) -> is_Some (pixelShader_ g) ->
  exists (before : Graphics) (uploads : list DeviceCall),
    PrepareDraw g = flushConstantBuffers before
    /\ bufferView before = bufferView g
    /\ deviceTrace (PrepareDraw g) = deviceTrace before ++ uploads
    /\ dirtyConstantBuffers_ (PrepareDraw g) = []
    /\ buffersApplied g (PrepareDraw g)
    /\ (forall b buffer,
          b ∈ dirtyConstantBuffers_ g ->
          cb_object_ (constantBuffer g b) = Some buffer ->
          dirty_ (constantBuffer (PrepareDraw g) b) = false
          /\ (dirty_ (constantBuffer g b) = true ->
              exists pre post,
                uploads = pre ++ uploadCalls buffer
                                   (deviceSucceeds (length (deviceTrace before ++ pre)))
                                   (shadowData_ (constantBuffer g b))
                            ++ post))
    /\ (forall b,
          cb_object_ (constantBuffer g b) = None ->
          constantBuffer (PrepareDraw g) b = constantBuffer g b)
    /\ (forall type call primitives g0,
          g = SetPrimitiveType
                (if bool_decide (fillMode_ g0 = FILL_POINT) then POINT_LIST else type) g0 ->
          deviceTrace (submitDraw type call primitives g0)
          = deviceTrace (PrepareDraw g) ++ [call]
          /\ bufferView (submitDraw type call primitives g0) = bufferView (PrepareDraw g))
    /\ (forall param data g0 p sp b,
          g = SetShaderParameter param data g0 ->
          shaderProgram_ g0 = Some p ->
          parameters_ (program g0 p) !! param = Some sp ->
          sp_bufferPtr_ sp = Some b ->
          dirty_ (constantBuffer g0 b) = false ->
          b ∈ dirtyConstantBuffers_ g /\ dirty_ (constantBuffer g b) = true
          /\ shadowData_ (constantBuffer g b)
             = list_inserts (sp_offset_ sp) data (shadowData_ (constantBuffer g0 b))).
Proof.
  intros Hv Hp.
  destruct (PrepareDraw_ends_with_flush g Hv Hp) as (before & Hflush & Hview).
  unfold bufferView in Hview. injection Hview as Hlist Hobjs.
  assert (Hcb : forall b, constantBuffer before b = constantBuffer g b)
    by (intros b; unfold constantBuffer; by rewrite Hobjs).
  destruct (flush_loop_effect (dirtyConstantBuffers_ before) before)
    as (uploads & Ht & Ha & _ & Hb).
  exists before, uploads. rewrite Hflush. unfold flushConstantBuffers. record_simpl.
  split; [done|]. split; [unfold bufferView; congruence|]. split; [done|]. split; [done|].
  split; [|split; [|split; [|split]]].
  - intros b. destruct (Ha b) as (Ho & Hs & Hd).
    unfold constantBuffer in *. record_simpl. rewrite <- Hobjs. done.
  - intros b buffer Hin Ho. rewrite <- Hlist in Hin. rewrite <- Hcb in Ho.
    destruct (Hb b buffer Hin Ho) as [Hclean Hup]. rewrite <- Hcb. done.
  - intros b Ho. rewrite <- Hcb in Ho.
    pose proof (flush_loop_without_object (dirtyConstantBuffers_ before) before b Ho) as Hsame.
    unfold constantBuffer in *. record_simpl. by rewrite Hsame, Hobjs.
  - intros type call primitives g0 Hg0.
    unfold submitDraw, deviceCall, bufferView. record_simpl.
    rewrite <- Hg0, Hflush. unfold flushConstantBuffers. by record_simpl.
  - intros param data g0 p sp b -> Hprog Hsp Hbuf Hclean.
    destruct (SetShaderParameter_marks param data g0 p sp b Hprog Hsp Hbuf)
      as (Hd & Hs & Hin & _).
    auto.
Qed.

(** ** The texture units at the next draw *)

(** What [PrepareDraw] sends for one entry of the texture map: the sampler
    is set on the view recorded for the unit and the view is set on the
    shader variable; nothing is sent for a unit without a view. *)
Definition unitUpload (g : Graphics) (e : TextureMapEntry) : list DeviceCall :=
  match at_ (shaderResourceViews_ g) (textureUnit e) with
  | Some view =>
      [DevSetSampler view (at_ (samplers_ g) (textureUnit e)); DevSetVariable (variable e) view]
  | None => []
  end.

(** The entries [PrepareDraw] visits: all of them after a change of the
    pipeline, else those of the units in the dirty range. *)
Definition unitCalls (pipelineStateChanged : bool) (g : Graphics) (e : TextureMapEntry)
    : list DeviceCall :=
  if pipelineStateChanged
     || ((firstDirtyTexture_ g <=? Z.of_nat (textureUnit e))
         && (Z.of_nat (textureUnit e) <=? lastDirtyTexture_ g))
  then unitUpload g e else [].

Lemma unitCalls_view changed g h e :
  unitsView g = unitsView h -> unitCalls changed g e = unitCalls changed h e.
Proof.
  intros Hv. unfold unitCalls, unitUpload.
  rewrite (f_equal (fun v => v.1.1.1.1) Hv : shaderResourceViews_ g = shaderResourceViews_ h).
  rewrite (f_equal (fun v => v.1.1.1.2) Hv : samplers_ g = samplers_ h).
  rewrite (f_equal (fun v => v.1.2) Hv : firstDirtyTexture_ g = firstDirtyTexture_ h).
  by rewrite (f_equal (fun v => v.2) Hv : lastDirtyTexture_ g = lastDirtyTexture_ h).
Qed.

Lemma storeScissor_units enable r g : unitsView (storeScissor enable r g) = unitsView g.
Proof. frame storeScissor. Qed.
#[local] Hint Resolve storeScissor_units : frame.

Lemma SetScissorTest_units enable rect b g :
  unitsView (SetScissorTest enable rect b g) = unitsView g.
Proof. frame SetScissorTest. Qed.
#[local] Hint Resolve SetScissorTest_units : frame.

Lemma SetViewport_units rect g : unitsView (SetViewport rect g) = unitsView g.
Proof. frame SetViewport. Qed.
#[local] Hint Resolve SetViewport_units : frame.

Lemma resolveRenderTargets_units g : unitsView (resolveRenderTargets g) = unitsView g.
Proof. frame resolveRenderTargets. Qed.
#[local] Hint Resolve resolveRenderTargets_units : frame.

Lemma resolveVertexDeclaration_units s :
  unitsView ((resolveVertexDeclaration s).1) = unitsView s.1.
Proof. frame resolveVertexDeclaration. Qed.
#[local] Hint Resolve resolveVertexDeclaration_units : frame.

Lemma resolvePrimitiveType_units s : unitsView ((resolvePrimitiveType s).1) = unitsView s.1.
Proof. frame resolvePrimitiveType. Qed.
#[local] Hint Resolve resolvePrimitiveType_units : frame.

Lemma resolveBlendState_units s : unitsView ((resolveBlendState s).1) = unitsView s.1.
Proof. frame resolveBlendState. Qed.
#[local] Hint Resolve resolveBlendState_units : frame.

Lemma resolveDepthState_units s : unitsView ((resolveDepthState s).1) = unitsView s.1.
Proof. frame resolveDepthState. Qed.
#[local] Hint Resolve resolveDepthState_units : frame.

Lemma resolveRasterizerState_units s : unitsView ((resolveRasterizerState s).1) = unitsView s.1.
Proof. frame resolveRasterizerState. Qed.
#[local] Hint Resolve resolveRasterizerState_units : frame.

Lemma resolveStateHashes_units g : unitsView ((resolveStateHashes g).1) = unitsView g.
Proof. frame resolveStateHashes. Qed.
#[local] Hint Resolve resolveStateHashes_units : frame.

Lemma bindStageBuffers_units type v buffers g :
  unitsView (bindStageBuffers type v buffers g) = unitsView g.
Proof. frame bindStageBuffers. Qed.
#[local] Hint Resolve bindStageBuffers_units : frame.

Lemma buildPipelineState_units g : unitsView ((buildPipelineState g).2) = unitsView g.
Proof. frame buildPipelineState. Qed.
#[local] Hint Resolve buildPipelineState_units : frame.

Lemma adoptPipelineState_units ps g : unitsView ((adoptPipelineState ps g).1) = unitsView g.
Proof. frame adoptPipelineState. Qed.
#[local] Hint Resolve adoptPipelineState_units : frame.

Lemma resolvePipelineState_units g : unitsView ((resolvePipelineState g).1) = unitsView g.
Proof. frame resolvePipelineState. Qed.
#[local] Hint Resolve resolvePipelineState_units : frame.

Lemma resolvePipeline_units g : unitsView ((resolvePipeline g).1) = unitsView g.
Proof. frame resolvePipeline. Qed.
#[local] Hint Resolve resolvePipeline_units : frame.


(** The loop of the texture block of [PrepareDraw]. *)
Lemma commitTextures_loop (changed : bool) (textureMap : list TextureMapEntry) (g : Graphics) :
  let g' :=
    foldl (fun g e =>
             match at_ (shaderResourceViews_ g) (textureUnit e) with
             | Some view =>
                 if changed
                    || ((firstDirtyTexture_ g <=? Z.of_nat (textureUnit e))
                        && (Z.of_nat (textureUnit e) <=? lastDirtyTexture_ g))
                 then
                   let g := deviceCall (DevSetSampler view (at_ (samplers_ g) (textureUnit e))) g in
                   deviceCall (DevSetVariable (variable e) view) g
                 else g
             | None => g
             end)
          g textureMap in
  unitsView g' = unitsView g
  /\ deviceTrace g' = deviceTrace g ++ (textureMap ≫= unitCalls changed g).
Proof.
  revert g. induction textureMap as [|e textureMap IH]; intros g; cbn [foldl].
  { cbv zeta. split; [done|]. change ([] ≫= unitCalls changed g) with (@nil DeviceCall).
    by rewrite app_nil_r. }
  set (g1 := match at_ (shaderResourceViews_ g) (textureUnit e) with
             | Some view => _
             | None => g
             end).
  assert (H1 : unitsView g1 = unitsView g
               /\ deviceTrace g1 = deviceTrace g ++ unitCalls changed g e).
  { subst g1. unfold unitCalls, unitUpload.
    destruct (at_ (shaderResourceViews_ g) (textureUnit e)) as [view|];
      destruct (changed || _); try (split; [done|by rewrite app_nil_r]).
    cbv zeta. split; [reflexivity|]. unfold deviceCall. record_simpl.
    by rewrite <- app_assoc. }
  destruct H1 as [Hv1 Ht1]. clearbody g1.
  destruct (IH g1) as [Hv Ht]. cbv zeta in *. split; [congruence|].
  rewrite Ht, Ht1, <- app_assoc, bind_cons. f_equal. f_equal.
  apply list_bind_ext; [|done]. intros e'. by apply unitCalls_view.
Qed.

(** The texture block of [PrepareDraw] sends the calls of the entries it
    visits, in the order of the texture map of the current pipeline. *)
Lemma commitTextures_trace changed g :
  deviceTrace (commitTextures changed g)
  = deviceTrace g
    ++ (if changed || (texturesDirty_ g && (firstDirtyTexture_ g <? M_MAX_UNSIGNED))
        then default [] (currentTextureMap_ g) ≫= unitCalls changed g
        else []).
Proof.
  unfold commitTextures. destruct (changed || _); [|by rewrite app_nil_r].
  cbv zeta. record_simpl.
  destruct (currentTextureMap_ g) as [textureMap|]; cbn [default from_option];
    [|by rewrite app_nil_r].
  apply commitTextures_loop.
Qed.

(** With both shaders bound, [PrepareDraw] resolves the pipeline without
    touching what the units record, binds it, sends the textures, commits
    the resource binding and goes on. *)
Lemma PrepareDraw_sends_textures g :
  is_Some (vertexShader_ g) -> is_Some (pixelShader_ g) ->
  exists (before : Graphics) (changed : bool) (post : list DeviceCall),
    unitsView before = unitsView g
    /\ currentTextureMap_ before = currentTextureMap_ (PrepareDraw g)
    /\ deviceTrace (PrepareDraw g)
       = deviceTrace before
         ++ [DevSetPipelineState (currentPipelineState_ before)]
         ++ (if changed || (texturesDirty_ g && (firstDirtyTexture_ g <? M_MAX_UNSIGNED))
             then default [] (currentTextureMap_ before) ≫= unitCalls changed g
             else [])
         ++ [DevCommitShaderResources (currentShaderResourceBinding_ before)]
         ++ post.
Proof.
  intros [v Hv] [p Hp]. unfold PrepareDraw.
  set (g1 := if renderTargetsDirty_ g then resolveRenderTargets g else g).
  assert (Hc : cacheView g1 = cacheView g).
  { subst g1. destruct (renderTargetsDirty_ g); [apply resolveRenderTargets_cache|done]. }
  assert (Hu : unitsView g1 = unitsView g).
  { subst g1. destruct (renderTargetsDirty_ g); [apply resolveRenderTargets_units|done]. }
  clearbody g1.
  assert (vertexShader_ g1 = Some v /\ pixelShader_ g1 = Some p) as [-> ->].
  { unfold cacheView in Hc. injection Hc as _ _ _ _ -> -> _ _ _ _ _ _ _ _ _ _. done. }
  rewrite !bool_decide_eq_false_2 by done. cbn [orb].
  pose proof (resolvePipeline_units g1) as Hu2.
  set (s := resolvePipeline g1) in *. clearbody s. rewrite Hu in Hu2. clear Hu Hc g1.
  unfold commitDraw.
  destruct (flush_loop_effect (dirtyConstantBuffers_ (bindDraw s)) (bindDraw s))
    as (uploads & Ht & _).
  cbv zeta in Ht.
  assert (Hmap : currentTextureMap_ (flushConstantBuffers (bindDraw s)) = currentTextureMap_ s.1).
  { pose proof (commitDraw_cache s) as Hcd. unfold commitDraw in Hcd.
    exact (f_equal (fun v => v.1.1.1.1.1.1.1.1.1.1.1.1.2) Hcd). }
  assert (Hflush : deviceTrace (flushConstantBuffers (bindDraw s))
                   = deviceTrace (bindDraw s) ++ uploads).
  { unfold flushConstantBuffers. record_simpl. exact Ht. }
  set (bound := deviceCall (DevSetPipelineState (currentPipelineState_ s.1)) s.1).
  assert (Hub : unitsView bound = unitsView g) by (by rewrite <- Hu2).
  assert (Hbind : exists scissor,
             deviceTrace (bindDraw s)
             = deviceTrace (commitTextures s.2 bound)
               ++ [DevCommitShaderResources (currentShaderResourceBinding_ s.1)] ++ scissor).
  { unfold bindDraw. cbv zeta. fold bound.
    pose proof (commitTextures_cache s.2 bound) as Hcc.
    assert (Hsrb : currentShaderResourceBinding_ (commitTextures s.2 bound)
                   = currentShaderResourceBinding_ s.1)
      by exact (f_equal (fun v => v.1.1.1.1.1.1.1.1.1.1.1.1.1.2) Hcc).
    rewrite Hsrb. destruct (scissorRectDirty_ _).
    - eexists. unfold deviceCall. record_simpl. rewrite <- app_assoc. reflexivity.
    - exists []. reflexivity. }
  destruct Hbind as (scissor & Hbind).
  exists s.1, s.2, (scissor ++ uploads).
  split; [exact Hu2|]. split; [by rewrite Hmap|].
  rewrite Hflush, Hbind, commitTextures_trace.
  assert (Hcond : texturesDirty_ bound = texturesDirty_ g
                  /\ firstDirtyTexture_ bound = firstDirtyTexture_ g).
  { split; [exact (f_equal (fun v => v.1.1.2) Hub)|exact (f_equal (fun v => v.1.2) Hub)]. }
  destruct Hcond as [-> ->].
  assert (Hcalls : default [] (currentTextureMap_ bound) ≫= unitCalls s.2 bound
                   = default [] (currentTextureMap_ s.1) ≫= unitCalls s.2 g).
  { apply list_bind_ext; [|done]. intros e. by apply unitCalls_view. }
  rewrite Hcalls. unfold bound at 1, deviceCall. record_simpl.
  rewrite <- !app_assoc. cbn [app].
  by destruct (s.2 || _); cbn [app]; rewrite <- ?app_assoc.
Qed.

(** C6, as the code has it.  [SetTexture] of a texture that is the parent
    texture of the render surface bound as render target 0 records, for a
    unit of the unit arrays, the backup texture of that texture (null when
    it has none); so unless the texture is its own backup, the texture
    itself is not recorded.  When this changes what the unit records, the
    view and the sampler recorded for the unit are those of the backup
    texture (null for a null backup), and the unit is marked dirty.  The
    next [PrepareDraw] with both shaders bound then visits every entry of
    the texture map of the pipeline for that unit: for a backup texture with
    a view it sets the sampler of the backup texture on that view and the
    view on the shader variable; for a null backup, or a backup without a
    view, it sends nothing for the entry, so that the shader variable keeps
    the view it had. *)
Theorem texture_redirection (index t : nat) (g : Graphics) :
  (index < MAX_TEXTURE_UNITS)%nat ->
  (index < length (textures_ g))%nat ->
  (index < length (shaderResourceViews_ g))%nat ->
  (index < length (samplers_ g))%nat ->
  isBoundRenderTarget t g = true ->
  let backup := backupTexture_ (texture g t) in
  let g' := SetTexture index (Some t) g in
  at_ (textures_ g') index = backup
  /\ (backup <> Some t -> at_ (textures_ g') index <> Some t)
  /\ (at_ (textures_ g) index <> backup ->
      at_ (shaderResourceViews_ g') index
        = backup ≫= (λ b, shaderResourceView_ (texture g' b))
      /\ at_ (samplers_ g') index = backup ≫= (λ b, sampler_ (texture g' b))
      /\ texturesDirty_ g' = true
      /\ firstDirtyTexture_ g' <= Z.of_nat index <= lastDirtyTexture_ g')
  /\ (at_ (textures_ g) index <> backup ->
      Z.of_nat MAX_TEXTURE_UNITS <= M_MAX_UNSIGNED ->
      is_Some (vertexShader_ g) -> is_Some (pixelShader_ g) ->
      exists (before : Graphics) (changed : bool) (post : list DeviceCall),
        currentTextureMap_ before = currentTextureMap_ (PrepareDraw g')
        /\ deviceTrace (PrepareDraw g')
           = deviceTrace before
             ++ [DevSetPipelineState (currentPipelineState_ before)]
             ++ (default [] (currentTextureMap_ before) ≫= unitCalls changed g')
             ++ [DevCommitShaderResources (currentShaderResourceBinding_ before)]
             ++ post
        /\ forall e,
             textureUnit e = index ->
             unitCalls changed g' e
             = match backup ≫= (λ b, shaderResourceView_ (texture g' b)) with
               | Some view =>
                   [DevSetSampler view (backup ≫= (λ b, sampler_ (texture g' b)));
                    DevSetVariable (variable e) view]
               | None => []
               end).
Proof.
  intros Hi Hlt Hlv Hls Hb backup g'.
  assert (Hrecorded :
    at_ (textures_ g') index = backup
    /\ (backup <> Some t -> at_ (textures_ g') index <> Some t)
    /\ (at_ (textures_ g) index <> backup ->
        at_ (shaderResourceViews_ g') index
          = backup ≫= (λ b, shaderResourceView_ (texture g' b))
        /\ at_ (samplers_ g') index = backup ≫= (λ b, sampler_ (texture g' b))
        /\ texturesDirty_ g' = true
        /\ firstDirtyTexture_ g' <= Z.of_nat index <= lastDirtyTexture_ g')).
  { assert (Hg' : g' = recordTexture index backup (refreshTexture index backup g))
      by (by apply SetTexture_bound).
    clearbody g'. subst g'.
    set (r := refreshTexture index backup g).
    pose proof (refreshTexture_textures index backup g) as Ht. fold r in Ht.
    pose proof (refreshTexture_units index backup g) as Hu. fold r in Hu.
    unfold unitsView in Hu. injection Hu as Hv Hs _ _ _.
    assert (Hlr : (index < length (textures_ r))%nat).
    { destruct Ht as [-> | [_ ->]]; [done|by rewrite length_insert]. }
    assert (Hrec : at_ (textures_ (recordTexture index backup r)) index = backup).
    { unfold recordTexture.
      destruct (bool_decide_reflect (backup = at_ (textures_ r) index)) as [He|He].
      - by cbn [negb].
      - cbn [negb]. record_simpl. by apply at_insert. }
    split; [done|]. split; [by rewrite Hrec|].
    intros Hne.
    assert (He : backup <> at_ (textures_ r) index).
    { destruct Ht as [Ht | [[b Hsome] Ht]]; rewrite Ht.
      - done.
      - rewrite at_insert by done. by rewrite Hsome. }
    unfold recordTexture. rewrite bool_decide_eq_false_2 by done. cbn [negb].
    record_simpl. rewrite !at_insert by congruence.
    repeat split; try done; apply extendDirtyRange_covers. }
  destruct Hrecorded as (Hrec & Hnot & Hunit).
  split; [exact Hrec|]. split; [exact Hnot|]. split; [exact Hunit|].
  intros Hne Hmax Hvs Hps.
  destruct (Hunit Hne) as (Hview & Hsampler & Hdirty & Hrange).
  pose proof (SetTexture_cache index (Some t) g) as Hc. fold g' in Hc.
  assert (Hvs' : is_Some (vertexShader_ g')).
  { assert (Hv : vertexShader_ g' = vertexShader_ g)
      by exact (f_equal (fun v => v.1.1.1.1.1.1.1.1.1.1.1.2) Hc).
    by rewrite Hv. }
  assert (Hps' : is_Some (pixelShader_ g')).
  { assert (Hp : pixelShader_ g' = pixelShader_ g)
      by exact (f_equal (fun v => v.1.1.1.1.1.1.1.1.1.1.2) Hc).
    by rewrite Hp. }
  clearbody g'.
  destruct (PrepareDraw_sends_textures g' Hvs' Hps')
    as (before & changed & post & _ & Hmap & Htrace).
  exists before, changed, post. split; [exact Hmap|]. split.
  - rewrite Htrace, Hdirty. cbn [andb].
    replace (firstDirtyTexture_ g' <? M_MAX_UNSIGNED) with true by lia.
    by rewrite orb_true_r.
  - intros e He. unfold unitCalls, unitUpload. rewrite He, Hview, Hsampler.
    replace (firstDirtyTexture_ g' <=? Z.of_nat index) with true by lia.
    replace (Z.of_nat index <=? lastDirtyTexture_ g') with true by lia.
    by rewrite orb_true_r.
Qed.


(** ** The pipeline cache *)

(** The number of pipelines the device was asked to build. *)
Definition isPipelineBuild (c : DeviceCall) : bool :=
  match c with
  | DevCreateGraphicsPipelineState _ _ => true
  | _ => false
  end.

Definition pipelineBuilds (g : Graphics) : nat :=
  length (List.filter isPipelineBuild (deviceTrace g)).

Lemma deviceCall_builds c g :
  isPipelineBuild c = false -> pipelineBuilds (deviceCall c g) = pipelineBuilds g.
Proof.
  intros Hc. unfold pipelineBuilds, deviceCall. record_simpl.
  rewrite List.filter_app. cbn [List.filter]. rewrite Hc. by rewrite app_nil_r.
Qed.
#[local] Hint Resolve deviceCall_builds : frame.
#[local] Hint Extern 1 (isPipelineBuild _ = false) => reflexivity : frame.

Lemma logError_builds msg g : pipelineBuilds (logError msg g) = pipelineBuilds g.
Proof. frame logError. Qed.
#[local] Hint Resolve logError_builds : frame.

Lemma updTexture_builds t f g : pipelineBuilds (updTexture t f g) = pipelineBuilds g.
Proof. frame updTexture. Qed.
#[local] Hint Resolve updTexture_builds : frame.

Lemma updSurface_builds s f g : pipelineBuilds (updSurface s f g) = pipelineBuilds g.
Proof. frame updSurface. Qed.
#[local] Hint Resolve updSurface_builds : frame.

Lemma updShader_builds v f g : pipelineBuilds (updShader v f g) = pipelineBuilds g.
Proof. frame updShader. Qed.
#[local] Hint Resolve updShader_builds : frame.

Lemma updConstantBuffer_builds b f g :
  pipelineBuilds (updConstantBuffer b f g) = pipelineBuilds g.
Proof. frame updConstantBuffer. Qed.
#[local] Hint Resolve updConstantBuffer_builds : frame.

Lemma SetBlendMode_builds mode a g : pipelineBuilds (SetBlendMode mode a g) = pipelineBuilds g.
Proof. frame SetBlendMode. Qed.
#[local] Hint Resolve SetBlendMode_builds : frame.

Lemma SetColorWrite_builds enable g : pipelineBuilds (SetColorWrite enable g) = pipelineBuilds g.
Proof. frame SetColorWrite. Qed.
#[local] Hint Resolve SetColorWrite_builds : frame.

Lemma SetCullMode_builds mode g : pipelineBuilds (SetCullMode mode g) = pipelineBuilds g.
Proof. frame SetCullMode. Qed.
#[local] Hint Resolve SetCullMode_builds : frame.

Lemma SetDepthBias_builds c s g : pipelineBuilds (SetDepthBias c s g) = pipelineBuilds g.
Proof. frame SetDepthBias. Qed.
#[local] Hint Resolve SetDepthBias_builds : frame.

Lemma SetDepthTest_builds mode g : pipelineBuilds (SetDepthTest mode g) = pipelineBuilds g.
Proof. frame SetDepthTest. Qed.
#[local] Hint Resolve SetDepthTest_builds : frame.

Lemma SetDepthWrite_builds enable g : pipelineBuilds (SetDepthWrite enable g) = pipelineBuilds g.
Proof. frame SetDepthWrite. Qed.
#[local] Hint Resolve SetDepthWrite_builds : frame.

Lemma SetFillMode_builds mode g : pipelineBuilds (SetFillMode mode g) = pipelineBuilds g.
Proof. frame SetFillMode. Qed.
#[local] Hint Resolve SetFillMode_builds : frame.

Lemma SetLineAntiAlias_builds enable g :
  pipelineBuilds (SetLineAntiAlias enable g) = pipelineBuilds g.
Proof. frame SetLineAntiAlias. Qed.
#[local] Hint Resolve SetLineAntiAlias_builds : frame.

Lemma storeScissor_builds enable r g :
  pipelineBuilds (storeScissor enable r g) = pipelineBuilds g.
Proof. frame storeScissor. Qed.
#[local] Hint Resolve storeScissor_builds : frame.

Lemma SetScissorTest_builds enable rect b g :
  pipelineBuilds (SetScissorTest enable rect b g) = pipelineBuilds g.
Proof. frame SetScissorTest. Qed.
#[local] Hint Resolve SetScissorTest_builds : frame.

Lemma SetScissorTestInt_builds enable rect g :
  pipelineBuilds (SetScissorTestInt enable rect g) = pipelineBuilds g.
Proof. frame SetScissorTestInt. Qed.
#[local] Hint Resolve SetScissorTestInt_builds : frame.

Lemma SetViewport_builds rect g : pipelineBuilds (SetViewport rect g) = pipelineBuilds g.
Proof. frame SetViewport. Qed.
#[local] Hint Resolve SetViewport_builds : frame.

Lemma SetStencilTest_builds e m p f z r cm wm g :
  pipelineBuilds (SetStencilTest e m p f z r cm wm g) = pipelineBuilds g.
Proof. frame SetStencilTest. Qed.
#[local] Hint Resolve SetStencilTest_builds : frame.

Lemma SetDepthStencil_builds ds g : pipelineBuilds (SetDepthStencil ds g) = pipelineBuilds g.
Proof. frame SetDepthStencil. Qed.
#[local] Hint Resolve SetDepthStencil_builds : frame.

Lemma SetDepthStencilTexture_builds tex g :
  pipelineBuilds (SetDepthStencilTexture tex g) = pipelineBuilds g.
Proof. frame SetDepthStencilTexture. Qed.
#[local] Hint Resolve SetDepthStencilTexture_builds : frame.

Lemma SetIndexBuffer_builds b g : pipelineBuilds (SetIndexBuffer b g) = pipelineBuilds g.
Proof. frame SetIndexBuffer. Qed.
#[local] Hint Resolve SetIndexBuffer_builds : frame.

Lemma SetPrimitiveType_builds t g : pipelineBuilds (SetPrimitiveType t g) = pipelineBuilds g.
Proof. frame SetPrimitiveType. Qed.
#[local] Hint Resolve SetPrimitiveType_builds : frame.

Lemma UpdateParameters_builds t g : pipelineBuilds (UpdateParameters t g) = pipelineBuilds g.
Proof. frame UpdateParameters. Qed.
#[local] Hint Resolve UpdateParameters_builds : frame.

Lemma RegenerateLevels_builds t g : pipelineBuilds (RegenerateLevels t g) = pipelineBuilds g.
Proof. frame RegenerateLevels. Qed.
#[local] Hint Resolve RegenerateLevels_builds : frame.

Lemma SetLevelsDirty_builds t g : pipelineBuilds (SetLevelsDirty t g) = pipelineBuilds g.
Proof. frame SetLevelsDirty. Qed.
#[local] Hint Resolve SetLevelsDirty_builds : frame.

Lemma ResolveToTexture2D_builds t g : pipelineBuilds (ResolveToTexture2D t g) = pipelineBuilds g.
Proof. frame ResolveToTexture2D. Qed.
#[local] Hint Resolve ResolveToTexture2D_builds : frame.

Lemma ResolveToTextureCube_builds t g :
  pipelineBuilds (ResolveToTextureCube t g) = pipelineBuilds g.
Proof. frame ResolveToTextureCube. Qed.
#[local] Hint Resolve ResolveToTextureCube_builds : frame.

Lemma resolveMultisampled_builds t g :
  pipelineBuilds (resolveMultisampled t g) = pipelineBuilds g.
Proof. frame resolveMultisampled. Qed.
#[local] Hint Resolve resolveMultisampled_builds : frame.

Lemma refreshTexture_builds index tex g :
  pipelineBuilds (refreshTexture index tex g) = pipelineBuilds g.
Proof. frame refreshTexture. Qed.
#[local] Hint Resolve refreshTexture_builds : frame.

Lemma recordTexture_builds index tex g :
  pipelineBuilds (recordTexture index tex g) = pipelineBuilds g.
Proof. frame recordTexture. Qed.
#[local] Hint Resolve recordTexture_builds : frame.

Lemma SetTexture_builds index tex g : pipelineBuilds (SetTexture index tex g) = pipelineBuilds g.
Proof. frame SetTexture. Qed.
#[local] Hint Resolve SetTexture_builds : frame.

Lemma SetRenderTarget_builds index rt g :
  pipelineBuilds (SetRenderTarget index rt g) = pipelineBuilds g.
Proof. frame SetRenderTarget. Qed.
#[local] Hint Resolve SetRenderTarget_builds : frame.

Lemma SetRenderTargetTexture_builds index tex g :
  pipelineBuilds (SetRenderTargetTexture index tex g) = pipelineBuilds g.
Proof. frame SetRenderTargetTexture. Qed.
#[local] Hint Resolve SetRenderTargetTexture_builds : frame.

Lemma SetVertexBuffers_stream_builds buffers off g i :
  pipelineBuilds (SetVertexBuffers_stream buffers off g i) = pipelineBuilds g.
Proof. frame SetVertexBuffers_stream. Qed.
#[local] Hint Resolve SetVertexBuffers_stream_builds : frame.

Lemma SetVertexBuffers_builds buffers off g :
  pipelineBuilds ((SetVertexBuffers buffers off g).1) = pipelineBuilds g.
Proof. frame SetVertexBuffers. Qed.
#[local] Hint Resolve SetVertexBuffers_builds : frame.

Lemma SetVertexBuffer_builds b g : pipelineBuilds (SetVertexBuffer b g) = pipelineBuilds g.
Proof. frame SetVertexBuffer. Qed.
#[local] Hint Resolve SetVertexBuffer_builds : frame.

Lemma ConstantBuffer_SetSize_builds b size g :
  pipelineBuilds ((ConstantBuffer_SetSize b size g).1) = pipelineBuilds g.
Proof. frame ConstantBuffer_SetSize. Qed.
#[local] Hint Resolve ConstantBuffer_SetSize_builds : frame.

Lemma ConstantBuffer_Apply_builds b g :
  pipelineBuilds (ConstantBuffer_Apply b g) = pipelineBuilds g.
Proof. frame ConstantBuffer_Apply. Qed.
#[local] Hint Resolve ConstantBuffer_Apply_builds : frame.

Lemma ConstantBuffer_SetParameter_builds b off data g :
  pipelineBuilds (ConstantBuffer_SetParameter b off data g) = pipelineBuilds g.
Proof. frame ConstantBuffer_SetParameter. Qed.
#[local] Hint Resolve ConstantBuffer_SetParameter_builds : frame.

Lemma GetOrCreateConstantBuffer_builds type index size g :
  pipelineBuilds ((GetOrCreateConstantBuffer type index size g).2) = pipelineBuilds g.
Proof. frame GetOrCreateConstantBuffer. Qed.
#[local] Hint Resolve GetOrCreateConstantBuffer_builds : frame.

Lemma createStageBuffers_builds type sizes g :
  pipelineBuilds ((createStageBuffers type sizes g).2) = pipelineBuilds g.
Proof. frame createStageBuffers. Qed.
#[local] Hint Resolve createStageBuffers_builds : frame.

Lemma ShaderProgram_new_builds vs ps g :
  pipelineBuilds ((ShaderProgram_new vs ps g).2) = pipelineBuilds g.
Proof. frame ShaderProgram_new. Qed.
#[local] Hint Resolve ShaderProgram_new_builds : frame.

Lemma ShaderVariation_Create_builds v g :
  pipelineBuilds ((ShaderVariation_Create v g).1) = pipelineBuilds g.
Proof. frame ShaderVariation_Create. Qed.
#[local] Hint Resolve ShaderVariation_Create_builds : frame.

Lemma createShaderNow_builds s msg g :
  pipelineBuilds ((createShaderNow s msg g).2) = pipelineBuilds g.
Proof. frame createShaderNow. Qed.
#[local] Hint Resolve createShaderNow_builds : frame.

Lemma SetShaderParameter_builds param data g :
  pipelineBuilds (SetShaderParameter param data g) = pipelineBuilds g.
Proof. frame SetShaderParameter. Qed.
#[local] Hint Resolve SetShaderParameter_builds : frame.

Lemma setVertexShader_builds vs g : pipelineBuilds (setVertexShader vs g) = pipelineBuilds g.
Proof. frame setVertexShader. Qed.
#[local] Hint Resolve setVertexShader_builds : frame.

Lemma setPixelShader_builds ps g : pipelineBuilds (setPixelShader ps g) = pipelineBuilds g.
Proof. frame setPixelShader. Qed.
#[local] Hint Resolve setPixelShader_builds : frame.

Lemma selectShaderProgram_builds g : pipelineBuilds (selectShaderProgram g) = pipelineBuilds g.
Proof. frame selectShaderProgram. Qed.
#[local] Hint Resolve selectShaderProgram_builds : frame.

Lemma SetShaders_builds vs ps g : pipelineBuilds (SetShaders vs ps g) = pipelineBuilds g.
Proof. frame SetShaders. Qed.
#[local] Hint Resolve SetShaders_builds : frame.

Lemma SetClipPlane_builds enable plane g :
  pipelineBuilds (SetClipPlane enable plane g) = pipelineBuilds g.
Proof. frame SetClipPlane. Qed.
#[local] Hint Resolve SetClipPlane_builds : frame.

Lemma resolveRenderTargets_builds g : pipelineBuilds (resolveRenderTargets g) = pipelineBuilds g.
Proof. frame resolveRenderTargets. Qed.
#[local] Hint Resolve resolveRenderTargets_builds : frame.

Lemma resolveVertexDeclaration_builds s :
  pipelineBuilds ((resolveVertexDeclaration s).1) = pipelineBuilds s.1.
Proof. frame resolveVertexDeclaration. Qed.
#[local] Hint Resolve resolveVertexDeclaration_builds : frame.

Lemma resolvePrimitiveType_builds s :
  pipelineBuilds ((resolvePrimitiveType s).1) = pipelineBuilds s.1.
Proof. frame resolvePrimitiveType. Qed.
#[local] Hint Resolve resolvePrimitiveType_builds : frame.

Lemma resolveBlendState_builds s : pipelineBuilds ((resolveBlendState s).1) = pipelineBuilds s.1.
Proof. frame resolveBlendState. Qed.
#[local] Hint Resolve resolveBlendState_builds : frame.

Lemma resolveDepthState_builds s : pipelineBuilds ((resolveDepthState s).1) = pipelineBuilds s.1.
Proof. frame resolveDepthState. Qed.
#[local] Hint Resolve resolveDepthState_builds : frame.

Lemma resolveRasterizerState_builds s :
  pipelineBuilds ((resolveRasterizerState s).1) = pipelineBuilds s.1.
Proof. frame resolveRasterizerState. Qed.
#[local] Hint Resolve resolveRasterizerState_builds : frame.

Lemma resolveStateHashes_builds g : pipelineBuilds ((resolveStateHashes g).1) = pipelineBuilds g.
Proof. frame resolveStateHashes. Qed.
#[local] Hint Resolve resolveStateHashes_builds : frame.

Lemma bindStageBuffers_builds type v buffers g :
  pipelineBuilds (bindStageBuffers type v buffers g) = pipelineBuilds g.
Proof. frame bindStageBuffers. Qed.
#[local] Hint Resolve bindStageBuffers_builds : frame.

Lemma commitTextures_builds changed g :
  pipelineBuilds (commitTextures changed g) = pipelineBuilds g.
Proof. frame commitTextures. Qed.
#[local] Hint Resolve commitTextures_builds : frame.

Lemma flushConstantBuffers_builds g : pipelineBuilds (flushConstantBuffers g) = pipelineBuilds g.
Proof. frame flushConstantBuffers. Qed.
#[local] Hint Resolve flushConstantBuffers_builds : frame.

Lemma bindDraw_builds s : pipelineBuilds (bindDraw s) = pipelineBuilds s.1.
Proof. frame bindDraw. Qed.
#[local] Hint Resolve bindDraw_builds : frame.


(** What the pipeline lookup depends on: the cache, the current pipeline,
    the composite key and the flags that announce a change of a shader or
    of the primitive type. *)
Definition lookupView (g : Graphics) :=
  (pipelineStates_ g, currentPipelineState_ g, pipelineKey g,
   vertexShaderDirty_ g, pixelShaderDirty_ g, primitiveTypeDirty_ g).

Lemma cacheView_lookupView g g' :
  cacheView g = cacheView g' -> lookupView g = lookupView g'.
Proof.
  unfold cacheView, lookupView, pipelineKey. intros H.
  injection H as -> -> _ _ -> -> -> -> -> -> -> -> -> -> _ _. reflexivity.
Qed.
#[local] Hint Resolve cacheView_lookupView : frame.

Lemma lookupView_eq g g' :
  lookupView g = lookupView g' ->
  pipelineStates_ g = pipelineStates_ g' /\ currentPipelineState_ g = currentPipelineState_ g'
  /\ pipelineKey g = pipelineKey g'
  /\ vertexShaderDirty_ g = vertexShaderDirty_ g' /\ pixelShaderDirty_ g = pixelShaderDirty_ g'
  /\ primitiveTypeDirty_ g = primitiveTypeDirty_ g'.
Proof.
  intros H. repeat split.
  - exact (f_equal (λ v, v.1.1.1.1.1) H).
  - exact (f_equal (λ v, v.1.1.1.1.2) H).
  - exact (f_equal (λ v, v.1.1.1.2) H).
  - exact (f_equal (λ v, v.1.1.2) H).
  - exact (f_equal (λ v, v.1.2) H).
  - exact (f_equal (λ v, v.2) H).
Qed.

Lemma pipelineKey_shaders g g' :
  pipelineKey g = pipelineKey g' ->
  vertexShader_ g = vertexShader_ g' /\ pixelShader_ g = pixelShader_ g'.
Proof. unfold pipelineKey. intros H. split; congruence. Qed.

(** The current pipeline is the cached pipeline of the composite key. *)
Definition cacheResolved (g : Graphics) : Prop :=
  exists ps,
    pipelineStates_ g !! pipelineKey g = Some ps
    /\ currentPipelineState_ g = Some (pipelineState_ ps).

(** The invariant of the pipeline cache: with both shaders bound, the
    current pipeline is the cached pipeline of the composite key unless a
    change of a shader or of the primitive type is still to be looked at;
    and every cached pipeline was built once. *)
Definition cacheConsistent (g : Graphics) : Prop :=
  (vertexShaderDirty_ g = false -> pixelShaderDirty_ g = false ->
   primitiveTypeDirty_ g = false ->
   is_Some (vertexShader_ g) -> is_Some (pixelShader_ g) ->
   cacheResolved g)
  /\ pipelineBuilds g = size (pipelineStates_ g).

Lemma cacheResolved_view g g' :
  lookupView g = lookupView g' -> cacheResolved g -> cacheResolved g'.
Proof.
  intros Hv (ps & Hl & Hc). destruct (lookupView_eq _ _ Hv) as (Hs & Hcur & Hk & _).
  exists ps. split; congruence.
Qed.

Lemma cacheConsistent_view g g' :
  lookupView g = lookupView g' -> pipelineBuilds g = pipelineBuilds g' ->
  cacheConsistent g -> cacheConsistent g'.
Proof.
  intros Hv Hb [Hres Hsize].
  destruct (lookupView_eq _ _ Hv) as (Hs & Hcur & Hk & Hvd & Hpd & Htd).
  destruct (pipelineKey_shaders _ _ Hk) as [Hvs Hps].
  split; [|congruence].
  intros. apply (cacheResolved_view g); [done|]. apply Hres; congruence.
Qed.

(** *** The lookup *)

Lemma buildPipelineState_cache g : cacheView (buildPipelineState g).2 = cacheView g.
Proof. frame buildPipelineState. Qed.
#[local] Hint Resolve buildPipelineState_cache : frame.

(** Move the outermost [let] of a state expression under a projection into
    the context. *)
Ltac let_in_snd x :=
  lazymatch goal with
  | |- ?view (snd (let y := ?A in @?B y)) = ?V =>
      pose (x := A); change (view (snd (B x)) = V); cbv beta
  end.

Lemma buildPipelineState_builds g :
  pipelineBuilds (buildPipelineState g).2 = S (pipelineBuilds g).
Proof.
  cbv beta delta [buildPipelineState].
  let_in_snd pipelineState. let_in_snd g1.
  assert (H1 : pipelineBuilds g1 = S (pipelineBuilds g)).
  { subst g1. unfold pipelineBuilds, deviceCall. record_simpl.
    rewrite List.filter_app, length_app. cbn. lia. }
  rewrite <- H1. clearbody g1. clear H1. frame_rec pipelineBuilds.
Qed.

(** The key and the flags that announce a change of it. *)
Definition keyView (g : Graphics) :=
  (pipelineKey g, vertexShaderDirty_ g, pixelShaderDirty_ g, primitiveTypeDirty_ g).

Lemma lookupView_keyView g g' : lookupView g = lookupView g' -> keyView g = keyView g'.
Proof.
  intros H. destruct (lookupView_eq _ _ H) as (_ & _ & Hk & Hv & Hp & Ht).
  unfold keyView. by rewrite Hk, Hv, Hp, Ht.
Qed.

Lemma cacheView_keyView g g' : cacheView g = cacheView g' -> keyView g = keyView g'.
Proof. intros H. by apply lookupView_keyView, cacheView_lookupView. Qed.
#[local] Hint Resolve cacheView_keyView : frame.

Lemma adoptPipelineState_key ps g : keyView (adoptPipelineState ps g).1 = keyView g.
Proof. frame adoptPipelineState. Qed.
#[local] Hint Resolve adoptPipelineState_key : frame.

Lemma resolvePipelineState_key g : keyView (resolvePipelineState g).1 = keyView g.
Proof. frame resolvePipelineState. Qed.

Lemma adoptPipelineState_builds ps g :
  pipelineBuilds (adoptPipelineState ps g).1 = pipelineBuilds g.
Proof. frame adoptPipelineState. Qed.

Lemma adoptPipelineState_adopts ps g :
  pipelineStates_ (adoptPipelineState ps g).1 = pipelineStates_ g
  /\ currentPipelineState_ (adoptPipelineState ps g).1 = Some (pipelineState_ ps)
  /\ deviceTrace (adoptPipelineState ps g).1 = deviceTrace g.
Proof.
  unfold adoptPipelineState.
  by destruct (bool_decide_reflect (currentPipelineState_ g = Some (pipelineState_ ps))).
Qed.

(** A hit: nothing is built and the cached pipeline is current. *)
Lemma resolvePipelineState_hit g ps :
  pipelineStates_ g !! pipelineKey g = Some ps ->
  pipelineStates_ (resolvePipelineState g).1 = pipelineStates_ g
  /\ currentPipelineState_ (resolvePipelineState g).1 = Some (pipelineState_ ps)
  /\ deviceTrace (resolvePipelineState g).1 = deviceTrace g.
Proof.
  intros Hl. unfold resolvePipelineState. rewrite Hl. apply adoptPipelineState_adopts.
Qed.

(** A miss: one pipeline is built, cached under the key and made current. *)
Lemma resolvePipelineState_miss g :
  pipelineStates_ g !! pipelineKey g = None ->
  exists ps,
    pipelineStates_ (resolvePipelineState g).1 = <[pipelineKey g := ps]> (pipelineStates_ g)
    /\ currentPipelineState_ (resolvePipelineState g).1 = Some (pipelineState_ ps)
    /\ pipelineBuilds (resolvePipelineState g).1 = S (pipelineBuilds g).
Proof.
  intros Hl. unfold resolvePipelineState. rewrite Hl.
  pose proof (buildPipelineState_cache g) as Hc.
  pose proof (buildPipelineState_builds g) as Hb.
  set (r := buildPipelineState g) in *. clearbody r. cbv zeta.
  exists r.1.
  set (g1 := r.2 <| pipelineStates_ := <[pipelineKey g := r.1]> (pipelineStates_ r.2) |>).
  destruct (adoptPipelineState_adopts r.1 g1) as (Hs & Hcur & _).
  rewrite Hs, Hcur, adoptPipelineState_builds. subst g1. record_simpl.
  unfold cacheView in Hc. injection Hc as -> _ _ _ _ _ _ _ _ _ _ _ _ _ _ _.
  done.
Qed.

(** *** The state diffing *)

(** The cache and the current pipeline are not touched by the state
    diffing; the shaders are part of the key. *)
Definition storeView (g : Graphics) :=
  (pipelineStates_ g, currentPipelineState_ g, vertexShader_ g, pixelShader_ g).

Lemma cacheView_storeView g g' : cacheView g = cacheView g' -> storeView g = storeView g'.
Proof.
  unfold cacheView, storeView. intros H.
  injection H as -> -> _ _ -> -> _ _ _ _ _ _ _ _ _ _. reflexivity.
Qed.
#[local] Hint Resolve cacheView_storeView : frame.

Lemma resolveVertexDeclaration_store s :
  storeView ((resolveVertexDeclaration s).1) = storeView s.1.
Proof. frame resolveVertexDeclaration. Qed.
#[local] Hint Resolve resolveVertexDeclaration_store : frame.

Lemma resolvePrimitiveType_store s : storeView ((resolvePrimitiveType s).1) = storeView s.1.
Proof. frame resolvePrimitiveType. Qed.
#[local] Hint Resolve resolvePrimitiveType_store : frame.

Lemma resolveBlendState_store s : storeView ((resolveBlendState s).1) = storeView s.1.
Proof. frame resolveBlendState. Qed.
#[local] Hint Resolve resolveBlendState_store : frame.

Lemma resolveDepthState_store s : storeView ((resolveDepthState s).1) = storeView s.1.
Proof. frame resolveDepthState. Qed.
#[local] Hint Resolve resolveDepthState_store : frame.

Lemma resolveRasterizerState_store s : storeView ((resolveRasterizerState s).1) = storeView s.1.
Proof. frame resolveRasterizerState. Qed.
#[local] Hint Resolve resolveRasterizerState_store : frame.

Lemma resolveStateHashes_store g : storeView ((resolveStateHashes g).1) = storeView g.
Proof. frame resolveStateHashes. Qed.
#[local] Hint Resolve resolveStateHashes_store : frame.


(** A stage of the state diffing that does not ask for a lookup has not
    been asked for one and has left the key alone. *)
Definition stageKeepsKey (stage : Graphics * bool -> Graphics * bool) : Prop :=
  forall s, (stage s).2 = false -> s.2 = false /\ pipelineKey (stage s).1 = pipelineKey s.1.

Lemma cacheView_pipelineKey g g' : cacheView g = cacheView g' -> pipelineKey g = pipelineKey g'.
Proof.
  intros H. apply cacheView_lookupView in H.
  by destruct (lookupView_eq _ _ H) as (_ & _ & Hk & _).
Qed.

Lemma resolveVertexDeclaration_keeps : stageKeepsKey resolveVertexDeclaration.
Proof.
  intros s. cbv beta delta [resolveVertexDeclaration]. cbv zeta.
  destruct (vertexDeclarationDirty_ s.1 && _); [|done].
  set (g1 := if firstDirtyVB_ s.1 <? M_MAX_UNSIGNED then _ else s.1).
  assert (Hc : cacheView g1 = cacheView s.1) by (subst g1; frame_rec cacheView).
  clearbody g1. destruct (negb _ && negb _); cbn [fst snd]; [done|].
  intros Hs. split; [done|]. by apply cacheView_pipelineKey.
Qed.

Lemma resolvePrimitiveType_keeps : stageKeepsKey resolvePrimitiveType.
Proof.
  intros s. unfold resolvePrimitiveType. by destruct (primitiveTypeDirty_ s.1).
Qed.

Lemma resolveBlendState_keeps : stageKeepsKey resolveBlendState.
Proof.
  intros s. unfold resolveBlendState.
  destruct (blendStateDirty_ s.1); [|done]. destruct (negb _); cbn [fst snd]; done.
Qed.

Lemma resolveDepthState_keeps : stageKeepsKey resolveDepthState.
Proof.
  intros s. unfold resolveDepthState.
  destruct (depthStateDirty_ s.1); [|done]. destruct (negb _ || _); cbn [fst snd]; done.
Qed.

Lemma resolveRasterizerState_keeps_key : stageKeepsKey resolveRasterizerState.
Proof.
  intros s. unfold resolveRasterizerState.
  destruct (rasterizerStateDirty_ s.1); [|done]. destruct (negb _); cbn [fst snd]; done.
Qed.

(** The flag of the primitive type through the stages. *)
Lemma cacheView_primitiveTypeDirty g g' :
  cacheView g = cacheView g' -> primitiveTypeDirty_ g = primitiveTypeDirty_ g'.
Proof.
  intros H. apply cacheView_lookupView in H.
  by destruct (lookupView_eq _ _ H) as (_ & _ & _ & _ & _ & Ht).
Qed.
#[local] Hint Resolve cacheView_primitiveTypeDirty : frame.

Lemma resolveVertexDeclaration_primitiveTypeDirty s :
  primitiveTypeDirty_ (resolveVertexDeclaration s).1 = primitiveTypeDirty_ s.1.
Proof. frame resolveVertexDeclaration. Qed.

Lemma resolvePrimitiveType_clears s :
  primitiveTypeDirty_ (resolvePrimitiveType s).1 = false
  /\ ((resolvePrimitiveType s).2 = false -> primitiveTypeDirty_ s.1 = false).
Proof. unfold resolvePrimitiveType. by destruct (primitiveTypeDirty_ s.1) eqn:E. Qed.

Lemma resolveBlendState_primitiveTypeDirty s :
  primitiveTypeDirty_ (resolveBlendState s).1 = primitiveTypeDirty_ s.1.
Proof. frame resolveBlendState. Qed.

Lemma resolveDepthState_primitiveTypeDirty s :
  primitiveTypeDirty_ (resolveDepthState s).1 = primitiveTypeDirty_ s.1.
Proof. frame resolveDepthState. Qed.

Lemma resolveRasterizerState_primitiveTypeDirty s :
  primitiveTypeDirty_ (resolveRasterizerState s).1 = primitiveTypeDirty_ s.1.
Proof. frame resolveRasterizerState. Qed.

(** After the state diffing no change of a shader or of the primitive type
    is pending; and when it does not ask for a lookup, none was pending
    before and the key is the one before. *)
Lemma resolveStateHashes_flags g :
  vertexShaderDirty_ (resolveStateHashes g).1 = false
  /\ pixelShaderDirty_ (resolveStateHashes g).1 = false
  /\ primitiveTypeDirty_ (resolveStateHashes g).1 = false.
Proof.
  cbv beta zeta delta [resolveStateHashes]. record_simpl.
  split; [done|]. split; [done|].
  rewrite resolveRasterizerState_primitiveTypeDirty, resolveDepthState_primitiveTypeDirty,
    resolveBlendState_primitiveTypeDirty.
  apply (proj1 (resolvePrimitiveType_clears _)).
Qed.

Lemma resolveStateHashes_no_lookup g :
  (resolveStateHashes g).2 = false ->
  pipelineKey (resolveStateHashes g).1 = pipelineKey g
  /\ vertexShaderDirty_ g = false /\ pixelShaderDirty_ g = false
  /\ primitiveTypeDirty_ g = false.
Proof.
  cbv beta zeta delta [resolveStateHashes]. record_simpl.
  set (s0 := (g, vertexShaderDirty_ g || pixelShaderDirty_ g)).
  set (s1 := resolveVertexDeclaration s0). set (s2 := resolvePrimitiveType s1).
  set (s3 := resolveBlendState s2). set (s4 := resolveDepthState s3).
  intros H5.
  destruct (resolveRasterizerState_keeps_key s4 H5) as [H4 K5].
  destruct (resolveDepthState_keeps s3 H4) as [H3 K4].
  destruct (resolveBlendState_keeps s2 H3) as [H2 K3].
  destruct (resolvePrimitiveType_keeps s1 H2) as [H1 K2].
  destruct (resolveVertexDeclaration_keeps s0 H1) as [H0 K1].
  destruct (resolvePrimitiveType_clears s1) as [_ Hpt]. specialize (Hpt H2).
  fold s2 s3 s4 in K2, K3, K4, K5.
  subst s0. cbn [fst snd] in *. apply orb_false_iff in H0 as [Hv Hp].
  split; [|split; [done|split; [done|]]].
  - change (pipelineKey (resolveRasterizerState s4).1 = pipelineKey g).
    rewrite K5, K4, K3, K2. exact K1.
  - rewrite <- Hpt. symmetry. apply resolveVertexDeclaration_primitiveTypeDirty.
Qed.

(** *** [PrepareDraw] and the cache *)

(** What a step does to the cache: nothing, or one pipeline built and
    cached under a key that had no entry. *)
Definition cacheStep (g g' : Graphics) : Prop :=
  (pipelineStates_ g' = pipelineStates_ g /\ pipelineBuilds g' = pipelineBuilds g)
  \/ (pipelineStates_ g !! pipelineKey g' = None
      /\ pipelineBuilds g' = S (pipelineBuilds g)
      /\ exists ps, pipelineStates_ g' = <[pipelineKey g' := ps]> (pipelineStates_ g)).

Lemma cacheStep_view g g1 g2 g' :
  pipelineStates_ g1 = pipelineStates_ g -> pipelineBuilds g1 = pipelineBuilds g ->
  lookupView g' = lookupView g2 -> pipelineBuilds g' = pipelineBuilds g2 ->
  cacheStep g1 g2 -> cacheStep g g'.
Proof.
  intros Hs Hb Hv Hb'. destruct (lookupView_eq _ _ Hv) as (Hs' & _ & Hk & _).
  unfold cacheStep. rewrite Hs', Hk, Hb', <- Hs, <- Hb. done.
Qed.

Lemma storeView_eq g g' :
  storeView g = storeView g' ->
  pipelineStates_ g = pipelineStates_ g' /\ currentPipelineState_ g = currentPipelineState_ g'
  /\ vertexShader_ g = vertexShader_ g' /\ pixelShader_ g = pixelShader_ g'.
Proof.
  intros H. repeat split.
  - exact (f_equal (λ v, v.1.1.1) H).
  - exact (f_equal (λ v, v.1.1.2) H).
  - exact (f_equal (λ v, v.1.2) H).
  - exact (f_equal (λ v, v.2) H).
Qed.

Lemma resolvePipeline_step g : cacheStep g (resolvePipeline g).1.
Proof.
  cbv beta delta [resolvePipeline].
  destruct (anyStateDirty g); [|by left].
  destruct (storeView_eq _ _ (resolveStateHashes_store g)) as (Hs & _).
  pose proof (resolveStateHashes_builds g) as Hb.
  cbv zeta. destruct (resolveStateHashes g) as [g1 dirty]. cbn [fst snd] in *.
  destruct dirty; [|by left].
  pose proof (lookupView_eq _ _ (eq_refl (lookupView g1))) as _.
  assert (Hk : pipelineKey (resolvePipelineState g1).1 = pipelineKey g1)
    by exact (f_equal (λ v, v.1.1.1) (resolvePipelineState_key g1)).
  destruct (pipelineStates_ g1 !! pipelineKey g1) as [ps|] eqn:Hl.
  - destruct (resolvePipelineState_hit g1 ps Hl) as (Hs' & _ & Ht). left.
    split; [congruence|]. rewrite <- Hb. unfold pipelineBuilds. by rewrite Ht.
  - destruct (resolvePipelineState_miss g1 Hl) as (ps & Hs' & _ & Hb'). right.
    rewrite Hk, <- Hs, <- Hb. split; [done|]. split; [done|]. by exists ps.
Qed.

(** After the pipeline is resolved with both shaders bound, the current
    pipeline is the cached pipeline of the key and no change is pending. *)
Lemma resolvePipeline_resolved g :
  cacheConsistent g -> is_Some (vertexShader_ g) -> is_Some (pixelShader_ g) ->
  cacheResolved (resolvePipeline g).1
  /\ vertexShaderDirty_ (resolvePipeline g).1 = false
  /\ pixelShaderDirty_ (resolvePipeline g).1 = false
  /\ primitiveTypeDirty_ (resolvePipeline g).1 = false
  /\ vertexShader_ (resolvePipeline g).1 = vertexShader_ g
  /\ pixelShader_ (resolvePipeline g).1 = pixelShader_ g.
Proof.
  intros [Hres _] Hvs Hps. cbv beta delta [resolvePipeline].
  destruct (anyStateDirty g) eqn:Hdirty.
  2: { unfold anyStateDirty in Hdirty.
       repeat (apply orb_false_iff in Hdirty as [Hdirty ?]). cbn [fst]. auto 10. }
  destruct (storeView_eq _ _ (resolveStateHashes_store g)) as (Hs & Hcur & Hv & Hp).
  destruct (resolveStateHashes_flags g) as (Hvd & Hpd & Htd).
  pose proof (resolveStateHashes_no_lookup g) as Hno.
  cbv zeta. destruct (resolveStateHashes g) as [g1 dirty]. cbn [fst snd] in *.
  destruct dirty.
  - pose proof (resolvePipelineState_key g1) as Hkey.
    assert (Hk : pipelineKey (resolvePipelineState g1).1 = pipelineKey g1)
      by exact (f_equal (λ v, v.1.1.1) Hkey).
    destruct (pipelineKey_shaders _ _ Hk) as [Hv' Hp'].
    split; [|repeat split; try congruence].
    + destruct (pipelineStates_ g1 !! pipelineKey g1) as [ps|] eqn:Hl.
      * destruct (resolvePipelineState_hit g1 ps Hl) as (Hs' & Hc' & _).
        exists ps. by rewrite Hs', Hk.
      * destruct (resolvePipelineState_miss g1 Hl) as (ps & Hs' & Hc' & _).
        exists ps. by rewrite Hs', Hk, lookup_insert_eq.
    + rewrite <- Hvd. exact (f_equal (λ v, v.1.1.2) Hkey).
    + rewrite <- Hpd. exact (f_equal (λ v, v.1.2) Hkey).
    + rewrite <- Htd. exact (f_equal (λ v, v.2) Hkey).
  - destruct (Hno eq_refl) as (Hk & Hv0 & Hp0 & Ht0). cbn [fst].
    split; [|by repeat split].
    destruct (Hres Hv0 Hp0 Ht0 Hvs Hps) as (ps & Hl & Hc).
    exists ps. cbn [fst]. by rewrite Hs, Hk, Hcur.
Qed.

Lemma commitDraw_builds s : pipelineBuilds (commitDraw s) = pipelineBuilds s.1.
Proof. frame commitDraw. Qed.

(** [PrepareDraw] stops early without both shaders and goes on to the
    pipeline with them. *)
Lemma PrepareDraw_cases g :
  exists g1,
    cacheView g1 = cacheView g /\ pipelineBuilds g1 = pipelineBuilds g
    /\ ((~ (is_Some (vertexShader_ g) /\ is_Some (pixelShader_ g)) /\ PrepareDraw g = g1)
        \/ (is_Some (vertexShader_ g) /\ is_Some (pixelShader_ g)
            /\ PrepareDraw g = commitDraw (resolvePipeline g1))).
Proof.
  unfold PrepareDraw.
  set (g1 := if renderTargetsDirty_ g then resolveRenderTargets g else g).
  assert (Hc : cacheView g1 = cacheView g).
  { subst g1. destruct (renderTargetsDirty_ g); [apply resolveRenderTargets_cache|done]. }
  assert (Hb : pipelineBuilds g1 = pipelineBuilds g).
  { subst g1. destruct (renderTargetsDirty_ g); [apply resolveRenderTargets_builds|done]. }
  exists g1. split; [done|]. split; [done|].
  destruct (storeView_eq _ _ (cacheView_storeView _ _ Hc)) as (_ & _ & Hv & Hp).
  rewrite Hv, Hp.
  destruct (vertexShader_ g) as [v|], (pixelShader_ g) as [p|];
    rewrite ?bool_decide_eq_false_2, ?bool_decide_eq_true_2 by done; cbn [orb].
  - right. eauto.
  - left. split; [|done]. by intros [_ [? ?]].
  - left. split; [|done]. by intros [[? ?] _].
  - left. split; [|done]. by intros [[? ?] _].
Qed.

Lemma cacheStep_refl g g' :
  cacheView g' = cacheView g -> pipelineBuilds g' = pipelineBuilds g -> cacheStep g g'.
Proof.
  intros Hc Hb. left. split; [|done].
  by destruct (storeView_eq _ _ (cacheView_storeView _ _ Hc)).
Qed.

Lemma PrepareDraw_step g : cacheStep g (PrepareDraw g).
Proof.
  destruct (PrepareDraw_cases g) as (g1 & Hc & Hb & [[_ ->] | (_ & _ & ->)]).
  - by apply cacheStep_refl.
  - destruct (storeView_eq _ _ (cacheView_storeView _ _ Hc)) as (Hs & _).
    apply (cacheStep_view g g1 (resolvePipeline g1).1); try done.
    + apply cacheView_lookupView, commitDraw_cache.
    + apply commitDraw_builds.
    + apply resolvePipeline_step.
Qed.

Lemma cacheConsistent_cacheView g g' :
  cacheView g' = cacheView g -> pipelineBuilds g' = pipelineBuilds g ->
  cacheConsistent g -> cacheConsistent g'.
Proof.
  intros Hc Hb. apply cacheConsistent_view; [|done]. symmetry. by apply cacheView_lookupView.
Qed.

Lemma cacheStep_size g g' :
  cacheStep g g' -> pipelineBuilds g = size (pipelineStates_ g) ->
  pipelineBuilds g' = size (pipelineStates_ g').
Proof.
  intros [[-> ->] | (Hnone & -> & ps & ->)] Hsize; [done|].
  by rewrite map_size_insert_None, Hsize.
Qed.

Lemma PrepareDraw_resolved g :
  cacheConsistent g -> is_Some (vertexShader_ g) -> is_Some (pixelShader_ g) ->
  cacheResolved (PrepareDraw g).
Proof.
  intros Hcons Hvs Hps.
  destruct (PrepareDraw_cases g) as (g1 & Hc & Hb & [[Hno _] | (_ & _ & ->)]); [tauto|].
  destruct (storeView_eq _ _ (cacheView_storeView _ _ Hc)) as (_ & _ & Hv & Hp).
  destruct (resolvePipeline_resolved g1) as (Hres & _).
  - by apply (cacheConsistent_cacheView g).
  - by rewrite Hv.
  - by rewrite Hp.
  - eapply cacheResolved_view; [|exact Hres].
    symmetry. apply cacheView_lookupView, commitDraw_cache.
Qed.

Lemma PrepareDraw_consistent g : cacheConsistent g -> cacheConsistent (PrepareDraw g).
Proof.
  intros Hcons. split.
  - intros _ _ _ Hvs Hps. apply PrepareDraw_resolved; [done|..].
    + destruct (PrepareDraw_cases g) as (g1 & Hc & _ & [[_ Heq] | (? & _)]); [|done].
      rewrite Heq in Hvs.
      destruct (storeView_eq _ _ (cacheView_storeView _ _ Hc)) as (_ & _ & Hv & _).
      by rewrite <- Hv.
    + destruct (PrepareDraw_cases g) as (g1 & Hc & _ & [[_ Heq] | (_ & ? & _)]); [|done].
      rewrite Heq in Hps.
      destruct (storeView_eq _ _ (cacheView_storeView _ _ Hc)) as (_ & _ & _ & Hp).
      by rewrite <- Hp.
  - apply (cacheStep_size g); [apply PrepareDraw_step|apply Hcons].
Qed.

(** *** The setters and the cache *)

(** Of the setters only [SetShaders] writes a part of the cache view: the
    shaders and their flags. *)
Definition restView (g : Graphics) :=
  (pipelineStates_ g, currentPipelineState_ g, blendStateHash_ g, depthStateHash_ g,
   rasterizerStateHash_ g, vertexDeclarationHash_ g, primitiveType_ g, primitiveTypeDirty_ g).

Definition vertexView (g : Graphics) := (vertexShader_ g, vertexShaderDirty_ g).
Definition pixelView (g : Graphics) := (pixelShader_ g, pixelShaderDirty_ g).

Lemma cacheView_restView g g' : cacheView g = cacheView g' -> restView g = restView g'.
Proof.
  unfold cacheView, restView. intros H.
  injection H as -> -> _ _ _ _ -> -> -> -> -> _ _ -> _ _. reflexivity.
Qed.
#[local] Hint Resolve cacheView_restView : frame.

Lemma cacheView_vertexView g g' : cacheView g = cacheView g' -> vertexView g = vertexView g'.
Proof.
  unfold cacheView, vertexView. intros H.
  injection H as _ _ _ _ -> _ _ _ _ _ _ -> _ _ _ _. reflexivity.
Qed.
#[local] Hint Resolve cacheView_vertexView : frame.

Lemma cacheView_pixelView g g' : cacheView g = cacheView g' -> pixelView g = pixelView g'.
Proof.
  unfold cacheView, pixelView. intros H.
  injection H as _ _ _ _ _ -> _ _ _ _ _ _ -> _ _ _. reflexivity.
Qed.
#[local] Hint Resolve cacheView_pixelView : frame.

Lemma views_lookupView g g' :
  restView g' = restView g -> vertexView g' = vertexView g -> pixelView g' = pixelView g ->
  lookupView g' = lookupView g.
Proof.
  unfold restView, vertexView, pixelView, lookupView, pipelineKey. intros Hr Hv Hp.
  injection Hr as -> -> -> -> -> -> -> ->. injection Hv as -> ->. injection Hp as -> ->.
  reflexivity.
Qed.

Lemma selectShaderProgram_cache g : cacheView (selectShaderProgram g) = cacheView g.
Proof. frame selectShaderProgram. Qed.
#[local] Hint Resolve selectShaderProgram_cache : frame.

Lemma setVertexShader_rest vs g : restView (setVertexShader vs g) = restView g.
Proof. frame setVertexShader. Qed.
#[local] Hint Resolve setVertexShader_rest : frame.

Lemma setPixelShader_rest ps g : restView (setPixelShader ps g) = restView g.
Proof. frame setPixelShader. Qed.
#[local] Hint Resolve setPixelShader_rest : frame.

Lemma SetShaders_rest vs ps g : restView (SetShaders vs ps g) = restView g.
Proof. frame SetShaders. Qed.

Lemma setPixelShader_vertex ps g : vertexView (setPixelShader ps g) = vertexView g.
Proof. frame setPixelShader. Qed.

Lemma setVertexShader_pixel vs g : pixelView (setVertexShader vs g) = pixelView g.
Proof. frame setVertexShader. Qed.

(** A shader setter block leaves its shader alone or raises its flag. *)
Lemma setVertexShader_vertex vs g :
  vertexView (setVertexShader vs g) = vertexView g
  \/ vertexShaderDirty_ (setVertexShader vs g) = true.
Proof.
  unfold setVertexShader. destruct (negb _); [right|by left].
  cbv zeta. record_simpl.
  set (g1 := g <| vertexShader_ := vs |> <| vertexShaderDirty_ := true |>
               <| vertexDeclarationDirty_ := true |>).
  change true with (vertexShaderDirty_ g1).
  generalize (createShaderNow_cache vs "Failed to compile vertex shader" g1).
  intros H. exact (f_equal snd (cacheView_vertexView _ _ H)).
Qed.

Lemma setPixelShader_pixel ps g :
  pixelView (setPixelShader ps g) = pixelView g
  \/ pixelShaderDirty_ (setPixelShader ps g) = true.
Proof.
  unfold setPixelShader. destruct (negb _); [right|by left].
  cbv zeta. record_simpl.
  set (g1 := g <| pixelShader_ := ps |> <| pixelShaderDirty_ := true |>).
  change true with (pixelShaderDirty_ g1).
  generalize (createShaderNow_cache ps "Failed to compile pixel shader" g1).
  intros H. exact (f_equal snd (cacheView_pixelView _ _ H)).
Qed.

Lemma SetShaders_shaders vs ps g :
  (vertexView (SetShaders vs ps g) = vertexView g
   \/ vertexShaderDirty_ (SetShaders vs ps g) = true)
  /\ (pixelView (SetShaders vs ps g) = pixelView g
      \/ pixelShaderDirty_ (SetShaders vs ps g) = true).
Proof.
  cbv beta delta [SetShaders].
  generalize (if useClipPlane_ g then vs ≫= (λ v, sv_clipPlaneVariation (shader g v)) else vs).
  generalize (if useClipPlane_ g then ps ≫= (λ p, sv_clipPlaneVariation (shader g p)) else ps).
  intros ps' vs'. cbv zeta.
  set (g1 := setVertexShader vs' g). set (g2 := setPixelShader ps' g1).
  set (g3 := selectShaderProgram g2).
  set (g4 := if useClipPlane_ g3 then SetShaderParameter VSP_CLIPPLANE (clipPlane_ g3) g3 else g3).
  assert (H4 : cacheView g4 = cacheView g2).
  { subst g4. destruct (useClipPlane_ g3).
    - etransitivity; [apply SetShaderParameter_cache|apply selectShaderProgram_cache].
    - apply selectShaderProgram_cache. }
  pose proof (cacheView_vertexView _ _ H4) as Hv4.
  pose proof (cacheView_pixelView _ _ H4) as Hp4.
  pose proof (setPixelShader_vertex ps' g1) as Hv2. fold g2 in Hv2.
  pose proof (setVertexShader_pixel vs' g) as Hp1. fold g1 in Hp1.
  split.
  - destruct (setVertexShader_vertex vs' g) as [H|H]; fold g1 in H.
    + left. congruence.
    + right. rewrite <- H.
      exact (f_equal snd (eq_trans Hv4 Hv2)).
  - destruct (setPixelShader_pixel ps' g1) as [H|H]; fold g2 in H.
    + left. congruence.
    + right. rewrite <- H. exact (f_equal snd Hp4).
Qed.

Lemma SetShaders_consistent vs ps g :
  cacheConsistent g -> cacheConsistent (SetShaders vs ps g).
Proof.
  intros [Hres Hsize].
  pose proof (SetShaders_rest vs ps g) as Hr.
  destruct (SetShaders_shaders vs ps g) as [Hv Hp].
  assert (Hs : pipelineStates_ (SetShaders vs ps g) = pipelineStates_ g)
    by exact (f_equal (λ v, v.1.1.1.1.1.1.1) Hr).
  split; [|by rewrite SetShaders_builds, Hs].
  intros Hvd Hpd Htd Hvs Hps.
  destruct Hv as [Hv|Hv]; [|congruence]. destruct Hp as [Hp|Hp]; [|congruence].
  pose proof (views_lookupView _ _ Hr Hv Hp) as Hl.
  destruct (lookupView_eq _ _ Hl) as (_ & _ & Hk & Hvd' & Hpd' & Htd').
  destruct (pipelineKey_shaders _ _ Hk) as [Hvs' Hps'].
  apply (cacheResolved_view g); [done|].
  apply Hres; congruence.
Qed.

Lemma SetPrimitiveType_consistent type g :
  cacheConsistent g -> cacheConsistent (SetPrimitiveType type g).
Proof.
  intros Hcons. unfold SetPrimitiveType. destruct (negb _); [|done].
  destruct Hcons as [_ Hsize]. split; [|done]. record_simpl. done.
Qed.

Lemma SetPrimitiveType_step type g : cacheStep g (SetPrimitiveType type g).
Proof. left. unfold SetPrimitiveType. by destruct (negb _). Qed.

(** The calls that leave the whole cache view alone. *)
Definition keepsCacheView (c : Call) : bool :=
  match c with
  | CSetShaders _ _ | CPrepareDraw | CDraw _ _ _ | CDrawIndexed _ _ _ _ _
  | CDrawIndexedBase _ _ _ _ _ _ | CDrawInstanced _ _ _ _ _ _
  | CDrawInstancedBase _ _ _ _ _ _ _ => false
  | _ => true
  end.

Lemma exec_keepsCacheView c g g' :
  keepsCacheView c = true -> exec c g = Some g' ->
  cacheView g' = cacheView g /\ pipelineBuilds g' = pipelineBuilds g.
Proof.
  destruct c; try discriminate; intros _ [= <-]; (split; [frame_rec cacheView|frame_rec pipelineBuilds]).
Qed.

Lemma submitDraw_shape type call primitives g :
  isPipelineBuild call = false ->
  exists type',
    lookupView (submitDraw type call primitives g)
    = lookupView (PrepareDraw (SetPrimitiveType type' g))
    /\ pipelineBuilds (submitDraw type call primitives g)
       = pipelineBuilds (PrepareDraw (SetPrimitiveType type' g)).
Proof.
  intros Hcall. unfold submitDraw.
  exists (if bool_decide (fillMode_ g = FILL_POINT) then POINT_LIST else type).
  cbv zeta. set (g2 := PrepareDraw _). split.
  - unfold lookupView, pipelineKey, deviceCall. by record_simpl.
  - unfold pipelineBuilds, deviceCall. record_simpl.
    rewrite List.filter_app. cbn [List.filter]. by rewrite Hcall, app_nil_r.
Qed.

(** A draw call is refused or goes through [submitDraw] with a device call
    that is no pipeline creation. *)
Lemma exec_draw_cases c g g' :
  keepsCacheView c = false -> exec c g = Some g' ->
  (exists vs ps, c = CSetShaders vs ps /\ g' = SetShaders vs ps g)
  \/ g' = PrepareDraw g
  \/ g' = g
  \/ (exists type call primitives,
        isPipelineBuild call = false /\ g' = submitDraw type call primitives g).
Proof.
  destruct c; try discriminate; intros _; cbn [exec].
  - intros [= <-]. left. by exists vs, ps.
  - intros [= <-]. right. by left.
  - intros [= <-]. unfold Draw. destruct (_ || _); [by right; right; left|].
    right. right. right. by repeat eexists.
  - unfold DrawIndexed. destruct (_ || _); [intros [= <-]; by right; right; left|].
    destruct (indexBuffer_ g); [|done]. intros [= <-]. right. right. right. by repeat eexists.
  - unfold DrawIndexedBase. destruct (_ || _); [intros [= <-]; by right; right; left|].
    destruct (indexBuffer_ g); [|done]. intros [= <-]. right. right. right. by repeat eexists.
  - unfold DrawInstanced. destruct (_ || _); [intros [= <-]; by right; right; left|].
    destruct (indexBuffer_ g); [|done]. intros [= <-]. right. right. right. by repeat eexists.
  - unfold DrawInstancedBase. destruct (_ || _); [intros [= <-]; by right; right; left|].
    destruct (indexBuffer_ g); [|done]. intros [= <-]. right. right. right. by repeat eexists.
Qed.

(** *** Runs *)

Lemma resolvePipeline_shaders g :
  vertexShader_ (resolvePipeline g).1 = vertexShader_ g
  /\ pixelShader_ (resolvePipeline g).1 = pixelShader_ g.
Proof.
  cbv beta delta [resolvePipeline]. destruct (anyStateDirty g); [|done].
  destruct (storeView_eq _ _ (resolveStateHashes_store g)) as (_ & _ & Hv & Hp).
  cbv zeta. destruct (resolveStateHashes g) as [g1 dirty]. cbn [fst snd] in *.
  destruct dirty; [|done].
  assert (Hk : pipelineKey (resolvePipelineState g1).1 = pipelineKey g1)
    by exact (f_equal (λ v, v.1.1.1) (resolvePipelineState_key g1)).
  destruct (pipelineKey_shaders _ _ Hk) as [Hv' Hp']. split; congruence.
Qed.

Lemma PrepareDraw_shaders g :
  vertexShader_ (PrepareDraw g) = vertexShader_ g
  /\ pixelShader_ (PrepareDraw g) = pixelShader_ g.
Proof.
  destruct (PrepareDraw_cases g) as (g1 & Hc & _ & [[_ ->] | (_ & _ & ->)]);
    destruct (storeView_eq _ _ (cacheView_storeView _ _ Hc)) as (_ & _ & Hv & Hp); [done|].
  destruct (storeView_eq _ _ (cacheView_storeView _ _ (commitDraw_cache (resolvePipeline g1))))
    as (_ & _ & Hv' & Hp').
  destruct (resolvePipeline_shaders g1) as [Hv'' Hp'']. split; congruence.
Qed.

Lemma exec_step c g g' : exec c g = Some g' -> cacheStep g g'.
Proof.
  intros He. destruct (keepsCacheView c) eqn:Hk.
  { destruct (exec_keepsCacheView c g g' Hk He). by apply cacheStep_refl. }
  destruct (exec_draw_cases c g g' Hk He)
    as [(vs & ps & _ & ->) | [-> | [-> | (type & call & primitives & Hcall & ->)]]].
  - left. split; [|apply SetShaders_builds].
    exact (f_equal (λ v, v.1.1.1.1.1.1.1) (SetShaders_rest vs ps g)).
  - apply PrepareDraw_step.
  - by left.
  - destruct (submitDraw_shape type call primitives g Hcall) as (type' & Hl & Hb).
    destruct (SetPrimitiveType_step type' g) as [[Hs Hb']|(_ & Hb' & _)].
    + by apply (cacheStep_view g (SetPrimitiveType type' g)
                  (PrepareDraw (SetPrimitiveType type' g))); [..|apply PrepareDraw_step].
    + rewrite SetPrimitiveType_builds in Hb'. lia.
Qed.

Lemma exec_consistent c g g' :
  cacheConsistent g -> exec c g = Some g' -> cacheConsistent g'.
Proof.
  intros Hcons He. destruct (keepsCacheView c) eqn:Hk.
  { destruct (exec_keepsCacheView c g g' Hk He). by apply (cacheConsistent_cacheView g). }
  destruct (exec_draw_cases c g g' Hk He)
    as [(vs & ps & _ & ->) | [-> | [-> | (type & call & primitives & Hcall & ->)]]].
  - by apply SetShaders_consistent.
  - by apply PrepareDraw_consistent.
  - done.
  - destruct (submitDraw_shape type call primitives g Hcall) as (type' & Hl & Hb).
    apply (cacheConsistent_view (PrepareDraw (SetPrimitiveType type' g))); [done..|].
    by apply PrepareDraw_consistent, SetPrimitiveType_consistent.
Qed.

(** Entries of the cache stay: no call removes or replaces one. *)
Lemma cacheStep_extends g g' k ps :
  cacheStep g g' -> pipelineStates_ g !! k = Some ps -> pipelineStates_ g' !! k = Some ps.
Proof.
  intros [[-> _] | (Hnone & _ & ps' & ->)] Hk; [done|].
  rewrite lookup_insert_ne; [done|]. intros <-. congruence.
Qed.

Lemma run_consistent cs g g' :
  cacheConsistent g -> run cs g = Some g' -> cacheConsistent g'.
Proof.
  revert g. induction cs as [|c cs IH]; intros g Hcons; cbn [run].
  - by intros [= <-].
  - destruct (exec c g) as [g1|] eqn:He; [|done]. cbn. eauto using exec_consistent.
Qed.

Lemma run_extends cs g g' k ps :
  run cs g = Some g' ->
  pipelineStates_ g !! k = Some ps -> pipelineStates_ g' !! k = Some ps.
Proof.
  revert g. induction cs as [|c cs IH]; intros g; cbn [run].
  - by intros [= <-].
  - destruct (exec c g) as [g1|] eqn:He; [|done]. cbn.
    eauto using cacheStep_extends, exec_step.
Qed.

(** The states that a sequence of calls reaches from a new [Graphics]. *)
Definition reachable (g : Graphics) : Prop :=
  exists width height defaultRenderTargetView defaultDepthStencilView
         textures surfaces vertexBuffers indexBuffers shaders cs,
    run cs (newGraphics width height defaultRenderTargetView defaultDepthStencilView
              textures surfaces vertexBuffers indexBuffers shaders) = Some g.

Lemma newGraphics_consistent width height rtv dsv textures surfaces vbs ibs shaders :
  cacheConsistent (newGraphics width height rtv dsv textures surfaces vbs ibs shaders).
Proof.
  split; [|reflexivity]. intros _ _ _ [v Hv]. discriminate Hv.
Qed.

Lemma reachable_consistent g : reachable g -> cacheConsistent g.
Proof.
  intros (w & h & rtv & dsv & ts & ss & vbs & ibs & shs & cs & Hrun).
  eapply run_consistent; [apply newGraphics_consistent|exact Hrun].
Qed.

(** C1.  Take a state reached from a new [Graphics], with both shaders
    bound, a [PrepareDraw] in it, any sequence of calls, and a second
    [PrepareDraw].  If the composite key after the second [PrepareDraw] is
    the key after the first, the second one makes the same pipeline current,
    which is the one cached under the key, and builds nothing: the cache and
    the number of pipeline creations are as before it.  The number of
    pipeline creations is the number of keys in the cache. *)
Theorem cache_key_determinism (g : Graphics) (cs : list Call) (g2 : Graphics) :
  reachable g ->
  is_Some (vertexShader_ g) -> is_Some (pixelShader_ g) ->
  run cs (PrepareDraw g) = Some g2 ->
  pipelineKey (PrepareDraw g2) = pipelineKey (PrepareDraw g) ->
  currentPipelineState_ (PrepareDraw g2) = currentPipelineState_ (PrepareDraw g)
  /\ (exists ps,
        pipelineStates_ (PrepareDraw g2) !! pipelineKey (PrepareDraw g2) = Some ps
        /\ currentPipelineState_ (PrepareDraw g2) = Some (pipelineState_ ps))
  /\ pipelineStates_ (PrepareDraw g2) = pipelineStates_ g2
  /\ pipelineBuilds (PrepareDraw g2) = pipelineBuilds g2
  /\ pipelineBuilds (PrepareDraw g2) = size (pipelineStates_ (PrepareDraw g2)).
Proof.
  intros Hreach Hvs Hps Hrun Hkey.
  pose proof (reachable_consistent g Hreach) as Hcons.
  pose proof (PrepareDraw_consistent g Hcons) as Hcons1.
  pose proof (run_consistent cs _ _ Hcons1 Hrun) as Hcons2.
  pose proof (PrepareDraw_consistent g2 Hcons2) as [_ Hsize3].
  destruct (PrepareDraw_resolved g Hcons Hvs Hps) as (ps1 & Hl1 & Hc1).
  destruct (pipelineKey_shaders _ _ Hkey) as [Hv Hp].
  destruct (PrepareDraw_shaders g) as [Hv1 Hp1], (PrepareDraw_shaders g2) as [Hv2 Hp2].
  destruct (PrepareDraw_resolved g2 Hcons2) as (ps3 & Hl3 & Hc3); [congruence..|].
  pose proof (run_extends cs _ _ _ _ Hrun Hl1) as Hl2.
  destruct (PrepareDraw_step g2) as [[Hs Hb] | (Hnone & _)]; [|congruence].
  assert (ps3 = ps1) as -> by congruence.
  split; [congruence|]. split; [by exists ps1|]. done.
Qed.


(** ** The state hashes as keys *)

(** *** Bit packing *)

Lemma testbit_above a n k : 0 <= a < 2 ^ n -> n <= k -> Z.testbit a k = false.
Proof.
  intros Ha Hk. destruct (Z.eq_dec a 0) as [->|Hne]; [apply Z.bits_0|].
  apply Z.bits_above_log2; [lia|].
  apply Z.log2_lt_pow2; [lia|]. apply Z.lt_le_trans with (2 ^ n); [lia|].
  apply Z.pow_le_mono_r; lia.
Qed.

Lemma land_shifted a b n : 0 <= n -> 0 <= a < 2 ^ n -> Z.land a (b * 2 ^ n) = 0.
Proof.
  intros Hn Ha. apply Z.bits_inj'. intros k Hk. rewrite Z.land_spec, Z.bits_0.
  destruct (Z.lt_ge_cases k n).
  - by rewrite Z.mul_pow2_bits_low, andb_false_r.
  - by rewrite (testbit_above a n k), andb_false_l.
Qed.

Lemma lor_shiftl_add a b n :
  0 <= n -> 0 <= a < 2 ^ n -> 0 <= b -> Z.lor a (Z.shiftl b n) = a + b * 2 ^ n.
Proof.
  intros Hn Ha Hb. rewrite Z.shiftl_mul_pow2 by done.
  rewrite <- Z.lxor_lor by (by apply land_shifted).
  symmetry. apply Z.add_nocarry_lxor. by apply land_shifted.
Qed.

Lemma b2z_range b : 0 <= b2z b 1 <= 1.
Proof. destruct b; cbn; lia. Qed.

Lemma b2z_2 b : b2z b 2 = Z.shiftl (b2z b 1) 1.
Proof. by destruct b. Qed.

Lemma b2z_inj b b' : b2z b 1 = b2z b' 1 -> b = b'.
Proof. by destruct b, b'. Qed.

Lemma land_255_range x : 0 <= Z.land x 255 <= 255.
Proof.
  change (Z.land x 255) with (Z.land x (Z.ones 8)). rewrite Z.land_ones by done.
  change (2 ^ 8) with 256. pose proof (Z.mod_pos_bound x 256). lia.
Qed.

Lemma land_8191_range x : 0 <= Z.land x 8191 <= 8191.
Proof.
  change (Z.land x 8191) with (Z.land x (Z.ones 13)). rewrite Z.land_ones by done.
  change (2 ^ 13) with 8192. pose proof (Z.mod_pos_bound x 8192). lia.
Qed.

Lemma BlendMode_to_Z_range m : 0 <= BlendMode_to_Z m <= 8.
Proof. destruct m; cbn; lia. Qed.
Lemma CompareMode_to_Z_range m : 0 <= CompareMode_to_Z m <= 6.
Proof. destruct m; cbn; lia. Qed.
Lemma StencilOp_to_Z_range o : 0 <= StencilOp_to_Z o <= 4.
Proof. destruct o; cbn; lia. Qed.
Lemma CullMode_to_Z_range m : 0 <= CullMode_to_Z m <= 2.
Proof. destruct m; cbn; lia. Qed.
Lemma FillMode_to_Z_range m : 0 <= FillMode_to_Z m <= 2.
Proof. destruct m; cbn; lia. Qed.

Lemma BlendMode_to_Z_inj m m' : BlendMode_to_Z m = BlendMode_to_Z m' -> m = m'.
Proof. by destruct m, m'. Qed.
Lemma CompareMode_to_Z_inj m m' : CompareMode_to_Z m = CompareMode_to_Z m' -> m = m'.
Proof. by destruct m, m'. Qed.
Lemma StencilOp_to_Z_inj o o' : StencilOp_to_Z o = StencilOp_to_Z o' -> o = o'.
Proof. by destruct o, o'. Qed.
Lemma CullMode_to_Z_inj m m' : CullMode_to_Z m = CullMode_to_Z m' -> m = m'.
Proof. by destruct m, m'. Qed.
Lemma FillMode_to_Z_inj m m' : FillMode_to_Z m = FillMode_to_Z m' -> m = m'.
Proof. by destruct m, m'. Qed.

(** Linear arithmetic after the powers of two are computed. *)
Ltac pow_lia :=
  repeat match goal with
         | |- context [2 ^ ?n] => let v := eval cbv in (2 ^ n) in change (2 ^ n) with v
         end;
  lia.

(** Each hash is the sum of its fields at their bit positions. *)
Lemma blendStateHashOf_sum colorWrite alphaToCoverage blendMode :
  blendStateHashOf colorWrite alphaToCoverage blendMode
  = b2z colorWrite 1 + b2z alphaToCoverage 1 * 2 + BlendMode_to_Z blendMode * 4.
Proof.
  unfold blendStateHashOf, wrap32. rewrite b2z_2.
  pose proof (b2z_range colorWrite). pose proof (b2z_range alphaToCoverage).
  pose proof (BlendMode_to_Z_range blendMode).
  rewrite (lor_shiftl_add _ _ 1) by pow_lia. change (2 ^ 1) with 2.
  rewrite (lor_shiftl_add _ _ 2) by pow_lia. change (2 ^ 2) with 4.
  apply Z.mod_small. pow_lia.
Qed.

Lemma depthStateHashOf_sum depthWrite stencilTest depthTestMode compareMask writeMask
    stencilTestMode stencilFail stencilZFail stencilPass :
  depthStateHashOf depthWrite stencilTest depthTestMode compareMask writeMask
    stencilTestMode stencilFail stencilZFail stencilPass
  = b2z depthWrite 1 + b2z stencilTest 1 * 2 + CompareMode_to_Z depthTestMode * 4
    + Z.land compareMask 255 * 32 + Z.land writeMask 255 * 8192
    + CompareMode_to_Z stencilTestMode * 2097152
    + (StencilOp_to_Z stencilFail + StencilOp_to_Z stencilZFail * 5
       + StencilOp_to_Z stencilPass * 25) * 16777216.
Proof.
  unfold depthStateHashOf, wrap32. rewrite b2z_2.
  pose proof (b2z_range depthWrite). pose proof (b2z_range stencilTest).
  pose proof (CompareMode_to_Z_range depthTestMode).
  pose proof (CompareMode_to_Z_range stencilTestMode).
  pose proof (land_255_range compareMask). pose proof (land_255_range writeMask).
  pose proof (StencilOp_to_Z_range stencilFail). pose proof (StencilOp_to_Z_range stencilZFail).
  pose proof (StencilOp_to_Z_range stencilPass).
  rewrite (lor_shiftl_add _ _ 1) by pow_lia. change (2 ^ 1) with 2.
  rewrite (lor_shiftl_add _ _ 2) by pow_lia. change (2 ^ 2) with 4.
  rewrite (lor_shiftl_add _ _ 5) by pow_lia. change (2 ^ 5) with 32.
  rewrite (lor_shiftl_add _ _ 13) by pow_lia. change (2 ^ 13) with 8192.
  rewrite (lor_shiftl_add _ _ 21) by pow_lia. change (2 ^ 21) with 2097152.
  rewrite (lor_shiftl_add _ _ 24) by pow_lia. change (2 ^ 24) with 16777216.
  apply Z.mod_small. pow_lia.
Qed.

Lemma rasterizerStateHashOf_sum scissorTest lineAntiAlias fillMode cullMode bias slope :
  rasterizerStateHashOf scissorTest lineAntiAlias fillMode cullMode bias slope
  = b2z scissorTest 1 + b2z lineAntiAlias 1 * 2 + FillMode_to_Z fillMode * 4
    + CullMode_to_Z cullMode * 16 + Z.land bias 8191 * 64 + Z.land slope 8191 * 524288.
Proof.
  unfold rasterizerStateHashOf, wrap32. rewrite b2z_2.
  pose proof (b2z_range scissorTest). pose proof (b2z_range lineAntiAlias).
  pose proof (FillMode_to_Z_range fillMode). pose proof (CullMode_to_Z_range cullMode).
  pose proof (land_8191_range bias). pose proof (land_8191_range slope).
  rewrite (lor_shiftl_add _ _ 1) by pow_lia. change (2 ^ 1) with 2.
  rewrite (lor_shiftl_add _ _ 2) by pow_lia. change (2 ^ 2) with 4.
  rewrite (lor_shiftl_add _ _ 4) by pow_lia. change (2 ^ 4) with 16.
  rewrite (lor_shiftl_add _ _ 6) by pow_lia. change (2 ^ 6) with 64.
  rewrite (lor_shiftl_add _ _ 19) by pow_lia. change (2 ^ 19) with 524288.
  apply Z.mod_small. pow_lia.
Qed.

(** Each hash determines its packed fields. *)
Lemma blendStateHashOf_inj c a m c' a' m' :
  blendStateHashOf c a m = blendStateHashOf c' a' m' -> (c, a, m) = (c', a', m').
Proof.
  rewrite !blendStateHashOf_sum. intros H.
  pose proof (b2z_range c). pose proof (b2z_range a). pose proof (BlendMode_to_Z_range m).
  pose proof (b2z_range c'). pose proof (b2z_range a'). pose proof (BlendMode_to_Z_range m').
  assert (c = c') as -> by (apply b2z_inj; lia).
  assert (a = a') as -> by (apply b2z_inj; lia).
  assert (m = m') as -> by (apply BlendMode_to_Z_inj; lia).
  reflexivity.
Qed.

Lemma depthStateHashOf_inj dw st dtm cm wm stm sf sz sp dw' st' dtm' cm' wm' stm' sf' sz' sp' :
  depthStateHashOf dw st dtm cm wm stm sf sz sp
  = depthStateHashOf dw' st' dtm' cm' wm' stm' sf' sz' sp' ->
  (dw, st, dtm, Z.land cm 255, Z.land wm 255, stm, sf, sz, sp)
  = (dw', st', dtm', Z.land cm' 255, Z.land wm' 255, stm', sf', sz', sp').
Proof.
  rewrite !depthStateHashOf_sum. intros H.
  pose proof (b2z_range dw). pose proof (b2z_range st).
  pose proof (CompareMode_to_Z_range dtm). pose proof (CompareMode_to_Z_range stm).
  pose proof (land_255_range cm). pose proof (land_255_range wm).
  pose proof (StencilOp_to_Z_range sf). pose proof (StencilOp_to_Z_range sz).
  pose proof (StencilOp_to_Z_range sp).
  pose proof (b2z_range dw'). pose proof (b2z_range st').
  pose proof (CompareMode_to_Z_range dtm'). pose proof (CompareMode_to_Z_range stm').
  pose proof (land_255_range cm'). pose proof (land_255_range wm').
  pose proof (StencilOp_to_Z_range sf'). pose proof (StencilOp_to_Z_range sz').
  pose proof (StencilOp_to_Z_range sp').
  assert (Ecm : Z.land cm 255 = Z.land cm' 255) by lia.
  assert (Ewm : Z.land wm 255 = Z.land wm' 255) by lia.
  assert (dw = dw') as -> by (apply b2z_inj; lia).
  assert (st = st') as -> by (apply b2z_inj; lia).
  assert (dtm = dtm') as -> by (apply CompareMode_to_Z_inj; lia).
  assert (stm = stm') as -> by (apply CompareMode_to_Z_inj; lia).
  assert (sf = sf') as -> by (apply StencilOp_to_Z_inj; lia).
  assert (sz = sz') as -> by (apply StencilOp_to_Z_inj; lia).
  assert (sp = sp') as -> by (apply StencilOp_to_Z_inj; lia).
  by rewrite Ecm, Ewm.
Qed.

Lemma rasterizerStateHashOf_inj s l f c b sl s' l' f' c' b' sl' :
  rasterizerStateHashOf s l f c b sl = rasterizerStateHashOf s' l' f' c' b' sl' ->
  (s, l, f, c, Z.land b 8191, Z.land sl 8191)
  = (s', l', f', c', Z.land b' 8191, Z.land sl' 8191).
Proof.
  rewrite !rasterizerStateHashOf_sum. intros H.
  pose proof (b2z_range s). pose proof (b2z_range l).
  pose proof (FillMode_to_Z_range f). pose proof (CullMode_to_Z_range c).
  pose proof (land_8191_range b). pose proof (land_8191_range sl).
  pose proof (b2z_range s'). pose proof (b2z_range l').
  pose proof (FillMode_to_Z_range f'). pose proof (CullMode_to_Z_range c').
  pose proof (land_8191_range b'). pose proof (land_8191_range sl').
  assert (Eb : Z.land b 8191 = Z.land b' 8191) by lia.
  assert (Esl : Z.land sl 8191 = Z.land sl' 8191) by lia.
  assert (s = s') as -> by (apply b2z_inj; lia).
  assert (l = l') as -> by (apply b2z_inj; lia).
  assert (f = f') as -> by (apply FillMode_to_Z_inj; lia).
  assert (c = c') as -> by (apply CullMode_to_Z_inj; lia).
  by rewrite Eb, Esl.
Qed.

(** *** The hashes and the recorded state *)

(** The packed inputs of the blend-state and rasterizer-state hashes; those
    of the depth-state hash are [depthInputs]. *)
Definition blendInputs (g : Graphics) := (colorWrite_ g, alphaToCoverage_ g, blendMode_ g).

Definition rasterInputs (g : Graphics) :=
  (scissorTest_ g, lineAntiAlias_ g, fillMode_ g, cullMode_ g,
   Z.land (scaledDepthBias g) 8191,
   Z.land (float_scaled_to_int (slopeScaledDepthBias_ g) 100) 8191).

Lemma newBlendStateHash_inputs g h :
  blendInputs g = blendInputs h -> newBlendStateHash g = newBlendStateHash h.
Proof. unfold blendInputs, newBlendStateHash. intros [= -> -> ->]. reflexivity. Qed.

Lemma newRasterizerStateHash_inputs g h :
  rasterInputs g = rasterInputs h -> newRasterizerStateHash g = newRasterizerStateHash h.
Proof.
  unfold rasterInputs, newRasterizerStateHash. rewrite !rasterizerStateHashOf_sum.
  intros [= -> -> -> -> -> ->]. reflexivity.
Qed.

(** Each hash with the flag that says its inputs have changed. *)
Definition blendView (g : Graphics) := (blendInputs g, blendStateDirty_ g, blendStateHash_ g).
Definition rasterView (g : Graphics) :=
  (rasterInputs g, rasterizerStateDirty_ g, rasterizerStateHash_ g).

(** The hashes with their inputs. *)
Definition syncView (g : Graphics) :=
  (blendInputs g, depthInputs g, rasterInputs g,
   blendStateHash_ g, depthStateHash_ g, rasterizerStateHash_ g).

Lemma deviceCall_blend c g : blendView (deviceCall c g) = blendView g.
Proof. frame deviceCall. Qed.
#[local] Hint Resolve deviceCall_blend : frame.

Lemma storeScissor_blend enable r g : blendView (storeScissor enable r g) = blendView g.
Proof. frame storeScissor. Qed.
#[local] Hint Resolve storeScissor_blend : frame.

Lemma SetScissorTest_blend enable rect b g :
  blendView (SetScissorTest enable rect b g) = blendView g.
Proof. frame SetScissorTest. Qed.
#[local] Hint Resolve SetScissorTest_blend : frame.

Lemma SetViewport_blend rect g : blendView (SetViewport rect g) = blendView g.
Proof. frame SetViewport. Qed.
#[local] Hint Resolve SetViewport_blend : frame.

Lemma resolveRenderTargets_blend g : blendView (resolveRenderTargets g) = blendView g.
Proof. frame resolveRenderTargets. Qed.
#[local] Hint Resolve resolveRenderTargets_blend : frame.

Lemma resolveVertexDeclaration_blend s :
  blendView ((resolveVertexDeclaration s).1) = blendView s.1.
Proof. frame resolveVertexDeclaration. Qed.
#[local] Hint Resolve resolveVertexDeclaration_blend : frame.

Lemma resolvePrimitiveType_blend s : blendView ((resolvePrimitiveType s).1) = blendView s.1.
Proof. frame resolvePrimitiveType. Qed.
#[local] Hint Resolve resolvePrimitiveType_blend : frame.

Lemma deviceCall_raster c g : rasterView (deviceCall c g) = rasterView g.
Proof. frame deviceCall. Qed.
#[local] Hint Resolve deviceCall_raster : frame.

Lemma resolveVertexDeclaration_raster s :
  rasterView ((resolveVertexDeclaration s).1) = rasterView s.1.
Proof. frame resolveVertexDeclaration. Qed.
#[local] Hint Resolve resolveVertexDeclaration_raster : frame.

Lemma resolvePrimitiveType_raster s : rasterView ((resolvePrimitiveType s).1) = rasterView s.1.
Proof. frame resolvePrimitiveType. Qed.
#[local] Hint Resolve resolvePrimitiveType_raster : frame.

Lemma resolveBlendState_raster s : rasterView ((resolveBlendState s).1) = rasterView s.1.
Proof. frame resolveBlendState. Qed.
#[local] Hint Resolve resolveBlendState_raster : frame.

Lemma resolveDepthState_raster s : rasterView ((resolveDepthState s).1) = rasterView s.1.
Proof. frame resolveDepthState. Qed.
#[local] Hint Resolve resolveDepthState_raster : frame.

Lemma resolveRasterizerState_depth s : depthView ((resolveRasterizerState s).1) = depthView s.1.
Proof. frame resolveRasterizerState. Qed.
#[local] Hint Resolve resolveRasterizerState_depth : frame.

Lemma deviceCall_sync c g : syncView (deviceCall c g) = syncView g.
Proof. frame deviceCall. Qed.
#[local] Hint Resolve deviceCall_sync : frame.

Lemma updConstantBuffer_sync b f g : syncView (updConstantBuffer b f g) = syncView g.
Proof. frame updConstantBuffer. Qed.
#[local] Hint Resolve updConstantBuffer_sync : frame.

Lemma ConstantBuffer_Apply_sync b g : syncView (ConstantBuffer_Apply b g) = syncView g.
Proof. frame ConstantBuffer_Apply. Qed.
#[local] Hint Resolve ConstantBuffer_Apply_sync : frame.

Lemma bindStageBuffers_sync type v buffers g :
  syncView (bindStageBuffers type v buffers g) = syncView g.
Proof. frame bindStageBuffers. Qed.
#[local] Hint Resolve bindStageBuffers_sync : frame.

Lemma buildPipelineState_sync g : syncView ((buildPipelineState g).2) = syncView g.
Proof. frame buildPipelineState. Qed.
#[local] Hint Resolve buildPipelineState_sync : frame.

Lemma adoptPipelineState_sync ps g : syncView ((adoptPipelineState ps g).1) = syncView g.
Proof. frame adoptPipelineState. Qed.
#[local] Hint Resolve adoptPipelineState_sync : frame.

Lemma resolvePipelineState_sync g : syncView ((resolvePipelineState g).1) = syncView g.
Proof. frame resolvePipelineState. Qed.
#[local] Hint Resolve resolvePipelineState_sync : frame.

Lemma commitTextures_sync changed g : syncView (commitTextures changed g) = syncView g.
Proof. frame commitTextures. Qed.
#[local] Hint Resolve commitTextures_sync : frame.

Lemma flushConstantBuffers_sync g : syncView (flushConstantBuffers g) = syncView g.
Proof. frame flushConstantBuffers. Qed.
#[local] Hint Resolve flushConstantBuffers_sync : frame.

Lemma bindDraw_sync s : syncView (bindDraw s) = syncView s.1.
Proof. frame bindDraw. Qed.
#[local] Hint Resolve bindDraw_sync : frame.

Lemma commitDraw_sync s : syncView (commitDraw s) = syncView s.1.
Proof. frame commitDraw. Qed.
#[local] Hint Resolve commitDraw_sync : frame.


(** A hash is in sync when it is the hash of the recorded inputs, and
    tracked when it is in sync unless its dirty flag is raised. *)
Definition blendSynced (g : Graphics) : Prop := blendStateHash_ g = newBlendStateHash g.
Definition depthSynced (g : Graphics) : Prop := depthStateHash_ g = newDepthStateHash g.
Definition rasterSynced (g : Graphics) : Prop :=
  rasterizerStateHash_ g = newRasterizerStateHash g.

Definition hashesInSync (g : Graphics) : Prop :=
  blendSynced g /\ depthSynced g /\ rasterSynced g.

Definition blendTracked (g : Graphics) : Prop := blendStateDirty_ g = false -> blendSynced g.
Definition depthTracked (g : Graphics) : Prop := depthStateDirty_ g = false -> depthSynced g.
Definition rasterTracked (g : Graphics) : Prop :=
  rasterizerStateDirty_ g = false -> rasterSynced g.

Definition hashesTracked (g : Graphics) : Prop :=
  blendTracked g /\ depthTracked g /\ rasterTracked g.

Lemma hashesInSync_tracked g : hashesInSync g -> hashesTracked g.
Proof. intros (Hb & Hd & Hr). repeat split; by intros _. Qed.

Lemma blendView_eq g h :
  blendView g = blendView h ->
  blendStateDirty_ g = blendStateDirty_ h /\ blendStateHash_ g = blendStateHash_ h
  /\ newBlendStateHash g = newBlendStateHash h.
Proof.
  intros H. split; [exact (f_equal (λ v, v.1.2) H)|].
  split; [exact (f_equal (λ v, v.2) H)|].
  apply newBlendStateHash_inputs. exact (f_equal (λ v, v.1.1) H).
Qed.

Lemma rasterView_eq g h :
  rasterView g = rasterView h ->
  rasterizerStateDirty_ g = rasterizerStateDirty_ h
  /\ rasterizerStateHash_ g = rasterizerStateHash_ h
  /\ newRasterizerStateHash g = newRasterizerStateHash h.
Proof.
  intros H. split; [exact (f_equal (λ v, v.1.2) H)|].
  split; [exact (f_equal (λ v, v.2) H)|].
  apply newRasterizerStateHash_inputs. exact (f_equal (λ v, v.1.1) H).
Qed.

Lemma blendTracked_view g h : blendView h = blendView g -> blendTracked g -> blendTracked h.
Proof.
  intros Hv. destruct (blendView_eq _ _ Hv) as (Hd & Hh & Hn).
  unfold blendTracked, blendSynced. rewrite Hd, Hh, Hn. done.
Qed.

Lemma depthTracked_view g h : depthView h = depthView g -> depthTracked g -> depthTracked h.
Proof.
  intros Hv. destruct (depthView_eq _ _ Hv) as (Hd & _ & Hh & Hn).
  unfold depthTracked, depthSynced. rewrite Hd, Hh, Hn. done.
Qed.

Lemma rasterTracked_view g h :
  rasterView h = rasterView g -> rasterTracked g -> rasterTracked h.
Proof.
  intros Hv. destruct (rasterView_eq _ _ Hv) as (Hd & Hh & Hn).
  unfold rasterTracked, rasterSynced. rewrite Hd, Hh, Hn. done.
Qed.

Lemma syncView_eq g h :
  syncView h = syncView g ->
  (blendSynced g -> blendSynced h) /\ (depthSynced g -> depthSynced h)
  /\ (rasterSynced g -> rasterSynced h).
Proof.
  intros H. unfold blendSynced, depthSynced, rasterSynced.
  rewrite (newBlendStateHash_inputs h g) by exact (f_equal (λ v, v.1.1.1.1.1) H).
  rewrite (newDepthStateHash_inputs h g) by exact (f_equal (λ v, v.1.1.1.1.2) H).
  rewrite (newRasterizerStateHash_inputs h g) by exact (f_equal (λ v, v.1.1.1.2) H).
  rewrite (f_equal (λ v, v.1.1.2) H : blendStateHash_ h = blendStateHash_ g).
  rewrite (f_equal (λ v, v.1.2) H : depthStateHash_ h = depthStateHash_ g).
  rewrite (f_equal (λ v, v.2) H : rasterizerStateHash_ h = rasterizerStateHash_ g).
  done.
Qed.

Lemma hashesInSync_view g h : syncView h = syncView g -> hashesInSync g -> hashesInSync h.
Proof.
  intros Hv (Hb & Hd & Hr). destruct (syncView_eq _ _ Hv) as (Hb' & Hd' & Hr').
  repeat split; auto.
Qed.

(** *** The stages bring the hashes in sync *)

Lemma resolveBlendState_syncs s :
  blendTracked s.1 ->
  blendSynced (resolveBlendState s).1
  /\ depthView (resolveBlendState s).1 = depthView s.1
  /\ rasterView (resolveBlendState s).1 = rasterView s.1.
Proof.
  intros Ht. split; [|split; [apply resolveBlendState_depth|apply resolveBlendState_raster]].
  unfold resolveBlendState, blendTracked, blendSynced in *.
  destruct (blendStateDirty_ s.1); [|by apply Ht]. cbv zeta.
  destruct (Z.eqb_spec (newBlendStateHash s.1) (blendStateHash_ s.1)) as [He|He];
    cbn [negb fst snd]; record_simpl; [by rewrite <- He|reflexivity].
Qed.

Lemma resolveDepthState_syncs s :
  depthTracked s.1 ->
  depthSynced (resolveDepthState s).1
  /\ (blendSynced s.1 -> blendSynced (resolveDepthState s).1)
  /\ rasterView (resolveDepthState s).1 = rasterView s.1.
Proof.
  intros Ht. split; [|split; [|apply resolveDepthState_raster]].
  - unfold resolveDepthState, depthTracked, depthSynced in *.
    destruct (depthStateDirty_ s.1); [|by apply Ht]. cbv zeta.
    destruct (Z.eqb_spec (newDepthStateHash s.1) (depthStateHash_ s.1)) as [He|He];
      cbn [negb orb]; [destruct (stencilRefDirty_ s.1)|];
      cbn [fst snd]; record_simpl; by rewrite <- ?He.
  - unfold resolveDepthState, blendSynced.
    destruct (depthStateDirty_ s.1); [|done]. cbv zeta.
    by destruct (negb _ || _).
Qed.

Lemma resolveRasterizerState_syncs s :
  rasterTracked s.1 ->
  rasterSynced (resolveRasterizerState s).1
  /\ (blendSynced s.1 -> blendSynced (resolveRasterizerState s).1)
  /\ (depthSynced s.1 -> depthSynced (resolveRasterizerState s).1).
Proof.
  intros Ht. split; [|split].
  - unfold resolveRasterizerState, rasterTracked, rasterSynced in *.
    destruct (rasterizerStateDirty_ s.1); [|by apply Ht]. cbv zeta.
    destruct (Z.eqb_spec (newRasterizerStateHash s.1) (rasterizerStateHash_ s.1)) as [He|He];
      cbn [negb fst snd]; record_simpl; [by rewrite <- He|reflexivity].
  - unfold resolveRasterizerState, blendSynced.
    destruct (rasterizerStateDirty_ s.1); [|done]. cbv zeta. by destruct (negb _).
  - unfold resolveRasterizerState, depthSynced.
    destruct (rasterizerStateDirty_ s.1); [|done]. cbv zeta. by destruct (negb _).
Qed.

Lemma resolveStateHashes_syncs g :
  hashesTracked g -> hashesInSync (resolveStateHashes g).1.
Proof.
  intros (Hb & Hd & Hr). cbv beta zeta delta [resolveStateHashes].
  set (s0 := (g, vertexShaderDirty_ g || pixelShaderDirty_ g)).
  set (s1 := resolveVertexDeclaration s0). set (s2 := resolvePrimitiveType s1).
  set (s3 := resolveBlendState s2). set (s4 := resolveDepthState s3).
  set (s5 := resolveRasterizerState s4).
  assert (Hb2 : blendView s2.1 = blendView g)
    by (subst s2 s1; by rewrite resolvePrimitiveType_blend, resolveVertexDeclaration_blend).
  assert (Hd2 : depthView s2.1 = depthView g)
    by (subst s2 s1; by rewrite resolvePrimitiveType_depth, resolveVertexDeclaration_depth).
  assert (Hr2 : rasterView s2.1 = rasterView g)
    by (subst s2 s1; by rewrite resolvePrimitiveType_raster, resolveVertexDeclaration_raster).
  destruct (resolveBlendState_syncs s2) as (Hb3 & Hd3 & Hr3);
    [by apply (blendTracked_view g)|]. fold s3 in Hb3, Hd3, Hr3.
  destruct (resolveDepthState_syncs s3) as (Hd4 & Hb4 & Hr4).
  { apply (depthTracked_view g); [congruence|done]. }
  fold s4 in Hd4, Hb4, Hr4.
  destruct (resolveRasterizerState_syncs s4) as (Hr5 & Hb5 & Hd5).
  { apply (rasterTracked_view g); [congruence|done]. }
  fold s5 in Hr5, Hb5, Hd5.
  assert (H5 : hashesInSync s5.1)
    by (split; [apply Hb5, Hb4, Hb3|split; [apply Hd5, Hd4|apply Hr5]]).
  clearbody s5. apply (hashesInSync_view s5.1); [|done].
  cbn [fst]. frame_rec syncView.
Qed.

Lemma resolvePipeline_syncs g :
  hashesTracked g -> hashesInSync (resolvePipeline g).1.
Proof.
  intros Ht. cbv beta delta [resolvePipeline].
  destruct (anyStateDirty g) eqn:Hdirty.
  2: { unfold anyStateDirty in Hdirty.
       repeat (apply orb_false_iff in Hdirty as [Hdirty ?]).
       destruct Ht as (Hb & Hd & Hr). cbn [fst]. repeat split; auto. }
  pose proof (resolveStateHashes_syncs g Ht) as Hs.
  cbv zeta. destruct (resolveStateHashes g) as [g1 dirty]. cbn [fst snd] in *.
  destruct dirty; [|done].
  by apply (hashesInSync_view g1); [apply resolvePipelineState_sync|].
Qed.

(** *** Resolving the render targets *)

(** Move the outermost [let] of the argument of a predicate into the
    context. *)
Ltac let_in_pred x :=
  lazymatch goal with
  | |- ?P (let y := ?A in @?B y) => pose (x := A); change (P (B x)); cbv beta
  end.

Lemma SetViewport_rasterTracked rect g : rasterTracked g -> rasterTracked (SetViewport rect g).
Proof.
  intros Ht. cbv beta delta [SetViewport].
  let_in_pred rtSize. let_in_pred right'. let_in_pred bottom'. let_in_pred rectCopy.
  let_in_pred g1. let_in_pred g2.
  assert (Hv : rasterView g2 = rasterView g) by (subst g2 g1; frame_rec rasterView).
  clearbody g2. rewrite SetScissorTest_off.
  destruct (scissorTest_ g2); [intros H; discriminate H|].
  by apply (rasterTracked_view g).
Qed.

Lemma resolveRenderTargets_tracked g :
  hashesTracked g -> hashesTracked (resolveRenderTargets g).
Proof.
  intros (Hb & Hd & Hr). split; [|split].
  - apply (blendTracked_view g); [apply resolveRenderTargets_blend|done].
  - apply (depthTracked_view g); [apply resolveRenderTargets_depth|done].
  - cbv beta delta [resolveRenderTargets].
    let_in_pred dsv. let_in_pred dsv'. let_in_pred views. let_in_pred views'.
    let_in_pred g1. let_in_pred g2. let_in_pred g3.
    assert (Hv : rasterView g2 = rasterView g) by (subst g2 g1; frame_rec rasterView).
    pose proof (SetViewport_rasterTracked (viewport_ g2) g2
                  (rasterTracked_view g g2 Hv Hr)) as H3.
    fold g3 in H3. clearbody g3. exact H3.
Qed.

(** With both shaders bound, [PrepareDraw] leaves every hash in sync with
    the recorded state. *)
Lemma PrepareDraw_syncs g :
  hashesTracked g -> is_Some (vertexShader_ g) -> is_Some (pixelShader_ g) ->
  hashesInSync (PrepareDraw g).
Proof.
  intros Ht Hvs Hps. unfold PrepareDraw.
  set (g1 := if renderTargetsDirty_ g then resolveRenderTargets g else g).
  assert (Hc : cacheView g1 = cacheView g).
  { subst g1. destruct (renderTargetsDirty_ g); [apply resolveRenderTargets_cache|done]. }
  assert (Ht1 : hashesTracked g1).
  { subst g1. destruct (renderTargetsDirty_ g); [by apply resolveRenderTargets_tracked|done]. }
  destruct (storeView_eq _ _ (cacheView_storeView _ _ Hc)) as (_ & _ & Hv & Hp).
  destruct Hvs as [v Hvs], Hps as [p Hps]. rewrite Hv, Hp, Hvs, Hps.
  rewrite !bool_decide_eq_false_2 by done. cbn [orb].
  apply (hashesInSync_view (resolvePipeline g1).1); [apply commitDraw_sync|].
  by apply resolvePipeline_syncs.
Qed.

(** *** The field setters *)

(** The packed inputs that [PrepareDraw] does not write: all but the
    scissor-test flag, which resolving the render targets switches off. *)
Definition settledInputs (g : Graphics) :=
  (blendInputs g, depthInputs g, lineAntiAlias_ g, fillMode_ g, cullMode_ g,
   Z.land (scaledDepthBias g) 8191,
   Z.land (float_scaled_to_int (slopeScaledDepthBias_ g) 100) 8191).

Lemma deviceCall_settled c g : settledInputs (deviceCall c g) = settledInputs g.
Proof. frame deviceCall. Qed.
#[local] Hint Resolve deviceCall_settled : frame.

Lemma updConstantBuffer_settled b f g : settledInputs (updConstantBuffer b f g) = settledInputs g.
Proof. frame updConstantBuffer. Qed.
#[local] Hint Resolve updConstantBuffer_settled : frame.

Lemma storeScissor_settled enable r g : settledInputs (storeScissor enable r g) = settledInputs g.
Proof. frame storeScissor. Qed.
#[local] Hint Resolve storeScissor_settled : frame.

Lemma SetScissorTest_settled enable rect b g :
  settledInputs (SetScissorTest enable rect b g) = settledInputs g.
Proof. frame SetScissorTest. Qed.
#[local] Hint Resolve SetScissorTest_settled : frame.

Lemma SetViewport_settled rect g : settledInputs (SetViewport rect g) = settledInputs g.
Proof. frame SetViewport. Qed.
#[local] Hint Resolve SetViewport_settled : frame.

Lemma resolveRenderTargets_settled g : settledInputs (resolveRenderTargets g) = settledInputs g.
Proof. frame resolveRenderTargets. Qed.
#[local] Hint Resolve resolveRenderTargets_settled : frame.

Lemma resolveVertexDeclaration_settled s :
  settledInputs ((resolveVertexDeclaration s).1) = settledInputs s.1.
Proof. frame resolveVertexDeclaration. Qed.
#[local] Hint Resolve resolveVertexDeclaration_settled : frame.

Lemma resolvePrimitiveType_settled s :
  settledInputs ((resolvePrimitiveType s).1) = settledInputs s.1.
Proof. frame resolvePrimitiveType. Qed.
#[local] Hint Resolve resolvePrimitiveType_settled : frame.

Lemma resolveBlendState_settled s : settledInputs ((resolveBlendState s).1) = settledInputs s.1.
Proof. frame resolveBlendState. Qed.
#[local] Hint Resolve resolveBlendState_settled : frame.

Lemma resolveDepthState_settled s : settledInputs ((resolveDepthState s).1) = settledInputs s.1.
Proof. frame resolveDepthState. Qed.
#[local] Hint Resolve resolveDepthState_settled : frame.

Lemma resolveRasterizerState_settled s :
  settledInputs ((resolveRasterizerState s).1) = settledInputs s.1.
Proof. frame resolveRasterizerState. Qed.
#[local] Hint Resolve resolveRasterizerState_settled : frame.

Lemma resolveStateHashes_settled g : settledInputs ((resolveStateHashes g).1) = settledInputs g.
Proof. frame resolveStateHashes. Qed.
#[local] Hint Resolve resolveStateHashes_settled : frame.

Lemma bindStageBuffers_settled type v buffers g :
  settledInputs (bindStageBuffers type v buffers g) = settledInputs g.
Proof. frame bindStageBuffers. Qed.
#[local] Hint Resolve bindStageBuffers_settled : frame.

Lemma buildPipelineState_settled g : settledInputs ((buildPipelineState g).2) = settledInputs g.
Proof. frame buildPipelineState. Qed.
#[local] Hint Resolve buildPipelineState_settled : frame.

Lemma adoptPipelineState_settled ps g :
  settledInputs ((adoptPipelineState ps g).1) = settledInputs g.
Proof. frame adoptPipelineState. Qed.
#[local] Hint Resolve adoptPipelineState_settled : frame.

Lemma resolvePipelineState_settled g :
  settledInputs ((resolvePipelineState g).1) = settledInputs g.
Proof. frame resolvePipelineState. Qed.
#[local] Hint Resolve resolvePipelineState_settled : frame.

Lemma resolvePipeline_settled g : settledInputs ((resolvePipeline g).1) = settledInputs g.
Proof. frame resolvePipeline. Qed.
#[local] Hint Resolve resolvePipeline_settled : frame.

Lemma commitTextures_settled changed g :
  settledInputs (commitTextures changed g) = settledInputs g.
Proof. frame commitTextures. Qed.
#[local] Hint Resolve commitTextures_settled : frame.

Lemma ConstantBuffer_Apply_settled b g :
  settledInputs (ConstantBuffer_Apply b g) = settledInputs g.
Proof. frame ConstantBuffer_Apply. Qed.
#[local] Hint Resolve ConstantBuffer_Apply_settled : frame.

Lemma flushConstantBuffers_settled g : settledInputs (flushConstantBuffers g) = settledInputs g.
Proof. frame flushConstantBuffers. Qed.
#[local] Hint Resolve flushConstantBuffers_settled : frame.

Lemma bindDraw_settled s : settledInputs (bindDraw s) = settledInputs s.1.
Proof. frame bindDraw. Qed.
#[local] Hint Resolve bindDraw_settled : frame.

Lemma commitDraw_settled s : settledInputs (commitDraw s) = settledInputs s.1.
Proof. frame commitDraw. Qed.
#[local] Hint Resolve commitDraw_settled : frame.

Lemma PrepareDraw_settled g : settledInputs (PrepareDraw g) = settledInputs g.
Proof. frame PrepareDraw. Qed.
#[local] Hint Resolve PrepareDraw_settled : frame.

Lemma SetCullMode_blend mode g : blendView (SetCullMode mode g) = blendView g.
Proof. frame SetCullMode. Qed.
#[local] Hint Resolve SetCullMode_blend : frame.

Lemma SetDepthBias_blend c s g : blendView (SetDepthBias c s g) = blendView g.
Proof. frame SetDepthBias. Qed.
#[local] Hint Resolve SetDepthBias_blend : frame.

Lemma SetDepthTest_blend mode g : blendView (SetDepthTest mode g) = blendView g.
Proof. frame SetDepthTest. Qed.
#[local] Hint Resolve SetDepthTest_blend : frame.

Lemma SetDepthWrite_blend enable g : blendView (SetDepthWrite enable g) = blendView g.
Proof. frame SetDepthWrite. Qed.
#[local] Hint Resolve SetDepthWrite_blend : frame.

Lemma SetFillMode_blend mode g : blendView (SetFillMode mode g) = blendView g.
Proof. frame SetFillMode. Qed.
#[local] Hint Resolve SetFillMode_blend : frame.

Lemma SetLineAntiAlias_blend enable g : blendView (SetLineAntiAlias enable g) = blendView g.
Proof. frame SetLineAntiAlias. Qed.
#[local] Hint Resolve SetLineAntiAlias_blend : frame.

Lemma SetScissorTestInt_blend enable rect g :
  blendView (SetScissorTestInt enable rect g) = blendView g.
Proof. frame SetScissorTestInt. Qed.
#[local] Hint Resolve SetScissorTestInt_blend : frame.

Lemma SetStencilTest_blend e m p f z r cm wm g :
  blendView (SetStencilTest e m p f z r cm wm g) = blendView g.
Proof. frame SetStencilTest. Qed.
#[local] Hint Resolve SetStencilTest_blend : frame.

Lemma SetBlendMode_depth mode a g : depthView (SetBlendMode mode a g) = depthView g.
Proof. frame SetBlendMode. Qed.
#[local] Hint Resolve SetBlendMode_depth : frame.

Lemma SetColorWrite_depth enable g : depthView (SetColorWrite enable g) = depthView g.
Proof. frame SetColorWrite. Qed.
#[local] Hint Resolve SetColorWrite_depth : frame.

Lemma SetCullMode_depth mode g : depthView (SetCullMode mode g) = depthView g.
Proof. frame SetCullMode. Qed.
#[local] Hint Resolve SetCullMode_depth : frame.

Lemma SetDepthBias_depth c s g : depthView (SetDepthBias c s g) = depthView g.
Proof. frame SetDepthBias. Qed.
#[local] Hint Resolve SetDepthBias_depth : frame.

Lemma SetFillMode_depth mode g : depthView (SetFillMode mode g) = depthView g.
Proof. frame SetFillMode. Qed.
#[local] Hint Resolve SetFillMode_depth : frame.

Lemma SetLineAntiAlias_depth enable g : depthView (SetLineAntiAlias enable g) = depthView g.
Proof. frame SetLineAntiAlias. Qed.
#[local] Hint Resolve SetLineAntiAlias_depth : frame.

Lemma SetScissorTestInt_depth enable rect g :
  depthView (SetScissorTestInt enable rect g) = depthView g.
Proof. frame SetScissorTestInt. Qed.
#[local] Hint Resolve SetScissorTestInt_depth : frame.

Lemma SetBlendMode_raster mode a g : rasterView (SetBlendMode mode a g) = rasterView g.
Proof. frame SetBlendMode. Qed.
#[local] Hint Resolve SetBlendMode_raster : frame.

Lemma SetColorWrite_raster enable g : rasterView (SetColorWrite enable g) = rasterView g.
Proof. frame SetColorWrite. Qed.
#[local] Hint Resolve SetColorWrite_raster : frame.

Lemma SetDepthTest_raster mode g : rasterView (SetDepthTest mode g) = rasterView g.
Proof. frame SetDepthTest. Qed.
#[local] Hint Resolve SetDepthTest_raster : frame.

Lemma SetDepthWrite_raster enable g : rasterView (SetDepthWrite enable g) = rasterView g.
Proof. frame SetDepthWrite. Qed.
#[local] Hint Resolve SetDepthWrite_raster : frame.

Lemma SetStencilTest_raster e m p f z r cm wm g :
  rasterView (SetStencilTest e m p f z r cm wm g) = rasterView g.
Proof. frame SetStencilTest. Qed.
#[local] Hint Resolve SetStencilTest_raster : frame.


(** A setter that raises the flag of a hash when it changes an input of it
    keeps the hash tracked. *)
Ltac tracked_setter F :=
  let Ht := fresh "Ht" in let H := fresh "H" in
  intros Ht; unfold F;
  lazymatch goal with
  | |- _ (if ?c then _ else _) => destruct c; [intros H; discriminate H|exact Ht]
  end.

Lemma SetBlendMode_blendTracked mode a g :
  blendTracked g -> blendTracked (SetBlendMode mode a g).
Proof. tracked_setter SetBlendMode. Qed.

Lemma SetColorWrite_blendTracked enable g :
  blendTracked g -> blendTracked (SetColorWrite enable g).
Proof. tracked_setter SetColorWrite. Qed.

Lemma SetDepthTest_depthTracked mode g :
  depthTracked g -> depthTracked (SetDepthTest mode g).
Proof. tracked_setter SetDepthTest. Qed.

Lemma SetDepthWrite_depthTracked enable g :
  depthTracked g -> depthTracked (SetDepthWrite enable g).
Proof. tracked_setter SetDepthWrite. Qed.

Lemma SetCullMode_rasterTracked mode g :
  rasterTracked g -> rasterTracked (SetCullMode mode g).
Proof. tracked_setter SetCullMode. Qed.

Lemma SetFillMode_rasterTracked mode g :
  rasterTracked g -> rasterTracked (SetFillMode mode g).
Proof. tracked_setter SetFillMode. Qed.

Lemma SetLineAntiAlias_rasterTracked enable g :
  rasterTracked g -> rasterTracked (SetLineAntiAlias enable g).
Proof. tracked_setter SetLineAntiAlias. Qed.

Lemma SetDepthBias_rasterTracked c s g :
  rasterTracked g -> rasterTracked (SetDepthBias c s g).
Proof. tracked_setter SetDepthBias. Qed.

Lemma storeScissor_rasterTracked enable r g :
  rasterTracked g -> rasterTracked (storeScissor enable r g).
Proof.
  intros Ht. cbv beta delta [storeScissor]. let_in_pred e. let_in_pred g1.
  assert (Hv : rasterView g1 = rasterView g) by (subst g1; frame_rec rasterView).
  clearbody g1. destruct (negb _); [intros H; discriminate H|].
  by apply (rasterTracked_view g).
Qed.

Lemma SetScissorTest_rasterTracked enable rect b g :
  rasterTracked g -> rasterTracked (SetScissorTest enable rect b g).
Proof.
  intros Ht. unfold SetScissorTest.
  destruct (if coversViewport rect then false else enable);
    by apply storeScissor_rasterTracked.
Qed.

Lemma SetScissorTestInt_rasterTracked enable rect g :
  rasterTracked g -> rasterTracked (SetScissorTestInt enable rect g).
Proof.
  intros Ht. unfold SetScissorTestInt. destruct enable; by apply storeScissor_rasterTracked.
Qed.

Lemma SetStencilTest_depthTracked e m p f z r cm wm g :
  depthTracked g -> depthTracked (SetStencilTest e m p f z r cm wm g).
Proof.
  intros Ht. cbv beta delta [SetStencilTest].
  let_in_pred g1.
  assert (H1 : depthTracked g1)
    by (subst g1; destruct (negb _); [intros Hflag; discriminate Hflag|done]).
  clearbody g1. clear Ht. destruct e; [|done].
  do 6 (let g' := fresh "g" in let H' := fresh "Ht" in
        let_in_pred g';
        assert (H' : depthTracked g')
          by (subst g'; destruct (negb _); [intros Hflag; discriminate Hflag|done]);
        clearbody g';
        match goal with
        | H0 : depthTracked ?h |- _ => tryif constr_eq h g' then fail else clear H0
        end).
  destruct (negb _); [intros Hflag; discriminate Hflag|done].
Qed.

(** The setters of the fields that feed the hashes. *)
Definition isFieldSetter (c : Call) : bool :=
  match c with
  | CSetBlendMode _ _ | CSetColorWrite _ | CSetCullMode _ | CSetDepthBias _ _
  | CSetDepthTest _ | CSetDepthWrite _ | CSetFillMode _ | CSetLineAntiAlias _
  | CSetScissorTest _ _ _ | CSetScissorTestInt _ _ | CSetStencilTest _ _ _ _ _ _ _ _ => true
  | _ => false
  end.

Lemma isFieldSetter_keepsCacheView c : isFieldSetter c = true -> keepsCacheView c = true.
Proof. by destruct c. Qed.

Lemma fieldSetter_tracked c g g' :
  isFieldSetter c = true -> hashesTracked g -> exec c g = Some g' -> hashesTracked g'.
Proof.
  intros Hc (Hb & Hd & Hr).
  destruct c; try discriminate Hc; intros [= <-]; (split; [|split]);
    first
      [ by (apply (blendTracked_view g); [solve [eauto 2 with frame nocore]|])
      | by (apply (depthTracked_view g); [solve [eauto 2 with frame nocore]|])
      | by (apply (rasterTracked_view g); [solve [eauto 2 with frame nocore]|])
      | by auto using SetBlendMode_blendTracked, SetColorWrite_blendTracked,
             SetDepthTest_depthTracked, SetDepthWrite_depthTracked,
             SetCullMode_rasterTracked, SetFillMode_rasterTracked,
             SetLineAntiAlias_rasterTracked, SetDepthBias_rasterTracked,
             SetScissorTest_rasterTracked, SetScissorTestInt_rasterTracked,
             SetStencilTest_depthTracked ].
Qed.

(** States whose hashes are in sync and whose keys agree record the same
    packed inputs. *)
Lemma synced_key_inputs g h :
  hashesInSync g -> hashesInSync h -> pipelineKey g = pipelineKey h ->
  blendInputs g = blendInputs h /\ depthInputs g = depthInputs h
  /\ rasterInputs g = rasterInputs h.
Proof.
  intros (Hb & Hd & Hr) (Hb' & Hd' & Hr') Hk.
  unfold blendSynced, depthSynced, rasterSynced in *.
  assert (Eb : blendStateHash_ g = blendStateHash_ h) by exact (f_equal (λ v, v.1.1.1.1.2) Hk).
  assert (Ed : depthStateHash_ g = depthStateHash_ h) by exact (f_equal (λ v, v.1.1.1.2) Hk).
  assert (Er : rasterizerStateHash_ g = rasterizerStateHash_ h)
    by exact (f_equal (λ v, v.1.1.2) Hk).
  rewrite Hb, Hb' in Eb. rewrite Hd, Hd' in Ed. rewrite Hr, Hr' in Er.
  split; [|split].
  - by apply blendStateHashOf_inj.
  - by apply depthStateHashOf_inj.
  - by apply rasterizerStateHashOf_inj.
Qed.

Lemma rasterInputs_settled g h :
  blendInputs g = blendInputs h -> depthInputs g = depthInputs h ->
  rasterInputs g = rasterInputs h -> settledInputs g = settledInputs h.
Proof.
  unfold rasterInputs, settledInputs. intros -> -> H.
  injection H as _ -> -> -> -> ->. reflexivity.
Qed.

(** *** The hashes in the states that calls reach *)

(** The depth resolution by which [PrepareDraw] scales the constant bias. *)
Definition depthBits (g : Graphics) : Z :=
  match depthStencil_ g with
  | Some ds =>
      if tex_format_ (texture g (parentTexture_ (surface g ds))) =? DXGI_FORMAT_R16_TYPELESS
      then 16 else 24
  | None => 24
  end.

Lemma scaledDepthBias_depthBits g :
  scaledDepthBias g = float_scaled_to_int (constantDepthBias_ g) (Z.shiftl 1 (depthBits g)).
Proof. unfold scaledDepthBias, depthBits. by repeat case_match. Qed.

(** The fields that the rasterizer-state hash reads, with the hash and its
    flag. *)
Definition rasterFields (g : Graphics) :=
  (scissorTest_ g, lineAntiAlias_ g, fillMode_ g, cullMode_ g, constantDepthBias_ g,
   slopeScaledDepthBias_ g, rasterizerStateDirty_ g, rasterizerStateHash_ g).

(** All that the three hashes depend on, for a texture [tx] and a render
    surface [sx]. *)
Definition hashedView (tx sx : nat) (g : Graphics) :=
  (blendView g, depthView g, rasterFields g, depthStencil_ g,
   tex_format_ (texture g tx), parentTexture_ (surface g sx)).

Lemma rasterFields_view g h :
  rasterFields h = rasterFields g -> depthBits h = depthBits g -> rasterView h = rasterView g.
Proof.
  intros Hf Hb. unfold rasterView, rasterInputs. rewrite !scaledDepthBias_depthBits, Hb.
  unfold rasterFields in Hf. injection Hf as -> -> -> -> -> -> -> ->. reflexivity.
Qed.

Lemma hashedView_depthBits g h :
  (forall tx sx, hashedView tx sx h = hashedView tx sx g) -> depthBits h = depthBits g.
Proof.
  intros Hv. unfold depthBits.
  rewrite (f_equal (fun v => v.1.1.2) (Hv 0%nat 0%nat) : depthStencil_ h = depthStencil_ g).
  destruct (depthStencil_ g) as [ds|]; [|done].
  rewrite (f_equal (fun v => v.2) (Hv 0%nat ds)
           : parentTexture_ (surface h ds) = parentTexture_ (surface g ds)).
  by rewrite (f_equal (fun v => v.1.2) (Hv (parentTexture_ (surface g ds)) 0%nat)
              : tex_format_ (texture h (parentTexture_ (surface g ds)))
                = tex_format_ (texture g (parentTexture_ (surface g ds)))).
Qed.

Lemma hashedView_tracked g h :
  (forall tx sx, hashedView tx sx h = hashedView tx sx g) -> hashesTracked g -> hashesTracked h.
Proof.
  intros Hv (Hb & Hd & Hr). split; [|split].
  - apply (blendTracked_view g); [|done]. exact (f_equal (fun v => v.1.1.1.1.1) (Hv 0%nat 0%nat)).
  - apply (depthTracked_view g); [|done]. exact (f_equal (fun v => v.1.1.1.1.2) (Hv 0%nat 0%nat)).
  - apply (rasterTracked_view g); [|done]. apply rasterFields_view.
    + exact (f_equal (fun v => v.1.1.1.2) (Hv 0%nat 0%nat)).
    + by apply hashedView_depthBits.
Qed.

Lemma updTexture_hashed tx sx t f g :
  (forall x, tex_format_ (f x) = tex_format_ x) ->
  hashedView tx sx (updTexture t f g) = hashedView tx sx g.
Proof.
  intros Hf. unfold hashedView, updTexture, texture, surface. record_simpl.
  destruct (decide (tx = t)) as [->|Hne].
  - by rewrite lookup_total_insert_eq, Hf.
  - by rewrite lookup_total_insert_ne.
Qed.
#[local] Hint Resolve updTexture_hashed : frame.
#[local] Hint Extern 1 (forall x : Texture, tex_format_ _ = _) =>
  intros; reflexivity : frame.

Lemma updSurface_hashed tx sx s f g :
  (forall x, parentTexture_ (f x) = parentTexture_ x) ->
  hashedView tx sx (updSurface s f g) = hashedView tx sx g.
Proof.
  intros Hf. unfold hashedView, updSurface, texture, surface. record_simpl.
  destruct (decide (sx = s)) as [->|Hne].
  - by rewrite lookup_total_insert_eq, Hf.
  - by rewrite lookup_total_insert_ne.
Qed.
#[local] Hint Resolve updSurface_hashed : frame.
#[local] Hint Extern 1 (forall x : RenderSurface, parentTexture_ _ = _) =>
  intros; reflexivity : frame.

Lemma deviceCall_hashed tx sx c g : hashedView tx sx (deviceCall c g) = hashedView tx sx g.
Proof. frame deviceCall. Qed.
#[local] Hint Resolve deviceCall_hashed : frame.

Lemma logError_hashed tx sx msg g : hashedView tx sx (logError msg g) = hashedView tx sx g.
Proof. frame logError. Qed.
#[local] Hint Resolve logError_hashed : frame.

Lemma updShader_hashed tx sx v f g : hashedView tx sx (updShader v f g) = hashedView tx sx g.
Proof. frame updShader. Qed.
#[local] Hint Resolve updShader_hashed : frame.

Lemma updConstantBuffer_hashed tx sx b f g :
  hashedView tx sx (updConstantBuffer b f g) = hashedView tx sx g.
Proof. frame updConstantBuffer. Qed.
#[local] Hint Resolve updConstantBuffer_hashed : frame.

Lemma SetIndexBuffer_hashed tx sx b g :
  hashedView tx sx (SetIndexBuffer b g) = hashedView tx sx g.
Proof. frame SetIndexBuffer. Qed.
#[local] Hint Resolve SetIndexBuffer_hashed : frame.

Lemma SetPrimitiveType_hashed tx sx t g :
  hashedView tx sx (SetPrimitiveType t g) = hashedView tx sx g.
Proof. frame SetPrimitiveType. Qed.
#[local] Hint Resolve SetPrimitiveType_hashed : frame.

Lemma UpdateParameters_hashed tx sx t g :
  hashedView tx sx (UpdateParameters t g) = hashedView tx sx g.
Proof. frame UpdateParameters. Qed.
#[local] Hint Resolve UpdateParameters_hashed : frame.

Lemma RegenerateLevels_hashed tx sx t g :
  hashedView tx sx (RegenerateLevels t g) = hashedView tx sx g.
Proof. frame RegenerateLevels. Qed.
#[local] Hint Resolve RegenerateLevels_hashed : frame.

Lemma SetLevelsDirty_hashed tx sx t g :
  hashedView tx sx (SetLevelsDirty t g) = hashedView tx sx g.
Proof. frame SetLevelsDirty. Qed.
#[local] Hint Resolve SetLevelsDirty_hashed : frame.

Lemma ResolveToTexture2D_hashed tx sx t g :
  hashedView tx sx (ResolveToTexture2D t g) = hashedView tx sx g.
Proof. frame ResolveToTexture2D. Qed.
#[local] Hint Resolve ResolveToTexture2D_hashed : frame.

Lemma ResolveToTextureCube_hashed tx sx t g :
  hashedView tx sx (ResolveToTextureCube t g) = hashedView tx sx g.
Proof. frame ResolveToTextureCube. Qed.
#[local] Hint Resolve ResolveToTextureCube_hashed : frame.

Lemma resolveMultisampled_hashed tx sx t g :
  hashedView tx sx (resolveMultisampled t g) = hashedView tx sx g.
Proof. frame resolveMultisampled. Qed.
#[local] Hint Resolve resolveMultisampled_hashed : frame.

Lemma refreshTexture_hashed tx sx index tex g :
  hashedView tx sx (refreshTexture index tex g) = hashedView tx sx g.
Proof. frame refreshTexture. Qed.
#[local] Hint Resolve refreshTexture_hashed : frame.

Lemma recordTexture_hashed tx sx index tex g :
  hashedView tx sx (recordTexture index tex g) = hashedView tx sx g.
Proof. frame recordTexture. Qed.
#[local] Hint Resolve recordTexture_hashed : frame.

Lemma SetTexture_hashed tx sx index tex g :
  hashedView tx sx (SetTexture index tex g) = hashedView tx sx g.
Proof. frame SetTexture. Qed.
#[local] Hint Resolve SetTexture_hashed : frame.

Lemma SetRenderTarget_hashed tx sx index rt g :
  hashedView tx sx (SetRenderTarget index rt g) = hashedView tx sx g.
Proof. frame SetRenderTarget. Qed.
#[local] Hint Resolve SetRenderTarget_hashed : frame.

Lemma SetRenderTargetTexture_hashed tx sx index tex g :
  hashedView tx sx (SetRenderTargetTexture index tex g) = hashedView tx sx g.
Proof. frame SetRenderTargetTexture. Qed.
#[local] Hint Resolve SetRenderTargetTexture_hashed : frame.

Lemma SetVertexBuffers_stream_hashed tx sx buffers off g i :
  hashedView tx sx (SetVertexBuffers_stream buffers off g i) = hashedView tx sx g.
Proof. frame SetVertexBuffers_stream. Qed.
#[local] Hint Resolve SetVertexBuffers_stream_hashed : frame.

Lemma SetVertexBuffers_hashed tx sx buffers off g :
  hashedView tx sx ((SetVertexBuffers buffers off g).1) = hashedView tx sx g.
Proof. frame SetVertexBuffers. Qed.
#[local] Hint Resolve SetVertexBuffers_hashed : frame.

Lemma ConstantBuffer_SetSize_hashed tx sx b size g :
  hashedView tx sx ((ConstantBuffer_SetSize b size g).1) = hashedView tx sx g.
Proof. frame ConstantBuffer_SetSize. Qed.
#[local] Hint Resolve ConstantBuffer_SetSize_hashed : frame.

Lemma ConstantBuffer_SetParameter_hashed tx sx b off data g :
  hashedView tx sx (ConstantBuffer_SetParameter b off data g) = hashedView tx sx g.
Proof. frame ConstantBuffer_SetParameter. Qed.
#[local] Hint Resolve ConstantBuffer_SetParameter_hashed : frame.

Lemma GetOrCreateConstantBuffer_hashed tx sx type index size g :
  hashedView tx sx ((GetOrCreateConstantBuffer type index size g).2) = hashedView tx sx g.
Proof. frame GetOrCreateConstantBuffer. Qed.
#[local] Hint Resolve GetOrCreateConstantBuffer_hashed : frame.

Lemma createStageBuffers_hashed tx sx type sizes g :
  hashedView tx sx ((createStageBuffers type sizes g).2) = hashedView tx sx g.
Proof. frame createStageBuffers. Qed.
#[local] Hint Resolve createStageBuffers_hashed : frame.

Lemma ShaderProgram_new_hashed tx sx vs ps g :
  hashedView tx sx ((ShaderProgram_new vs ps g).2) = hashedView tx sx g.
Proof. frame ShaderProgram_new. Qed.
#[local] Hint Resolve ShaderProgram_new_hashed : frame.

Lemma ShaderVariation_Create_hashed tx sx v g :
  hashedView tx sx ((ShaderVariation_Create v g).1) = hashedView tx sx g.
Proof. frame ShaderVariation_Create. Qed.
#[local] Hint Resolve ShaderVariation_Create_hashed : frame.

Lemma createShaderNow_hashed tx sx s msg g :
  hashedView tx sx ((createShaderNow s msg g).2) = hashedView tx sx g.
Proof. frame createShaderNow. Qed.
#[local] Hint Resolve createShaderNow_hashed : frame.

Lemma SetShaderParameter_hashed tx sx param data g :
  hashedView tx sx (SetShaderParameter param data g) = hashedView tx sx g.
Proof. frame SetShaderParameter. Qed.
#[local] Hint Resolve SetShaderParameter_hashed : frame.

Lemma setVertexShader_hashed tx sx vs g :
  hashedView tx sx (setVertexShader vs g) = hashedView tx sx g.
Proof. frame setVertexShader. Qed.
#[local] Hint Resolve setVertexShader_hashed : frame.

Lemma setPixelShader_hashed tx sx ps g :
  hashedView tx sx (setPixelShader ps g) = hashedView tx sx g.
Proof. frame setPixelShader. Qed.
#[local] Hint Resolve setPixelShader_hashed : frame.

Lemma selectShaderProgram_hashed tx sx g :
  hashedView tx sx (selectShaderProgram g) = hashedView tx sx g.
Proof. frame selectShaderProgram. Qed.
#[local] Hint Resolve selectShaderProgram_hashed : frame.

Lemma SetShaders_hashed tx sx vs ps g :
  hashedView tx sx (SetShaders vs ps g) = hashedView tx sx g.
Proof. frame SetShaders. Qed.
#[local] Hint Resolve SetShaders_hashed : frame.

Lemma SetClipPlane_hashed tx sx enable plane g :
  hashedView tx sx (SetClipPlane enable plane g) = hashedView tx sx g.
Proof. frame SetClipPlane. Qed.
#[local] Hint Resolve SetClipPlane_hashed : frame.


(** [SetDepthStencil] with a render surface does not raise the flag of the
    rasterizer-state hash; it keeps the hash tracked when the surface has
    the depth resolution of the one it replaces. *)
Definition keepsDepthBits (c : Call) (g : Graphics) : bool :=
  match c with
  | CSetDepthStencil depthStencil => depthBits (SetDepthStencil depthStencil g) =? depthBits g
  | _ => true
  end.

Fixpoint runKeepsDepthBits (cs : list Call) (g : Graphics) : bool :=
  match cs with
  | [] => true
  | c :: cs =>
      keepsDepthBits c g
      && match exec c g with
         | Some g' => runKeepsDepthBits cs g'
         | None => true
         end
  end.

(** The states that a sequence of calls reaches from a new [Graphics]
    without a [SetDepthStencil] of a render surface that changes the depth
    resolution. *)
Definition reachableKeepingDepthBits (g : Graphics) : Prop :=
  exists width height defaultRenderTargetView defaultDepthStencilView
         textures surfaces vertexBuffers indexBuffers shaders cs,
    let g0 := newGraphics width height defaultRenderTargetView defaultDepthStencilView
                textures surfaces vertexBuffers indexBuffers shaders in
    run cs g0 = Some g /\ runKeepsDepthBits cs g0 = true.

Lemma reachableKeepingDepthBits_reachable g : reachableKeepingDepthBits g -> reachable g.
Proof.
  intros (w & h & rtv & dsv & ts & ss & vbs & ibs & shs & cs & Hrun & _).
  by exists w, h, rtv, dsv, ts, ss, vbs, ibs, shs, cs.
Qed.

Lemma SetDepthStencil_blend ds g : blendView (SetDepthStencil ds g) = blendView g.
Proof. frame SetDepthStencil. Qed.
#[local] Hint Resolve SetDepthStencil_blend : frame.

Lemma SetDepthStencil_depth ds g : depthView (SetDepthStencil ds g) = depthView g.
Proof. frame SetDepthStencil. Qed.
#[local] Hint Resolve SetDepthStencil_depth : frame.

Lemma SetDepthStencilTexture_blend tex g : blendView (SetDepthStencilTexture tex g) = blendView g.
Proof. frame SetDepthStencilTexture. Qed.
#[local] Hint Resolve SetDepthStencilTexture_blend : frame.

Lemma SetDepthStencilTexture_depth tex g : depthView (SetDepthStencilTexture tex g) = depthView g.
Proof. frame SetDepthStencilTexture. Qed.
#[local] Hint Resolve SetDepthStencilTexture_depth : frame.

Lemma SetDepthStencil_rasterFields ds g : rasterFields (SetDepthStencil ds g) = rasterFields g.
Proof. frame SetDepthStencil. Qed.

Lemma SetDepthStencil_tracked ds g :
  depthBits (SetDepthStencil ds g) = depthBits g ->
  hashesTracked g -> hashesTracked (SetDepthStencil ds g).
Proof.
  intros Hbits (Hb & Hd & Hr). split; [|split].
  - apply (blendTracked_view g); [apply SetDepthStencil_blend|done].
  - apply (depthTracked_view g); [apply SetDepthStencil_depth|done].
  - apply (rasterTracked_view g); [|done].
    apply rasterFields_view; [apply SetDepthStencil_rasterFields|done].
Qed.

Lemma SetDepthStencilTexture_tracked tex g :
  hashesTracked g -> hashesTracked (SetDepthStencilTexture tex g).
Proof.
  intros (Hb & Hd & Hr). split; [|split].
  - apply (blendTracked_view g); [apply SetDepthStencilTexture_blend|done].
  - apply (depthTracked_view g); [apply SetDepthStencilTexture_depth|done].
  - intros H. discriminate H.
Qed.

Lemma SetViewport_tracked rect g : hashesTracked g -> hashesTracked (SetViewport rect g).
Proof.
  intros (Hb & Hd & Hr). split; [|split].
  - apply (blendTracked_view g); [apply SetViewport_blend|done].
  - apply (depthTracked_view g); [apply SetViewport_depth|done].
  - by apply SetViewport_rasterTracked.
Qed.

(** [PrepareDraw] keeps the hashes tracked, whether or not it gets as far
    as the hashes. *)
Lemma PrepareDraw_tracked g : hashesTracked g -> hashesTracked (PrepareDraw g).
Proof.
  intros Ht.
  destruct (vertexShader_ g) as [v|] eqn:Hv; [destruct (pixelShader_ g) as [p|] eqn:Hp|].
  - apply hashesInSync_tracked, PrepareDraw_syncs; [done|by rewrite Hv|by rewrite Hp].
  - unfold PrepareDraw.
    set (g1 := if renderTargetsDirty_ g then resolveRenderTargets g else g).
    assert (Hc : cacheView g1 = cacheView g).
    { subst g1. destruct (renderTargetsDirty_ g); [apply resolveRenderTargets_cache|done]. }
    assert (Ht1 : hashesTracked g1).
    { subst g1. destruct (renderTargetsDirty_ g); [by apply resolveRenderTargets_tracked|done]. }
    destruct (storeView_eq _ _ (cacheView_storeView _ _ Hc)) as (_ & _ & _ & Hp1).
    rewrite Hp1, Hp. by rewrite orb_true_r.
  - unfold PrepareDraw.
    set (g1 := if renderTargetsDirty_ g then resolveRenderTargets g else g).
    assert (Hc : cacheView g1 = cacheView g).
    { subst g1. destruct (renderTargetsDirty_ g); [apply resolveRenderTargets_cache|done]. }
    assert (Ht1 : hashesTracked g1).
    { subst g1. destruct (renderTargetsDirty_ g); [by apply resolveRenderTargets_tracked|done]. }
    destruct (storeView_eq _ _ (cacheView_storeView _ _ Hc)) as (_ & _ & Hv1 & _).
    by rewrite Hv1, Hv.
Qed.

Lemma submitDraw_tracked type call primitives g :
  hashesTracked g -> hashesTracked (submitDraw type call primitives g).
Proof.
  intros Ht. unfold submitDraw. cbv zeta.
  set (type' := if bool_decide (fillMode_ g = FILL_POINT) then POINT_LIST else type).
  assert (H1 : hashesTracked (PrepareDraw (SetPrimitiveType type' g))).
  { apply PrepareDraw_tracked, (hashedView_tracked g); [|done].
    intros tx sx. apply SetPrimitiveType_hashed. }
  set (g2 := PrepareDraw _) in *. clearbody g2.
  apply (hashedView_tracked g2); [|done]. intros tx sx. reflexivity.
Qed.

(** The calls that write none of the fields the hashes depend on. *)
Definition keepsHashedView (c : Call) : bool :=
  match c with
  | CSetVertexBuffers _ _ | CSetIndexBuffer _ | CSetShaders _ _ | CSetShaderParameter _ _
  | CSetTexture _ _ | CSetRenderTarget _ _ | CSetRenderTargetTexture _ _
  | CSetClipPlane _ _ => true
  | _ => false
  end.

Lemma exec_keepsHashedView c g g' tx sx :
  keepsHashedView c = true -> exec c g = Some g' -> hashedView tx sx g' = hashedView tx sx g.
Proof.
  destruct c; try discriminate; intros _ [= <-]; frame_rec (hashedView tx sx).
Qed.

(** Every call keeps the hashes tracked, but for a [SetDepthStencil] of a
    render surface with another depth resolution. *)
Lemma exec_tracked c g g' :
  keepsDepthBits c g = true -> hashesTracked g -> exec c g = Some g' -> hashesTracked g'.
Proof.
  intros Hbits Ht He.
  destruct (isFieldSetter c) eqn:Hf; [by apply (fieldSetter_tracked c g)|].
  destruct (keepsHashedView c) eqn:Hk.
  { apply (hashedView_tracked g); [|done]. intros tx sx. by apply (exec_keepsHashedView c). }
  destruct (keepsCacheView c) eqn:Hc.
  - destruct c; try discriminate; injection He as <-.
    + apply SetDepthStencil_tracked; [|done]. cbn [keepsDepthBits] in Hbits. lia.
    + by apply SetDepthStencilTexture_tracked.
    + by apply SetViewport_tracked.
  - destruct (exec_draw_cases c g g' Hc He)
      as [(vs & ps & -> & _) | [-> | [-> | (type & call & primitives & _ & ->)]]].
    + discriminate Hk.
    + by apply PrepareDraw_tracked.
    + done.
    + by apply submitDraw_tracked.
Qed.

Lemma run_tracked cs g g' :
  runKeepsDepthBits cs g = true -> hashesTracked g -> run cs g = Some g' -> hashesTracked g'.
Proof.
  revert g. induction cs as [|c cs IH]; intros g; cbn [run runKeepsDepthBits].
  - by intros _ Ht [= <-].
  - intros [Hc Hcs]%andb_true_iff Ht.
    destruct (exec c g) as [g1|] eqn:He; [|done]. cbn.
    apply IH; [done|]. by apply (exec_tracked c g).
Qed.

Lemma newGraphics_tracked width height rtv dsv textures surfaces vbs ibs shaders :
  hashesTracked (newGraphics width height rtv dsv textures surfaces vbs ibs shaders).
Proof. repeat split; intros H; discriminate H. Qed.

Lemma reachableKeepingDepthBits_tracked g : reachableKeepingDepthBits g -> hashesTracked g.
Proof.
  intros (w & h & rtv & dsv & ts & ss & vbs & ibs & shs & cs & Hrun & Hkeep).
  eapply run_tracked; [exact Hkeep|apply newGraphics_tracked|exact Hrun].
Qed.

(** *** The scissor flag *)

(** [PrepareDraw] writes the scissor flag only when it resolves the render
    targets. *)
Definition scissorView (g : Graphics) := (scissorTest_ g, renderTargetsDirty_ g).

Lemma deviceCall_scissor c g : scissorView (deviceCall c g) = scissorView g.
Proof. frame deviceCall. Qed.
#[local] Hint Resolve deviceCall_scissor : frame.

Lemma logError_scissor msg g : scissorView (logError msg g) = scissorView g.
Proof. frame logError. Qed.
#[local] Hint Resolve logError_scissor : frame.

Lemma updConstantBuffer_scissor b f g : scissorView (updConstantBuffer b f g) = scissorView g.
Proof. frame updConstantBuffer. Qed.
#[local] Hint Resolve updConstantBuffer_scissor : frame.

Lemma resolveVertexDeclaration_scissor s :
  scissorView ((resolveVertexDeclaration s).1) = scissorView s.1.
Proof. frame resolveVertexDeclaration. Qed.
#[local] Hint Resolve resolveVertexDeclaration_scissor : frame.

Lemma resolvePrimitiveType_scissor s : scissorView ((resolvePrimitiveType s).1) = scissorView s.1.
Proof. frame resolvePrimitiveType. Qed.
#[local] Hint Resolve resolvePrimitiveType_scissor : frame.

Lemma resolveBlendState_scissor s : scissorView ((resolveBlendState s).1) = scissorView s.1.
Proof. frame resolveBlendState. Qed.
#[local] Hint Resolve resolveBlendState_scissor : frame.

Lemma resolveDepthState_scissor s : scissorView ((resolveDepthState s).1) = scissorView s.1.
Proof. frame resolveDepthState. Qed.
#[local] Hint Resolve resolveDepthState_scissor : frame.

Lemma resolveRasterizerState_scissor s :
  scissorView ((resolveRasterizerState s).1) = scissorView s.1.
Proof. frame resolveRasterizerState. Qed.
#[local] Hint Resolve resolveRasterizerState_scissor : frame.

Lemma resolveStateHashes_scissor g : scissorView ((resolveStateHashes g).1) = scissorView g.
Proof. frame resolveStateHashes. Qed.
#[local] Hint Resolve resolveStateHashes_scissor : frame.

Lemma bindStageBuffers_scissor type v buffers g :
  scissorView (bindStageBuffers type v buffers g) = scissorView g.
Proof. frame bindStageBuffers. Qed.
#[local] Hint Resolve bindStageBuffers_scissor : frame.

Lemma buildPipelineState_scissor g : scissorView ((buildPipelineState g).2) = scissorView g.
Proof. frame buildPipelineState. Qed.
#[local] Hint Resolve buildPipelineState_scissor : frame.

Lemma adoptPipelineState_scissor ps g : scissorView ((adoptPipelineState ps g).1) = scissorView g.
Proof. frame adoptPipelineState. Qed.
#[local] Hint Resolve adoptPipelineState_scissor : frame.

Lemma resolvePipelineState_scissor g : scissorView ((resolvePipelineState g).1) = scissorView g.
Proof. frame resolvePipelineState. Qed.
#[local] Hint Resolve resolvePipelineState_scissor : frame.

Lemma resolvePipeline_scissor g : scissorView ((resolvePipeline g).1) = scissorView g.
Proof. frame resolvePipeline. Qed.
#[local] Hint Resolve resolvePipeline_scissor : frame.

Lemma commitTextures_scissor changed g : scissorView (commitTextures changed g) = scissorView g.
Proof. frame commitTextures. Qed.
#[local] Hint Resolve commitTextures_scissor : frame.

Lemma ConstantBuffer_Apply_scissor b g : scissorView (ConstantBuffer_Apply b g) = scissorView g.
Proof. frame ConstantBuffer_Apply. Qed.
#[local] Hint Resolve ConstantBuffer_Apply_scissor : frame.

Lemma flushConstantBuffers_scissor g : scissorView (flushConstantBuffers g) = scissorView g.
Proof. frame flushConstantBuffers. Qed.
#[local] Hint Resolve flushConstantBuffers_scissor : frame.

Lemma bindDraw_scissor s : scissorView (bindDraw s) = scissorView s.1.
Proof. frame bindDraw. Qed.
#[local] Hint Resolve bindDraw_scissor : frame.

Lemma commitDraw_scissor s : scissorView (commitDraw s) = scissorView s.1.
Proof. frame commitDraw. Qed.
#[local] Hint Resolve commitDraw_scissor : frame.

Lemma SetBlendMode_targetsDirty mode a g :
  renderTargetsDirty_ (SetBlendMode mode a g) = renderTargetsDirty_ g.
Proof. frame SetBlendMode. Qed.
#[local] Hint Resolve SetBlendMode_targetsDirty : frame.

Lemma SetColorWrite_targetsDirty enable g :
  renderTargetsDirty_ (SetColorWrite enable g) = renderTargetsDirty_ g.
Proof. frame SetColorWrite. Qed.
#[local] Hint Resolve SetColorWrite_targetsDirty : frame.

Lemma SetCullMode_targetsDirty mode g :
  renderTargetsDirty_ (SetCullMode mode g) = renderTargetsDirty_ g.
Proof. frame SetCullMode. Qed.
#[local] Hint Resolve SetCullMode_targetsDirty : frame.

Lemma SetDepthBias_targetsDirty c s g :
  renderTargetsDirty_ (SetDepthBias c s g) = renderTargetsDirty_ g.
Proof. frame SetDepthBias. Qed.
#[local] Hint Resolve SetDepthBias_targetsDirty : frame.

Lemma SetDepthTest_targetsDirty mode g :
  renderTargetsDirty_ (SetDepthTest mode g) = renderTargetsDirty_ g.
Proof. frame SetDepthTest. Qed.
#[local] Hint Resolve SetDepthTest_targetsDirty : frame.

Lemma SetFillMode_targetsDirty mode g :
  renderTargetsDirty_ (SetFillMode mode g) = renderTargetsDirty_ g.
Proof. frame SetFillMode. Qed.
#[local] Hint Resolve SetFillMode_targetsDirty : frame.

Lemma SetLineAntiAlias_targetsDirty enable g :
  renderTargetsDirty_ (SetLineAntiAlias enable g) = renderTargetsDirty_ g.
Proof. frame SetLineAntiAlias. Qed.
#[local] Hint Resolve SetLineAntiAlias_targetsDirty : frame.

Lemma storeScissor_targetsDirty enable r g :
  renderTargetsDirty_ (storeScissor enable r g) = renderTargetsDirty_ g.
Proof. frame storeScissor. Qed.
#[local] Hint Resolve storeScissor_targetsDirty : frame.

Lemma SetScissorTest_targetsDirty enable rect b g :
  renderTargetsDirty_ (SetScissorTest enable rect b g) = renderTargetsDirty_ g.
Proof. frame SetScissorTest. Qed.
#[local] Hint Resolve SetScissorTest_targetsDirty : frame.

Lemma SetScissorTestInt_targetsDirty enable rect g :
  renderTargetsDirty_ (SetScissorTestInt enable rect g) = renderTargetsDirty_ g.
Proof. frame SetScissorTestInt. Qed.
#[local] Hint Resolve SetScissorTestInt_targetsDirty : frame.

Lemma SetStencilTest_targetsDirty e m p f z r cm wm g :
  renderTargetsDirty_ (SetStencilTest e m p f z r cm wm g) = renderTargetsDirty_ g.
Proof. frame SetStencilTest. Qed.
#[local] Hint Resolve SetStencilTest_targetsDirty : frame.


Lemma PrepareDraw_scissor g :
  renderTargetsDirty_ g = false -> scissorView (PrepareDraw g) = scissorView g.
Proof.
  intros Hd. unfold PrepareDraw. rewrite Hd.
  destruct (_ || _); [done|]. frame_rec scissorView.
Qed.

Lemma PrepareDraw_renderTargetsDirty g : renderTargetsDirty_ (PrepareDraw g) = false.
Proof.
  unfold PrepareDraw.
  set (g1 := if renderTargetsDirty_ g then resolveRenderTargets g else g).
  assert (H1 : renderTargetsDirty_ g1 = false).
  { subst g1. destruct (renderTargetsDirty_ g) eqn:Hd; [|done].
    unfold resolveRenderTargets. by record_simpl. }
  clearbody g1. destruct (_ || _); [done|].
  rewrite <- H1.
  assert (Hs : scissorView (commitDraw (resolvePipeline g1)) = scissorView g1)
    by frame_rec scissorView.
  exact (f_equal snd Hs).
Qed.

(** The packed inputs of the three hashes. *)
Definition hashedInputs (g : Graphics) := (blendInputs g, depthInputs g, rasterInputs g).

Lemma settledInputs_hashed g h :
  settledInputs g = settledInputs h -> scissorTest_ g = scissorTest_ h ->
  hashedInputs g = hashedInputs h.
Proof.
  intros H Hs. unfold hashedInputs, rasterInputs.
  rewrite (f_equal (fun v => v.1.1.1.1.1.1) H : blendInputs g = blendInputs h).
  rewrite (f_equal (fun v => v.1.1.1.1.1.2) H : depthInputs g = depthInputs h).
  rewrite (f_equal (fun v => v.1.1.1.1.2) H : lineAntiAlias_ g = lineAntiAlias_ h).
  rewrite (f_equal (fun v => v.1.1.1.2) H : fillMode_ g = fillMode_ h).
  rewrite (f_equal (fun v => v.1.1.2) H : cullMode_ g = cullMode_ h).
  rewrite (f_equal (fun v => v.1.2) H
           : Z.land (scaledDepthBias g) 8191 = Z.land (scaledDepthBias h) 8191).
  rewrite (f_equal (fun v => v.2) H
           : Z.land (float_scaled_to_int (slopeScaledDepthBias_ g) 100) 8191
             = Z.land (float_scaled_to_int (slopeScaledDepthBias_ h) 100) 8191).
  by rewrite Hs.
Qed.

Lemma PrepareDraw_hashedInputs g :
  renderTargetsDirty_ g = false -> hashedInputs (PrepareDraw g) = hashedInputs g.
Proof.
  intros Hd. apply settledInputs_hashed; [apply PrepareDraw_settled|].
  exact (f_equal fst (PrepareDraw_scissor g Hd)).
Qed.

(** Of the setters of hashed fields only [SetDepthWrite] marks the render
    targets dirty, and only when it changes the field. *)
Lemma fieldSetter_renderTargetsDirty c g g' :
  isFieldSetter c = true -> exec c g = Some g' -> renderTargetsDirty_ g = false ->
  renderTargetsDirty_ g' = false \/ depthInputs g' <> depthInputs g.
Proof.
  intros Hc He Hd.
  destruct c; try discriminate Hc; injection He as <-;
    try (left; rewrite <- Hd; solve [eauto 2 with frame nocore]).
  unfold SetDepthWrite.
  destruct (eqb enable (depthWrite_ g)) eqn:Heq; cbn [negb].
  - by left.
  - right. unfold depthInputs. record_simpl. intros H.
    apply eqb_false_iff in Heq. apply Heq.
    exact (f_equal (fun v => v.1.1.1.1.1.1.1.1) H).
Qed.

(** With the hashes tracked: after a [PrepareDraw]
    with both shaders bound and one call of a setter of a hashed field, the
    next [PrepareDraw] arrives at another key if the call has changed a
    packed input. *)
Lemma tracked_key_sensitivity g c g2 :
  hashesTracked g -> is_Some (vertexShader_ g) -> is_Some (pixelShader_ g) ->
  isFieldSetter c = true ->
  exec c (PrepareDraw g) = Some g2 ->
  hashedInputs g2 <> hashedInputs (PrepareDraw g) ->
  pipelineKey (PrepareDraw g2) <> pipelineKey (PrepareDraw g).
Proof.
  intros Ht Hvs Hps Hc He Hne Hk.
  set (g1 := PrepareDraw g) in *. set (g3 := PrepareDraw g2) in *.
  pose proof (PrepareDraw_syncs g Ht Hvs Hps) as Hs1. fold g1 in Hs1.
  destruct (PrepareDraw_shaders g) as [Hv1 Hp1]. fold g1 in Hv1, Hp1.
  pose proof (fieldSetter_tracked c g1 g2 Hc (hashesInSync_tracked g1 Hs1) He) as Ht2.
  destruct (exec_keepsCacheView c g1 g2 (isFieldSetter_keepsCacheView c Hc) He) as [Hcv _].
  destruct (storeView_eq _ _ (cacheView_storeView _ _ Hcv)) as (_ & _ & Hv2 & Hp2).
  assert (Hvs2 : is_Some (vertexShader_ g2)) by congruence.
  assert (Hps2 : is_Some (pixelShader_ g2)) by congruence.
  pose proof (PrepareDraw_syncs g2 Ht2 Hvs2 Hps2) as Hs3. fold g3 in Hs3.
  destruct (synced_key_inputs g3 g1 Hs3 Hs1 Hk) as (Eb & Ed & Er).
  assert (Hset : settledInputs g3 = settledInputs g2) by apply PrepareDraw_settled.
  destruct (fieldSetter_renderTargetsDirty c g1 g2 Hc He (PrepareDraw_renderTargetsDirty g))
    as [Hclean | Hdepth].
  - apply Hne. rewrite <- (PrepareDraw_hashedInputs g2 Hclean). fold g3.
    unfold hashedInputs. by rewrite Eb, Ed, Er.
  - apply Hdepth. rewrite <- Ed.
    exact (eq_sym (f_equal (fun v => v.1.1.1.1.1.2) Hset)).
Qed.

(** C2, with the fields as the hashes pack them.  Take a state reached
    from a new [Graphics] by calls of which no [SetDepthStencil] of a
    render surface changes the depth resolution, with both shaders bound.
    After a [PrepareDraw] and one call of a setter of a hashed field, the
    next [PrepareDraw] arrives at a different composite key if the call has
    changed a packed input; and it builds one pipeline, cached under its
    key, if the cache had no entry for that key, and none if it had. *)
Theorem cache_key_sensitivity (g : Graphics) (c : Call) (g2 : Graphics) :
  reachableKeepingDepthBits g ->
  is_Some (vertexShader_ g) -> is_Some (pixelShader_ g) ->
  isFieldSetter c = true ->
  exec c (PrepareDraw g) = Some g2 ->
  let g1 := PrepareDraw g in
  let g3 := PrepareDraw g2 in
  (hashedInputs g2 <> hashedInputs g1 -> pipelineKey g3 <> pipelineKey g1)
  /\ (pipelineStates_ g2 !! pipelineKey g3 = None ->
      pipelineBuilds g3 = S (pipelineBuilds g2)
      /\ exists ps, pipelineStates_ g3 = <[pipelineKey g3 := ps]> (pipelineStates_ g2))
  /\ (is_Some (pipelineStates_ g2 !! pipelineKey g3) ->
      pipelineBuilds g3 = pipelineBuilds g2 /\ pipelineStates_ g3 = pipelineStates_ g2).
Proof.
  intros Hreach Hvs Hps Hc He g1 g3.
  pose proof (reachableKeepingDepthBits_tracked g Hreach) as Ht.
  pose proof (reachable_consistent g (reachableKeepingDepthBits_reachable g Hreach)) as Hcons.
  pose proof (PrepareDraw_consistent g Hcons) as Hcons1. fold g1 in Hcons1.
  destruct (PrepareDraw_shaders g) as [Hv1 Hp1]. fold g1 in Hv1, Hp1.
  pose proof (exec_consistent c g1 g2 Hcons1 He) as Hcons2.
  destruct (exec_keepsCacheView c g1 g2 (isFieldSetter_keepsCacheView c Hc) He) as [Hcv _].
  destruct (storeView_eq _ _ (cacheView_storeView _ _ Hcv)) as (_ & _ & Hv2 & Hp2).
  assert (Hvs2 : is_Some (vertexShader_ g2)) by congruence.
  assert (Hps2 : is_Some (pixelShader_ g2)) by congruence.
  destruct (PrepareDraw_resolved g2 Hcons2 Hvs2 Hps2) as (ps3 & Hl3 & _). fold g3 in Hl3.
  pose proof (PrepareDraw_step g2) as Hstep. fold g3 in Hstep.
  split; [|split].
  - intros Hne. by apply (tracked_key_sensitivity g c g2).
  - intros Hnone. destruct Hstep as [[Hs _] | (_ & Hb & ps & Hs)].
    + rewrite Hs in Hl3. congruence.
    + split; [done|]. by exists ps.
  - intros [ps Hsome]. destruct Hstep as [[Hs Hb] | (Hnone & _)]; [done|congruence].
Qed.


(** * Further properties of the member functions *)

(** ** Constant buffers *)

Lemma land_round16 x : 0 <= x < 2 ^ 32 -> Z.land x 4294967280 = 16 * (x / 16).
Proof.
  intros Hx. change 4294967280 with (Z.shiftl (Z.ones 28) 4).
  replace (16 * (x / 16)) with (Z.shiftl (Z.shiftr x 4) 4).
  2: { rewrite Z.shiftl_mul_pow2, Z.shiftr_div_pow2 by lia. change (2 ^ 4) with 16. lia. }
  apply Z.bits_inj'. intros k Hk. rewrite Z.land_spec.
  destruct (Z.lt_ge_cases k 4).
  - rewrite !Z.shiftl_spec_low by lia. apply andb_false_r.
  - rewrite !Z.shiftl_spec by lia. rewrite Z.shiftr_spec by lia.
    replace (k - 4 + 4) with k by lia.
    destruct (Z.lt_ge_cases k 32).
    + rewrite Z.ones_spec_low by lia. apply andb_true_r.
    + rewrite (testbit_above x 32 k) by lia. done.
Qed.

Lemma constantBuffer_deviceCall c g b : constantBuffer (deviceCall c g) b = constantBuffer g b.
Proof. reflexivity. Qed.

Lemma constantBuffer_logError msg g b : constantBuffer (logError msg g) b = constantBuffer g b.
Proof. reflexivity. Qed.

(** X1.  [ConstantBuffer::SetSize] rounds a size up to the next multiple of
    16 bytes: the buffer ends with that size, a zeroed shadow copy of that
    length and a clear dirty flag, whether or not a GPU object is created.
    A buffer that has a graphics subsystem asks the device for the object in
    one call and succeeds exactly when the device creates it; a buffer
    without one makes no device call, gets no object and succeeds. *)
Theorem ConstantBuffer_SetSize_rounds_up (b : nat) (size : Z) (g : Graphics) :
  0 < size <= 4294967280 ->
  let r := ConstantBuffer_SetSize b size g in
  let cb := constantBuffer r.1 b in
  size_ cb = 16 * ((size + 15) / 16)
  /\ size <= size_ cb < size + 16
  /\ shadowData_ cb = replicate (Z.to_nat (size_ cb)) 0
  /\ dirty_ cb = false
  /\ cb_graphics_ cb = cb_graphics_ (constantBuffer g b)
  /\ (cb_graphics_ (constantBuffer g b) = true ->
      r.2 = deviceAnswer g
      /\ (r.2 = true <-> is_Some (cb_object_ cb))
      /\ deviceTrace r.1 = deviceTrace g ++ [DevCreateBuffer (size_ cb) (cb_object_ cb)])
  /\ (cb_graphics_ (constantBuffer g b) = false ->
      r.2 = true /\ cb_object_ cb = None /\ deviceTrace r.1 = deviceTrace g).
Proof.
  intros Hsize. cbv zeta. unfold ConstantBuffer_SetSize.
  replace (size =? 0) with false by lia. cbv zeta.
  assert (Hround : Z.land (wrap32 (size + 15)) 4294967280 = 16 * ((size + 15) / 16)).
  { unfold wrap32. rewrite Z.mod_small by (change (2 ^ 32) with 4294967296; lia).
    apply land_round16. change (2 ^ 32) with 4294967296. lia. }
  rewrite Hround. set (rounded := 16 * ((size + 15) / 16)).
  assert (Hbounds : size <= rounded < size + 16).
  { subst rounded. pose proof (Z.div_mod (size + 15) 16 ltac:(lia)).
    pose proof (Z.mod_pos_bound (size + 15) 16 ltac:(lia)). lia. }
  set (g1 := updConstantBuffer b _ g).
  set (g2 := updConstantBuffer b _ g1).
  assert (Hanswer : deviceAnswer g2 = deviceAnswer g) by reflexivity.
  assert (Htrace : deviceTrace g2 = deviceTrace g) by reflexivity.
  assert (Hcb : constantBuffer g2 b
                = mkConstantBuffer false None rounded (replicate (Z.to_nat rounded) 0)
                    (cb_graphics_ (constantBuffer g b))).
  { subst g2 g1. by rewrite !constantBuffer_upd, !decide_True by done. }
  rewrite Hanswer, Hcb. cbn [cb_graphics_]. clearbody g2.
  destruct (cb_graphics_ (constantBuffer g b)) eqn:Hgraphics.
  - destruct (deviceAnswer g) eqn:Ha; cbn [bool_decide decide_rel fst snd];
      [rewrite bool_decide_eq_false_2 by done|rewrite bool_decide_eq_true_2 by done];
      cbn [fst snd]; rewrite ?constantBuffer_logError, constantBuffer_upd;
      rewrite decide_True by done; rewrite constantBuffer_deviceCall, Hcb;
      cbn [size_ shadowData_ dirty_ cb_object_ cb_graphics_];
      unfold logError, updConstantBuffer, deviceCall; record_simpl; rewrite Htrace.
    + repeat split; try done; try lia; by eexists.
    + repeat split; try done; try lia; intros [? ?]; done.
  - cbn [fst snd]. rewrite Hcb. cbn [size_ shadowData_ dirty_ cb_object_ cb_graphics_].
    repeat split; try done; lia.
Qed.

(** X2.  [ConstantBuffer::SetSize] refuses a size of zero: it returns
    [false], logs one error and makes no device call, and the buffer is left
    released, without GPU object, size or shadow copy. *)
Theorem ConstantBuffer_SetSize_zero (b : nat) (g : Graphics) :
  let r := ConstantBuffer_SetSize b 0 g in
  r.2 = false
  /\ deviceTrace r.1 = deviceTrace g
  /\ logMessages r.1 = logMessages g ++ ["Can not create zero-sized constant buffer"%string]
  /\ cb_object_ (constantBuffer r.1 b) = None
  /\ size_ (constantBuffer r.1 b) = 0
  /\ shadowData_ (constantBuffer r.1 b) = []
  /\ dirty_ (constantBuffer r.1 b) = dirty_ (constantBuffer g b).
Proof.
  cbv zeta. unfold ConstantBuffer_SetSize. cbn [Z.eqb fst snd].
  rewrite constantBuffer_logError, constantBuffer_upd, decide_True by done.
  repeat split; reflexivity.
Qed.

(** The key under which [GetOrCreateConstantBuffer] files a buffer. *)
Definition constantBufferKey (type : ShaderType) (index : nat) (size : Z) : Z :=
  wrap32 (Z.lor (Z.lor (ShaderType_to_Z type) (Z.shiftl (Z.of_nat index) 1))
                (Z.shiftl size 4)).

Lemma constantBufferKey_sum type index size :
  (index < 8)%nat -> 0 <= size < 2 ^ 28 ->
  constantBufferKey type index size = ShaderType_to_Z type + 2 * Z.of_nat index + 16 * size.
Proof.
  intros Hi Hs. unfold constantBufferKey, wrap32.
  assert (Ht : 0 <= ShaderType_to_Z type <= 1) by (destruct type; cbn; lia).
  rewrite (lor_shiftl_add _ _ 1) by (change (2 ^ 1) with 2; lia).
  rewrite (lor_shiftl_add _ _ 4) by (change (2 ^ 1) with 2; change (2 ^ 4) with 16; lia).
  change (2 ^ 1) with 2. change (2 ^ 4) with 16.
  rewrite Z.mod_small; [lia|]. change (2 ^ 28) with 268435456 in Hs.
  change (2 ^ 32) with 4294967296. lia.
Qed.

Lemma GetOrCreateConstantBuffer_unfold type index size g :
  GetOrCreateConstantBuffer type index size g
  = match allConstantBuffers_ g !! constantBufferKey type index size with
    | Some b => (b, g)
    | None =>
        let b := fresh (dom (constantBufferObjects g)) in
        let g1 := (ConstantBuffer_SetSize b size
                     (g <| constantBufferObjects :=
                             <[b := mkConstantBuffer false None 0 [] true]>
                               (constantBufferObjects g) |>)).1 in
        (b, g1 <| allConstantBuffers_ :=
                    <[constantBufferKey type index size := b]> (allConstantBuffers_ g1) |>)
    end.
Proof. reflexivity. Qed.

Lemma updConstantBuffer_all b f g :
  allConstantBuffers_ (updConstantBuffer b f g) = allConstantBuffers_ g.
Proof. reflexivity. Qed.

Lemma ConstantBuffer_SetSize_all b size g :
  allConstantBuffers_ (ConstantBuffer_SetSize b size g).1 = allConstantBuffers_ g.
Proof.
  unfold ConstantBuffer_SetSize. cbv zeta.
  destruct (size =? 0); [reflexivity|].
  destruct (cb_graphics_ _); [by destruct (bool_decide _)|reflexivity].
Qed.

Lemma updConstantBuffer_objects b f g b' :
  is_Some (constantBufferObjects g !! b') ->
  is_Some (constantBufferObjects (updConstantBuffer b f g) !! b').
Proof.
  intros Hb'. unfold updConstantBuffer. record_simpl.
  destruct (decide (b' = b)) as [->|Hne];
    [rewrite lookup_insert_eq; by eexists|by rewrite lookup_insert_ne].
Qed.

Lemma ConstantBuffer_SetSize_objects b size g b' :
  is_Some (constantBufferObjects g !! b') ->
  is_Some (constantBufferObjects (ConstantBuffer_SetSize b size g).1 !! b').
Proof.
  intros Hb'.
  set (P := fun r : Graphics * bool => is_Some (constantBufferObjects r.1 !! b')).
  change (P (ConstantBuffer_SetSize b size g)). cbv beta delta [ConstantBuffer_SetSize].
  let_in_pred g1.
  assert (H1 : is_Some (constantBufferObjects g1 !! b'))
    by apply updConstantBuffer_objects, Hb'.
  clearbody g1. destruct (size =? 0); [exact H1|].
  let_in_pred rounded. let_in_pred g2.
  assert (H2 : is_Some (constantBufferObjects g2 !! b'))
    by apply updConstantBuffer_objects, H1.
  clearbody g2. destruct (cb_graphics_ _); [|exact H2].
  let_in_pred created. let_in_pred g3.
  assert (H3 : is_Some (constantBufferObjects g3 !! b')) by exact H2.
  clearbody g3. let_in_pred g4.
  assert (H4 : is_Some (constantBufferObjects g4 !! b'))
    by apply updConstantBuffer_objects, H3.
  clearbody g4. destruct (bool_decide _); exact H4.
Qed.

(** X3.  [GetOrCreateConstantBuffer] creates a buffer once: asking again
    for the same shader type, slot and size returns the same buffer and
    leaves the state as the first request left it, so no second buffer is
    created and no device call is made. *)
Theorem GetOrCreateConstantBuffer_again (type : ShaderType) (index : nat) (size : Z)
    (g : Graphics) :
  let r := GetOrCreateConstantBuffer type index size g in
  GetOrCreateConstantBuffer type index size r.2 = r.
Proof.
  cbv zeta. rewrite (GetOrCreateConstantBuffer_unfold type index size g).
  destruct (allConstantBuffers_ g !! constantBufferKey type index size) as [b|] eqn:Hkey.
  - cbn [snd]. rewrite GetOrCreateConstantBuffer_unfold, Hkey. reflexivity.
  - cbv zeta. cbn [snd]. rewrite GetOrCreateConstantBuffer_unfold. record_simpl.
    rewrite lookup_insert_eq. reflexivity.
Qed.

(** Every filed buffer exists, and no buffer is filed under two keys. *)
Definition constantBuffersDistinct (g : Graphics) : Prop :=
  (forall k b, allConstantBuffers_ g !! k = Some b -> is_Some (constantBufferObjects g !! b))
  /\ (forall k1 k2 b,
        allConstantBuffers_ g !! k1 = Some b -> allConstantBuffers_ g !! k2 = Some b ->
        k1 = k2).

Lemma GetOrCreateConstantBuffer_keeps_distinct type index size g :
  constantBuffersDistinct g ->
  constantBuffersDistinct (GetOrCreateConstantBuffer type index size g).2
  /\ allConstantBuffers_ (GetOrCreateConstantBuffer type index size g).2
       !! constantBufferKey type index size
     = Some (GetOrCreateConstantBuffer type index size g).1.
Proof.
  intros [Hex Hinj]. rewrite GetOrCreateConstantBuffer_unfold.
  destruct (allConstantBuffers_ g !! constantBufferKey type index size) as [b|] eqn:Hkey;
    [done|].
  cbv zeta. cbn [fst snd].
  set (b := fresh (dom (constantBufferObjects g))).
  assert (Hfresh : constantBufferObjects g !! b = None).
  { apply not_elem_of_dom. apply is_fresh. }
  set (g0 := g <| constantBufferObjects := _ |>).
  assert (Hall : allConstantBuffers_ (ConstantBuffer_SetSize b size g0).1 = allConstantBuffers_ g)
    by (by rewrite ConstantBuffer_SetSize_all).
  assert (Hobj : forall b', is_Some (constantBufferObjects g0 !! b') ->
                 is_Some (constantBufferObjects (ConstantBuffer_SetSize b size g0).1 !! b'))
    by (intros; by apply ConstantBuffer_SetSize_objects).
  assert (Hg0 : forall b', is_Some (constantBufferObjects g !! b') ->
                is_Some (constantBufferObjects g0 !! b')).
  { intros b' Hb'. subst g0. record_simpl.
    destruct (decide (b' = b)) as [->|Hne];
      [rewrite lookup_insert_eq; by eexists|by rewrite lookup_insert_ne]. }
  assert (Hb : is_Some (constantBufferObjects g0 !! b)).
  { subst g0. record_simpl. rewrite lookup_insert_eq. by eexists. }
  unfold constantBuffersDistinct. record_simpl. rewrite Hall.
  split; [split|by rewrite lookup_insert_eq].
  - intros k b'. destruct (decide (k = constantBufferKey type index size)) as [->|Hne].
    + rewrite lookup_insert_eq. intros [= <-]. by apply Hobj.
    + rewrite lookup_insert_ne by done. intros Hk. by apply Hobj, Hg0, (Hex k).
  - intros k1 k2 b'.
    destruct (decide (k1 = constantBufferKey type index size)) as [->|Hne1];
      destruct (decide (k2 = constantBufferKey type index size)) as [->|Hne2];
      rewrite ?lookup_insert_eq, ?lookup_insert_ne by done; [done| | |by apply Hinj].
    + intros [= <-] Hk. destruct (Hex _ _ Hk) as [? ?]. congruence.
    + intros Hk [= <-]. destruct (Hex _ _ Hk) as [? ?]. congruence.
Qed.

Lemma newGraphics_constantBuffersDistinct width height rtv dsv textures surfaces vbs ibs shaders :
  constantBuffersDistinct (newGraphics width height rtv dsv textures surfaces vbs ibs shaders).
Proof.
  assert (Hnone : forall k,
            allConstantBuffers_
              (newGraphics width height rtv dsv textures surfaces vbs ibs shaders) !! k = None)
    by (intros k; apply lookup_empty).
  split; intros ? ?; [|intros ?]; intros Hk; by rewrite Hnone in Hk.
Qed.

(** X4.  Different shader types, index slots or sizes get different
    constant buffers: two requests that differ in one of the three (slot
    below 8, size below 2^28, so that the packed key does not overflow)
    return different buffers. *)
Theorem GetOrCreateConstantBuffer_distinct (type type' : ShaderType) (index index' : nat)
    (size size' : Z) (g : Graphics) :
  constantBuffersDistinct g ->
  (index < 8)%nat -> (index' < 8)%nat ->
  0 <= size < 2 ^ 28 -> 0 <= size' < 2 ^ 28 ->
  (type, index, size) <> (type', index', size') ->
  let r := GetOrCreateConstantBuffer type index size g in
  let r' := GetOrCreateConstantBuffer type' index' size' r.2 in
  r.1 <> r'.1 /\ constantBuffersDistinct r'.2.
Proof.
  intros Hd Hi Hi' Hs Hs' Hne. cbv zeta.
  destruct (GetOrCreateConstantBuffer_keeps_distinct type index size g Hd) as [Hd1 Hk1].
  destruct (GetOrCreateConstantBuffer_keeps_distinct type' index' size' _ Hd1) as [Hd2 Hk2].
  split; [|done]. intros Heq.
  assert (Hkeys : constantBufferKey type index size <> constantBufferKey type' index' size').
  { rewrite !constantBufferKey_sum by done. intros Hk. apply Hne.
    assert (Ht : 0 <= ShaderType_to_Z type <= 1) by (destruct type; cbn; lia).
    assert (Ht' : 0 <= ShaderType_to_Z type' <= 1) by (destruct type'; cbn; lia).
    assert (ShaderType_to_Z type = ShaderType_to_Z type') by lia.
    assert (index = index') by lia. assert (size = size') by lia.
    assert (type = type') by (destruct type, type'; cbn in *; congruence).
    congruence. }
  set (r := GetOrCreateConstantBuffer type index size g) in *.
  set (r' := GetOrCreateConstantBuffer type' index' size' r.2) in *.
  assert (Hk1' : allConstantBuffers_ r'.2 !! constantBufferKey type index size = Some r.1).
  { subst r'. rewrite GetOrCreateConstantBuffer_unfold.
    destruct (allConstantBuffers_ r.2 !! constantBufferKey type' index' size'); [done|].
    cbv zeta. cbn [snd]. record_simpl. rewrite ConstantBuffer_SetSize_all. record_simpl.
    by rewrite lookup_insert_ne. }
  rewrite <- Heq in Hk2. exact (Hkeys (proj2 Hd2 _ _ _ Hk1' Hk2)).
Qed.

(** ** Applying a constant buffer *)

Lemma constantBuffer_same b f g : constantBuffer (updConstantBuffer b f g) b = f (constantBuffer g b).
Proof. unfold constantBuffer, updConstantBuffer. record_simpl. by rewrite lookup_total_insert_eq. Qed.

(** X5.  [ConstantBuffer::Apply] leaves a buffer with a GPU object clean
    whether or not the device mapped it: when the mapping fails nothing is
    copied, the only call made is the failed mapping, and the pending
    contents are not sent by a later [Apply], which changes nothing. *)
Theorem ConstantBuffer_Apply_clears_dirty (b : nat) (g : Graphics) :
  let g' := ConstantBuffer_Apply b g in
  (is_Some (cb_object_ (constantBuffer g b)) -> dirty_ (constantBuffer g' b) = false)
  /\ cb_object_ (constantBuffer g' b) = cb_object_ (constantBuffer g b)
  /\ shadowData_ (constantBuffer g' b) = shadowData_ (constantBuffer g b)
  /\ (forall buffer,
        cb_object_ (constantBuffer g b) = Some buffer ->
        dirty_ (constantBuffer g b) = true ->
        deviceTrace g'
        = deviceTrace g
          ++ (if deviceAnswer g
              then [DevMapBuffer buffer true;
                    DevCopyToMapped buffer (shadowData_ (constantBuffer g b));
                    DevUnmapBuffer buffer]
              else [DevMapBuffer buffer false]))
  /\ ConstantBuffer_Apply b g' = g'.
Proof.
  intros g'.
  assert (Hcases :
    (g' = g /\ (cb_object_ (constantBuffer g b) = None \/ dirty_ (constantBuffer g b) = false))
    \/ (exists buffer,
          cb_object_ (constantBuffer g b) = Some buffer
          /\ constantBuffer g' b = (constantBuffer g b) <| dirty_ := false |>
          /\ deviceTrace g'
             = deviceTrace g
               ++ (if deviceAnswer g
                   then [DevMapBuffer buffer true;
                         DevCopyToMapped buffer (shadowData_ (constantBuffer g b));
                         DevUnmapBuffer buffer]
                   else [DevMapBuffer buffer false]))).
  { subst g'. unfold ConstantBuffer_Apply.
    destruct (cb_object_ (constantBuffer g b)) as [buffer|]; [|left; split; [done|by left]].
    destruct (dirty_ (constantBuffer g b)); [|left; split; [done|by right]].
    right. exists buffer. split; [done|]. cbv zeta.
    set (g1 := if deviceAnswer g then _ else _).
    assert (H1 : constantBuffer g1 b = constantBuffer g b
                 /\ deviceTrace g1
                    = deviceTrace g
                      ++ (if deviceAnswer g
                          then [DevMapBuffer buffer true;
                                DevCopyToMapped buffer (shadowData_ (constantBuffer g b));
                                DevUnmapBuffer buffer]
                          else [DevMapBuffer buffer false])).
    { subst g1. unfold constantBuffer, deviceCall.
      destruct (deviceAnswer g); record_simpl; rewrite <- ?app_assoc; done. }
    destruct H1 as [Hsame Htrace]. clearbody g1.
    rewrite constantBuffer_same, Hsame. split; [done|].
    unfold updConstantBuffer. record_simpl. exact Htrace. }
  clearbody g'. destruct Hcases as [[-> Hidle]|(buffer & Hobject & Hb & Htrace)].
  - assert (Hagain : ConstantBuffer_Apply b g = g).
    { unfold ConstantBuffer_Apply. destruct Hidle as [-> | Hclean]; [done|].
      rewrite Hclean. by destruct (cb_object_ (constantBuffer g b)). }
    split; [|repeat split; try done].
    + intros [buffer Hobject]. destruct Hidle as [Hnone|Hclean]; [congruence|done].
    + intros buffer Hobject Hdirty. destruct Hidle; congruence.
  - assert (Hfields : dirty_ (constantBuffer g' b) = false
                      /\ cb_object_ (constantBuffer g' b) = cb_object_ (constantBuffer g b)
                      /\ shadowData_ (constantBuffer g' b) = shadowData_ (constantBuffer g b)).
    { rewrite Hb. by destruct (constantBuffer g b). }
    destruct Hfields as (Hclean & Hsame & Hshadow). repeat split; try done.
    + intros buffer' Hbuffer' _. assert (buffer' = buffer) as -> by congruence. exact Htrace.
    + unfold ConstantBuffer_Apply. by rewrite Hsame, Hobject, Hclean.
Qed.

(** ** The shader program *)

(** The shaders in use, the program selected for them and the programs
    created so far. *)
Definition programView (g : Graphics) :=
  (vertexShader_ g, pixelShader_ g, shaderProgram_ g, shaderPrograms_ g).

Lemma deviceCall_program c g : programView (deviceCall c g) = programView g.
Proof. frame deviceCall. Qed.
#[local] Hint Resolve deviceCall_program : frame.

Lemma logError_program msg g : programView (logError msg g) = programView g.
Proof. frame logError. Qed.
#[local] Hint Resolve logError_program : frame.

Lemma updTexture_program t f g : programView (updTexture t f g) = programView g.
Proof. frame updTexture. Qed.
#[local] Hint Resolve updTexture_program : frame.

Lemma updSurface_program s f g : programView (updSurface s f g) = programView g.
Proof. frame updSurface. Qed.
#[local] Hint Resolve updSurface_program : frame.

Lemma updShader_program v f g : programView (updShader v f g) = programView g.
Proof. frame updShader. Qed.
#[local] Hint Resolve updShader_program : frame.

Lemma updConstantBuffer_program b f g : programView (updConstantBuffer b f g) = programView g.
Proof. frame updConstantBuffer. Qed.
#[local] Hint Resolve updConstantBuffer_program : frame.

Lemma SetBlendMode_program mode a g : programView (SetBlendMode mode a g) = programView g.
Proof. frame SetBlendMode. Qed.
#[local] Hint Resolve SetBlendMode_program : frame.

Lemma SetColorWrite_program enable g : programView (SetColorWrite enable g) = programView g.
Proof. frame SetColorWrite. Qed.
#[local] Hint Resolve SetColorWrite_program : frame.

Lemma SetCullMode_program mode g : programView (SetCullMode mode g) = programView g.
Proof. frame SetCullMode. Qed.
#[local] Hint Resolve SetCullMode_program : frame.

Lemma SetDepthBias_program c s g : programView (SetDepthBias c s g) = programView g.
Proof. frame SetDepthBias. Qed.
#[local] Hint Resolve SetDepthBias_program : frame.

Lemma SetDepthTest_program mode g : programView (SetDepthTest mode g) = programView g.
Proof. frame SetDepthTest. Qed.
#[local] Hint Resolve SetDepthTest_program : frame.

Lemma SetDepthWrite_program enable g : programView (SetDepthWrite enable g) = programView g.
Proof. frame SetDepthWrite. Qed.
#[local] Hint Resolve SetDepthWrite_program : frame.

Lemma SetFillMode_program mode g : programView (SetFillMode mode g) = programView g.
Proof. frame SetFillMode. Qed.
#[local] Hint Resolve SetFillMode_program : frame.

Lemma SetLineAntiAlias_program enable g : programView (SetLineAntiAlias enable g) = programView g.
Proof. frame SetLineAntiAlias. Qed.
#[local] Hint Resolve SetLineAntiAlias_program : frame.

Lemma storeScissor_program enable r g : programView (storeScissor enable r g) = programView g.
Proof. frame storeScissor. Qed.
#[local] Hint Resolve storeScissor_program : frame.

Lemma SetScissorTest_program enable rect b g :
  programView (SetScissorTest enable rect b g) = programView g.
Proof. frame SetScissorTest. Qed.
#[local] Hint Resolve SetScissorTest_program : frame.

Lemma SetScissorTestInt_program enable rect g :
  programView (SetScissorTestInt enable rect g) = programView g.
Proof. frame SetScissorTestInt. Qed.
#[local] Hint Resolve SetScissorTestInt_program : frame.

Lemma SetViewport_program rect g : programView (SetViewport rect g) = programView g.
Proof. frame SetViewport. Qed.
#[local] Hint Resolve SetViewport_program : frame.

Lemma SetStencilTest_program e m p f z r cm wm g :
  programView (SetStencilTest e m p f z r cm wm g) = programView g.
Proof. frame SetStencilTest. Qed.
#[local] Hint Resolve SetStencilTest_program : frame.

Lemma SetDepthStencil_program ds g : programView (SetDepthStencil ds g) = programView g.
Proof. frame SetDepthStencil. Qed.
#[local] Hint Resolve SetDepthStencil_program : frame.

Lemma SetDepthStencilTexture_program tex g :
  programView (SetDepthStencilTexture tex g) = programView g.
Proof. frame SetDepthStencilTexture. Qed.
#[local] Hint Resolve SetDepthStencilTexture_program : frame.

Lemma SetIndexBuffer_program b g : programView (SetIndexBuffer b g) = programView g.
Proof. frame SetIndexBuffer. Qed.
#[local] Hint Resolve SetIndexBuffer_program : frame.

Lemma SetPrimitiveType_program t g : programView (SetPrimitiveType t g) = programView g.
Proof. frame SetPrimitiveType. Qed.
#[local] Hint Resolve SetPrimitiveType_program : frame.

Lemma UpdateParameters_program t g : programView (UpdateParameters t g) = programView g.
Proof. frame UpdateParameters. Qed.
#[local] Hint Resolve UpdateParameters_program : frame.

Lemma RegenerateLevels_program t g : programView (RegenerateLevels t g) = programView g.
Proof. frame RegenerateLevels. Qed.
#[local] Hint Resolve RegenerateLevels_program : frame.

Lemma SetLevelsDirty_program t g : programView (SetLevelsDirty t g) = programView g.
Proof. frame SetLevelsDirty. Qed.
#[local] Hint Resolve SetLevelsDirty_program : frame.

Lemma ResolveToTexture2D_program t g : programView (ResolveToTexture2D t g) = programView g.
Proof. frame ResolveToTexture2D. Qed.
#[local] Hint Resolve ResolveToTexture2D_program : frame.

Lemma ResolveToTextureCube_program t g : programView (ResolveToTextureCube t g) = programView g.
Proof. frame ResolveToTextureCube. Qed.
#[local] Hint Resolve ResolveToTextureCube_program : frame.

Lemma resolveMultisampled_program t g : programView (resolveMultisampled t g) = programView g.
Proof. frame resolveMultisampled. Qed.
#[local] Hint Resolve resolveMultisampled_program : frame.

Lemma refreshTexture_program index tex g :
  programView (refreshTexture index tex g) = programView g.
Proof. frame refreshTexture. Qed.
#[local] Hint Resolve refreshTexture_program : frame.

Lemma recordTexture_program index tex g : programView (recordTexture index tex g) = programView g.
Proof. frame recordTexture. Qed.
#[local] Hint Resolve recordTexture_program : frame.

Lemma SetTexture_program index tex g : programView (SetTexture index tex g) = programView g.
Proof. frame SetTexture. Qed.
#[local] Hint Resolve SetTexture_program : frame.

Lemma SetRenderTarget_program index rt g :
  programView (SetRenderTarget index rt g) = programView g.
Proof. frame SetRenderTarget. Qed.
#[local] Hint Resolve SetRenderTarget_program : frame.

Lemma SetRenderTargetTexture_program index tex g :
  programView (SetRenderTargetTexture index tex g) = programView g.
Proof. frame SetRenderTargetTexture. Qed.
#[local] Hint Resolve SetRenderTargetTexture_program : frame.

Lemma SetVertexBuffers_stream_program buffers off g i :
  programView (SetVertexBuffers_stream buffers off g i) = programView g.
Proof. frame SetVertexBuffers_stream. Qed.
#[local] Hint Resolve SetVertexBuffers_stream_program : frame.

Lemma SetVertexBuffers_program buffers off g :
  programView ((SetVertexBuffers buffers off g).1) = programView g.
Proof. frame SetVertexBuffers. Qed.
#[local] Hint Resolve SetVertexBuffers_program : frame.

Lemma SetVertexBuffer_program b g : programView (SetVertexBuffer b g) = programView g.
Proof. frame SetVertexBuffer. Qed.
#[local] Hint Resolve SetVertexBuffer_program : frame.

Lemma ConstantBuffer_SetSize_program b size g :
  programView ((ConstantBuffer_SetSize b size g).1) = programView g.
Proof. frame ConstantBuffer_SetSize. Qed.
#[local] Hint Resolve ConstantBuffer_SetSize_program : frame.

Lemma ConstantBuffer_Apply_program b g : programView (ConstantBuffer_Apply b g) = programView g.
Proof. frame ConstantBuffer_Apply. Qed.
#[local] Hint Resolve ConstantBuffer_Apply_program : frame.

Lemma ConstantBuffer_SetParameter_program b off data g :
  programView (ConstantBuffer_SetParameter b off data g) = programView g.
Proof. frame ConstantBuffer_SetParameter. Qed.
#[local] Hint Resolve ConstantBuffer_SetParameter_program : frame.

Lemma SetShaderParameter_program param data g :
  programView (SetShaderParameter param data g) = programView g.
Proof. frame SetShaderParameter. Qed.
#[local] Hint Resolve SetShaderParameter_program : frame.

Lemma SetClipPlane_program enable plane g :
  programView (SetClipPlane enable plane g) = programView g.
Proof. frame SetClipPlane. Qed.
#[local] Hint Resolve SetClipPlane_program : frame.

Lemma resolveRenderTargets_program g : programView (resolveRenderTargets g) = programView g.
Proof. frame resolveRenderTargets. Qed.
#[local] Hint Resolve resolveRenderTargets_program : frame.

Lemma resolveVertexDeclaration_program s :
  programView ((resolveVertexDeclaration s).1) = programView s.1.
Proof. frame resolveVertexDeclaration. Qed.
#[local] Hint Resolve resolveVertexDeclaration_program : frame.

Lemma resolvePrimitiveType_program s : programView ((resolvePrimitiveType s).1) = programView s.1.
Proof. frame resolvePrimitiveType. Qed.
#[local] Hint Resolve resolvePrimitiveType_program : frame.

Lemma resolveBlendState_program s : programView ((resolveBlendState s).1) = programView s.1.
Proof. frame resolveBlendState. Qed.
#[local] Hint Resolve resolveBlendState_program : frame.

Lemma resolveDepthState_program s : programView ((resolveDepthState s).1) = programView s.1.
Proof. frame resolveDepthState. Qed.
#[local] Hint Resolve resolveDepthState_program : frame.

Lemma resolveRasterizerState_program s :
  programView ((resolveRasterizerState s).1) = programView s.1.
Proof. frame resolveRasterizerState. Qed.
#[local] Hint Resolve resolveRasterizerState_program : frame.

Lemma resolveStateHashes_program g : programView ((resolveStateHashes g).1) = programView g.
Proof. frame resolveStateHashes. Qed.
#[local] Hint Resolve resolveStateHashes_program : frame.

Lemma bindStageBuffers_program type v buffers g :
  programView (bindStageBuffers type v buffers g) = programView g.
Proof. frame bindStageBuffers. Qed.
#[local] Hint Resolve bindStageBuffers_program : frame.

Lemma commitTextures_program changed g : programView (commitTextures changed g) = programView g.
Proof. frame commitTextures. Qed.
#[local] Hint Resolve commitTextures_program : frame.

Lemma flushConstantBuffers_program g : programView (flushConstantBuffers g) = programView g.
Proof. frame flushConstantBuffers. Qed.
#[local] Hint Resolve flushConstantBuffers_program : frame.

Lemma bindDraw_program s : programView (bindDraw s) = programView s.1.
Proof. frame bindDraw. Qed.
#[local] Hint Resolve bindDraw_program : frame.

Lemma buildPipelineState_program g : programView ((buildPipelineState g).2) = programView g.
Proof. frame buildPipelineState. Qed.
#[local] Hint Resolve buildPipelineState_program : frame.

Lemma adoptPipelineState_program ps g : programView ((adoptPipelineState ps g).1) = programView g.
Proof. frame adoptPipelineState. Qed.
#[local] Hint Resolve adoptPipelineState_program : frame.

Lemma resolvePipelineState_program g : programView ((resolvePipelineState g).1) = programView g.
Proof. frame resolvePipelineState. Qed.
#[local] Hint Resolve resolvePipelineState_program : frame.

Lemma resolvePipeline_program g : programView ((resolvePipeline g).1) = programView g.
Proof. frame resolvePipeline. Qed.
#[local] Hint Resolve resolvePipeline_program : frame.

Lemma commitDraw_program s : programView (commitDraw s) = programView s.1.
Proof. frame commitDraw. Qed.
#[local] Hint Resolve commitDraw_program : frame.

Lemma PrepareDraw_program g : programView (PrepareDraw g) = programView g.
Proof. frame PrepareDraw. Qed.
#[local] Hint Resolve PrepareDraw_program : frame.

Lemma submitDraw_program type call prims g :
  programView (submitDraw type call prims g) = programView g.
Proof. frame submitDraw. Qed.
#[local] Hint Resolve submitDraw_program : frame.


Lemma programView_eq g g' :
  programView g = programView g' ->
  vertexShader_ g = vertexShader_ g' /\ pixelShader_ g = pixelShader_ g'
  /\ shaderProgram_ g = shaderProgram_ g' /\ shaderPrograms_ g = shaderPrograms_ g'.
Proof. unfold programView. intros [= -> -> -> ->]. done. Qed.

(** With both shaders in use their program is selected, and it is the one
    filed under the pair; with a shader missing no program is selected. *)
Definition programSelected (g : Graphics) : Prop :=
  match vertexShader_ g, pixelShader_ g with
  | Some v, Some p =>
      is_Some (shaderProgram_ g) /\ shaderPrograms_ g !! (v, p) = shaderProgram_ g
  | _, _ => shaderProgram_ g = None
  end.

Lemma programSelected_view g g' :
  programView g' = programView g -> programSelected g -> programSelected g'.
Proof.
  intros H. destruct (programView_eq _ _ H) as (Hv & Hp & Hs & Hm).
  unfold programSelected. by rewrite Hv, Hp, Hs, Hm.
Qed.

Lemma selectShaderProgram_selected g : programSelected (selectShaderProgram g).
Proof.
  unfold selectShaderProgram.
  destruct (vertexShader_ g) as [v|] eqn:Hv;
    [|unfold programSelected; record_simpl; by rewrite Hv].
  destruct (pixelShader_ g) as [p|] eqn:Hp;
    [|unfold programSelected; record_simpl; by rewrite Hv, Hp].
  destruct (shaderPrograms_ g !! (v, p)) as [prog|] eqn:Hprog.
  - unfold programSelected. record_simpl. rewrite Hv, Hp, Hprog. split; [by eexists|done].
  - cbv zeta. unfold programSelected. record_simpl.
    destruct (storeView_eq _ _ (cacheView_storeView _ _ (ShaderProgram_new_cache v p g)))
      as (_ & _ & Hv' & Hp').
    cbn [fst snd] in *. rewrite Hv', Hp', Hv, Hp, lookup_insert_eq. split; [by eexists|done].
Qed.

Lemma SetShaders_selected vs ps g : programSelected (SetShaders vs ps g).
Proof.
  cbv beta delta [SetShaders].
  let_in_pred vs'. let_in_pred ps'. let_in_pred g1. let_in_pred g2. let_in_pred g3.
  assert (H3 : programSelected g3) by apply selectShaderProgram_selected.
  clearbody g3. destruct (useClipPlane_ g3); [|done].
  apply (programSelected_view g3); [apply SetShaderParameter_program|done].
Qed.

Lemma exec_selected c g g' : programSelected g -> exec c g = Some g' -> programSelected g'.
Proof.
  intros Hsel He.
  assert (Hsub : forall type call primitives,
             programSelected (submitDraw type call primitives g)).
  { intros. apply (programSelected_view g); [apply submitDraw_program|done]. }
  destruct c; cbn [exec] in He;
    try (injection He as <-;
         solve [ apply SetShaders_selected
               | apply (programSelected_view g); [|done]; frame_rec programView ]).
  - injection He as <-. unfold Draw. destruct (_ || _); [done|apply Hsub].
  - unfold DrawIndexed in He. destruct (_ || _); [by injection He as <-|].
    destruct (indexBuffer_ g); [|done]. injection He as <-. apply Hsub.
  - unfold DrawIndexedBase in He. destruct (_ || _); [by injection He as <-|].
    destruct (indexBuffer_ g); [|done]. injection He as <-. apply Hsub.
  - unfold DrawInstanced in He. destruct (_ || _); [by injection He as <-|].
    destruct (indexBuffer_ g); [|done]. injection He as <-. apply Hsub.
  - unfold DrawInstancedBase in He. destruct (_ || _); [by injection He as <-|].
    destruct (indexBuffer_ g); [|done]. injection He as <-. apply Hsub.
Qed.

Lemma run_selected cs g g' : programSelected g -> run cs g = Some g' -> programSelected g'.
Proof.
  revert g. induction cs as [|c cs IH]; intros g Hsel; cbn [run].
  - by intros [= <-].
  - destruct (exec c g) as [g1|] eqn:He; [|done]. cbn. eauto using exec_selected.
Qed.

(** X6.  In every state that calls reach from a new [Graphics], a shader
    program is selected exactly when a vertex shader and a pixel shader are
    both in use, and it is the program filed under that pair.  A draw call,
    which is refused without a program, is therefore refused exactly when a
    shader is missing or its element count is zero. *)
Theorem program_selected_iff_shaders_in_use (g : Graphics) :
  reachable g ->
  (is_Some (shaderProgram_ g)
   <-> is_Some (vertexShader_ g) /\ is_Some (pixelShader_ g))
  /\ (forall v p,
        vertexShader_ g = Some v -> pixelShader_ g = Some p ->
        shaderPrograms_ g !! (v, p) = shaderProgram_ g)
  /\ (forall type vertexStart vertexCount,
        Draw type vertexStart vertexCount g = g
        <-> vertexCount = 0 \/ vertexShader_ g = None \/ pixelShader_ g = None).
Proof.
  intros (w & h & rtv & dsv & ts & ss & vbs & ibs & shs & cs & Hrun).
  assert (Hsel : programSelected g).
  { eapply run_selected; [|exact Hrun]. reflexivity. }
  clear Hrun. unfold programSelected in Hsel.
  assert (Hiff : is_Some (shaderProgram_ g)
                 <-> is_Some (vertexShader_ g) /\ is_Some (pixelShader_ g)).
  { destruct (vertexShader_ g) as [v|], (pixelShader_ g) as [p|].
    - destruct Hsel as [Hs _]. split; [intros _; split; by eexists|intros _; exact Hs].
    - rewrite Hsel. split; [intros [? ?]; done|intros [_ [? ?]]; done].
    - rewrite Hsel. split; [intros [? ?]; done|intros [[? ?] _]; done].
    - rewrite Hsel. split; [intros [? ?]; done|intros [[? ?] _]; done]. }
  split; [exact Hiff|]. split.
  { intros v p Hv Hp. rewrite Hv, Hp in Hsel. apply Hsel. }
  intros type vertexStart vertexCount. unfold Draw.
  destruct (vertexCount =? 0) eqn:Hzero; cbn [orb].
  { split; [intros _; left; lia|done]. }
  case_bool_decide as Hprog; cbn [negb].
  - split.
    + intros Hdraw. exfalso.
      pose proof (submitDraw_counters type (DevDraw vertexCount vertexStart)
                    (GetPrimitiveCount vertexCount) g) as Hc.
      rewrite Hdraw in Hc. unfold counters in Hc. injection Hc as _ Hb.
      unfold wrap32 in Hb. change (2 ^ 32) with 4294967296 in Hb.
      pose proof (Z.mod_pos_bound (numBatches_ g + 1) 4294967296 ltac:(lia)) as Hrange.
      rewrite <- Hb in Hrange.
      destruct (decide (numBatches_ g + 1 < 4294967296)) as [Hlt|Hge].
      * rewrite Z.mod_small in Hb by lia. lia.
      * replace (numBatches_ g + 1) with 4294967296 in Hb by lia.
        rewrite Z.mod_same in Hb by lia. lia.
    + apply Hiff in Hprog as [[? Hv] [? Hp]].
      intros [?|[Hn|Hn]]; [lia|congruence|congruence].
  - split; [intros _|done]. right.
    destruct (vertexShader_ g); [|by left]. destruct (pixelShader_ g); [|by right].
    exfalso. apply Hprog, Hiff. split; by eexists.
Qed.

(** A shader without an object whose creation yields none does not stay in
    use. *)
Lemma createShaderNow_fails v msg g :
  sv_object_ (shader g v) = None -> (sv_createResult (shader g v)).1 = None ->
  (createShaderNow (Some v) msg g).1 = None.
Proof.
  intros Hobj Hres. unfold createShaderNow. rewrite Hobj.
  rewrite bool_decide_eq_false_2 by (intros [? ?]; done). cbn [negb].
  destruct (sv_compilerOutputEmpty (shader g v)); [|done].
  unfold ShaderVariation_Create. cbv zeta. cbn [fst snd]. rewrite Hres.
  rewrite bool_decide_eq_false_2 by (intros [? ?]; done). reflexivity.
Qed.

(** X7.  A vertex shader that has no object, and for which the compilation
    yields none, does not stay in use: after [SetShaders] the vertex shader
    slot is null, no program is selected, and every [Draw] is refused. *)
Theorem SetShaders_uncompiled_vertex_shader (v : nat) (ps : option nat) (g : Graphics) :
  useClipPlane_ g = false ->
  vertexShader_ g <> Some v ->
  sv_object_ (shader g v) = None ->
  (sv_createResult (shader g v)).1 = None ->
  let g' := SetShaders (Some v) ps g in
  vertexShader_ g' = None
  /\ shaderProgram_ g' = None
  /\ (forall type vertexStart vertexCount, Draw type vertexStart vertexCount g' = g').
Proof.
  intros Hclip Hne Hobj Hres g'.
  assert (Hv : vertexShader_ g' = None).
  { subst g'. cbv beta delta [SetShaders]. rewrite Hclip.
    set (P := fun h : Graphics => vertexShader_ h = None).
    change (P (let vs := Some v in
               let ps0 := ps in
               let g0 := setVertexShader vs g in
               let g1 := setPixelShader ps0 g0 in
               let g2 := selectShaderProgram g1 in
               if useClipPlane_ g2 then SetShaderParameter VSP_CLIPPLANE (clipPlane_ g2) g2
               else g2)).
    let_in_pred vs. let_in_pred ps0. let_in_pred g0.
    assert (H0 : vertexShader_ g0 = None).
    { subst g0 vs. unfold setVertexShader.
      rewrite bool_decide_eq_false_2 by congruence. cbn [negb]. cbv zeta. record_simpl.
      apply createShaderNow_fails; [exact Hobj|exact Hres]. }
    clearbody g0. let_in_pred g1.
    assert (H1 : vertexShader_ g1 = None).
    { subst g1. rewrite <- H0. exact (f_equal fst (setPixelShader_vertex ps0 g0)). }
    clearbody g1. let_in_pred g2.
    assert (H2 : vertexShader_ g2 = None).
    { subst g2. rewrite <- H1.
      destruct (storeView_eq _ _ (cacheView_storeView _ _ (selectShaderProgram_cache g1)))
        as (_ & _ & Hv' & _). exact Hv'. }
    clearbody g2. subst P. cbv beta. destruct (useClipPlane_ g2); [|exact H2].
    rewrite <- H2.
    destruct (storeView_eq _ _ (cacheView_storeView _ _
                (SetShaderParameter_cache VSP_CLIPPLANE (clipPlane_ g2) g2)))
      as (_ & _ & Hv' & _). exact Hv'. }
  assert (Hp : shaderProgram_ g' = None).
  { pose proof (SetShaders_selected (Some v) ps g) as Hsel.
    unfold programSelected in Hsel. fold g' in Hsel. by rewrite Hv in Hsel. }
  split; [exact Hv|]. split; [exact Hp|].
  intros. unfold Draw. rewrite Hp.
  rewrite bool_decide_eq_false_2 by (intros [? ?]; done). cbn [negb].
  by rewrite orb_true_r.
Qed.

(** ** Render targets and texture units *)

(** What [SetTexture] leaves alone: the render targets with their dirty
    flag, the depth-stencil, the viewport and the scissor test, the backup
    texture of a texture and the parent texture of a surface. *)
Definition bindingView (tx sx : nat) (g : Graphics) :=
  (renderTargets_ g, renderTargetsDirty_ g, depthStencil_ g, viewport_ g, scissorTest_ g,
   backupTexture_ (texture g tx), parentTexture_ (surface g sx)).

Lemma deviceCall_binding tx sx c g : bindingView tx sx (deviceCall c g) = bindingView tx sx g.
Proof. reflexivity. Qed.
#[local] Hint Resolve deviceCall_binding : frame.

Lemma logError_binding tx sx msg g : bindingView tx sx (logError msg g) = bindingView tx sx g.
Proof. reflexivity. Qed.
#[local] Hint Resolve logError_binding : frame.

Lemma updTexture_binding tx sx t f g :
  (forall x, backupTexture_ (f x) = backupTexture_ x) ->
  bindingView tx sx (updTexture t f g) = bindingView tx sx g.
Proof.
  intros Hf. unfold bindingView, updTexture, texture, surface. record_simpl.
  destruct (decide (tx = t)) as [->|Hne].
  - by rewrite lookup_total_insert_eq, Hf.
  - by rewrite lookup_total_insert_ne.
Qed.
#[local] Hint Resolve updTexture_binding : frame.
#[local] Hint Extern 1 (forall x : Texture, backupTexture_ _ = _) =>
  intros; reflexivity : frame.

Lemma updSurface_binding tx sx s f g :
  (forall x, parentTexture_ (f x) = parentTexture_ x) ->
  bindingView tx sx (updSurface s f g) = bindingView tx sx g.
Proof.
  intros Hf. unfold bindingView, updSurface, texture, surface. record_simpl.
  destruct (decide (sx = s)) as [->|Hne].
  - by rewrite lookup_total_insert_eq, Hf.
  - by rewrite lookup_total_insert_ne.
Qed.
#[local] Hint Resolve updSurface_binding : frame.
#[local] Hint Extern 1 (forall x : RenderSurface, parentTexture_ _ = _) =>
  intros; reflexivity : frame.

Lemma UpdateParameters_binding tx sx t g :
  bindingView tx sx (UpdateParameters t g) = bindingView tx sx g.
Proof. frame UpdateParameters. Qed.
#[local] Hint Resolve UpdateParameters_binding : frame.

Lemma RegenerateLevels_binding tx sx t g :
  bindingView tx sx (RegenerateLevels t g) = bindingView tx sx g.
Proof. frame RegenerateLevels. Qed.
#[local] Hint Resolve RegenerateLevels_binding : frame.

Lemma SetLevelsDirty_binding tx sx t g :
  bindingView tx sx (SetLevelsDirty t g) = bindingView tx sx g.
Proof. frame SetLevelsDirty. Qed.
#[local] Hint Resolve SetLevelsDirty_binding : frame.

Lemma ResolveToTexture2D_binding tx sx t g :
  bindingView tx sx (ResolveToTexture2D t g) = bindingView tx sx g.
Proof. frame ResolveToTexture2D. Qed.
#[local] Hint Resolve ResolveToTexture2D_binding : frame.

Lemma ResolveToTextureCube_binding tx sx t g :
  bindingView tx sx (ResolveToTextureCube t g) = bindingView tx sx g.
Proof. frame ResolveToTextureCube. Qed.
#[local] Hint Resolve ResolveToTextureCube_binding : frame.

Lemma resolveMultisampled_binding tx sx t g :
  bindingView tx sx (resolveMultisampled t g) = bindingView tx sx g.
Proof. frame resolveMultisampled. Qed.
#[local] Hint Resolve resolveMultisampled_binding : frame.

Lemma refreshTexture_binding tx sx index tex g :
  bindingView tx sx (refreshTexture index tex g) = bindingView tx sx g.
Proof. frame refreshTexture. Qed.
#[local] Hint Resolve refreshTexture_binding : frame.

Lemma recordTexture_binding tx sx index tex g :
  bindingView tx sx (recordTexture index tex g) = bindingView tx sx g.
Proof. frame recordTexture. Qed.
#[local] Hint Resolve recordTexture_binding : frame.

Lemma SetTexture_binding tx sx index tex g :
  bindingView tx sx (SetTexture index tex g) = bindingView tx sx g.
Proof. frame SetTexture. Qed.
#[local] Hint Resolve SetTexture_binding : frame.


Lemma bindingView_eq tx sx g g' :
  bindingView tx sx g = bindingView tx sx g' ->
  renderTargets_ g = renderTargets_ g'
  /\ backupTexture_ (texture g tx) = backupTexture_ (texture g' tx)
  /\ parentTexture_ (surface g sx) = parentTexture_ (surface g' sx)
  /\ renderTargetsDirty_ g = renderTargetsDirty_ g'.
Proof. unfold bindingView. intros [= -> -> _ _ _ -> ->]. done. Qed.

(** States that agree on the render targets, the backup textures and the
    parent textures redirect a texture alike. *)
Lemma redirectedTexture_binding tex g g' :
  (forall tx sx, bindingView tx sx g' = bindingView tx sx g) ->
  redirectedTexture tex g' = redirectedTexture tex g.
Proof.
  intros Hv. unfold redirectedTexture, isBoundRenderTarget.
  destruct tex as [t|]; [|done].
  destruct (bindingView_eq _ _ _ _ (Hv t 0%nat)) as (Hrt & Hb & _ & _).
  rewrite Hrt, Hb.
  destruct (at_ (renderTargets_ g) 0) as [rt|]; [|done]. cbn [fmap option_fmap option_map].
  destruct (bindingView_eq _ _ _ _ (Hv t rt)) as (_ & _ & Hp & _). by rewrite Hp.
Qed.

Lemma recordTexture_unit index tex g :
  at_ (textures_ (recordTexture index tex g)) index
  = if bool_decide (index < length (textures_ g))%nat then tex else None.
Proof.
  unfold recordTexture.
  destruct (bool_decide_reflect (tex = at_ (textures_ g) index)) as [He|He]; cbn [negb].
  - case_bool_decide as Hi; [done|]. unfold at_.
    by rewrite lookup_ge_None_2 by lia.
  - record_simpl. case_bool_decide as Hi; [by apply at_insert|].
    unfold at_. rewrite lookup_ge_None_2; [done|]. rewrite length_insert. lia.
Qed.

Lemma recordTexture_other index tex g j :
  j <> index ->
  at_ (textures_ (recordTexture index tex g)) j = at_ (textures_ g) j.
Proof.
  intros Hj. unfold recordTexture. destruct (negb _); [|done]. record_simpl.
  unfold at_. by rewrite list_lookup_insert_ne.
Qed.

Lemma recordTexture_length index tex g :
  length (textures_ (recordTexture index tex g)) = length (textures_ g).
Proof.
  unfold recordTexture. destruct (negb _); [|done]. record_simpl. apply length_insert.
Qed.

Lemma refreshTexture_other index tex g j :
  j <> index ->
  at_ (textures_ (refreshTexture index tex g)) j = at_ (textures_ g) j.
Proof.
  intros Hj. destruct (refreshTexture_textures index tex g) as [-> | [_ ->]]; [done|].
  unfold at_. by rewrite list_lookup_insert_ne.
Qed.

Lemma refreshTexture_length index tex g :
  length (textures_ (refreshTexture index tex g)) = length (textures_ g).
Proof.
  destruct (refreshTexture_textures index tex g) as [-> | [_ ->]]; [done|].
  apply length_insert.
Qed.

(** The texture that [SetTexture] leaves recorded for a unit is the one it
    goes on with; the other units keep theirs. *)
Lemma SetTexture_units index tex g :
  (index < MAX_TEXTURE_UNITS)%nat ->
  at_ (textures_ (SetTexture index tex g)) index
  = (if bool_decide (index < length (textures_ g))%nat
     then redirectedTexture tex g else None)
  /\ (forall j, j <> index ->
        at_ (textures_ (SetTexture index tex g)) j = at_ (textures_ g) j)
  /\ length (textures_ (SetTexture index tex g)) = length (textures_ g)
  /\ (forall tx sx, bindingView tx sx (SetTexture index tex g) = bindingView tx sx g).
Proof.
  intros Hi.
  split; [|split; [|split]]; [| | |intros; apply SetTexture_binding].
  all: unfold SetTexture; rewrite bool_decide_eq_false_2 by lia; cbv zeta.
  all: set (g1 := match tex with Some t => _ | None => g end).
  all: assert (H1 : textures_ g1 = textures_ g)
         by (subst g1; destruct tex as [t|]; [destruct (isBoundRenderTarget t g)|];
             [done|apply resolveMultisampled_textures|done]).
  all: clearbody g1.
  - rewrite recordTexture_unit, refreshTexture_length, H1. reflexivity.
  - intros j Hj. by rewrite recordTexture_other, refreshTexture_other, H1.
  - by rewrite recordTexture_length, refreshTexture_length, H1.
Qed.

(** The loop of [SetRenderTarget] over the texture units, from unit [s]. *)
Lemma unbind_loop (parent : nat) (n s : nat) (g : Graphics) :
  (s + n <= MAX_TEXTURE_UNITS)%nat ->
  backupTexture_ (texture g parent) <> Some parent ->
  (forall t, backupTexture_ (texture g parent) = Some t ->
             backupTexture_ (texture g t) <> Some parent) ->
  let g' := foldl (fun g i =>
                     if bool_decide (at_ (textures_ g) i = Some parent)
                     then SetTexture i (backupTexture_ (texture g parent)) g
                     else g) g (seq s n) in
  (forall tx sx, bindingView tx sx g' = bindingView tx sx g)
  /\ (forall i, (s <= i < s + n)%nat -> at_ (textures_ g') i <> Some parent)
  /\ (forall i, ~ (s <= i < s + n)%nat -> at_ (textures_ g') i = at_ (textures_ g) i)
  /\ (forall i, at_ (textures_ g) i <> Some parent ->
                at_ (textures_ g') i = at_ (textures_ g) i).
Proof.
  revert s g. induction n as [|n IH]; intros s g Hs Hb Hbb; cbn [seq foldl].
  { cbv zeta. split; [done|]. split; [intros; lia|]. split; done. }
  set (g1 := if bool_decide (at_ (textures_ g) s = Some parent)
             then SetTexture s (backupTexture_ (texture g parent)) g else g).
  assert (Hg1 : (forall tx sx, bindingView tx sx g1 = bindingView tx sx g)
                /\ at_ (textures_ g1) s <> Some parent
                /\ (forall j, j <> s \/ at_ (textures_ g) s <> Some parent ->
                              at_ (textures_ g1) j = at_ (textures_ g) j)).
  { subst g1. case_bool_decide as Hunit; [|done].
    destruct (SetTexture_units s (backupTexture_ (texture g parent)) g ltac:(lia))
      as (Hu & Ho & _ & Hv).
    split; [exact Hv|]. split; [|intros j [Hj|Hj]; [by apply Ho|done]].
    rewrite Hu. case_bool_decide; [|done].
    unfold redirectedTexture.
    destruct (backupTexture_ (texture g parent)) as [t|] eqn:Hbackup; [|done].
    destruct (isBoundRenderTarget t g); [by apply Hbb|congruence]. }
  destruct Hg1 as (Hv1 & Hs1 & Ho1).
  destruct (bindingView_eq _ _ _ _ (Hv1 parent 0%nat)) as (_ & Hbp & _ & _).
  specialize (IH (S s) g1 ltac:(lia)).
  rewrite Hbp in IH. specialize (IH Hb).
  assert (Hbb1 : forall t, backupTexture_ (texture g parent) = Some t ->
                 backupTexture_ (texture g1 t) <> Some parent).
  { intros t Ht. destruct (bindingView_eq _ _ _ _ (Hv1 t 0%nat)) as (_ & Hbt & _ & _).
    rewrite Hbt. by apply Hbb. }
  specialize (IH Hbb1). cbv zeta in IH. destruct IH as (Hv & Hin & Hout & Hkeep).
  clearbody g1. cbv zeta.
  set (g' := foldl _ g1 (seq (S s) n)) in *. clearbody g'.
  split; [intros; by rewrite Hv, Hv1|]. split; [|split].
  - intros i Hi. destruct (decide (i = s)) as [->|Hne].
    + rewrite Hout by lia. exact Hs1.
    + apply Hin. lia.
  - intros i Hi. rewrite Hout by lia. apply Ho1. left. lia.
  - intros i Hi. destruct (decide (i = s)) as [->|Hne].
    + rewrite Hout by lia. apply Ho1. by right.
    + rewrite Hkeep; [apply Ho1; by left|]. rewrite Ho1 by (by left). done.
Qed.

(** X8.  When [SetRenderTarget] binds a new render target, no texture unit
    stays bound to the parent texture of that target: every unit that
    recorded it records the backup texture instead (or what that backup is
    redirected to), and the other units keep their textures.  The backup
    textures must not lead back to the parent texture. *)
Theorem SetRenderTarget_unbinds_parent_texture (index rt : nat) (g : Graphics) :
  (index < MAX_RENDERTARGETS)%nat ->
  at_ (renderTargets_ g) index <> Some rt ->
  let parent := parentTexture_ (surface g rt) in
  backupTexture_ (texture g parent) <> Some parent ->
  (forall t, backupTexture_ (texture g parent) = Some t ->
             backupTexture_ (texture g t) <> Some parent) ->
  let g' := SetRenderTarget index (Some rt) g in
  renderTargetsDirty_ g' = true
  /\ (forall i, (i < MAX_TEXTURE_UNITS)%nat -> at_ (textures_ g') i <> Some parent)
  /\ (forall i, at_ (textures_ g) i <> Some parent ->
                at_ (textures_ g') i = at_ (textures_ g) i).
Proof.
  intros Hindex Hnew parent Hb Hbb. cbv zeta. unfold SetRenderTarget.
  rewrite bool_decide_eq_false_2 by lia.
  rewrite bool_decide_eq_false_2 by congruence. cbn [negb]. cbv zeta.
  set (g1 := g <| renderTargets_ := <[index := Some rt]> (renderTargets_ g) |>
               <| renderTargetsDirty_ := true |>).
  change (parentTexture_ (surface g1 rt)) with parent.
  destruct (unbind_loop parent MAX_TEXTURE_UNITS 0 g1 ltac:(lia) Hb Hbb)
    as (Hv & Hin & _ & Hkeep).
  cbv zeta in Hv, Hin, Hkeep.
  set (g2 := foldl _ g1 (seq 0 MAX_TEXTURE_UNITS)) in *.
  assert (Hd : renderTargetsDirty_ g2 = true).
  { destruct (bindingView_eq _ _ _ _ (Hv 0%nat 0%nat)) as (_ & _ & _ & Hd). by rewrite Hd. }
  clearbody g2.
  set (g3 := if (1 <? multiSample_ (texture g2 parent)) && autoResolve_ (texture g2 parent)
             then _ else g2).
  assert (H3 : textures_ g3 = textures_ g2 /\ renderTargetsDirty_ g3 = renderTargetsDirty_ g2).
  { subst g3. by destruct (_ && _). }
  destruct H3 as [H3 H3']. clearbody g3.
  assert (H4 : forall h, textures_ (if 1 <? levels_ (texture h parent)
                                    then SetLevelsDirty parent h else h) = textures_ h
                         /\ renderTargetsDirty_ (if 1 <? levels_ (texture h parent)
                                    then SetLevelsDirty parent h else h)
                            = renderTargetsDirty_ h).
  { intros h. by destruct (1 <? _). }
  destruct (H4 g3) as [-> ->]. rewrite H3, H3'.
  split; [exact Hd|]. split; [intros i Hi; apply Hin; lia|exact Hkeep].
Qed.

(** [Graphics::ResetRenderTargets]. *)
Definition ResetRenderTargets (g : Graphics) : Graphics :=
  let g := foldl (fun g i => SetRenderTarget i None g) g (seq 0 MAX_RENDERTARGETS) in
  let g := SetDepthStencil None g in
  SetViewport (mkIntRect 0 0 (width_ g) (height_ g)) g.

(** [Graphics::BeginFrame] from the point where the checks of the window
    have passed: the default render target and depth buffer are set, the
    textures of the previous frame are cleaned up and the frame counters
    start at zero. *)
Definition BeginFrame (g : Graphics) : Graphics :=
  (* Set default rendertarget and depth buffer *)
  let g := ResetRenderTargets g in
  (* Cleanup textures from previous frame *)
  let g := foldl (fun g i => SetTexture i None g) g (seq 0 MAX_TEXTURE_UNITS) in
  g <| numPrimitives_ := 0 |> <| numBatches_ := 0 |>.

(** What resetting the render targets leaves alone. *)
Definition windowView (g : Graphics) :=
  (width_ g, height_ g, depthStencil_ g, textures_ g).

Lemma reset_loop (n s : nat) (g : Graphics) :
  (s + n <= MAX_RENDERTARGETS)%nat ->
  let g' := foldl (fun g i => SetRenderTarget i None g) g (seq s n) in
  windowView g' = windowView g
  /\ (forall i, (s <= i < s + n)%nat -> at_ (renderTargets_ g') i = None)
  /\ (forall i, ~ (s <= i < s + n)%nat -> at_ (renderTargets_ g') i = at_ (renderTargets_ g) i).
Proof.
  revert s g. induction n as [|n IH]; intros s g Hs; cbn [seq foldl].
  { cbv zeta. split; [done|]. split; [intros; lia|done]. }
  set (g1 := SetRenderTarget s None g).
  assert (Hg1 : windowView g1 = windowView g
                /\ at_ (renderTargets_ g1) s = None
                /\ (forall j, j <> s -> at_ (renderTargets_ g1) j = at_ (renderTargets_ g) j)).
  { subst g1. unfold SetRenderTarget. rewrite bool_decide_eq_false_2 by lia.
    case_bool_decide as He; cbn [negb]; [done|].
    split; [done|]. record_simpl. split.
    - unfold at_. destruct (decide (s < length (renderTargets_ g))%nat).
      + by rewrite list_lookup_insert_eq.
      + rewrite lookup_ge_None_2; [done|]. rewrite length_insert. lia.
    - intros j Hj. unfold at_. by rewrite list_lookup_insert_ne. }
  destruct Hg1 as (Hw1 & Hs1 & Ho1). clearbody g1.
  destruct (IH (S s) g1 ltac:(lia)) as (Hw & Hin & Hout). cbv zeta in *.
  set (g' := foldl _ g1 (seq (S s) n)) in *. clearbody g'.
  split; [by rewrite Hw|]. split.
  - intros i Hi. destruct (decide (i = s)) as [->|Hne].
    + by rewrite Hout by lia.
    + apply Hin. lia.
  - intros i Hi. rewrite Hout by lia. apply Ho1. lia.
Qed.

Lemma SetViewport_window g :
  0 <= width_ g -> 0 <= height_ g ->
  at_ (renderTargets_ g) 0 = None -> depthStencil_ g = None ->
  let g' := SetViewport (mkIntRect 0 0 (width_ g) (height_ g)) g in
  viewport_ g' = mkIntRect 0 0 (width_ g) (height_ g)
  /\ scissorTest_ g' = false
  /\ renderTargets_ g' = renderTargets_ g /\ depthStencil_ g' = None
  /\ textures_ g' = textures_ g
  /\ counters g' = counters g.
Proof.
  intros Hw Hh Hrt Hds. cbv zeta. cbv beta delta [SetViewport].
  assert (Hsize : GetRenderTargetDimensions g = (width_ g, height_ g)).
  { unfold GetRenderTargetDimensions. by rewrite Hrt, Hds. }
  rewrite Hsize. cbn [fst snd left_ top_ right_ bottom_].
  assert (Hright : Clamp (if width_ g <=? 0 then 0 + 1 else width_ g) 0 (width_ g) = width_ g).
  { unfold Clamp. destruct (Z.leb_spec (width_ g) 0).
    - replace (width_ g) with 0 by lia. reflexivity.
    - destruct (Z.ltb_spec (width_ g) 0); [lia|]. by rewrite Z.ltb_irrefl. }
  assert (Hbottom : Clamp (if height_ g <=? 0 then 0 + 1 else height_ g) 0 (height_ g)
                    = height_ g).
  { unfold Clamp. destruct (Z.leb_spec (height_ g) 0).
    - replace (height_ g) with 0 by lia. reflexivity.
    - destruct (Z.ltb_spec (height_ g) 0); [lia|]. by rewrite Z.ltb_irrefl. }
  assert (Hleft : forall hi, 0 <= hi -> Clamp 0 0 hi = 0).
  { intros hi Hhi. unfold Clamp. cbn. destruct (Z.ltb_spec hi 0); [lia|done]. }
  rewrite Hright, Hbottom, !Hleft by done. cbv zeta.
  rewrite SetScissorTest_off.
  destruct (scissorTest_ _) eqn:Escissor; record_simpl; repeat split; try done;
    exact Escissor.
Qed.

Lemma ResetRenderTargets_resets (g : Graphics) :
  (0 < MAX_RENDERTARGETS)%nat -> 0 <= width_ g -> 0 <= height_ g ->
  let g' := ResetRenderTargets g in
  (forall i, (i < MAX_RENDERTARGETS)%nat -> at_ (renderTargets_ g') i = None)
  /\ depthStencil_ g' = None
  /\ viewport_ g' = mkIntRect 0 0 (width_ g) (height_ g)
  /\ scissorTest_ g' = false
  /\ textures_ g' = textures_ g
  /\ counters g' = counters g.
Proof.
  intros Hmax Hw Hh. cbv zeta. unfold ResetRenderTargets.
  destruct (reset_loop MAX_RENDERTARGETS 0 g ltac:(lia)) as (Hwin & Hin & _).
  cbv zeta in Hwin, Hin.
  set (g1 := foldl _ g (seq 0 MAX_RENDERTARGETS)) in *.
  assert (Hc1 : counters g1 = counters g).
  { subst g1. apply (foldl_frame counters); [done|]. intros a x Ha. rewrite <- Ha.
    apply cacheView_counters, SetRenderTarget_cache. }
  clearbody g1. cbv zeta.
  unfold windowView in Hwin. injection Hwin as Hw1 Hh1 Hds1 Ht1.
  set (g2 := SetDepthStencil None g1).
  assert (H2 : width_ g2 = width_ g /\ height_ g2 = height_ g /\ depthStencil_ g2 = None
               /\ renderTargets_ g2 = renderTargets_ g1 /\ textures_ g2 = textures_ g
               /\ counters g2 = counters g).
  { subst g2. unfold SetDepthStencil.
    case_bool_decide as He; cbn [negb].
    - repeat split; done.
    - record_simpl. repeat split; done. }
  destruct H2 as (Hw2 & Hh2 & Hds2 & Hrt2 & Ht2 & Hc2). clearbody g2.
  destruct (SetViewport_window g2 ltac:(lia) ltac:(lia)) as (Hv & Hs & Hrt & Hds & Ht & Hc).
  { rewrite Hrt2. apply Hin. lia. }
  { exact Hds2. }
  cbv zeta in *. rewrite Hw2, Hh2 in *.
  split; [intros i Hi; rewrite Hrt, Hrt2; apply Hin; lia|].
  split; [exact Hds|]. split; [exact Hv|]. split; [exact Hs|].
  split; [by rewrite Ht|by rewrite Hc].
Qed.

(** X9.  [ResetRenderTargets] leaves every render target and the
    depth-stencil null, the viewport at the whole window and the scissor
    test off; the texture units and the frame counters are not touched. *)
Theorem ResetRenderTargets_effect (g : Graphics) :
  (0 < MAX_RENDERTARGETS)%nat -> 0 <= width_ g -> 0 <= height_ g ->
  let g' := ResetRenderTargets g in
  (forall i, (i < MAX_RENDERTARGETS)%nat -> at_ (renderTargets_ g') i = None)
  /\ depthStencil_ g' = None
  /\ viewport_ g' = mkIntRect 0 0 (width_ g) (height_ g)
  /\ scissorTest_ g' = false
  /\ textures_ g' = textures_ g
  /\ counters g' = counters g.
Proof. exact (ResetRenderTargets_resets g). Qed.

Lemma cleanup_loop (n s : nat) (g : Graphics) :
  (s + n <= MAX_TEXTURE_UNITS)%nat ->
  let g' := foldl (fun g i => SetTexture i None g) g (seq s n) in
  (forall tx sx, bindingView tx sx g' = bindingView tx sx g)
  /\ (forall i, (s <= i < s + n)%nat -> at_ (textures_ g') i = None)
  /\ (forall i, ~ (s <= i < s + n)%nat -> at_ (textures_ g') i = at_ (textures_ g) i).
Proof.
  revert s g. induction n as [|n IH]; intros s g Hs; cbn [seq foldl].
  { cbv zeta. split; [done|]. split; [intros; lia|done]. }
  destruct (SetTexture_units s None g ltac:(lia)) as (Hu & Ho & _ & Hv1).
  assert (Hs1 : at_ (textures_ (SetTexture s None g)) s = None)
    by (rewrite Hu; by destruct (bool_decide _)).
  set (g1 := SetTexture s None g) in *. clearbody g1.
  destruct (IH (S s) g1 ltac:(lia)) as (Hv & Hin & Hout). cbv zeta in *.
  set (g' := foldl _ g1 (seq (S s) n)) in *. clearbody g'.
  split; [intros; by rewrite Hv, Hv1|]. split.
  - intros i Hi. destruct (decide (i = s)) as [->|Hne].
    + by rewrite Hout by lia.
    + apply Hin. lia.
  - intros i Hi. rewrite Hout by lia. apply Ho. lia.
Qed.

(** X10.  A frame begins with nothing left over from the last one:
    [BeginFrame] leaves every texture unit, every render target and the
    depth-stencil null, the viewport at the whole window, the scissor test
    off and both frame counters at zero. *)
Theorem BeginFrame_effect (g : Graphics) :
  (0 < MAX_RENDERTARGETS)%nat -> 0 <= width_ g -> 0 <= height_ g ->
  let g' := BeginFrame g in
  (forall i, (i < MAX_TEXTURE_UNITS)%nat -> at_ (textures_ g') i = None)
  /\ (forall i, (i < MAX_RENDERTARGETS)%nat -> at_ (renderTargets_ g') i = None)
  /\ depthStencil_ g' = None
  /\ viewport_ g' = mkIntRect 0 0 (width_ g) (height_ g)
  /\ scissorTest_ g' = false
  /\ numPrimitives_ g' = 0 /\ numBatches_ g' = 0.
Proof.
  intros Hmax Hw Hh. cbv zeta. unfold BeginFrame.
  destruct (ResetRenderTargets_resets g Hmax Hw Hh) as (Hrt & Hds & Hv & Hs & _).
  set (g1 := ResetRenderTargets g) in *. clearbody g1.
  destruct (cleanup_loop MAX_TEXTURE_UNITS 0 g1 ltac:(lia)) as (Hb & Hin & _).
  cbv zeta in *. set (g2 := foldl _ g1 (seq 0 MAX_TEXTURE_UNITS)) in *. clearbody g2.
  pose proof (Hb 0%nat 0%nat) as Hb0. unfold bindingView in Hb0.
  injection Hb0 as Hrt2 _ Hds2 Hv2 Hs2 _ _.
  record_simpl. rewrite Hrt2, Hds2, Hv2, Hs2.
  repeat split; try done. intros i Hi. apply Hin. lia.
Qed.

(** ** Vertex streams *)

Lemma extendDirtyRange_grows first last i k :
  first <= k <= last -> k < M_MAX_UNSIGNED ->
  (extendDirtyRange first last i).1 <= k <= (extendDirtyRange first last i).2.
Proof.
  intros Hk Hmax. unfold extendDirtyRange.
  destruct (Z.eqb_spec first M_MAX_UNSIGNED); [lia|]. cbn [fst snd].
  destruct (Z.ltb_spec i first), (Z.ltb_spec last i); lia.
Qed.

Lemma atZ_insert (l : list Z) (i : nat) (v : Z) :
  (i < length l)%nat -> atZ (<[i := v]> l) i = v.
Proof. intros Hi. unfold atZ. by rewrite list_lookup_insert_eq. Qed.

(** What the streams of a [SetVertexBuffers] call are compared with and
    computed from. *)
Definition streamView (i : nat) (g : Graphics) :=
  (vertexBufferObjects g, at_ (vertexBuffers_ g) i, atZ (vertexOffsets_ g) i).

Lemma streamChanged_view buffers instanceOffset g g' i :
  streamView i g' = streamView i g ->
  streamChanged buffers instanceOffset g' i = streamChanged buffers instanceOffset g i.
Proof.
  unfold streamView, streamChanged, streamOffset, vertexBuffer.
  intros [= Ho Hb Hoff]. by rewrite Ho, Hb, Hoff.
Qed.

Lemma streamOffset_view buffer instanceOffset g g' :
  vertexBufferObjects g' = vertexBufferObjects g ->
  streamOffset buffer instanceOffset g' = streamOffset buffer instanceOffset g.
Proof. unfold streamOffset, vertexBuffer. by intros ->. Qed.

(** One stream of [SetVertexBuffers]. *)
Lemma SetVertexBuffers_stream_effect buffers instanceOffset g i :
  (i < length (vertexBuffers_ g))%nat -> (i < length (vertexOffsets_ g))%nat ->
  let g1 := SetVertexBuffers_stream buffers instanceOffset g i in
  (vertexBufferObjects g1 = vertexBufferObjects g
   /\ length (vertexBuffers_ g1) = length (vertexBuffers_ g)
   /\ length (vertexOffsets_ g1) = length (vertexOffsets_ g))
  /\ (at_ (vertexBuffers_ g1) i = streamBuffer buffers i
      /\ (is_Some (streamBuffer buffers i) ->
          atZ (vertexOffsets_ g1) i
          = streamOffset (streamBuffer buffers i) instanceOffset g))
  /\ (forall j, j <> i -> streamView j g1 = streamView j g)
  /\ (streamChanged buffers instanceOffset g i = true ->
      vertexDeclarationDirty_ g1 = true
      /\ firstDirtyVB_ g1 <= Z.of_nat i <= lastDirtyVB_ g1)
  /\ (vertexDeclarationDirty_ g = true -> vertexDeclarationDirty_ g1 = true)
  /\ (forall k, firstDirtyVB_ g <= k <= lastDirtyVB_ g -> k < M_MAX_UNSIGNED ->
                firstDirtyVB_ g1 <= k <= lastDirtyVB_ g1).
Proof.
  intros Hvb Hoff. cbv zeta. unfold SetVertexBuffers_stream.
  destruct (streamChanged buffers instanceOffset g i) eqn:Hchanged.
  - cbv zeta. destruct (streamBuffer buffers i) as [b|] eqn:Hb; record_simpl;
      rewrite ?length_insert, ?at_insert, ?atZ_insert by done.
    + split; [done|]. split; [done|]. split.
      { intros j Hj. unfold streamView, at_, atZ. record_simpl.
        by rewrite !list_lookup_insert_ne. }
      split; [intros _; split; [done|apply extendDirtyRange_covers]|].
      split; [done|]. intros k Hk Hmax. by apply extendDirtyRange_grows.
    + split; [done|]. split; [split; [done|intros [? ?]; done]|]. split.
      { intros j Hj. unfold streamView, at_, atZ. record_simpl.
        by rewrite !list_lookup_insert_ne. }
      split; [intros _; split; [done|apply extendDirtyRange_covers]|].
      split; [done|]. intros k Hk Hmax. by apply extendDirtyRange_grows.
  - split; [done|]. split; [|split; [done|split; [done|split; done]]].
    unfold streamChanged in Hchanged.
    destruct (streamBuffer buffers i) as [b|] eqn:Hb.
    + apply orb_false_iff in Hchanged as [Hsame Hsameoff].
      apply negb_false_iff, bool_decide_eq_true in Hsame.
      apply negb_false_iff, Z.eqb_eq in Hsameoff. done.
    + apply bool_decide_eq_false in Hchanged. split; [|intros [? ?]; done].
      destruct (at_ (vertexBuffers_ g) i); [|done]. exfalso. apply Hchanged. by eexists.
Qed.

(** The loop of [SetVertexBuffers] over the streams, from stream [s]. *)
Lemma SetVertexBuffers_loop buffers instanceOffset (n s : nat) (g : Graphics) :
  (s + n <= length (vertexBuffers_ g))%nat -> (s + n <= length (vertexOffsets_ g))%nat ->
  Z.of_nat (s + n) <= M_MAX_UNSIGNED ->
  let g' := foldl (SetVertexBuffers_stream buffers instanceOffset) g (seq s n) in
  (vertexBufferObjects g' = vertexBufferObjects g
   /\ length (vertexBuffers_ g') = length (vertexBuffers_ g)
   /\ length (vertexOffsets_ g') = length (vertexOffsets_ g))
  /\ (forall i, (s <= i < s + n)%nat ->
        at_ (vertexBuffers_ g') i = streamBuffer buffers i
        /\ (is_Some (streamBuffer buffers i) ->
            atZ (vertexOffsets_ g') i
            = streamOffset (streamBuffer buffers i) instanceOffset g)
        /\ (streamChanged buffers instanceOffset g i = true ->
            vertexDeclarationDirty_ g' = true
            /\ firstDirtyVB_ g' <= Z.of_nat i <= lastDirtyVB_ g'))
  /\ (forall j, ~ (s <= j < s + n)%nat -> streamView j g' = streamView j g)
  /\ (vertexDeclarationDirty_ g = true -> vertexDeclarationDirty_ g' = true)
  /\ (forall k, firstDirtyVB_ g <= k <= lastDirtyVB_ g -> k < M_MAX_UNSIGNED ->
                firstDirtyVB_ g' <= k <= lastDirtyVB_ g').
Proof.
  revert s g. induction n as [|n IH]; intros s g Hvb Hoff Hmax; cbn [seq foldl].
  { cbv zeta. split; [done|]. split; [intros; lia|]. split; [done|]. split; done. }
  destruct (SetVertexBuffers_stream_effect buffers instanceOffset g s ltac:(lia) ltac:(lia))
    as ((Ho1 & Hl1 & Hlo1) & (Hb1 & Hoff1) & Hother1 & Hdirty1 & Hkeep1 & Hgrow1).
  cbv zeta in *. set (g1 := SetVertexBuffers_stream buffers instanceOffset g s) in *.
  clearbody g1.
  destruct (IH (S s) g1 ltac:(lia) ltac:(lia) ltac:(lia))
    as ((Ho & Hl & Hlo) & Hin & Hout & Hkeep & Hgrow).
  cbv zeta in *. set (g' := foldl _ g1 (seq (S s) n)) in *. clearbody g'.
  split; [split; [congruence|split; congruence]|]. split; [|split; [|split]].
  - intros i Hi. destruct (decide (i = s)) as [->|Hne].
    + pose proof (Hout s ltac:(lia)) as Hs. unfold streamView in Hs.
      injection Hs as _ Hbs Hos. rewrite Hbs, Hos.
      split; [done|]. split; [done|]. intros Hchanged.
      destruct (Hdirty1 Hchanged) as [Hd Hrange]. split; [by apply Hkeep|].
      apply Hgrow; [done|]. unfold M_MAX_UNSIGNED in *. lia.
    + destruct (Hin i ltac:(lia)) as (Hbi & Hoi & Hdi).
      split; [done|]. split.
      * intros Hsome. rewrite Hoi by done. by apply streamOffset_view.
      * intros Hchanged. apply Hdi.
        rewrite <- Hchanged. apply streamChanged_view, Hother1. lia.
  - intros j Hj. rewrite Hout by lia. apply Hother1. lia.
  - auto.
  - auto.
Qed.

(** X11.  An accepted [SetVertexBuffers] leaves every stream recording the
    buffer requested for it (null beyond the given buffers) with the offset
    of that buffer, and every stream it had to change lies in the dirty
    range with the vertex declaration marked dirty. *)
Theorem SetVertexBuffers_records (buffers : list (option nat)) (instanceOffset : Z)
    (g : Graphics) :
  (length buffers <= MAX_VERTEX_STREAMS)%nat ->
  (MAX_VERTEX_STREAMS <= length (vertexBuffers_ g))%nat ->
  (MAX_VERTEX_STREAMS <= length (vertexOffsets_ g))%nat ->
  Z.of_nat MAX_VERTEX_STREAMS <= M_MAX_UNSIGNED ->
  let r := SetVertexBuffers buffers instanceOffset g in
  r.2 = true
  /\ forall i, (i < MAX_VERTEX_STREAMS)%nat ->
       at_ (vertexBuffers_ r.1) i = streamBuffer buffers i
       /\ (is_Some (streamBuffer buffers i) ->
           atZ (vertexOffsets_ r.1) i
           = streamOffset (streamBuffer buffers i) instanceOffset g)
       /\ (streamChanged buffers instanceOffset g i = true ->
           vertexDeclarationDirty_ r.1 = true
           /\ firstDirtyVB_ r.1 <= Z.of_nat i <= lastDirtyVB_ r.1).
Proof.
  intros Hlen Hvb Hoff Hmax. cbv zeta. unfold SetVertexBuffers.
  rewrite bool_decide_eq_false_2 by lia. cbn [fst snd]. split; [done|].
  destruct (SetVertexBuffers_loop buffers instanceOffset MAX_VERTEX_STREAMS 0 g
              ltac:(lia) ltac:(lia) ltac:(lia)) as (_ & Hin & _).
  intros i Hi. apply Hin. lia.
Qed.

(** ** The scissor rectangle *)

(** With a rectangle given, [storeScissor] ends with the scissor test on
    only for a rectangle that is not inverted, and then records it. *)
Lemma storeScissor_enabled enable r g :
  scissorTest_ (storeScissor enable (Some r) g) = true ->
  enable = true
  /\ scissorRect_ (storeScissor enable (Some r) g) = fixedScissorRect r
  /\ left_ (fixedScissorRect r) < right_ (fixedScissorRect r)
  /\ top_ (fixedScissorRect r) < bottom_ (fixedScissorRect r).
Proof.
  intros Hon.
  assert (He : scissorEnabled enable (Some r) = true
               /\ scissorRect_ (storeScissor enable (Some r) g) = fixedScissorRect r).
  { revert Hon. cbv beta delta [storeScissor]. cbv zeta.
    destruct (scissorEnabled enable (Some r)); cbn [andb].
    - intros _. split; [done|].
      case_bool_decide as Hr; cbn [negb];
        destruct (scissorTest_ g) eqn:Ht; record_simpl; rewrite ?Ht; cbn [eqb negb];
        record_simpl; done.
    - destruct (scissorTest_ g) eqn:Ht; cbn [eqb negb]; record_simpl; rewrite ?Ht; done. }
  destruct He as [He Hrect]. split; [|split; [exact Hrect|]].
  - unfold scissorEnabled in He.
    destruct (_ || _); [done|exact He].
  - revert He. unfold scissorEnabled, fixedScissorRect. cbn [left_ top_ right_ bottom_].
    destruct (Z.eqb_spec (right_ r) (left_ r)), (Z.eqb_spec (bottom_ r) (top_ r));
      repeat match goal with |- context [?a <? ?b] => destruct (Z.ltb_spec a b) end;
      cbn [orb]; intros; try done; lia.
Qed.

Lemma fixedScissorRect_within r w h :
  0 <= left_ r <= w - 1 -> 0 <= top_ r <= h - 1 ->
  0 <= right_ r <= w -> 0 <= bottom_ r <= h ->
  0 <= left_ (fixedScissorRect r) /\ right_ (fixedScissorRect r) <= w
  /\ 0 <= top_ (fixedScissorRect r) /\ bottom_ (fixedScissorRect r) <= h.
Proof.
  intros Hl Ht Hr Hb. unfold fixedScissorRect. cbn [left_ top_ right_ bottom_].
  destruct (Z.eqb_spec (right_ r) (left_ r)), (Z.eqb_spec (bottom_ r) (top_ r)); lia.
Qed.

(** X12.  Whenever [SetScissorTest] ends with the scissor test on, it was
    asked to enable it for a rectangle that does not cover the viewport,
    and the recorded scissor rectangle is not empty and lies within the
    render target; this holds for the overload that takes a normalized
    rectangle and for the one that takes pixels. *)
Theorem SetScissorTest_within_render_target (enable : bool) (g : Graphics) :
  1 <= (GetRenderTargetDimensions g).1 -> 1 <= (GetRenderTargetDimensions g).2 ->
  let size := GetRenderTargetDimensions g in
  (forall rect borderInclusive,
     let g' := SetScissorTest enable rect borderInclusive g in
     scissorTest_ g' = true ->
     enable = true /\ coversViewport rect = false
     /\ 0 <= left_ (scissorRect_ g') < right_ (scissorRect_ g')
     /\ right_ (scissorRect_ g') <= size.1
     /\ 0 <= top_ (scissorRect_ g') < bottom_ (scissorRect_ g')
     /\ bottom_ (scissorRect_ g') <= size.2)
  /\ (forall rect,
        let g' := SetScissorTestInt enable rect g in
        scissorTest_ g' = true ->
        enable = true
        /\ 0 <= left_ (scissorRect_ g') < right_ (scissorRect_ g')
        /\ right_ (scissorRect_ g') <= size.1
        /\ 0 <= top_ (scissorRect_ g') < bottom_ (scissorRect_ g')
        /\ bottom_ (scissorRect_ g') <= size.2).
Proof.
  intros Hw Hh. cbv zeta.
  assert (Hoff : forall e, e = false -> scissorTest_ (storeScissor e None g) = true -> False).
  { intros e -> Hon. revert Hon. cbv beta delta [storeScissor]. cbv zeta.
    cbn [scissorEnabled]. destruct (scissorTest_ g) eqn:Ht; cbn [eqb negb].
    - record_simpl. done.
    - by rewrite Ht. }
  split.
  - intros rect borderInclusive. unfold SetScissorTest. cbv zeta.
    destruct (coversViewport rect) eqn:Hcover; [intros Hon; by destruct (Hoff false eq_refl)|].
    destruct enable; [|intros Hon; by destruct (Hoff false eq_refl)].
    intros Hon. destruct (storeScissor_enabled _ _ _ Hon) as (_ & -> & Hx & Hy).
    set (r := scissorPixels rect borderInclusive g) in *.
    destruct (fixedScissorRect_within r (GetRenderTargetDimensions g).1
                (GetRenderTargetDimensions g).2) as (Hl & Hr & Ht & Hb);
      [subst r; unfold scissorPixels; cbv zeta; cbn [left_ top_ right_ bottom_];
       apply Clamp_range; lia..|].
    repeat split; try done; lia.
  - intros rect. unfold SetScissorTestInt.
    destruct enable; [|intros Hon; by destruct (Hoff false eq_refl)].
    intros Hon. destruct (storeScissor_enabled _ _ _ Hon) as (_ & -> & Hx & Hy).
    set (r := scissorPixelsInt rect g) in *.
    destruct (fixedScissorRect_within r (GetRenderTargetDimensions g).1
                (GetRenderTargetDimensions g).2) as (Hl & Hr & Ht & Hb);
      [subst r; unfold scissorPixelsInt; cbv zeta; cbn [left_ top_ right_ bottom_];
       apply Clamp_range; lia..|].
    repeat split; try done; lia.
Qed.

(** ** The render-target views *)

(** What the views that [PrepareDraw] binds are computed from: the fields
    of a render surface that say what it is, and the recorded render
    targets, depth-stencil, depth write and window. *)
Definition surfaceFields (x : RenderSurface) :=
  (surf_usage_ x, surf_width_ x, surf_height_ x, renderTargetView_ x, readOnlyView_ x).

Definition targetInputs (sx : nat) (g : Graphics) :=
  (renderTargets_ g, depthStencil_ g, depthWrite_ g, width_ g, height_ g,
   defaultRenderTargetView_ g, defaultDepthStencilView_ g, surfaceFields (surface g sx)).

(** The same together with the views bound last and the flag that asks
    for binding them again. *)
Definition targetsView (sx : nat) (g : Graphics) :=
  (targetInputs sx g, renderTargetViews_ g, depthStencilView_ g, renderTargetsDirty_ g).

Lemma targetsView_eq sx g' g :
  targetsView sx g' = targetsView sx g ->
  targetInputs sx g' = targetInputs sx g
  /\ renderTargetViews_ g' = renderTargetViews_ g
  /\ depthStencilView_ g' = depthStencilView_ g
  /\ renderTargetsDirty_ g' = renderTargetsDirty_ g.
Proof.
  intros Hv. repeat split;
    [ exact (f_equal (fun v => v.1.1.1) Hv)
    | exact (f_equal (fun v => v.1.1.2) Hv)
    | exact (f_equal (fun v => v.1.2) Hv)
    | exact (f_equal (fun v => v.2) Hv) ].
Qed.

Lemma deviceCall_targets sx c g : targetsView sx (deviceCall c g) = targetsView sx g.
Proof. reflexivity. Qed.
#[local] Hint Resolve deviceCall_targets : frame.

Lemma logError_targets sx msg g : targetsView sx (logError msg g) = targetsView sx g.
Proof. reflexivity. Qed.
#[local] Hint Resolve logError_targets : frame.

Lemma updTexture_targets sx t f g : targetsView sx (updTexture t f g) = targetsView sx g.
Proof. reflexivity. Qed.
#[local] Hint Resolve updTexture_targets : frame.

Lemma updShader_targets sx v f g : targetsView sx (updShader v f g) = targetsView sx g.
Proof. reflexivity. Qed.
#[local] Hint Resolve updShader_targets : frame.

Lemma updConstantBuffer_targets sx b f g :
  targetsView sx (updConstantBuffer b f g) = targetsView sx g.
Proof. reflexivity. Qed.
#[local] Hint Resolve updConstantBuffer_targets : frame.

Lemma updSurface_targets sx s f g :
  (forall x, surfaceFields (f x) = surfaceFields x) ->
  targetsView sx (updSurface s f g) = targetsView sx g.
Proof.
  intros Hf. unfold targetsView, targetInputs, updSurface, surface. record_simpl.
  destruct (decide (sx = s)) as [->|Hne].
  - by rewrite lookup_total_insert_eq, Hf.
  - by rewrite lookup_total_insert_ne.
Qed.
#[local] Hint Resolve updSurface_targets : frame.
#[local] Hint Extern 1 (forall x : RenderSurface, surfaceFields _ = _) =>
  intros; reflexivity : frame.
Lemma SetBlendMode_targets sx mode a g :
  targetsView sx (SetBlendMode mode a g) = targetsView sx g.
Proof. frame SetBlendMode. Qed.
#[local] Hint Resolve SetBlendMode_targets : frame.

Lemma SetColorWrite_targets sx enable g :
  targetsView sx (SetColorWrite enable g) = targetsView sx g.
Proof. frame SetColorWrite. Qed.
#[local] Hint Resolve SetColorWrite_targets : frame.

Lemma SetCullMode_targets sx mode g : targetsView sx (SetCullMode mode g) = targetsView sx g.
Proof. frame SetCullMode. Qed.
#[local] Hint Resolve SetCullMode_targets : frame.

Lemma SetDepthBias_targets sx c s g : targetsView sx (SetDepthBias c s g) = targetsView sx g.
Proof. frame SetDepthBias. Qed.
#[local] Hint Resolve SetDepthBias_targets : frame.

Lemma SetDepthTest_targets sx mode g : targetsView sx (SetDepthTest mode g) = targetsView sx g.
Proof. frame SetDepthTest. Qed.
#[local] Hint Resolve SetDepthTest_targets : frame.

Lemma SetFillMode_targets sx mode g : targetsView sx (SetFillMode mode g) = targetsView sx g.
Proof. frame SetFillMode. Qed.
#[local] Hint Resolve SetFillMode_targets : frame.

Lemma SetLineAntiAlias_targets sx enable g :
  targetsView sx (SetLineAntiAlias enable g) = targetsView sx g.
Proof. frame SetLineAntiAlias. Qed.
#[local] Hint Resolve SetLineAntiAlias_targets : frame.

Lemma storeScissor_targets sx enable r g :
  targetsView sx (storeScissor enable r g) = targetsView sx g.
Proof. frame storeScissor. Qed.
#[local] Hint Resolve storeScissor_targets : frame.

Lemma SetScissorTest_targets sx enable rect b g :
  targetsView sx (SetScissorTest enable rect b g) = targetsView sx g.
Proof. frame SetScissorTest. Qed.
#[local] Hint Resolve SetScissorTest_targets : frame.

Lemma SetScissorTestInt_targets sx enable rect g :
  targetsView sx (SetScissorTestInt enable rect g) = targetsView sx g.
Proof. frame SetScissorTestInt. Qed.
#[local] Hint Resolve SetScissorTestInt_targets : frame.

Lemma SetViewport_targets sx rect g : targetsView sx (SetViewport rect g) = targetsView sx g.
Proof. frame SetViewport. Qed.
#[local] Hint Resolve SetViewport_targets : frame.

Lemma SetStencilTest_targets sx e m p f z r cm wm g :
  targetsView sx (SetStencilTest e m p f z r cm wm g) = targetsView sx g.
Proof. frame SetStencilTest. Qed.
#[local] Hint Resolve SetStencilTest_targets : frame.

Lemma SetIndexBuffer_targets sx b g : targetsView sx (SetIndexBuffer b g) = targetsView sx g.
Proof. frame SetIndexBuffer. Qed.
#[local] Hint Resolve SetIndexBuffer_targets : frame.

Lemma SetPrimitiveType_targets sx t g : targetsView sx (SetPrimitiveType t g) = targetsView sx g.
Proof. frame SetPrimitiveType. Qed.
#[local] Hint Resolve SetPrimitiveType_targets : frame.

Lemma UpdateParameters_targets sx t g : targetsView sx (UpdateParameters t g) = targetsView sx g.
Proof. frame UpdateParameters. Qed.
#[local] Hint Resolve UpdateParameters_targets : frame.

Lemma RegenerateLevels_targets sx t g : targetsView sx (RegenerateLevels t g) = targetsView sx g.
Proof. frame RegenerateLevels. Qed.
#[local] Hint Resolve RegenerateLevels_targets : frame.

Lemma SetLevelsDirty_targets sx t g : targetsView sx (SetLevelsDirty t g) = targetsView sx g.
Proof. frame SetLevelsDirty. Qed.
#[local] Hint Resolve SetLevelsDirty_targets : frame.

Lemma ResolveToTexture2D_targets sx t g :
  targetsView sx (ResolveToTexture2D t g) = targetsView sx g.
Proof. frame ResolveToTexture2D. Qed.
#[local] Hint Resolve ResolveToTexture2D_targets : frame.

Lemma ResolveToTextureCube_targets sx t g :
  targetsView sx (ResolveToTextureCube t g) = targetsView sx g.
Proof. frame ResolveToTextureCube. Qed.
#[local] Hint Resolve ResolveToTextureCube_targets : frame.

Lemma resolveMultisampled_targets sx t g :
  targetsView sx (resolveMultisampled t g) = targetsView sx g.
Proof. frame resolveMultisampled. Qed.
#[local] Hint Resolve resolveMultisampled_targets : frame.

Lemma refreshTexture_targets sx index tex g :
  targetsView sx (refreshTexture index tex g) = targetsView sx g.
Proof. frame refreshTexture. Qed.
#[local] Hint Resolve refreshTexture_targets : frame.

Lemma recordTexture_targets sx index tex g :
  targetsView sx (recordTexture index tex g) = targetsView sx g.
Proof. frame recordTexture. Qed.
#[local] Hint Resolve recordTexture_targets : frame.

Lemma SetTexture_targets sx index tex g :
  targetsView sx (SetTexture index tex g) = targetsView sx g.
Proof. frame SetTexture. Qed.
#[local] Hint Resolve SetTexture_targets : frame.

Lemma SetVertexBuffers_stream_targets sx buffers off g i :
  targetsView sx (SetVertexBuffers_stream buffers off g i) = targetsView sx g.
Proof. frame SetVertexBuffers_stream. Qed.
#[local] Hint Resolve SetVertexBuffers_stream_targets : frame.

Lemma SetVertexBuffers_targets sx buffers off g :
  targetsView sx ((SetVertexBuffers buffers off g).1) = targetsView sx g.
Proof. frame SetVertexBuffers. Qed.
#[local] Hint Resolve SetVertexBuffers_targets : frame.

Lemma SetVertexBuffer_targets sx b g : targetsView sx (SetVertexBuffer b g) = targetsView sx g.
Proof. frame SetVertexBuffer. Qed.
#[local] Hint Resolve SetVertexBuffer_targets : frame.

Lemma ConstantBuffer_SetSize_targets sx b size g :
  targetsView sx ((ConstantBuffer_SetSize b size g).1) = targetsView sx g.
Proof. frame ConstantBuffer_SetSize. Qed.
#[local] Hint Resolve ConstantBuffer_SetSize_targets : frame.

Lemma ConstantBuffer_Apply_targets sx b g :
  targetsView sx (ConstantBuffer_Apply b g) = targetsView sx g.
Proof. frame ConstantBuffer_Apply. Qed.
#[local] Hint Resolve ConstantBuffer_Apply_targets : frame.

Lemma ConstantBuffer_SetParameter_targets sx b off data g :
  targetsView sx (ConstantBuffer_SetParameter b off data g) = targetsView sx g.
Proof. frame ConstantBuffer_SetParameter. Qed.
#[local] Hint Resolve ConstantBuffer_SetParameter_targets : frame.

Lemma GetOrCreateConstantBuffer_targets sx type index size g :
  targetsView sx ((GetOrCreateConstantBuffer type index size g).2) = targetsView sx g.
Proof. frame GetOrCreateConstantBuffer. Qed.
#[local] Hint Resolve GetOrCreateConstantBuffer_targets : frame.

Lemma createStageBuffers_targets sx type sizes g :
  targetsView sx ((createStageBuffers type sizes g).2) = targetsView sx g.
Proof. frame createStageBuffers. Qed.
#[local] Hint Resolve createStageBuffers_targets : frame.

Lemma ShaderProgram_new_targets sx vs ps g :
  targetsView sx ((ShaderProgram_new vs ps g).2) = targetsView sx g.
Proof. frame ShaderProgram_new. Qed.
#[local] Hint Resolve ShaderProgram_new_targets : frame.

Lemma ShaderVariation_Create_targets sx v g :
  targetsView sx ((ShaderVariation_Create v g).1) = targetsView sx g.
Proof. frame ShaderVariation_Create. Qed.
#[local] Hint Resolve ShaderVariation_Create_targets : frame.

Lemma createShaderNow_targets sx s msg g :
  targetsView sx ((createShaderNow s msg g).2) = targetsView sx g.
Proof. frame createShaderNow. Qed.
#[local] Hint Resolve createShaderNow_targets : frame.

Lemma SetShaderParameter_targets sx param data g :
  targetsView sx (SetShaderParameter param data g) = targetsView sx g.
Proof. frame SetShaderParameter. Qed.
#[local] Hint Resolve SetShaderParameter_targets : frame.

Lemma setVertexShader_targets sx vs g : targetsView sx (setVertexShader vs g) = targetsView sx g.
Proof. frame setVertexShader. Qed.
#[local] Hint Resolve setVertexShader_targets : frame.

Lemma setPixelShader_targets sx ps g : targetsView sx (setPixelShader ps g) = targetsView sx g.
Proof. frame setPixelShader. Qed.
#[local] Hint Resolve setPixelShader_targets : frame.

Lemma selectShaderProgram_targets sx g :
  targetsView sx (selectShaderProgram g) = targetsView sx g.
Proof. frame selectShaderProgram. Qed.
#[local] Hint Resolve selectShaderProgram_targets : frame.

Lemma adoptPipelineState_targets sx ps g :
  targetsView sx ((adoptPipelineState ps g).1) = targetsView sx g.
Proof. frame adoptPipelineState. Qed.
#[local] Hint Resolve adoptPipelineState_targets : frame.

Lemma SetShaders_targets sx vs ps g : targetsView sx (SetShaders vs ps g) = targetsView sx g.
Proof. frame SetShaders. Qed.
#[local] Hint Resolve SetShaders_targets : frame.

Lemma SetClipPlane_targets sx enable plane g :
  targetsView sx (SetClipPlane enable plane g) = targetsView sx g.
Proof. frame SetClipPlane. Qed.
#[local] Hint Resolve SetClipPlane_targets : frame.

Lemma resolveVertexDeclaration_targets sx s :
  targetsView sx ((resolveVertexDeclaration s).1) = targetsView sx s.1.
Proof. frame resolveVertexDeclaration. Qed.
#[local] Hint Resolve resolveVertexDeclaration_targets : frame.

Lemma resolvePrimitiveType_targets sx s :
  targetsView sx ((resolvePrimitiveType s).1) = targetsView sx s.1.
Proof. frame resolvePrimitiveType. Qed.
#[local] Hint Resolve resolvePrimitiveType_targets : frame.

Lemma resolveBlendState_targets sx s :
  targetsView sx ((resolveBlendState s).1) = targetsView sx s.1.
Proof. frame resolveBlendState. Qed.
#[local] Hint Resolve resolveBlendState_targets : frame.

Lemma resolveDepthState_targets sx s :
  targetsView sx ((resolveDepthState s).1) = targetsView sx s.1.
Proof. frame resolveDepthState. Qed.
#[local] Hint Resolve resolveDepthState_targets : frame.

Lemma resolveRasterizerState_targets sx s :
  targetsView sx ((resolveRasterizerState s).1) = targetsView sx s.1.
Proof. frame resolveRasterizerState. Qed.
#[local] Hint Resolve resolveRasterizerState_targets : frame.

Lemma resolveStateHashes_targets sx g :
  targetsView sx ((resolveStateHashes g).1) = targetsView sx g.
Proof. frame resolveStateHashes. Qed.
#[local] Hint Resolve resolveStateHashes_targets : frame.

Lemma bindStageBuffers_targets sx type v buffers g :
  targetsView sx (bindStageBuffers type v buffers g) = targetsView sx g.
Proof. frame bindStageBuffers. Qed.
#[local] Hint Resolve bindStageBuffers_targets : frame.

Lemma buildPipelineState_targets sx g :
  targetsView sx ((buildPipelineState g).2) = targetsView sx g.
Proof. frame buildPipelineState. Qed.
#[local] Hint Resolve buildPipelineState_targets : frame.

Lemma resolvePipelineState_targets sx g :
  targetsView sx ((resolvePipelineState g).1) = targetsView sx g.
Proof. frame resolvePipelineState. Qed.
#[local] Hint Resolve resolvePipelineState_targets : frame.

Lemma resolvePipeline_targets sx g : targetsView sx ((resolvePipeline g).1) = targetsView sx g.
Proof. frame resolvePipeline. Qed.
#[local] Hint Resolve resolvePipeline_targets : frame.

Lemma commitTextures_targets sx changed g :
  targetsView sx (commitTextures changed g) = targetsView sx g.
Proof. frame commitTextures. Qed.
#[local] Hint Resolve commitTextures_targets : frame.

Lemma flushConstantBuffers_targets sx g :
  targetsView sx (flushConstantBuffers g) = targetsView sx g.
Proof. frame flushConstantBuffers. Qed.
#[local] Hint Resolve flushConstantBuffers_targets : frame.

Lemma bindDraw_targets sx s : targetsView sx (bindDraw s) = targetsView sx s.1.
Proof. frame bindDraw. Qed.
#[local] Hint Resolve bindDraw_targets : frame.

Lemma commitDraw_targets sx s : targetsView sx (commitDraw s) = targetsView sx s.1.
Proof. frame commitDraw. Qed.
#[local] Hint Resolve commitDraw_targets : frame.


(** The views [PrepareDraw] would bind now. *)
Definition resolvedViews (g : Graphics) : list (option nat) * option nat :=
  (renderTargetViews_ (resolveRenderTargets g), depthStencilView_ (resolveRenderTargets g)).

Definition boundViews (g : Graphics) := (renderTargetViews_ g, depthStencilView_ g).

Lemma SetViewport_bound rect g : boundViews (SetViewport rect g) = boundViews g.
Proof.
  destruct (targetsView_eq _ _ _ (SetViewport_targets 0 rect g)) as (_ & Hrv & Hdv & _).
  unfold boundViews. by rewrite Hrv, Hdv.
Qed.

Lemma resolveRenderTargets_inputs sx g :
  targetInputs sx (resolveRenderTargets g) = targetInputs sx g.
Proof.
  unfold resolveRenderTargets. cbv zeta.
  assert (Hskip : forall h, targetInputs sx (h <| renderTargetsDirty_ := false |>)
                            = targetInputs sx h) by reflexivity.
  rewrite Hskip.
  match goal with
  | |- targetInputs sx (SetViewport ?r ?h) = _ =>
      destruct (targetsView_eq _ _ _ (SetViewport_targets sx r h)) as (Hin' & _);
      rewrite Hin'
  end.
  reflexivity.
Qed.

Lemma resolvedViews_inputs g g' :
  (forall sx, targetInputs sx g' = targetInputs sx g) -> resolvedViews g' = resolvedViews g.
Proof.
  intros Hin.
  assert (Hg : renderTargets_ g' = renderTargets_ g /\ depthStencil_ g' = depthStencil_ g
               /\ depthWrite_ g' = depthWrite_ g /\ width_ g' = width_ g
               /\ height_ g' = height_ g
               /\ defaultRenderTargetView_ g' = defaultRenderTargetView_ g
               /\ defaultDepthStencilView_ g' = defaultDepthStencilView_ g).
  { pose proof (Hin 0%nat) as H0. unfold targetInputs in H0.
    repeat split;
      [ exact (f_equal (fun v => v.1.1.1.1.1.1.1) H0)
      | exact (f_equal (fun v => v.1.1.1.1.1.1.2) H0)
      | exact (f_equal (fun v => v.1.1.1.1.1.2) H0)
      | exact (f_equal (fun v => v.1.1.1.1.2) H0)
      | exact (f_equal (fun v => v.1.1.1.2) H0)
      | exact (f_equal (fun v => v.1.1.2) H0)
      | exact (f_equal (fun v => v.1.2) H0) ]. }
  destruct Hg as (Hrt & Hds & Hdw & Hw & Hh & Hdr & Hdd).
  assert (Hs : forall sx, surfaceFields (surface g' sx) = surfaceFields (surface g sx)).
  { intros sx. exact (f_equal (fun v => v.2) (Hin sx)). }
  assert (Hf : forall sx,
             surf_usage_ (surface g' sx) = surf_usage_ (surface g sx)
             /\ surf_width_ (surface g' sx) = surf_width_ (surface g sx)
             /\ surf_height_ (surface g' sx) = surf_height_ (surface g sx)
             /\ renderTargetView_ (surface g' sx) = renderTargetView_ (surface g sx)
             /\ readOnlyView_ (surface g' sx) = readOnlyView_ (surface g sx)).
  { intros sx. pose proof (Hs sx) as H0. unfold surfaceFields in H0.
    repeat split;
      [ exact (f_equal (fun v => v.1.1.1.1) H0)
      | exact (f_equal (fun v => v.1.1.1.2) H0)
      | exact (f_equal (fun v => v.1.1.2) H0)
      | exact (f_equal (fun v => v.1.2) H0)
      | exact (f_equal (fun v => v.2) H0) ]. }
  change (boundViews (resolveRenderTargets g') = boundViews (resolveRenderTargets g)).
  unfold resolveRenderTargets. cbv zeta.
  assert (Hskip : forall h, boundViews (h <| renderTargetsDirty_ := false |>) = boundViews h)
    by reflexivity.
  rewrite !Hskip, !SetViewport_bound. unfold boundViews, deviceCall. record_simpl.
  rewrite Hrt, Hds, Hdw, Hw, Hh, Hdr, Hdd. f_equal.
  - assert (Hviews :
      (λ i : nat, match at_ (renderTargets_ g) i with
                  | Some rt => if bool_decide (surf_usage_ (surface g' rt) = TEXTURE_RENDERTARGET)
                               then renderTargetView_ (surface g' rt) else None
                  | None => None
                  end) <$> seq 0 MAX_RENDERTARGETS
      = (λ i : nat, match at_ (renderTargets_ g) i with
                    | Some rt => if bool_decide (surf_usage_ (surface g rt) = TEXTURE_RENDERTARGET)
                                 then renderTargetView_ (surface g rt) else None
                    | None => None
                    end) <$> seq 0 MAX_RENDERTARGETS).
    { apply list_fmap_ext. intros _ i _. destruct (at_ (renderTargets_ g) i) as [rt|]; [|done].
      destruct (Hf rt) as (-> & _ & _ & -> & _). done. }
    rewrite Hviews. destruct (depthStencil_ g) as [ds|]; [|done].
    destruct (Hf ds) as (_ & -> & -> & _ & _). done.
  - destruct (depthStencil_ g) as [ds|]; [|done].
    destruct (Hf ds) as (-> & _ & _ & -> & ->). done.
Qed.

(** The views recorded as bound are up to date unless the flag asks for
    binding them again. *)
Definition renderTargetsInSync (g : Graphics) : Prop :=
  renderTargetsDirty_ g = false -> boundViews g = resolvedViews g.

Lemma renderTargetsInSync_view g g' :
  (forall sx, targetsView sx g' = targetsView sx g) ->
  renderTargetsInSync g -> renderTargetsInSync g'.
Proof.
  intros Hv Hsync Hclean.
  assert (Hin : forall sx, targetInputs sx g' = targetInputs sx g)
    by (intros sx; by destruct (targetsView_eq _ _ _ (Hv sx))).
  destruct (targetsView_eq _ _ _ (Hv 0%nat)) as (_ & Hrv & Hdv & Hd).
  rewrite (resolvedViews_inputs _ _ Hin). unfold boundViews. rewrite Hrv, Hdv.
  apply Hsync. by rewrite <- Hd.
Qed.

Lemma renderTargetsInSync_dirty g : renderTargetsDirty_ g = true -> renderTargetsInSync g.
Proof. intros Hd Hclean. congruence. Qed.

Lemma resolveRenderTargets_in_sync g : renderTargetsInSync (resolveRenderTargets g).
Proof.
  intros _. rewrite (resolvedViews_inputs g (resolveRenderTargets g)); [done|].
  intros sx. apply resolveRenderTargets_inputs.
Qed.

Lemma PrepareDraw_in_sync g : renderTargetsInSync g -> renderTargetsInSync (PrepareDraw g).
Proof.
  intros Hsync. unfold PrepareDraw. cbv zeta.
  set (g1 := if renderTargetsDirty_ g then resolveRenderTargets g else g).
  assert (H1 : renderTargetsInSync g1).
  { subst g1. destruct (renderTargetsDirty_ g); [apply resolveRenderTargets_in_sync|done]. }
  clearbody g1. destruct (_ || _); [done|].
  apply (renderTargetsInSync_view g1); [|done]. intros sx.
  rewrite commitDraw_targets. apply resolvePipeline_targets.
Qed.

Lemma submitDraw_in_sync type call primitives g :
  renderTargetsInSync g -> renderTargetsInSync (submitDraw type call primitives g).
Proof.
  intros Hsync. unfold submitDraw. cbv zeta.
  set (g1 := SetPrimitiveType _ g).
  assert (H1 : renderTargetsInSync g1).
  { apply (renderTargetsInSync_view g); [|done]. intros sx. apply SetPrimitiveType_targets. }
  clearbody g1. pose proof (PrepareDraw_in_sync g1 H1) as H2.
  set (g2 := PrepareDraw g1) in *. clearbody g2.
  apply (renderTargetsInSync_view g2); [|done]. intros sx. reflexivity.
Qed.

(** A setter of a render target either changes nothing or leaves the flag
    set. *)
Lemma SetRenderTarget_dirty index rt g :
  SetRenderTarget index rt g = g \/ renderTargetsDirty_ (SetRenderTarget index rt g) = true.
Proof.
  unfold SetRenderTarget. case_bool_decide; [by left|].
  case_bool_decide; cbn [negb]; [by left|]. right. cbv zeta.
  set (g1 := g <| renderTargets_ := <[index := rt]> (renderTargets_ g) |>
               <| renderTargetsDirty_ := true |>).
  destruct rt as [s|]; [|reflexivity].
  assert (Hv : bindingView 0 0
                 (let parentTexture := parentTexture_ (surface g1 s) in
                  let g := foldl (fun g i =>
                                    if bool_decide (at_ (textures_ g) i = Some parentTexture)
                                    then SetTexture i (backupTexture_ (texture g parentTexture)) g
                                    else g)
                                 g1 (seq 0 MAX_TEXTURE_UNITS) in
                  let g :=
                    if (1 <? multiSample_ (texture g parentTexture))
                       && autoResolve_ (texture g parentTexture)
                    then
                      let g := updTexture parentTexture
                                 (fun x => x <| tex_resolveDirty_ := true |>) g in
                      updSurface s (fun x => x <| surf_resolveDirty_ := true |>) g
                    else g in
                  if 1 <? levels_ (texture g parentTexture)
                  then SetLevelsDirty parentTexture g else g)
               = bindingView 0 0 g1).
  { frame_rec (bindingView 0%nat 0%nat). }
  destruct (bindingView_eq _ _ _ _ Hv) as (_ & _ & _ & Hd). cbv zeta in Hd.
  by rewrite Hd.
Qed.

Lemma exec_in_sync c g g' : renderTargetsInSync g -> exec c g = Some g' -> renderTargetsInSync g'.
Proof.
  intros Hsync He.
  destruct c; cbn [exec] in He;
    try (injection He as <-;
         solve [ apply (renderTargetsInSync_view g); [|done]; intros sx;
                 frame_rec (targetsView sx) ]).
  - injection He as <-. destruct (SetRenderTarget_dirty index renderTarget g) as [->|Hd];
      [done|by apply renderTargetsInSync_dirty].
  - injection He as <-. unfold SetRenderTargetTexture.
    destruct (SetRenderTarget_dirty index (tex ≫= (λ t, renderSurface_ (texture g t))) g)
      as [->|Hd]; [done|by apply renderTargetsInSync_dirty].
  - injection He as <-. unfold SetDepthStencil. case_bool_decide; cbn [negb]; [done|].
    by apply renderTargetsInSync_dirty.
  - injection He as <-. unfold SetDepthStencilTexture, SetDepthStencil. cbv zeta.
    case_bool_decide; cbn [negb].
    + apply (renderTargetsInSync_view g); [|done]. intros sx. reflexivity.
    + by apply renderTargetsInSync_dirty.
  - injection He as <-. unfold SetDepthWrite. destruct (eqb _ _); cbn [negb]; [done|].
    by apply renderTargetsInSync_dirty.
  - injection He as <-. by apply PrepareDraw_in_sync.
  - injection He as <-. unfold Draw. destruct (_ || _); [done|by apply submitDraw_in_sync].
  - unfold DrawIndexed in He. destruct (_ || _); [by injection He as <-|].
    destruct (indexBuffer_ g); [|done]. injection He as <-. by apply submitDraw_in_sync.
  - unfold DrawIndexedBase in He. destruct (_ || _); [by injection He as <-|].
    destruct (indexBuffer_ g); [|done]. injection He as <-. by apply submitDraw_in_sync.
  - unfold DrawInstanced in He. destruct (_ || _); [by injection He as <-|].
    destruct (indexBuffer_ g); [|done]. injection He as <-. by apply submitDraw_in_sync.
  - unfold DrawInstancedBase in He. destruct (_ || _); [by injection He as <-|].
    destruct (indexBuffer_ g); [|done]. injection He as <-. by apply submitDraw_in_sync.
Qed.

Lemma run_in_sync cs g g' : renderTargetsInSync g -> run cs g = Some g' -> renderTargetsInSync g'.
Proof.
  revert g. induction cs as [|c cs IH]; intros g Hsync; cbn [run].
  - by intros [= <-].
  - destruct (exec c g) as [g1|] eqn:He; [|done]. cbn. eauto using exec_in_sync.
Qed.

(** X13.  In every state that calls reach from a new [Graphics], the
    render-target and depth-stencil views recorded as bound on the device
    are the ones [PrepareDraw] computes from the recorded render targets,
    depth-stencil and depth write, unless the dirty flag of the render
    targets is set: no change that affects the views leaves the flag
    clear. *)
Theorem render_target_views_in_sync (g : Graphics) :
  reachable g ->
  renderTargetsDirty_ g = false ->
  renderTargetViews_ (resolveRenderTargets g) = renderTargetViews_ g
  /\ depthStencilView_ (resolveRenderTargets g) = depthStencilView_ g.
Proof.
  intros (w & h & rtv & dsv & ts & ss & vbs & ibs & shs & cs & Hrun) Hclean.
  assert (Hsync : renderTargetsInSync g).
  { eapply run_in_sync; [|exact Hrun]. by apply renderTargetsInSync_dirty. }
  specialize (Hsync Hclean).
  split; [exact (eq_sym (f_equal fst Hsync))|exact (eq_sym (f_equal snd Hsync))].
Qed.

(** ** The shader resource views of the texture units *)

(** The textures recorded for the units, the views pushed for them, and the
    view of a texture. *)
Definition slotsView (tx : nat) (g : Graphics) :=
  (textures_ g, shaderResourceViews_ g, shaderResourceView_ (texture g tx)).

Lemma slotsView_eq tx g' g :
  slotsView tx g' = slotsView tx g ->
  textures_ g' = textures_ g
  /\ shaderResourceViews_ g' = shaderResourceViews_ g
  /\ shaderResourceView_ (texture g' tx) = shaderResourceView_ (texture g tx).
Proof.
  intros Hv. repeat split;
    [ exact (f_equal (fun v => v.1.1) Hv)
    | exact (f_equal (fun v => v.1.2) Hv)
    | exact (f_equal (fun v => v.2) Hv) ].
Qed.

Lemma deviceCall_slots tx c g : slotsView tx (deviceCall c g) = slotsView tx g.
Proof. reflexivity. Qed.
#[local] Hint Resolve deviceCall_slots : frame.

Lemma logError_slots tx msg g : slotsView tx (logError msg g) = slotsView tx g.
Proof. reflexivity. Qed.
#[local] Hint Resolve logError_slots : frame.

Lemma updSurface_slots tx s f g : slotsView tx (updSurface s f g) = slotsView tx g.
Proof. reflexivity. Qed.
#[local] Hint Resolve updSurface_slots : frame.

Lemma updShader_slots tx v f g : slotsView tx (updShader v f g) = slotsView tx g.
Proof. reflexivity. Qed.
#[local] Hint Resolve updShader_slots : frame.

Lemma updConstantBuffer_slots tx b f g :
  slotsView tx (updConstantBuffer b f g) = slotsView tx g.
Proof. reflexivity. Qed.
#[local] Hint Resolve updConstantBuffer_slots : frame.

Lemma updTexture_slots tx t f g :
  (forall x, shaderResourceView_ (f x) = shaderResourceView_ x) ->
  slotsView tx (updTexture t f g) = slotsView tx g.
Proof.
  intros Hf. unfold slotsView, updTexture, texture. record_simpl.
  destruct (decide (tx = t)) as [->|Hne].
  - by rewrite lookup_total_insert_eq, Hf.
  - by rewrite lookup_total_insert_ne.
Qed.
#[local] Hint Resolve updTexture_slots : frame.
#[local] Hint Extern 1 (forall x : Texture, shaderResourceView_ _ = _) =>
  intros; reflexivity : frame.
Lemma SetBlendMode_slots tx mode a g : slotsView tx (SetBlendMode mode a g) = slotsView tx g.
Proof. frame SetBlendMode. Qed.
#[local] Hint Resolve SetBlendMode_slots : frame.

Lemma SetColorWrite_slots tx enable g : slotsView tx (SetColorWrite enable g) = slotsView tx g.
Proof. frame SetColorWrite. Qed.
#[local] Hint Resolve SetColorWrite_slots : frame.

Lemma SetCullMode_slots tx mode g : slotsView tx (SetCullMode mode g) = slotsView tx g.
Proof. frame SetCullMode. Qed.
#[local] Hint Resolve SetCullMode_slots : frame.

Lemma SetDepthBias_slots tx c s g : slotsView tx (SetDepthBias c s g) = slotsView tx g.
Proof. frame SetDepthBias. Qed.
#[local] Hint Resolve SetDepthBias_slots : frame.

Lemma SetDepthTest_slots tx mode g : slotsView tx (SetDepthTest mode g) = slotsView tx g.
Proof. frame SetDepthTest. Qed.
#[local] Hint Resolve SetDepthTest_slots : frame.

Lemma SetDepthWrite_slots tx enable g : slotsView tx (SetDepthWrite enable g) = slotsView tx g.
Proof. frame SetDepthWrite. Qed.
#[local] Hint Resolve SetDepthWrite_slots : frame.

Lemma SetFillMode_slots tx mode g : slotsView tx (SetFillMode mode g) = slotsView tx g.
Proof. frame SetFillMode. Qed.
#[local] Hint Resolve SetFillMode_slots : frame.

Lemma SetLineAntiAlias_slots tx enable g :
  slotsView tx (SetLineAntiAlias enable g) = slotsView tx g.
Proof. frame SetLineAntiAlias. Qed.
#[local] Hint Resolve SetLineAntiAlias_slots : frame.

Lemma storeScissor_slots tx enable r g : slotsView tx (storeScissor enable r g) = slotsView tx g.
Proof. frame storeScissor. Qed.
#[local] Hint Resolve storeScissor_slots : frame.

Lemma SetScissorTest_slots tx enable rect b g :
  slotsView tx (SetScissorTest enable rect b g) = slotsView tx g.
Proof. frame SetScissorTest. Qed.
#[local] Hint Resolve SetScissorTest_slots : frame.

Lemma SetScissorTestInt_slots tx enable rect g :
  slotsView tx (SetScissorTestInt enable rect g) = slotsView tx g.
Proof. frame SetScissorTestInt. Qed.
#[local] Hint Resolve SetScissorTestInt_slots : frame.

Lemma SetViewport_slots tx rect g : slotsView tx (SetViewport rect g) = slotsView tx g.
Proof. frame SetViewport. Qed.
#[local] Hint Resolve SetViewport_slots : frame.

Lemma SetStencilTest_slots tx e m p f z r cm wm g :
  slotsView tx (SetStencilTest e m p f z r cm wm g) = slotsView tx g.
Proof. frame SetStencilTest. Qed.
#[local] Hint Resolve SetStencilTest_slots : frame.

Lemma SetDepthStencil_slots tx ds g : slotsView tx (SetDepthStencil ds g) = slotsView tx g.
Proof. frame SetDepthStencil. Qed.
#[local] Hint Resolve SetDepthStencil_slots : frame.

Lemma SetDepthStencilTexture_slots tx tex g :
  slotsView tx (SetDepthStencilTexture tex g) = slotsView tx g.
Proof. frame SetDepthStencilTexture. Qed.
#[local] Hint Resolve SetDepthStencilTexture_slots : frame.

Lemma SetIndexBuffer_slots tx b g : slotsView tx (SetIndexBuffer b g) = slotsView tx g.
Proof. frame SetIndexBuffer. Qed.
#[local] Hint Resolve SetIndexBuffer_slots : frame.

Lemma SetPrimitiveType_slots tx t g : slotsView tx (SetPrimitiveType t g) = slotsView tx g.
Proof. frame SetPrimitiveType. Qed.
#[local] Hint Resolve SetPrimitiveType_slots : frame.

Lemma UpdateParameters_slots tx t g : slotsView tx (UpdateParameters t g) = slotsView tx g.
Proof. frame UpdateParameters. Qed.
#[local] Hint Resolve UpdateParameters_slots : frame.

Lemma RegenerateLevels_slots tx t g : slotsView tx (RegenerateLevels t g) = slotsView tx g.
Proof. frame RegenerateLevels. Qed.
#[local] Hint Resolve RegenerateLevels_slots : frame.

Lemma SetLevelsDirty_slots tx t g : slotsView tx (SetLevelsDirty t g) = slotsView tx g.
Proof. frame SetLevelsDirty. Qed.
#[local] Hint Resolve SetLevelsDirty_slots : frame.

Lemma ResolveToTexture2D_slots tx t g : slotsView tx (ResolveToTexture2D t g) = slotsView tx g.
Proof. frame ResolveToTexture2D. Qed.
#[local] Hint Resolve ResolveToTexture2D_slots : frame.

Lemma ResolveToTextureCube_slots tx t g :
  slotsView tx (ResolveToTextureCube t g) = slotsView tx g.
Proof. frame ResolveToTextureCube. Qed.
#[local] Hint Resolve ResolveToTextureCube_slots : frame.

Lemma resolveMultisampled_slots tx t g : slotsView tx (resolveMultisampled t g) = slotsView tx g.
Proof. frame resolveMultisampled. Qed.
#[local] Hint Resolve resolveMultisampled_slots : frame.

Lemma SetVertexBuffers_stream_slots tx buffers off g i :
  slotsView tx (SetVertexBuffers_stream buffers off g i) = slotsView tx g.
Proof. frame SetVertexBuffers_stream. Qed.
#[local] Hint Resolve SetVertexBuffers_stream_slots : frame.

Lemma SetVertexBuffers_slots tx buffers off g :
  slotsView tx ((SetVertexBuffers buffers off g).1) = slotsView tx g.
Proof. frame SetVertexBuffers. Qed.
#[local] Hint Resolve SetVertexBuffers_slots : frame.

Lemma SetVertexBuffer_slots tx b g : slotsView tx (SetVertexBuffer b g) = slotsView tx g.
Proof. frame SetVertexBuffer. Qed.
#[local] Hint Resolve SetVertexBuffer_slots : frame.

Lemma ConstantBuffer_SetSize_slots tx b size g :
  slotsView tx ((ConstantBuffer_SetSize b size g).1) = slotsView tx g.
Proof. frame ConstantBuffer_SetSize. Qed.
#[local] Hint Resolve ConstantBuffer_SetSize_slots : frame.

Lemma ConstantBuffer_Apply_slots tx b g :
  slotsView tx (ConstantBuffer_Apply b g) = slotsView tx g.
Proof. frame ConstantBuffer_Apply. Qed.
#[local] Hint Resolve ConstantBuffer_Apply_slots : frame.

Lemma ConstantBuffer_SetParameter_slots tx b off data g :
  slotsView tx (ConstantBuffer_SetParameter b off data g) = slotsView tx g.
Proof. frame ConstantBuffer_SetParameter. Qed.
#[local] Hint Resolve ConstantBuffer_SetParameter_slots : frame.

Lemma GetOrCreateConstantBuffer_slots tx type index size g :
  slotsView tx ((GetOrCreateConstantBuffer type index size g).2) = slotsView tx g.
Proof. frame GetOrCreateConstantBuffer. Qed.
#[local] Hint Resolve GetOrCreateConstantBuffer_slots : frame.

Lemma createStageBuffers_slots tx type sizes g :
  slotsView tx ((createStageBuffers type sizes g).2) = slotsView tx g.
Proof. frame createStageBuffers. Qed.
#[local] Hint Resolve createStageBuffers_slots : frame.

Lemma ShaderProgram_new_slots tx vs ps g :
  slotsView tx ((ShaderProgram_new vs ps g).2) = slotsView tx g.
Proof. frame ShaderProgram_new. Qed.
#[local] Hint Resolve ShaderProgram_new_slots : frame.

Lemma ShaderVariation_Create_slots tx v g :
  slotsView tx ((ShaderVariation_Create v g).1) = slotsView tx g.
Proof. frame ShaderVariation_Create. Qed.
#[local] Hint Resolve ShaderVariation_Create_slots : frame.

Lemma createShaderNow_slots tx s msg g :
  slotsView tx ((createShaderNow s msg g).2) = slotsView tx g.
Proof. frame createShaderNow. Qed.
#[local] Hint Resolve createShaderNow_slots : frame.

Lemma SetShaderParameter_slots tx param data g :
  slotsView tx (SetShaderParameter param data g) = slotsView tx g.
Proof. frame SetShaderParameter. Qed.
#[local] Hint Resolve SetShaderParameter_slots : frame.

Lemma setVertexShader_slots tx vs g : slotsView tx (setVertexShader vs g) = slotsView tx g.
Proof. frame setVertexShader. Qed.
#[local] Hint Resolve setVertexShader_slots : frame.

Lemma setPixelShader_slots tx ps g : slotsView tx (setPixelShader ps g) = slotsView tx g.
Proof. frame setPixelShader. Qed.
#[local] Hint Resolve setPixelShader_slots : frame.

Lemma selectShaderProgram_slots tx g : slotsView tx (selectShaderProgram g) = slotsView tx g.
Proof. frame selectShaderProgram. Qed.
#[local] Hint Resolve selectShaderProgram_slots : frame.

Lemma adoptPipelineState_slots tx ps g :
  slotsView tx ((adoptPipelineState ps g).1) = slotsView tx g.
Proof. frame adoptPipelineState. Qed.
#[local] Hint Resolve adoptPipelineState_slots : frame.

Lemma SetShaders_slots tx vs ps g : slotsView tx (SetShaders vs ps g) = slotsView tx g.
Proof. frame SetShaders. Qed.
#[local] Hint Resolve SetShaders_slots : frame.

Lemma SetClipPlane_slots tx enable plane g :
  slotsView tx (SetClipPlane enable plane g) = slotsView tx g.
Proof. frame SetClipPlane. Qed.
#[local] Hint Resolve SetClipPlane_slots : frame.

Lemma resolveRenderTargets_slots tx g : slotsView tx (resolveRenderTargets g) = slotsView tx g.
Proof. frame resolveRenderTargets. Qed.
#[local] Hint Resolve resolveRenderTargets_slots : frame.

Lemma resolveVertexDeclaration_slots tx s :
  slotsView tx ((resolveVertexDeclaration s).1) = slotsView tx s.1.
Proof. frame resolveVertexDeclaration. Qed.
#[local] Hint Resolve resolveVertexDeclaration_slots : frame.

Lemma resolvePrimitiveType_slots tx s :
  slotsView tx ((resolvePrimitiveType s).1) = slotsView tx s.1.
Proof. frame resolvePrimitiveType. Qed.
#[local] Hint Resolve resolvePrimitiveType_slots : frame.

Lemma resolveBlendState_slots tx s : slotsView tx ((resolveBlendState s).1) = slotsView tx s.1.
Proof. frame resolveBlendState. Qed.
#[local] Hint Resolve resolveBlendState_slots : frame.

Lemma resolveDepthState_slots tx s : slotsView tx ((resolveDepthState s).1) = slotsView tx s.1.
Proof. frame resolveDepthState. Qed.
#[local] Hint Resolve resolveDepthState_slots : frame.

Lemma resolveRasterizerState_slots tx s :
  slotsView tx ((resolveRasterizerState s).1) = slotsView tx s.1.
Proof. frame resolveRasterizerState. Qed.
#[local] Hint Resolve resolveRasterizerState_slots : frame.

Lemma resolveStateHashes_slots tx g : slotsView tx ((resolveStateHashes g).1) = slotsView tx g.
Proof. frame resolveStateHashes. Qed.
#[local] Hint Resolve resolveStateHashes_slots : frame.

Lemma bindStageBuffers_slots tx type v buffers g :
  slotsView tx (bindStageBuffers type v buffers g) = slotsView tx g.
Proof. frame bindStageBuffers. Qed.
#[local] Hint Resolve bindStageBuffers_slots : frame.

Lemma buildPipelineState_slots tx g : slotsView tx ((buildPipelineState g).2) = slotsView tx g.
Proof. frame buildPipelineState. Qed.
#[local] Hint Resolve buildPipelineState_slots : frame.

Lemma resolvePipelineState_slots tx g :
  slotsView tx ((resolvePipelineState g).1) = slotsView tx g.
Proof. frame resolvePipelineState. Qed.
#[local] Hint Resolve resolvePipelineState_slots : frame.

Lemma resolvePipeline_slots tx g : slotsView tx ((resolvePipeline g).1) = slotsView tx g.
Proof. frame resolvePipeline. Qed.
#[local] Hint Resolve resolvePipeline_slots : frame.

Lemma commitTextures_slots tx changed g :
  slotsView tx (commitTextures changed g) = slotsView tx g.
Proof. frame commitTextures. Qed.
#[local] Hint Resolve commitTextures_slots : frame.

Lemma flushConstantBuffers_slots tx g : slotsView tx (flushConstantBuffers g) = slotsView tx g.
Proof. frame flushConstantBuffers. Qed.
#[local] Hint Resolve flushConstantBuffers_slots : frame.

Lemma bindDraw_slots tx s : slotsView tx (bindDraw s) = slotsView tx s.1.
Proof. frame bindDraw. Qed.
#[local] Hint Resolve bindDraw_slots : frame.

Lemma commitDraw_slots tx s : slotsView tx (commitDraw s) = slotsView tx s.1.
Proof. frame commitDraw. Qed.
#[local] Hint Resolve commitDraw_slots : frame.

Lemma PrepareDraw_slots tx g : slotsView tx (PrepareDraw g) = slotsView tx g.
Proof. frame PrepareDraw. Qed.
#[local] Hint Resolve PrepareDraw_slots : frame.

Lemma submitDraw_slots tx type call prims g :
  slotsView tx (submitDraw type call prims g) = slotsView tx g.
Proof. frame submitDraw. Qed.
#[local] Hint Resolve submitDraw_slots : frame.

Lemma Draw_slots tx type vs vc g : slotsView tx (Draw type vs vc g) = slotsView tx g.
Proof. frame Draw. Qed.
#[local] Hint Resolve Draw_slots : frame.


(** Every unit has the view of the texture recorded for it. *)
Definition unitsBound (g : Graphics) : Prop :=
  length (textures_ g) = MAX_TEXTURE_UNITS
  /\ length (shaderResourceViews_ g) = MAX_TEXTURE_UNITS
  /\ forall i,
       at_ (shaderResourceViews_ g) i
       = at_ (textures_ g) i ≫= (λ t, shaderResourceView_ (texture g t)).

Lemma unitsBound_view g g' :
  (forall tx, slotsView tx g' = slotsView tx g) -> unitsBound g -> unitsBound g'.
Proof.
  intros Hv (Ht & Hs & Hb).
  destruct (slotsView_eq _ _ _ (Hv 0%nat)) as (Ht' & Hs' & _).
  unfold unitsBound. rewrite Ht', Hs'. split; [done|]. split; [done|].
  intros i. rewrite Hb. destruct (at_ (textures_ g) i) as [t|]; [|done]. cbn.
  by destruct (slotsView_eq _ _ _ (Hv t)) as (_ & _ & ->).
Qed.

Lemma refreshTexture_view index tex g tx :
  shaderResourceViews_ (refreshTexture index tex g) = shaderResourceViews_ g
  /\ shaderResourceView_ (texture (refreshTexture index tex g) tx)
     = shaderResourceView_ (texture g tx).
Proof.
  unfold refreshTexture. destruct tex as [t|]; [|done]. cbv zeta.
  set (g1 := if levelsDirty_ (texture g t) then RegenerateLevels t g else g).
  assert (H1 : slotsView tx g1 = slotsView tx g).
  { subst g1. destruct (levelsDirty_ _); [apply RegenerateLevels_slots|done]. }
  clearbody g1. destruct (slotsView_eq _ _ _ H1) as (_ & <- & <-).
  destruct (GetParametersDirty (texture g1 t)); [|done].
  destruct (slotsView_eq _ _ _ (UpdateParameters_slots tx t g1)) as (_ & <- & <-).
  done.
Qed.

Lemma recordTexture_unitsBound index tex g0 :
  (index < MAX_TEXTURE_UNITS)%nat ->
  unitsBound g0 ->
  unitsBound (recordTexture index tex (refreshTexture index tex g0)).
Proof.
  intros Hi (Ht & Hs & Hb).
  pose proof (refreshTexture_length index tex g0) as Hlen.
  pose proof (fun j => refreshTexture_other index tex g0 j) as Hother.
  assert (Hsrv : shaderResourceViews_ (refreshTexture index tex g0) = shaderResourceViews_ g0)
    by apply (refreshTexture_view index tex g0 0).
  assert (Hview : forall tx,
             shaderResourceView_ (texture (refreshTexture index tex g0) tx)
             = shaderResourceView_ (texture g0 tx))
    by (intros tx; apply (refreshTexture_view index tex g0 tx)).
  pose proof (refreshTexture_textures index tex g0) as Hcases.
  set (g1 := refreshTexture index tex g0) in *. clearbody g1.
  unfold recordTexture.
  destruct (bool_decide_reflect (tex = at_ (textures_ g1) index)) as [He|He]; cbn [negb].
  - destruct Hcases as [Hsame|[Hsome Hnull]].
    + unfold unitsBound. rewrite Hsame, Hsrv. split; [done|]. split; [done|].
      intros i. rewrite Hb. destruct (at_ (textures_ g0) i); [cbn; by rewrite Hview|done].
    + exfalso. rewrite Hnull, at_insert in He by (rewrite Ht; exact Hi).
      destruct Hsome as [t ->]. done.
  - unfold unitsBound, texture. record_simpl. rewrite !length_insert.
    split; [by rewrite Hlen|]. split; [by rewrite Hsrv|]. intros i.
    assert (Hi1 : (index < length (textures_ g1))%nat) by (rewrite Hlen, Ht; exact Hi).
    assert (Hi2 : (index < length (shaderResourceViews_ g1))%nat)
      by (rewrite Hsrv, Hs; exact Hi).
    destruct (decide (i = index)) as [->|Hne].
    + rewrite !at_insert by assumption. done.
    + unfold at_ at 1 2. rewrite !list_lookup_insert_ne by done.
      fold (at_ (shaderResourceViews_ g1) i). fold (at_ (textures_ g1) i).
      rewrite Hsrv, Hb, Hother by done.
      destruct (at_ (textures_ g0) i) as [t|]; [|done]. cbn. symmetry. apply Hview.
Qed.

Lemma SetTexture_unitsBound index tex g : unitsBound g -> unitsBound (SetTexture index tex g).
Proof.
  intros Hb. unfold SetTexture. case_bool_decide as Hi; [done|]. cbv zeta.
  set (g0 := match tex with Some t => _ | None => g end).
  assert (H0 : unitsBound g0).
  { apply (unitsBound_view g); [|done]. intros tx. subst g0.
    destruct tex as [t|]; [|done]. destruct (isBoundRenderTarget t g); [done|].
    apply resolveMultisampled_slots. }
  clearbody g0. apply recordTexture_unitsBound; [lia|done].
Qed.

Lemma foldl_invariant {A B} (P : A -> Prop) (f : A -> B -> A) (l : list B) (a : A) :
  P a -> (forall a x, P a -> P (f a x)) -> P (foldl f a l).
Proof.
  intros Ha Hf. revert a Ha. induction l as [|x l IH]; intros a Ha; cbn; [done|].
  apply IH. by apply Hf.
Qed.

Lemma SetRenderTarget_unitsBound index rt g : unitsBound g -> unitsBound (SetRenderTarget index rt g).
Proof.
  intros Hb. unfold SetRenderTarget. case_bool_decide; [done|].
  case_bool_decide; cbn [negb]; [done|]. cbv zeta.
  set (g1 := g <| renderTargets_ := <[index := rt]> (renderTargets_ g) |>
               <| renderTargetsDirty_ := true |>).
  assert (H1 : unitsBound g1) by (apply (unitsBound_view g); [|done]; intros; reflexivity).
  clearbody g1. destruct rt as [s|]; [|done].
  set (parent := parentTexture_ (surface g1 s)). clearbody parent.
  set (g2 := foldl _ g1 (seq 0 MAX_TEXTURE_UNITS)).
  assert (H2 : unitsBound g2).
  { subst g2. apply (foldl_invariant unitsBound); [done|]. intros a i Ha.
    destruct (bool_decide _); [by apply SetTexture_unitsBound|done]. }
  clearbody g2.
  match goal with
  | |- unitsBound ?E => apply (unitsBound_view g2); [|done]; intros tx
  end.
  frame_rec (slotsView tx).
Qed.

Lemma at_replicate_None {A} (n i : nat) : at_ (replicate n (@None A)) i = None.
Proof.
  unfold at_. destruct (replicate n None !! i) as [x|] eqn:Hl; [|done].
  apply lookup_replicate in Hl as [-> _]. done.
Qed.

Lemma newGraphics_unitsBound width height rtv dsv textures surfaces vbs ibs shaders :
  unitsBound (newGraphics width height rtv dsv textures surfaces vbs ibs shaders).
Proof.
  assert (Ht : textures_ (newGraphics width height rtv dsv textures surfaces vbs ibs shaders)
               = replicate MAX_TEXTURE_UNITS None) by reflexivity.
  assert (Hs : shaderResourceViews_
                 (newGraphics width height rtv dsv textures surfaces vbs ibs shaders)
               = replicate MAX_TEXTURE_UNITS None) by reflexivity.
  unfold unitsBound. rewrite Ht, Hs, !length_replicate. split; [done|]. split; [done|].
  intros i. by rewrite !at_replicate_None.
Qed.

Lemma exec_unitsBound c g g' : unitsBound g -> exec c g = Some g' -> unitsBound g'.
Proof.
  intros Hb He.
  assert (Hsub : forall type call primitives, unitsBound (submitDraw type call primitives g)).
  { intros. apply (unitsBound_view g); [|done]. intros tx. apply submitDraw_slots. }
  destruct c; cbn [exec] in He;
    try (injection He as <-;
         solve [ apply (unitsBound_view g); [|done]; intros tx; frame_rec (slotsView tx) ]).
  - injection He as <-. by apply SetTexture_unitsBound.
  - injection He as <-. by apply SetRenderTarget_unitsBound.
  - injection He as <-. by apply SetRenderTarget_unitsBound.
  - unfold DrawIndexed in He. destruct (_ || _); [by injection He as <-|].
    destruct (indexBuffer_ g); [|done]. injection He as <-. apply Hsub.
  - unfold DrawIndexedBase in He. destruct (_ || _); [by injection He as <-|].
    destruct (indexBuffer_ g); [|done]. injection He as <-. apply Hsub.
  - unfold DrawInstanced in He. destruct (_ || _); [by injection He as <-|].
    destruct (indexBuffer_ g); [|done]. injection He as <-. apply Hsub.
  - unfold DrawInstancedBase in He. destruct (_ || _); [by injection He as <-|].
    destruct (indexBuffer_ g); [|done]. injection He as <-. apply Hsub.
Qed.

Lemma run_unitsBound cs g g' : unitsBound g -> run cs g = Some g' -> unitsBound g'.
Proof.
  revert g. induction cs as [|c cs IH]; intros g Hb; cbn [run].
  - by intros [= <-].
  - destruct (exec c g) as [g1|] eqn:He; [|done]. cbn. eauto using exec_unitsBound.
Qed.

(** X14.  In every state that calls reach from a new [Graphics], each
    texture unit holds the shader resource view of the texture recorded for
    it, and none for a unit without a texture: the view that [PrepareDraw]
    hands to the shader is never one of another texture. *)
Theorem texture_units_hold_views_of_their_textures (g : Graphics) :
  reachable g ->
  length (textures_ g) = MAX_TEXTURE_UNITS
  /\ length (shaderResourceViews_ g) = MAX_TEXTURE_UNITS
  /\ forall i,
       at_ (shaderResourceViews_ g) i
       = at_ (textures_ g) i ≫= (λ t, shaderResourceView_ (texture g t)).
Proof.
  intros (w & h & rtv & dsv & ts & ss & vbs & ibs & shs & cs & Hrun).
  eapply run_unitsBound; [|exact Hrun]. apply newGraphics_unitsBound.
Qed.

(** ** The dirty range of the vertex streams *)

Definition streamRange (g : Graphics) := (firstDirtyVB_ g, lastDirtyVB_ g).

(** The range is empty or lies within the streams. *)
Definition streamRangeValid (g : Graphics) : Prop :=
  (firstDirtyVB_ g = M_MAX_UNSIGNED /\ lastDirtyVB_ g = M_MAX_UNSIGNED)
  \/ (0 <= firstDirtyVB_ g <= lastDirtyVB_ g /\ lastDirtyVB_ g < Z.of_nat MAX_VERTEX_STREAMS).

Lemma streamRangeValid_view g g' :
  streamRange g' = streamRange g -> streamRangeValid g -> streamRangeValid g'.
Proof.
  intros Hv. unfold streamRangeValid.
  rewrite (f_equal fst Hv : firstDirtyVB_ g' = firstDirtyVB_ g).
  by rewrite (f_equal snd Hv : lastDirtyVB_ g' = lastDirtyVB_ g).
Qed.
Lemma deviceCall_range c g : streamRange (deviceCall c g) = streamRange g.
Proof. frame deviceCall. Qed.
#[local] Hint Resolve deviceCall_range : frame.

Lemma logError_range msg g : streamRange (logError msg g) = streamRange g.
Proof. frame logError. Qed.
#[local] Hint Resolve logError_range : frame.

Lemma updTexture_range t f g : streamRange (updTexture t f g) = streamRange g.
Proof. frame updTexture. Qed.
#[local] Hint Resolve updTexture_range : frame.

Lemma updSurface_range s f g : streamRange (updSurface s f g) = streamRange g.
Proof. frame updSurface. Qed.
#[local] Hint Resolve updSurface_range : frame.

Lemma updShader_range v f g : streamRange (updShader v f g) = streamRange g.
Proof. frame updShader. Qed.
#[local] Hint Resolve updShader_range : frame.

Lemma updConstantBuffer_range b f g : streamRange (updConstantBuffer b f g) = streamRange g.
Proof. frame updConstantBuffer. Qed.
#[local] Hint Resolve updConstantBuffer_range : frame.

Lemma SetBlendMode_range mode a g : streamRange (SetBlendMode mode a g) = streamRange g.
Proof. frame SetBlendMode. Qed.
#[local] Hint Resolve SetBlendMode_range : frame.

Lemma SetColorWrite_range enable g : streamRange (SetColorWrite enable g) = streamRange g.
Proof. frame SetColorWrite. Qed.
#[local] Hint Resolve SetColorWrite_range : frame.

Lemma SetCullMode_range mode g : streamRange (SetCullMode mode g) = streamRange g.
Proof. frame SetCullMode. Qed.
#[local] Hint Resolve SetCullMode_range : frame.

Lemma SetDepthBias_range c s g : streamRange (SetDepthBias c s g) = streamRange g.
Proof. frame SetDepthBias. Qed.
#[local] Hint Resolve SetDepthBias_range : frame.

Lemma SetDepthTest_range mode g : streamRange (SetDepthTest mode g) = streamRange g.
Proof. frame SetDepthTest. Qed.
#[local] Hint Resolve SetDepthTest_range : frame.

Lemma SetDepthWrite_range enable g : streamRange (SetDepthWrite enable g) = streamRange g.
Proof. frame SetDepthWrite. Qed.
#[local] Hint Resolve SetDepthWrite_range : frame.

Lemma SetFillMode_range mode g : streamRange (SetFillMode mode g) = streamRange g.
Proof. frame SetFillMode. Qed.
#[local] Hint Resolve SetFillMode_range : frame.

Lemma SetLineAntiAlias_range enable g : streamRange (SetLineAntiAlias enable g) = streamRange g.
Proof. frame SetLineAntiAlias. Qed.
#[local] Hint Resolve SetLineAntiAlias_range : frame.

Lemma storeScissor_range enable r g : streamRange (storeScissor enable r g) = streamRange g.
Proof. frame storeScissor. Qed.
#[local] Hint Resolve storeScissor_range : frame.

Lemma SetScissorTest_range enable rect b g :
  streamRange (SetScissorTest enable rect b g) = streamRange g.
Proof. frame SetScissorTest. Qed.
#[local] Hint Resolve SetScissorTest_range : frame.

Lemma SetScissorTestInt_range enable rect g :
  streamRange (SetScissorTestInt enable rect g) = streamRange g.
Proof. frame SetScissorTestInt. Qed.
#[local] Hint Resolve SetScissorTestInt_range : frame.

Lemma SetViewport_range rect g : streamRange (SetViewport rect g) = streamRange g.
Proof. frame SetViewport. Qed.
#[local] Hint Resolve SetViewport_range : frame.

Lemma SetStencilTest_range e m p f z r cm wm g :
  streamRange (SetStencilTest e m p f z r cm wm g) = streamRange g.
Proof. frame SetStencilTest. Qed.
#[local] Hint Resolve SetStencilTest_range : frame.

Lemma SetDepthStencil_range ds g : streamRange (SetDepthStencil ds g) = streamRange g.
Proof. frame SetDepthStencil. Qed.
#[local] Hint Resolve SetDepthStencil_range : frame.

Lemma SetDepthStencilTexture_range tex g :
  streamRange (SetDepthStencilTexture tex g) = streamRange g.
Proof. frame SetDepthStencilTexture. Qed.
#[local] Hint Resolve SetDepthStencilTexture_range : frame.

Lemma SetIndexBuffer_range b g : streamRange (SetIndexBuffer b g) = streamRange g.
Proof. frame SetIndexBuffer. Qed.
#[local] Hint Resolve SetIndexBuffer_range : frame.

Lemma SetPrimitiveType_range t g : streamRange (SetPrimitiveType t g) = streamRange g.
Proof. frame SetPrimitiveType. Qed.
#[local] Hint Resolve SetPrimitiveType_range : frame.

Lemma UpdateParameters_range t g : streamRange (UpdateParameters t g) = streamRange g.
Proof. frame UpdateParameters. Qed.
#[local] Hint Resolve UpdateParameters_range : frame.

Lemma RegenerateLevels_range t g : streamRange (RegenerateLevels t g) = streamRange g.
Proof. frame RegenerateLevels. Qed.
#[local] Hint Resolve RegenerateLevels_range : frame.

Lemma SetLevelsDirty_range t g : streamRange (SetLevelsDirty t g) = streamRange g.
Proof. frame SetLevelsDirty. Qed.
#[local] Hint Resolve SetLevelsDirty_range : frame.

Lemma ResolveToTexture2D_range t g : streamRange (ResolveToTexture2D t g) = streamRange g.
Proof. frame ResolveToTexture2D. Qed.
#[local] Hint Resolve ResolveToTexture2D_range : frame.

Lemma ResolveToTextureCube_range t g : streamRange (ResolveToTextureCube t g) = streamRange g.
Proof. frame ResolveToTextureCube. Qed.
#[local] Hint Resolve ResolveToTextureCube_range : frame.

Lemma resolveMultisampled_range t g : streamRange (resolveMultisampled t g) = streamRange g.
Proof. frame resolveMultisampled. Qed.
#[local] Hint Resolve resolveMultisampled_range : frame.

Lemma refreshTexture_range index tex g : streamRange (refreshTexture index tex g) = streamRange g.
Proof. frame refreshTexture. Qed.
#[local] Hint Resolve refreshTexture_range : frame.

Lemma recordTexture_range index tex g : streamRange (recordTexture index tex g) = streamRange g.
Proof. frame recordTexture. Qed.
#[local] Hint Resolve recordTexture_range : frame.

Lemma SetTexture_range index tex g : streamRange (SetTexture index tex g) = streamRange g.
Proof. frame SetTexture. Qed.
#[local] Hint Resolve SetTexture_range : frame.

Lemma SetRenderTarget_range index rt g : streamRange (SetRenderTarget index rt g) = streamRange g.
Proof. frame SetRenderTarget. Qed.
#[local] Hint Resolve SetRenderTarget_range : frame.

Lemma SetRenderTargetTexture_range index tex g :
  streamRange (SetRenderTargetTexture index tex g) = streamRange g.
Proof. frame SetRenderTargetTexture. Qed.
#[local] Hint Resolve SetRenderTargetTexture_range : frame.

Lemma ConstantBuffer_SetSize_range b size g :
  streamRange ((ConstantBuffer_SetSize b size g).1) = streamRange g.
Proof. frame ConstantBuffer_SetSize. Qed.
#[local] Hint Resolve ConstantBuffer_SetSize_range : frame.

Lemma ConstantBuffer_Apply_range b g : streamRange (ConstantBuffer_Apply b g) = streamRange g.
Proof. frame ConstantBuffer_Apply. Qed.
#[local] Hint Resolve ConstantBuffer_Apply_range : frame.

Lemma ConstantBuffer_SetParameter_range b off data g :
  streamRange (ConstantBuffer_SetParameter b off data g) = streamRange g.
Proof. frame ConstantBuffer_SetParameter. Qed.
#[local] Hint Resolve ConstantBuffer_SetParameter_range : frame.

Lemma GetOrCreateConstantBuffer_range type index size g :
  streamRange ((GetOrCreateConstantBuffer type index size g).2) = streamRange g.
Proof. frame GetOrCreateConstantBuffer. Qed.
#[local] Hint Resolve GetOrCreateConstantBuffer_range : frame.

Lemma createStageBuffers_range type sizes g :
  streamRange ((createStageBuffers type sizes g).2) = streamRange g.
Proof. frame createStageBuffers. Qed.
#[local] Hint Resolve createStageBuffers_range : frame.

Lemma ShaderProgram_new_range vs ps g :
  streamRange ((ShaderProgram_new vs ps g).2) = streamRange g.
Proof. frame ShaderProgram_new. Qed.
#[local] Hint Resolve ShaderProgram_new_range : frame.

Lemma ShaderVariation_Create_range v g :
  streamRange ((ShaderVariation_Create v g).1) = streamRange g.
Proof. frame ShaderVariation_Create. Qed.
#[local] Hint Resolve ShaderVariation_Create_range : frame.

Lemma createShaderNow_range s msg g : streamRange ((createShaderNow s msg g).2) = streamRange g.
Proof. frame createShaderNow. Qed.
#[local] Hint Resolve createShaderNow_range : frame.

Lemma SetShaderParameter_range param data g :
  streamRange (SetShaderParameter param data g) = streamRange g.
Proof. frame SetShaderParameter. Qed.
#[local] Hint Resolve SetShaderParameter_range : frame.

Lemma setVertexShader_range vs g : streamRange (setVertexShader vs g) = streamRange g.
Proof. frame setVertexShader. Qed.
#[local] Hint Resolve setVertexShader_range : frame.

Lemma setPixelShader_range ps g : streamRange (setPixelShader ps g) = streamRange g.
Proof. frame setPixelShader. Qed.
#[local] Hint Resolve setPixelShader_range : frame.

Lemma selectShaderProgram_range g : streamRange (selectShaderProgram g) = streamRange g.
Proof. frame selectShaderProgram. Qed.
#[local] Hint Resolve selectShaderProgram_range : frame.

Lemma adoptPipelineState_range ps g : streamRange ((adoptPipelineState ps g).1) = streamRange g.
Proof. frame adoptPipelineState. Qed.
#[local] Hint Resolve adoptPipelineState_range : frame.

Lemma SetShaders_range vs ps g : streamRange (SetShaders vs ps g) = streamRange g.
Proof. frame SetShaders. Qed.
#[local] Hint Resolve SetShaders_range : frame.

Lemma SetClipPlane_range enable plane g :
  streamRange (SetClipPlane enable plane g) = streamRange g.
Proof. frame SetClipPlane. Qed.
#[local] Hint Resolve SetClipPlane_range : frame.

Lemma resolveRenderTargets_range g : streamRange (resolveRenderTargets g) = streamRange g.
Proof. frame resolveRenderTargets. Qed.
#[local] Hint Resolve resolveRenderTargets_range : frame.

Lemma resolvePrimitiveType_range s : streamRange ((resolvePrimitiveType s).1) = streamRange s.1.
Proof. frame resolvePrimitiveType. Qed.
#[local] Hint Resolve resolvePrimitiveType_range : frame.

Lemma resolveBlendState_range s : streamRange ((resolveBlendState s).1) = streamRange s.1.
Proof. frame resolveBlendState. Qed.
#[local] Hint Resolve resolveBlendState_range : frame.

Lemma resolveDepthState_range s : streamRange ((resolveDepthState s).1) = streamRange s.1.
Proof. frame resolveDepthState. Qed.
#[local] Hint Resolve resolveDepthState_range : frame.

Lemma resolveRasterizerState_range s :
  streamRange ((resolveRasterizerState s).1) = streamRange s.1.
Proof. frame resolveRasterizerState. Qed.
#[local] Hint Resolve resolveRasterizerState_range : frame.

Lemma bindStageBuffers_range type v buffers g :
  streamRange (bindStageBuffers type v buffers g) = streamRange g.
Proof. frame bindStageBuffers. Qed.
#[local] Hint Resolve bindStageBuffers_range : frame.

Lemma buildPipelineState_range g : streamRange ((buildPipelineState g).2) = streamRange g.
Proof. frame buildPipelineState. Qed.
#[local] Hint Resolve buildPipelineState_range : frame.

Lemma resolvePipelineState_range g : streamRange ((resolvePipelineState g).1) = streamRange g.
Proof. frame resolvePipelineState. Qed.
#[local] Hint Resolve resolvePipelineState_range : frame.

Lemma commitTextures_range changed g : streamRange (commitTextures changed g) = streamRange g.
Proof. frame commitTextures. Qed.
#[local] Hint Resolve commitTextures_range : frame.

Lemma flushConstantBuffers_range g : streamRange (flushConstantBuffers g) = streamRange g.
Proof. frame flushConstantBuffers. Qed.
#[local] Hint Resolve flushConstantBuffers_range : frame.

Lemma bindDraw_range s : streamRange (bindDraw s) = streamRange s.1.
Proof. frame bindDraw. Qed.
#[local] Hint Resolve bindDraw_range : frame.

Lemma commitDraw_range s : streamRange (commitDraw s) = streamRange s.1.
Proof. frame commitDraw. Qed.
#[local] Hint Resolve commitDraw_range : frame.


Lemma SetVertexBuffers_stream_valid buffers instanceOffset g i :
  (i < MAX_VERTEX_STREAMS)%nat ->
  streamRangeValid g -> streamRangeValid (SetVertexBuffers_stream buffers instanceOffset g i).
Proof.
  intros Hi Hvalid. unfold SetVertexBuffers_stream.
  destruct (streamChanged buffers instanceOffset g i); [|done]. cbv zeta.
  set (g1 := match streamBuffer buffers i with Some _ => _ | None => _ end).
  assert (H1 : streamRange g1 = streamRange g) by (subst g1; by destruct (streamBuffer _ _)).
  pose proof (streamRangeValid_view g g1 H1 Hvalid) as Hvalid1. clear Hvalid H1.
  clearbody g1. rename Hvalid1 into Hvalid.
  unfold streamRangeValid in *. record_simpl. unfold extendDirtyRange.
  destruct (Z.eqb_spec (firstDirtyVB_ g1) M_MAX_UNSIGNED) as [He|Hne]; cbn [fst snd].
  - right. lia.
  - right. destruct Hvalid as [[? ?]|Hrange]; [done|].
    destruct (Z.ltb_spec (Z.of_nat i) (firstDirtyVB_ g1)),
             (Z.ltb_spec (lastDirtyVB_ g1) (Z.of_nat i)); lia.
Qed.

Lemma SetVertexBuffers_valid buffers instanceOffset g :
  streamRangeValid g -> streamRangeValid (SetVertexBuffers buffers instanceOffset g).1.
Proof.
  intros Hvalid. unfold SetVertexBuffers. case_bool_decide; cbn [fst]; [done|].
  assert (Hloop : forall n s g,
             (s + n <= MAX_VERTEX_STREAMS)%nat -> streamRangeValid g ->
             streamRangeValid
               (foldl (SetVertexBuffers_stream buffers instanceOffset) g (seq s n))).
  { clear. induction n as [|n IH]; intros s g Hs Hvalid; cbn [seq foldl]; [done|].
    apply IH; [lia|]. apply SetVertexBuffers_stream_valid; [lia|done]. }
  by apply Hloop.
Qed.

(** The vertex-buffer block of [PrepareDraw] leaves the range as it is or
    empties it. *)
Lemma resolveVertexDeclaration_valid s :
  streamRangeValid s.1 -> streamRangeValid (resolveVertexDeclaration s).1.
Proof.
  intros Hvalid. unfold resolveVertexDeclaration. cbv zeta.
  destruct (_ && _); [|done].
  set (g1 := if firstDirtyVB_ s.1 <? M_MAX_UNSIGNED then _ else s.1).
  assert (H1 : streamRangeValid g1).
  { subst g1. destruct (_ <? _); [|done]. left. by record_simpl. }
  clearbody g1. by destruct (_ && _).
Qed.

Lemma resolveStateHashes_valid g :
  streamRangeValid g -> streamRangeValid (resolveStateHashes g).1.
Proof.
  intros Hvalid. unfold resolveStateHashes. cbv zeta. cbn [fst].
  set (s0 := (g, vertexShaderDirty_ g || pixelShaderDirty_ g)).
  pose proof (resolveVertexDeclaration_valid s0 Hvalid) as H1.
  set (s1 := resolveVertexDeclaration s0) in *. clearbody s1.
  match goal with
  | |- streamRangeValid ?E => apply (streamRangeValid_view s1.1); [|done]
  end.
  assert (Hskip : forall h, streamRange (h <| vertexShaderDirty_ := false |>
                                           <| pixelShaderDirty_ := false |>) = streamRange h)
    by reflexivity.
  rewrite Hskip, resolveRasterizerState_range, resolveDepthState_range,
    resolveBlendState_range, resolvePrimitiveType_range. done.
Qed.

Lemma resolvePipeline_valid g :
  streamRangeValid g -> streamRangeValid (resolvePipeline g).1.
Proof.
  intros Hvalid. unfold resolvePipeline. destruct (anyStateDirty g); [|done]. cbv zeta.
  pose proof (resolveStateHashes_valid g Hvalid) as H1.
  set (s := resolveStateHashes g) in *. clearbody s.
  destruct s.2; [|done].
  apply (streamRangeValid_view s.1); [|done]. apply resolvePipelineState_range.
Qed.

Lemma PrepareDraw_valid g : streamRangeValid g -> streamRangeValid (PrepareDraw g).
Proof.
  intros Hvalid. unfold PrepareDraw. cbv zeta.
  set (g1 := if renderTargetsDirty_ g then resolveRenderTargets g else g).
  assert (H1 : streamRangeValid g1).
  { apply (streamRangeValid_view g); [|done]. subst g1.
    destruct (renderTargetsDirty_ g); [apply resolveRenderTargets_range|done]. }
  clearbody g1. destruct (_ || _); [done|].
  pose proof (resolvePipeline_valid g1 H1) as H2.
  set (s := resolvePipeline g1) in *. clearbody s.
  apply (streamRangeValid_view s.1); [|done]. apply commitDraw_range.
Qed.

Lemma submitDraw_valid type call primitives g :
  streamRangeValid g -> streamRangeValid (submitDraw type call primitives g).
Proof.
  intros Hvalid. unfold submitDraw. cbv zeta.
  set (g1 := SetPrimitiveType _ g).
  assert (H1 : streamRangeValid g1).
  { apply (streamRangeValid_view g); [|done]. apply SetPrimitiveType_range. }
  clearbody g1. pose proof (PrepareDraw_valid g1 H1) as H2.
  set (g2 := PrepareDraw g1) in *. clearbody g2.
  apply (streamRangeValid_view g2); [|done]. reflexivity.
Qed.

Lemma exec_valid c g g' : streamRangeValid g -> exec c g = Some g' -> streamRangeValid g'.
Proof.
  intros Hvalid He.
  destruct c; cbn [exec] in He;
    try (injection He as <-;
         solve [ apply (streamRangeValid_view g); [|done]; frame_rec streamRange ]).
  - injection He as <-. by apply SetVertexBuffers_valid.
  - injection He as <-. by apply PrepareDraw_valid.
  - injection He as <-. unfold Draw. destruct (_ || _); [done|by apply submitDraw_valid].
  - unfold DrawIndexed in He. destruct (_ || _); [by injection He as <-|].
    destruct (indexBuffer_ g); [|done]. injection He as <-. by apply submitDraw_valid.
  - unfold DrawIndexedBase in He. destruct (_ || _); [by injection He as <-|].
    destruct (indexBuffer_ g); [|done]. injection He as <-. by apply submitDraw_valid.
  - unfold DrawInstanced in He. destruct (_ || _); [by injection He as <-|].
    destruct (indexBuffer_ g); [|done]. injection He as <-. by apply submitDraw_valid.
  - unfold DrawInstancedBase in He. destruct (_ || _); [by injection He as <-|].
    destruct (indexBuffer_ g); [|done]. injection He as <-. by apply submitDraw_valid.
Qed.

Lemma run_valid cs g g' : streamRangeValid g -> run cs g = Some g' -> streamRangeValid g'.
Proof.
  revert g. induction cs as [|c cs IH]; intros g Hvalid; cbn [run].
  - by intros [= <-].
  - destruct (exec c g) as [g1|] eqn:He; [|done]. cbn. eauto using exec_valid.
Qed.

(** X15.  In every state that calls reach from a new [Graphics], the dirty
    range of the vertex streams is empty or lies within the streams.  The
    vertex-buffer call that [PrepareDraw] makes for a dirty vertex
    declaration therefore names at least one stream and none at or beyond
    [MAX_VERTEX_STREAMS]. *)
Theorem dirty_vertex_streams_within_limit (g : Graphics) (pipelineStateDirty : bool) :
  reachable g ->
  Z.of_nat MAX_VERTEX_STREAMS <= M_MAX_UNSIGNED ->
  ((firstDirtyVB_ g = M_MAX_UNSIGNED /\ lastDirtyVB_ g = M_MAX_UNSIGNED)
   \/ (0 <= firstDirtyVB_ g <= lastDirtyVB_ g /\ lastDirtyVB_ g < Z.of_nat MAX_VERTEX_STREAMS))
  /\ (vertexDeclarationDirty_ g = true -> is_Some (vertexShader_ g) ->
      firstDirtyVB_ g <> M_MAX_UNSIGNED ->
      exists count,
        1 <= count /\ firstDirtyVB_ g + count <= Z.of_nat MAX_VERTEX_STREAMS
        /\ deviceTrace (resolveVertexDeclaration (g, pipelineStateDirty)).1
           = deviceTrace g
             ++ [DevSetVertexBuffers (firstDirtyVB_ g) count
                   (take (Z.to_nat count)
                      (drop (Z.to_nat (firstDirtyVB_ g)) (impl_vertexBuffers_ g)))
                   (take (Z.to_nat count)
                      (drop (Z.to_nat (firstDirtyVB_ g)) (vertexOffsets_ g)))]).
Proof.
  intros (w & h & rtv & dsv & ts & ss & vbs & ibs & shs & cs & Hrun) Hmax.
  assert (Hvalid : streamRangeValid g).
  { eapply run_valid; [|exact Hrun]. left. split; reflexivity. }
  split; [exact Hvalid|]. intros Hdirty Hshader Hfirst.
  destruct Hvalid as [[? ?]|Hrange]; [done|].
  exists (lastDirtyVB_ g - firstDirtyVB_ g + 1). split; [lia|]. split; [lia|].
  unfold resolveVertexDeclaration. cbv zeta. cbn [fst snd].
  rewrite Hdirty, bool_decide_eq_true_2 by done. cbn [andb].
  assert (Hlt : (firstDirtyVB_ g <? M_MAX_UNSIGNED) = true) by (apply Z.ltb_lt; lia).
  rewrite Hlt.
  assert (Hwrap : wrap32 (lastDirtyVB_ g - firstDirtyVB_ g + 1)
                  = lastDirtyVB_ g - firstDirtyVB_ g + 1).
  { unfold wrap32. apply Z.mod_small. unfold M_MAX_UNSIGNED in *. lia. }
  rewrite Hwrap.
  set (g1 := _ <| firstDirtyVB_ := M_MAX_UNSIGNED |> <| lastDirtyVB_ := M_MAX_UNSIGNED |>).
  assert (Htrace : deviceTrace g1
                   = deviceTrace g
                     ++ [DevSetVertexBuffers (firstDirtyVB_ g)
                           (lastDirtyVB_ g - firstDirtyVB_ g + 1)
                           (take (Z.to_nat (lastDirtyVB_ g - firstDirtyVB_ g + 1))
                              (drop (Z.to_nat (firstDirtyVB_ g)) (impl_vertexBuffers_ g)))
                           (take (Z.to_nat (lastDirtyVB_ g - firstDirtyVB_ g + 1))
                              (drop (Z.to_nat (firstDirtyVB_ g)) (vertexOffsets_ g)))])
    by reflexivity.
  clearbody g1. by destruct (_ && _).
Qed.

End Diligent.

(** * A concrete platform and scene

    The statements above hold for every platform.  The lemmas below run the
    model on one: numbers with an integer image stand for [float]s (so that
    [(int)(x * k)] is the product), the array bounds are those of a desktop
    build, and the device never fails. *)

#[global] Instance samplePlatform : Platform :=
  {| float := Z;
     float_ne := fun a b => negb (a =? b);
     float_scaled_to_int := fun x k => x * k;
     float_le_zero := fun x => x <=? 0;
     float_ge_one := fun x => 1 <=? x;
     float_to_pixels := fun neg x size => ((if neg then - x else x) + 1) * size / 2;
     float_zero := 0;
     Rect_FULL := mkRect (-1) (-1) 1 1;
     MAX_VERTEX_STREAMS := 4;
     MAX_TEXTURE_UNITS := 16;
     MAX_RENDERTARGETS := 4;
     MAX_SHADER_PARAMETER_GROUPS := 7;
     VSP_CLIPPLANE := 77;
     deviceSucceeds := fun _ => true |}.

(** Texture 1 is a render-target texture whose backup is texture 2; texture 3
    has no GPU object yet, so it never gets a sampler. *)
Definition sampleTextures : gmap nat Texture :=
  {[ 1%nat := mkTexture (Some 2%nat) 1 false false false true None (Some 31%nat)
                (Some 41%nat) None 1 KindTexture2D 28 (Some 5%nat) [];
     2%nat := mkTexture None 1 false false false true None (Some 32%nat)
                (Some 42%nat) None 1 KindTexture2D 28 None [];
     3%nat := mkTexture None 1 false false false true None None
                None None 1 KindTexture2D 28 None [] ]}.

Definition sampleSurfaces : gmap nat RenderSurface :=
  {[ 5%nat := mkRenderSurface 1 TEXTURE_RENDERTARGET 256 256 false (Some 51%nat) None ]}.

Definition sampleVertexBuffers : gmap nat VertexBuffer :=
  {[ 7%nat := mkVertexBuffer [mkVertexElement 3 0 0 false 0] 12 (Some 71%nat)
                (fun slot => Z.shiftl 5 (16 * Z.of_nat slot)) ]}.

Definition sampleIndexBuffers : gmap nat IndexBuffer :=
  {[ 8%nat := mkIndexBuffer 2 (Some 81%nat) ]}.

(** Both shaders are compiled; each has one constant buffer of 16 bytes for
    parameter group 0, and the pixel shader samples texture unit 0. *)
Definition sampleShaders : gmap nat ShaderVariation :=
  {[ 10%nat := mkShaderVariation (Some 11%nat) true (Some 11%nat, true) None [16]
                 ["CameraVS"%string] {[ 5 := mkShaderParameter VS 0 0 None ]} [];
     20%nat := mkShaderVariation (Some 21%nat) true (Some 21%nat, true) None [16]
                 ["MaterialPS"%string] {[ 6 := mkShaderParameter PS 0 4 None ]}
                 [(0, 100%nat)] ]}.

Definition sampleGraphics : Graphics :=
  newGraphics 800 600 (Some 1%nat) (Some 2%nat) sampleTextures sampleSurfaces
    sampleVertexBuffers sampleIndexBuffers sampleShaders.

(** The sample state after [calls]; the sample state itself should a call
    have no result. *)
Definition sampleAfter (calls : list Call) : Graphics :=
  default sampleGraphics (run calls sampleGraphics).

(** Shaders, a vertex buffer and an index buffer are bound. *)
Definition boundState : Graphics :=
  sampleAfter [CSetShaders (Some 10%nat) (Some 20%nat);
               CSetVertexBuffers [Some 7%nat] 0;
               CSetIndexBuffer (Some 8%nat)].

(** An optional result that is present is [Some] of what [default] reads
    from it. *)
Lemma Some_default {A} (o : option A) (d : A) :
  match o with Some _ => true | None => false end = true -> o = Some (default d o).
Proof. by destruct o. Qed.

(** C7, the claim as stated fails: with a shader program and an index buffer
    bound, [DrawInstanced] called with a vertex count of zero (3 indices, 1
    instance) does not return at once; it draws and counts. *)
Lemma DrawInstanced_draws_with_zero_vertex_count :
  exists g',
    DrawInstanced TRIANGLE_LIST 0 3 0 0 1 boundState = Some g'
    /\ numBatches_ g' = numBatches_ boundState + 1
    /\ numPrimitives_ g' = numPrimitives_ boundState + 1
    /\ last (deviceTrace g') = Some (DevDrawIndexed 2 0 3 0 1).
Proof.
  exists (default boundState (DrawInstanced TRIANGLE_LIST 0 3 0 0 1 boundState)).
  split; [apply Some_default; vm_compute; reflexivity|].
  repeat split; vm_compute; reflexivity.
Qed.

Lemma refused_draw_witness :
  exec (CDrawInstanced TRIANGLE_LIST 0 0 0 3 1) boundState = Some boundState.
Proof. apply refused_draw_changes_nothing. left. reflexivity. Defined.

Lemma primitive_counting_witness :
  numPrimitives_ (Draw TRIANGLE_STRIP 0 5 boundState)
  = wrap32 (numPrimitives_ boundState + 3).
Proof.
  refine (proj1 (proj2 (primitive_counting boundState 0 _ _))).
  - vm_compute. eauto.
  - vm_compute. reflexivity.
Defined.


(** The state after [calls] from [g]; [g] itself should a call have no
    result. *)
Definition after (g : Graphics) (calls : list Call) : Graphics :=
  default g (run calls g).

Lemma run_app (cs1 cs2 : list Call) (g : Graphics) :
  run (cs1 ++ cs2) g = run cs1 g ≫= run cs2.
Proof.
  revert g. induction cs1 as [|c cs1 IH]; intros g; cbn; [done|].
  destruct (exec c g); cbn; [apply IH|done].
Qed.

Lemma exec_after (c : Call) (g : Graphics) :
  match exec c g with Some _ => true | None => false end = true ->
  exec c g = Some (after g [c]).
Proof. unfold after. cbn [run]. by destruct (exec c g). Qed.

Lemma reachable_after (g : Graphics) (cs : list Call) :
  reachable g ->
  match run cs g with Some _ => true | None => false end = true ->
  reachable (after g cs).
Proof.
  intros (w & h & rtv & dsv & ts & ss & vbs & ibs & shs & cs0 & Hrun) Hcs.
  exists w, h, rtv, dsv, ts, ss, vbs, ibs, shs, (cs0 ++ cs).
  rewrite run_app, Hrun. cbn. by apply Some_default.
Qed.

Lemma boundState_reachable : reachable boundState.
Proof.
  exists 800, 600, (Some 1%nat), (Some 2%nat), sampleTextures, sampleSurfaces,
    sampleVertexBuffers, sampleIndexBuffers, sampleShaders,
    [CSetShaders (Some 10%nat) (Some 20%nat); CSetVertexBuffers [Some 7%nat] 0;
     CSetIndexBuffer (Some 8%nat)].
  vm_compute. reflexivity.
Defined.

Lemma boundState_keepsDepthBits : reachableKeepingDepthBits boundState.
Proof.
  exists 800, 600, (Some 1%nat), (Some 2%nat), sampleTextures, sampleSurfaces,
    sampleVertexBuffers, sampleIndexBuffers, sampleShaders,
    [CSetShaders (Some 10%nat) (Some 20%nat); CSetVertexBuffers [Some 7%nat] 0;
     CSetIndexBuffer (Some 8%nat)].
  split; vm_compute; reflexivity.
Defined.

(** *** The cache key *)

(** The cull mode is changed and changed back between two draws. *)
Definition cullToggled : Graphics :=
  after (PrepareDraw boundState) [CSetCullMode CULL_CW; CSetCullMode CULL_CCW].

Lemma cache_key_determinism_witness :
  currentPipelineState_ (PrepareDraw cullToggled)
  = currentPipelineState_ (PrepareDraw boundState).
Proof.
  refine (proj1 (cache_key_determinism boundState
                   [CSetCullMode CULL_CW; CSetCullMode CULL_CCW] cullToggled
                   boundState_reachable _ _ _ _)).
  - vm_compute. eauto.
  - vm_compute. eauto.
  - unfold cullToggled, after. apply Some_default. vm_compute. reflexivity.
  - vm_compute. reflexivity.
Defined.

(** Three draws: with the cull mode of a new [Graphics], with the opposite
    one, and with the first one again. *)
Definition drawnCCW : Graphics := after boundState [CDraw TRIANGLE_LIST 0 3].
Definition drawnCW : Graphics :=
  after drawnCCW [CSetCullMode CULL_CW; CDraw TRIANGLE_LIST 0 3].
Definition drawnCCWAgain : Graphics :=
  after drawnCW [CSetCullMode CULL_CCW; CDraw TRIANGLE_LIST 0 3].

(** Two draws between which only the upper bits of the stencil compare mask
    change. *)
Definition drawnMaskFull : Graphics :=
  after boundState
    [CSetStencilTest true CMP_ALWAYS OP_KEEP OP_KEEP OP_KEEP 0 4294967295 4294967295;
     CDraw TRIANGLE_LIST 0 3].
Definition drawnMaskByte : Graphics :=
  after drawnMaskFull
    [CSetStencilTest true CMP_ALWAYS OP_KEEP OP_KEEP OP_KEEP 0 255 4294967295;
     CDraw TRIANGLE_LIST 0 3].

(** C2, the claim as stated fails.  Changing the stencil compare mask from
    [0xFFFFFFFF] to [0xFF] between two draws changes neither the key nor the
    number of pipelines built; and changing the cull mode back to a value
    that was drawn with before changes the key but builds no pipeline. *)
Lemma changed_field_without_new_pipeline :
  (stencilCompareMask_ drawnMaskByte <> stencilCompareMask_ drawnMaskFull
   /\ numBatches_ drawnMaskByte = numBatches_ drawnMaskFull + 1
   /\ pipelineKey drawnMaskByte = pipelineKey drawnMaskFull
   /\ pipelineBuilds drawnMaskByte = pipelineBuilds drawnMaskFull)
  /\ (cullMode_ drawnCCWAgain <> cullMode_ drawnCW
      /\ numBatches_ drawnCCWAgain = numBatches_ drawnCW + 1
      /\ pipelineKey drawnCCWAgain <> pipelineKey drawnCW
      /\ pipelineBuilds drawnCCWAgain = pipelineBuilds drawnCW).
Proof. vm_compute. repeat split; congruence. Qed.

Lemma cache_key_sensitivity_witness :
  pipelineKey (PrepareDraw (after (PrepareDraw boundState)
                              [CSetScissorTestInt true (mkIntRect 10 10 100 100)]))
  <> pipelineKey (PrepareDraw boundState).
Proof.
  refine (proj1 (cache_key_sensitivity boundState
                   (CSetScissorTestInt true (mkIntRect 10 10 100 100))
                   (after (PrepareDraw boundState)
                      [CSetScissorTestInt true (mkIntRect 10 10 100 100)])
                   boundState_keepsDepthBits _ _ _ _) _).
  - vm_compute. eauto.
  - vm_compute. eauto.
  - reflexivity.
  - apply exec_after. vm_compute. reflexivity.
  - vm_compute. congruence.
Defined.

(** *** A depth-stencil surface of another resolution

    A platform whose floats are fixed-point numbers with 24 fractional
    bits, so that a constant bias of one 24-bit depth step scales to 1 at 24
    bits and to 0 at 16 bits. *)
Definition fixedPointPlatform : Platform :=
  {| float := Z;
     float_ne := fun a b => negb (a =? b);
     float_scaled_to_int := fun x k => Z.quot (x * k) 16777216;
     float_le_zero := fun x => x <=? 0;
     float_ge_one := fun x => 16777216 <=? x;
     float_to_pixels := fun neg x size =>
       Z.quot (((if neg then - x else x) + 16777216) * size) 33554432;
     float_zero := 0;
     Rect_FULL := mkRect (-16777216) (-16777216) 16777216 16777216;
     MAX_VERTEX_STREAMS := 4;
     MAX_TEXTURE_UNITS := 16;
     MAX_RENDERTARGETS := 4;
     MAX_SHADER_PARAMETER_GROUPS := 7;
     VSP_CLIPPLANE := 77;
     deviceSucceeds := fun _ => true |}.

Section FixedPointBias.

#[local] Existing Instance fixedPointPlatform.

(** Texture 9 is a depth texture of 16 bits; surface 90 is its surface. *)
Definition depthTextures : gmap nat Texture :=
  {[ 9%nat := mkTexture None 1 false false false true None (Some 39%nat)
                (Some 49%nat) None 1 KindTexture2D DXGI_FORMAT_R16_TYPELESS
                (Some 90%nat) [] ]}.

Definition depthSurfaces : gmap nat RenderSurface :=
  {[ 90%nat := mkRenderSurface 9 TEXTURE_DEPTHSTENCIL 800 600 false (Some 91%nat) None ]}.

(** A draw with a constant bias of one step at 24 bits, then surface 90 as
    depth-stencil. *)
Definition depthCalls : list Call :=
  [CSetShaders (Some 10%nat) (Some 20%nat); CSetVertexBuffers [Some 7%nat] 0;
   CSetDepthBias 1 0; CDraw TRIANGLE_LIST 0 3; CSetDepthStencil (Some 90%nat)].

Definition depthScene : Graphics :=
  newGraphics 800 600 (Some 1%nat) (Some 2%nat) depthTextures depthSurfaces
    sampleVertexBuffers sampleIndexBuffers sampleShaders.

Definition depthStencil16 : Graphics := default depthScene (run depthCalls depthScene).

(** After a [SetDepthStencil] of a render surface that changes the depth
    resolution, the rasterizer-state hash stays the one of the old
    resolution: a [SetDepthBias] between two draws that changes the packed
    constant bias, from 0 to 1, leaves the key as it was. *)
Lemma depth_resolution_change_hides_bias :
  (match run depthCalls depthScene with Some _ => true | None => false end = true
   /\ runKeepsDepthBits depthCalls depthScene = false)
  /\ (Z.land (scaledDepthBias (PrepareDraw depthStencil16)) 8191 = 0
      /\ Z.land (scaledDepthBias (SetDepthBias 256 0 (PrepareDraw depthStencil16))) 8191 = 1)
  /\ pipelineKey (PrepareDraw (SetDepthBias 256 0 (PrepareDraw depthStencil16)))
     = pipelineKey (PrepareDraw depthStencil16).
Proof. vm_compute. repeat split; congruence. Qed.

End FixedPointBias.

(** *** Dirty tracking *)

(** Texture 3, which never gets a sampler, is bound to unit 0 and drawn
    with. *)
Definition drawnWithTexture3 : Graphics :=
  after boundState [CSetTexture 0 (Some 3%nat); CDraw TRIANGLE_LIST 0 3].


(** Texture 2, whose sampler the first binding creates, is bound to unit 0. *)
Definition texture2Bound : Graphics := after sampleGraphics [CSetTexture 0 (Some 2%nat)].


(** *** The stencil reference value *)

Definition stencilOn : Graphics :=
  after boundState [CSetStencilTest true CMP_EQUAL OP_KEEP OP_KEEP OP_REF 0 255 255].

Lemma stencil_ref_forces_lookup_witness :
  (resolveStateHashes
     (let g1 := SetStencilTest true (stencilTestMode_ stencilOn) (stencilPass_ stencilOn)
                  (stencilFail_ stencilOn) (stencilZFail_ stencilOn) 1
                  (stencilCompareMask_ stencilOn) (stencilWriteMask_ stencilOn) stencilOn in
      if renderTargetsDirty_ g1 then resolveRenderTargets g1 else g1)).2 = true.
Proof.
  refine (proj1 (proj2 (proj2 (proj2 (stencil_ref_forces_lookup stencilOn 1 _ _))))).
  - vm_compute. reflexivity.
  - vm_compute. discriminate.
Defined.

(** *** Constant buffers *)

Definition parameterWritten : Graphics :=
  after boundState [CSetShaderParameter 5 [1; 2; 3; 4]].

Lemma constant_buffers_flushed_witness :
  dirtyConstantBuffers_ parameterWritten = [0%nat]
  /\ dirtyConstantBuffers_ (PrepareDraw parameterWritten) = []
  /\ dirty_ (constantBuffer (PrepareDraw parameterWritten) 0) = false.
Proof.
  destruct (constant_buffers_flushed_before_draw parameterWritten)
    as (before & uploads & _ & _ & _ & Hlist & _ & Hflushed & _).
  - vm_compute. eauto.
  - vm_compute. eauto.
  - split; [vm_compute; reflexivity|]. split; [exact Hlist|].
    refine (proj1 (Hflushed 0%nat 0%nat _ _)).
    + vm_compute. left.
    + vm_compute. reflexivity.
Defined.


(** *** A device that stops mapping

    The sample platform with a device that carries out the calls at the
    first 14 positions of the trace and fails afterwards; in the sample
    scene the mapping of the constant buffer is the call at position 14. *)
Definition exhaustedPlatform : Platform :=
  {| float := Z;
     float_ne := fun a b => negb (a =? b);
     float_scaled_to_int := fun x k => x * k;
     float_le_zero := fun x => x <=? 0;
     float_ge_one := fun x => 1 <=? x;
     float_to_pixels := fun neg x size => ((if neg then - x else x) + 1) * size / 2;
     float_zero := 0;
     Rect_FULL := mkRect (-1) (-1) 1 1;
     MAX_VERTEX_STREAMS := 4;
     MAX_TEXTURE_UNITS := 16;
     MAX_RENDERTARGETS := 4;
     MAX_SHADER_PARAMETER_GROUPS := 7;
     VSP_CLIPPLANE := 77;
     deviceSucceeds := fun n => (n <? 14)%nat |}.

Section ExhaustedDevice.

#[local] Existing Instance exhaustedPlatform.

(** The sample scene with both shaders bound and a parameter written. *)
Definition parameterWrittenExhausted : Graphics :=
  let g := newGraphics 800 600 (Some 1%nat) (Some 2%nat) sampleTextures sampleSurfaces
             sampleVertexBuffers sampleIndexBuffers sampleShaders in
  default g (run [CSetShaders (Some 10%nat) (Some 20%nat);
                  CSetVertexBuffers [Some 7%nat] 0;
                  CSetIndexBuffer (Some 8%nat);
                  CSetShaderParameter 5 [1; 2; 3; 4]] g).

Definition isCopyToMapped (c : DeviceCall) : bool :=
  match c with
  | DevCopyToMapped _ _ => true
  | _ => false
  end.

(** C5, the claim as stated fails: the constant buffer has a device object
    and is listed and dirty after the parameter write, but the device does
    not map it; the draw is issued without any copy of the shadow data, and
    yet the buffer is no longer dirty and the list is empty. *)
Lemma failed_mapping_drops_parameter_write :
  (dirtyConstantBuffers_ parameterWrittenExhausted = [0%nat]
   /\ dirty_ (constantBuffer parameterWrittenExhausted 0) = true
   /\ cb_object_ (constantBuffer parameterWrittenExhausted 0) = Some 0%nat
   /\ take 4 (shadowData_ (constantBuffer parameterWrittenExhausted 0)) = [1; 2; 3; 4])
  /\ (existsb isCopyToMapped
        (deviceTrace (Draw TRIANGLE_LIST 0 3 parameterWrittenExhausted)) = false
      /\ drop 14 (deviceTrace (Draw TRIANGLE_LIST 0 3 parameterWrittenExhausted))
         = [DevMapBuffer 0 false; DevDraw 3 0])
  /\ (dirty_ (constantBuffer (Draw TRIANGLE_LIST 0 3 parameterWrittenExhausted) 0) = false
      /\ dirtyConstantBuffers_ (Draw TRIANGLE_LIST 0 3 parameterWrittenExhausted) = []).
Proof. vm_compute. repeat split; congruence. Qed.

End ExhaustedDevice.

(** *** Texture redirection *)

(** Shaders and buffers are bound, and the surface of texture 1 is bound as
    render target 0. *)
Definition renderingToTexture1 : Graphics :=
  after boundState [CSetRenderTarget 0 (Some 5%nat)].

Lemma texture_redirection_witness :
  at_ (textures_ (SetTexture 0 (Some 1%nat) renderingToTexture1)) 0 = Some 2%nat
  /\ exists (before : Graphics) (changed : bool) (post : list DeviceCall),
       deviceTrace (PrepareDraw (SetTexture 0 (Some 1%nat) renderingToTexture1))
       = deviceTrace before
         ++ [DevSetPipelineState (currentPipelineState_ before)]
         ++ (default [] (currentTextureMap_ before)
               ≫= unitCalls changed (SetTexture 0 (Some 1%nat) renderingToTexture1))
         ++ [DevCommitShaderResources (currentShaderResourceBinding_ before)]
         ++ post
       /\ unitCalls changed (SetTexture 0 (Some 1%nat) renderingToTexture1)
            (mkTextureMapEntry 0 100)
          = [DevSetSampler 32 (Some 3%nat); DevSetVariable 100 32].
Proof.
  destruct (texture_redirection 0 1 renderingToTexture1) as (Hrecorded & _ & _ & Hdraw).
  - vm_compute. lia.
  - vm_compute. lia.
  - vm_compute. lia.
  - vm_compute. lia.
  - vm_compute. reflexivity.
  - split; [rewrite Hrecorded; vm_compute; reflexivity|].
    destruct Hdraw as (before & changed & post & _ & Htrace & Hunit).
    + vm_compute. discriminate.
    + vm_compute. discriminate.
    + vm_compute. eauto.
    + vm_compute. eauto.
    + exists before, changed, post. split; [exact Htrace|].
      rewrite (Hunit (mkTextureMapEntry 0 100) eq_refl). vm_compute. reflexivity.
Defined.

(** The view that the device has on a shader variable after a trace: the one
    of the last [DevSetVariable] for the variable. *)
Definition boundVariable (var : nat) (trace : list DeviceCall) : option nat :=
  foldl (fun bound c =>
           match c with
           | DevSetVariable v view => if bool_decide (v = var) then Some view else bound
           | _ => bound
           end) None trace.

(** Texture 4 is a render-target texture without backup texture; surface 6
    is its render surface. *)
Definition loneTextures : gmap nat Texture :=
  {[ 4%nat := mkTexture None 1 false false false true None (Some 34%nat)
                (Some 44%nat) None 1 KindTexture2D 28 (Some 6%nat) [] ]}.

Definition loneSurfaces : gmap nat RenderSurface :=
  {[ 6%nat := mkRenderSurface 4 TEXTURE_RENDERTARGET 256 256 false (Some 61%nat) None ]}.

(** Texture 4 was sampled on unit 0 by a draw to the back buffer; then its
    surface is bound as render target 0. *)
Definition renderingToTexture4 : Graphics :=
  after (newGraphics 800 600 (Some 1%nat) (Some 2%nat) loneTextures loneSurfaces
           sampleVertexBuffers sampleIndexBuffers sampleShaders)
    [CSetShaders (Some 10%nat) (Some 20%nat); CSetVertexBuffers [Some 7%nat] 0;
     CSetTexture 0 (Some 4%nat); CDraw TRIANGLE_LIST 0 3;
     CSetRenderTarget 0 (Some 6%nat)].

(** C6, the claim as stated fails: after [SetTexture] of texture 4, the
    parent texture of render target 0, which has no backup texture, unit 0
    records null, the draw that follows sends nothing for the unit, and
    the shader variable of the unit still has the view of texture 4 when
    the draw is issued. *)
Lemma null_backup_leaves_original_view_bound :
  (isBoundRenderTarget 4 renderingToTexture4 = true
   /\ backupTexture_ (texture renderingToTexture4 4) = None
   /\ shaderResourceView_ (texture renderingToTexture4 4) = Some 34%nat)
  /\ (at_ (textures_ (SetTexture 0 (Some 4%nat) renderingToTexture4)) 0 = None
      /\ at_ (shaderResourceViews_ (SetTexture 0 (Some 4%nat) renderingToTexture4)) 0 = None)
  /\ (drop (length (deviceTrace renderingToTexture4))
        (deviceTrace (Draw TRIANGLE_LIST 0 3 (SetTexture 0 (Some 4%nat) renderingToTexture4)))
      = [DevSetRenderTargets [Some 61%nat; None; None; None] (Some 2%nat);
         DevSetViewports 0 0 256 256; DevSetPipelineState (Some 7%nat);
         DevCommitShaderResources (Some 10%nat); DevDraw 3 0]
      /\ boundVariable 100
           (deviceTrace (Draw TRIANGLE_LIST 0 3 (SetTexture 0 (Some 4%nat) renderingToTexture4)))
         = Some 34%nat).
Proof. vm_compute. repeat split; congruence. Qed.

(** *** Constant buffers *)

Lemma ConstantBuffer_SetSize_rounds_up_witness :
  size_ (constantBuffer (ConstantBuffer_SetSize 0 20 sampleGraphics).1 0) = 32.
Proof.
  refine (eq_trans (proj1 (ConstantBuffer_SetSize_rounds_up 0 20 sampleGraphics _)) _).
  - lia.
  - reflexivity.
Defined.

Lemma GetOrCreateConstantBuffer_distinct_witness :
  let r := GetOrCreateConstantBuffer VS 0 16 sampleGraphics in
  let r' := GetOrCreateConstantBuffer PS 0 16 r.2 in
  r.1 <> r'.1 /\ constantBuffersDistinct r'.2.
Proof.
  refine (GetOrCreateConstantBuffer_distinct VS PS 0 0 16 16 sampleGraphics _ _ _ _ _ _).
  - apply newGraphics_constantBuffersDistinct.
  - lia.
  - lia.
  - lia.
  - lia.
  - discriminate.
Defined.

(** *** Shader programs *)

Lemma program_selected_iff_shaders_in_use_witness :
  is_Some (shaderProgram_ boundState)
  <-> is_Some (vertexShader_ boundState) /\ is_Some (pixelShader_ boundState).
Proof.
  exact (proj1 (program_selected_iff_shaders_in_use boundState boundState_reachable)).
Defined.

(** Shader 30 has no object, and compiling it yields none. *)
Definition uncompiledScene : Graphics :=
  newGraphics 800 600 (Some 1%nat) (Some 2%nat) sampleTextures sampleSurfaces
    sampleVertexBuffers sampleIndexBuffers
    {[ 30%nat := mkShaderVariation None true (None, false) None [] [] ∅ [] ]}.

Lemma SetShaders_uncompiled_vertex_shader_witness :
  shaderProgram_ (SetShaders (Some 30%nat) (Some 20%nat) uncompiledScene) = None.
Proof.
  refine (proj1 (proj2 (SetShaders_uncompiled_vertex_shader 30 (Some 20%nat) uncompiledScene
                          _ _ _ _))).
  - vm_compute. reflexivity.
  - vm_compute. discriminate.
  - vm_compute. reflexivity.
  - vm_compute. reflexivity.
Defined.

(** *** Render targets and texture units *)

(** Texture 1, the parent of surface 5, is bound to unit 0. *)
Definition texture1Bound : Graphics := after sampleGraphics [CSetTexture 0 (Some 1%nat)].

Lemma SetRenderTarget_unbinds_parent_texture_witness :
  renderTargetsDirty_ (SetRenderTarget 0 (Some 5%nat) texture1Bound) = true.
Proof.
  refine (proj1 (SetRenderTarget_unbinds_parent_texture 0 5 texture1Bound _ _ _ _)).
  - vm_compute. lia.
  - vm_compute. discriminate.
  - vm_compute. discriminate.
  - intros t Ht. vm_compute in Ht. injection Ht as <-. vm_compute. discriminate.
Defined.

Lemma ResetRenderTargets_effect_witness :
  viewport_ (ResetRenderTargets sampleGraphics) = mkIntRect 0 0 800 600.
Proof.
  refine (proj1 (proj2 (proj2 (ResetRenderTargets_effect sampleGraphics _ _ _)))).
  - vm_compute. lia.
  - vm_compute. discriminate.
  - vm_compute. discriminate.
Defined.

Lemma BeginFrame_effect_witness :
  numPrimitives_ (BeginFrame boundState) = 0 /\ numBatches_ (BeginFrame boundState) = 0.
Proof.
  refine (proj2 (proj2 (proj2 (proj2 (proj2 (BeginFrame_effect boundState _ _ _)))))).
  - vm_compute. lia.
  - vm_compute. discriminate.
  - vm_compute. discriminate.
Defined.

(** *** Vertex streams and the scissor rectangle *)

Lemma SetVertexBuffers_records_witness :
  (SetVertexBuffers [Some 7%nat] 0 sampleGraphics).2 = true.
Proof.
  refine (proj1 (SetVertexBuffers_records [Some 7%nat] 0 sampleGraphics _ _ _ _)).
  - vm_compute. lia.
  - vm_compute. lia.
  - vm_compute. lia.
  - vm_compute. discriminate.
Defined.

Lemma SetScissorTest_within_render_target_witness :
  right_ (scissorRect_ (SetScissorTestInt true (mkIntRect 10 10 100 100) sampleGraphics))
  <= (GetRenderTargetDimensions sampleGraphics).1.
Proof.
  refine (proj1 (proj2 (proj2
            (proj2 (SetScissorTest_within_render_target true sampleGraphics _ _)
               (mkIntRect 10 10 100 100) _)))).
  - vm_compute. discriminate.
  - vm_compute. discriminate.
  - vm_compute. reflexivity.
Defined.

(** *** Invariants of the reachable states *)

Lemma drawnCCW_reachable : reachable drawnCCW.
Proof.
  unfold drawnCCW. apply (reachable_after boundState _ boundState_reachable).
  vm_compute. reflexivity.
Qed.

Lemma render_target_views_in_sync_witness :
  depthStencilView_ (resolveRenderTargets drawnCCW) = depthStencilView_ drawnCCW.
Proof.
  refine (proj2 (render_target_views_in_sync drawnCCW drawnCCW_reachable _)).
  vm_compute. reflexivity.
Defined.

Lemma texture_units_hold_views_of_their_textures_witness :
  length (textures_ drawnCCW) = MAX_TEXTURE_UNITS.
Proof.
  exact (proj1 (texture_units_hold_views_of_their_textures drawnCCW drawnCCW_reachable)).
Defined.

Lemma dirty_vertex_streams_within_limit_witness :
  (firstDirtyVB_ boundState = M_MAX_UNSIGNED /\ lastDirtyVB_ boundState = M_MAX_UNSIGNED)
  \/ (0 <= firstDirtyVB_ boundState <= lastDirtyVB_ boundState
      /\ lastDirtyVB_ boundState < Z.of_nat MAX_VERTEX_STREAMS).
Proof.
  refine (proj1 (dirty_vertex_streams_within_limit boundState false boundState_reachable _)).
  vm_compute. discriminate.
Defined.

(** * Shader parameter sources (DiligentGraphics.cpp)

    [Graphics] remembers, for each shader parameter group, the address of
    the object whose parameters were set last, so that a batch with the same
    source need not set them again.  The array [shaderParameterSources_] is
    embedded as a list of addresses; a group is an index into it, and the
    functions are meant for groups below its length (C++ leaves an access
    beyond the array undefined; here a read yields 0 and a write is lost). *)

Module ParameterSources.

Section WithPlatform.

Context {platform : Platform}.

(** [SP_CAMERA] and [SP_OBJECT], enumerators of [ShaderParameterGroup]. *)
Variables (SP_CAMERA SP_OBJECT : nat).

(** [(const void* )M_MAX_UNSIGNED], the address that marks a group as
    cleared. *)
Definition cleared : Z := M_MAX_UNSIGNED.

(** [NeedParameterUpdate]; the test for a cleared group looks at the
    address cast to [unsigned], its low 32 bits. *)
Definition NeedParameterUpdate (group : nat) (source : Z) (sources : list Z) : bool * list Z :=
  if (wrap32 (sources !!! group) =? M_MAX_UNSIGNED)
     || negb (bool_decide (sources !!! group = source))
  then (true, <[group := source]> sources)
  else (false, sources).

Definition ClearParameterSource (group : nat) (sources : list Z) : list Z :=
  <[group := cleared]> sources.

Definition ClearParameterSources (sources : list Z) : list Z :=
  foldl (fun sources i => <[i := cleared]> sources) sources
        (seq 0 MAX_SHADER_PARAMETER_GROUPS).

Definition ClearTransformSources (sources : list Z) : list Z :=
  <[SP_OBJECT := cleared]> (<[SP_CAMERA := cleared]> sources).

Lemma wrap32_cleared : wrap32 cleared = M_MAX_UNSIGNED.
Proof. reflexivity. Qed.

Lemma NeedParameterUpdate_cleared group source sources :
  sources !!! group = cleared -> (NeedParameterUpdate group source sources).1 = true.
Proof. intros Hc. unfold NeedParameterUpdate. by rewrite Hc, wrap32_cleared. Qed.

Lemma NeedParameterUpdate_answer group source sources sources' :
  sources' !!! group = sources !!! group ->
  (NeedParameterUpdate group source sources').1 = (NeedParameterUpdate group source sources).1.
Proof. intros He. unfold NeedParameterUpdate. rewrite He. by destruct (_ || _). Qed.

Lemma clear_loop (groups : list nat) (sources : list Z) (group : nat) :
  length (foldl (fun sources i => <[i := cleared]> sources) sources groups) = length sources
  /\ (group ∈ groups -> (group < length sources)%nat ->
      foldl (fun sources i => <[i := cleared]> sources) sources groups !!! group = cleared)
  /\ (sources !!! group = cleared ->
      foldl (fun sources i => <[i := cleared]> sources) sources groups !!! group = cleared).
Proof.
  revert sources. induction groups as [|i groups IH]; intros sources; cbn [foldl].
  - split; [done|]. split; [|done]. intros Hin. by apply elem_of_nil in Hin.
  - destruct (IH (<[i := cleared]> sources)) as (Hlen & Hin & Hkeep).
    rewrite length_insert in Hlen, Hin.
    assert (Hstay : sources !!! group = cleared -> <[i := cleared]> sources !!! group = cleared).
    { intros Hc. destruct (decide (i = group)) as [->|Hne].
      - destruct (decide (group < length sources)%nat) as [Hlt|Hge].
        + by apply list_lookup_total_insert_eq.
        + rewrite list_insert_ge by lia. exact Hc.
      - by rewrite list_lookup_total_insert_ne. }
    split; [exact Hlen|]. split.
    + intros Hmem Hlt. apply elem_of_cons in Hmem as [->|Hmem]; [|by apply Hin].
      apply Hkeep. by apply list_lookup_total_insert_eq.
    + intros Hc. apply Hkeep, Hstay, Hc.
Qed.

End WithPlatform.

End ParameterSources.

Section ParameterSourceProperties.

Context {platform : Platform}.

Import ParameterSources.

(** X16.  Asking [NeedParameterUpdate] again for the same group and source
    changes nothing more, and answers that no update is needed unless the
    low 32 bits of the source address are all ones, in which case every call
    answers that one is; the answers for the other groups are as before. *)
Theorem NeedParameterUpdate_again (group : nat) (source : Z) (sources : list Z) :
  (group < length sources)%nat ->
  let r := NeedParameterUpdate group source sources in
  let r' := NeedParameterUpdate group source r.2 in
  r.2 !!! group = source
  /\ r'.2 = r.2
  /\ (r'.1 = true <-> wrap32 source = M_MAX_UNSIGNED)
  /\ (wrap32 source = M_MAX_UNSIGNED -> r.1 = true)
  /\ (forall other, other <> group -> r.2 !!! other = sources !!! other).
Proof.
  intros Hlt. cbv zeta.
  assert (Hstored : (NeedParameterUpdate group source sources).2 !!! group = source).
  { unfold NeedParameterUpdate. destruct (wrap32 _ =? _); cbn [orb].
    - cbn [snd]. by apply list_lookup_total_insert_eq.
    - case_bool_decide as Hs; cbn [negb snd]; [done|]. by apply list_lookup_total_insert_eq. }
  split; [exact Hstored|].
  set (s1 := (NeedParameterUpdate group source sources).2) in *.
  assert (Hs1 : <[group := source]> s1 = s1).
  { apply list_eq. intros i. destruct (decide (i = group)) as [->|Hne].
    - unfold s1 at 1. subst s1.
      assert (Hlen : (group < length (NeedParameterUpdate group source sources).2)%nat).
      { unfold NeedParameterUpdate. destruct (_ || _); cbn [snd]; by rewrite ?length_insert. }
      rewrite list_lookup_insert_eq by exact Hlen.
      by rewrite <- Hstored at 1; rewrite list_lookup_lookup_total_lt.
    - by rewrite list_lookup_insert_ne. }
  split; [|split; [|split]].
  - unfold NeedParameterUpdate at 1. destruct (_ || _); cbn [snd]; [exact Hs1|done].
  - unfold NeedParameterUpdate at 1. rewrite Hstored.
    rewrite bool_decide_eq_true_2 by done. cbn [negb]. rewrite orb_false_r.
    destruct (Z.eqb_spec (wrap32 source) M_MAX_UNSIGNED) as [He|Hne]; cbn [fst]; split; done.
  - intros Hones. subst s1. revert Hstored. unfold NeedParameterUpdate.
    destruct (Z.eqb_spec (wrap32 (sources !!! group)) M_MAX_UNSIGNED) as [He|Hne]; cbn [orb];
      [done|].
    case_bool_decide as Hs; cbn [negb fst snd]; [|done]. intros _. congruence.
  - intros other Hother. subst s1. unfold NeedParameterUpdate.
    destruct (_ || _); cbn [snd]; [|done]. by rewrite list_lookup_total_insert_ne.
Qed.

(** X17.  After [ClearParameterSources], [NeedParameterUpdate] answers that
    an update is needed for every group and every source; after
    [ClearParameterSource] it does for that group, and after
    [ClearTransformSources] for the camera and the object group, while the
    answers for the other groups are those from before the call. *)
Theorem cleared_sources_need_update (SP_CAMERA SP_OBJECT group : nat) (source : Z)
    (sources : list Z) :
  (MAX_SHADER_PARAMETER_GROUPS <= length sources)%nat ->
  (SP_CAMERA < MAX_SHADER_PARAMETER_GROUPS)%nat ->
  (SP_OBJECT < MAX_SHADER_PARAMETER_GROUPS)%nat ->
  (group < MAX_SHADER_PARAMETER_GROUPS)%nat ->
  (NeedParameterUpdate group source (ClearParameterSources sources)).1 = true
  /\ (NeedParameterUpdate group source (ClearParameterSource group sources)).1 = true
  /\ (NeedParameterUpdate group source (ClearTransformSources SP_CAMERA SP_OBJECT sources)).1
     = if bool_decide (group = SP_CAMERA \/ group = SP_OBJECT) then true
       else (NeedParameterUpdate group source sources).1.
Proof.
  intros Hlen Hcamera Hobject Hgroup. split; [|split].
  - apply NeedParameterUpdate_cleared. unfold ClearParameterSources.
    destruct (clear_loop (seq 0 MAX_SHADER_PARAMETER_GROUPS) sources group) as (_ & Hin & _).
    apply Hin; [|lia]. apply elem_of_seq. lia.
  - apply NeedParameterUpdate_cleared. unfold ClearParameterSource.
    apply list_lookup_total_insert_eq. lia.
  - unfold ClearTransformSources. case_bool_decide as Hg.
    + apply NeedParameterUpdate_cleared.
      destruct (decide (group = SP_OBJECT)) as [->|Hne].
      * apply list_lookup_total_insert_eq. rewrite length_insert. lia.
      * rewrite list_lookup_total_insert_ne by done.
        destruct Hg as [->|?]; [|done]. apply list_lookup_total_insert_eq. lia.
    + apply NeedParameterUpdate_answer.
      rewrite !list_lookup_total_insert_ne; [done|intros ->; tauto..].
Qed.

End ParameterSourceProperties.

Lemma NeedParameterUpdate_again_witness :
  (ParameterSources.NeedParameterUpdate 1 4096
     (ParameterSources.NeedParameterUpdate 1 4096 [0; 0; 0]).2).2
  = (ParameterSources.NeedParameterUpdate 1 4096 [0; 0; 0]).2.
Proof.
  refine (proj1 (proj2 (NeedParameterUpdate_again 1 4096 [0; 0; 0] _))).
  cbn. lia.
Defined.

Lemma cleared_sources_need_update_witness :
  (ParameterSources.NeedParameterUpdate 1 4096
     (ParameterSources.ClearParameterSources [4096; 4096; 4096; 4096; 4096; 4096; 4096])).1
  = true.
Proof.
  refine (proj1 (cleared_sources_need_update 1 5 1 4096
                   [4096; 4096; 4096; 4096; 4096; 4096; 4096] _ _ _ _)).
  - vm_compute. lia.
  - vm_compute. lia.
  - vm_compute. lia.
  - vm_compute. lia.
Defined.

(** * Index buffers (DiligentIndexBuffer.cpp)

    An [IndexBuffer] keeps a CPU-side shadow copy and a GPU object and can be
    locked for writing.  Its member functions are embedded over the state of
    one buffer; the calls they make into the device context are appended to
    the buffer's own trace.  Sizes and offsets are [unsigned] and wrap. *)

Module IndexBuffers.

(** [LockState] of GraphicsDefs.h, with the enumerators the source names. *)
Inductive LockState := LOCK_NONE | LOCK_HARDWARE | LOCK_SHADOW | LOCK_SCRATCH.

#[global] Instance LockState_eq_dec : EqDecision LockState.
Proof. solve_decision. Defined.

(** The addresses the member functions are handed and hand out: null, memory
    of the caller with its contents, an offset into the shadow copy
    ([shadowData_.Get() + offset]), the scratch memory reserved by [Lock]
    ([lockScratchData_]), and the memory the device mapped ([hwData]). *)
Inductive Pointer :=
  | NullPtr
  | HostPtr (bytes : list Z)
  | ShadowPtr (offset : Z)
  | ScratchPtr
  | MappedPtr.

#[global] Instance Pointer_eq_dec : EqDecision Pointer.
Proof. solve_decision. Defined.

Inductive BufferCall :=
  | DevMapBuffer (buffer : nat) (discard : bool) (mapped : bool)
  | DevCopyToMapped (buffer : nat) (data : list Z)
  | DevUnmapBuffer (buffer : nat)
  | DevUpdateBuffer (buffer : nat) (offset size : Z) (data : list Z).

(** The members of [IndexBuffer] (IndexBuffer.h) and of the [GPUObject] it
    derives from.  [graphics_] says whether the weak pointer to the graphics
    subsystem is non-null, [lockScratchData_] whether the scratch pointer
    is; [scratchMemory] holds the bytes at the scratch address. *)
Record IndexBuffer := mkIndexBuffer {
  graphics_ : bool;
  object_ : option nat;
  shadowData_ : option (list Z);
  indexCount_ : Z;
  indexSize_ : Z;
  lockState_ : LockState;
  lockStart_ : Z;
  lockCount_ : Z;
  lockScratchData_ : bool;
  dynamic_ : bool;
  scratchMemory : list Z;
  deviceTrace : list BufferCall;
  logMessages : list string
}.

#[global] Instance set_ib_shadowData_ : Setter shadowData_ := ltac:(setter IndexBuffer shadowData_).
#[global] Instance set_lockState_ : Setter lockState_ := ltac:(setter IndexBuffer lockState_).
#[global] Instance set_lockStart_ : Setter lockStart_ := ltac:(setter IndexBuffer lockStart_).
#[global] Instance set_lockCount_ : Setter lockCount_ := ltac:(setter IndexBuffer lockCount_).
#[global] Instance set_lockScratchData_ : Setter lockScratchData_ := ltac:(setter IndexBuffer lockScratchData_).
#[global] Instance set_ib_deviceTrace : Setter deviceTrace := ltac:(setter IndexBuffer deviceTrace).
#[global] Instance set_ib_logMessages : Setter logMessages := ltac:(setter IndexBuffer logMessages).

Section WithPlatform.

Context {platform : Platform}.

Definition bufferCall (c : BufferCall) (b : IndexBuffer) : IndexBuffer :=
  b <| deviceTrace := deviceTrace b ++ [c] |>.

(** The answer of the device to the [MapBuffer] call that is made next. *)
Definition mapAnswer (b : IndexBuffer) : bool :=
  deviceSucceeds (length (deviceTrace b)).

Definition logBufferError (msg : string) (b : IndexBuffer) : IndexBuffer :=
  b <| logMessages := logMessages b ++ [msg] |>.

Definition isNull (p : Pointer) : bool :=
  match p with NullPtr => true | _ => false end.

(** The [n] bytes that [memcpy] or the device reads at an address; memory
    that does not exist yields no bytes. *)
Definition bytesAt (p : Pointer) (n : Z) (b : IndexBuffer) : list Z :=
  take (Z.to_nat n)
    match p with
    | HostPtr bytes => bytes
    | ShadowPtr offset => drop (Z.to_nat offset) (default [] (shadowData_ b))
    | ScratchPtr => scratchMemory b
    | NullPtr | MappedPtr => []
    end.

Definition MapBuffer (start count : Z) (discard : bool) (b : IndexBuffer)
    : Pointer * IndexBuffer :=
  match object_ b with
  | Some buffer =>
      let mapped := mapAnswer b in
      let b := bufferCall (DevMapBuffer buffer discard mapped) b in
      if negb mapped then (NullPtr, logBufferError "Failed to map index buffer" b)
      else (MappedPtr, b <| lockState_ := LOCK_HARDWARE |>)
  | None => (NullPtr, b)
  end.

Definition UnmapBuffer (b : IndexBuffer) : IndexBuffer :=
  match object_ b with
  | Some buffer =>
      if bool_decide (lockState_ b = LOCK_HARDWARE)
      then (bufferCall (DevUnmapBuffer buffer) b) <| lockState_ := LOCK_NONE |>
      else b
  | None => b
  end.

(** The tail that [SetData] and [SetDataRange] share: copy [size] bytes from
    [data] to the shadow copy at [offset] unless [data] is that address, then
    bring them to the GPU object, through a mapping for a dynamic buffer. *)
Definition writeRange (data : Pointer) (start count offset size : Z) (discard : bool)
    (b : IndexBuffer) : bool * IndexBuffer :=
  let b :=
    match shadowData_ b with
    | Some shadow =>
        if negb (bool_decide (data = ShadowPtr offset))
        then b <| shadowData_ :=
                    Some (list_inserts (Z.to_nat offset) (bytesAt data size b) shadow) |>
        else b
    | None => b
    end in
  match object_ b with
  | Some buffer =>
      if dynamic_ b then
        let r := MapBuffer start count discard b in
        if negb (isNull r.1) then
          let b := bufferCall (DevCopyToMapped buffer (bytesAt data size r.2)) r.2 in
          (true, UnmapBuffer b)
        else (false, r.2)
      else
        (true, bufferCall (DevUpdateBuffer buffer offset size (bytesAt data size b)) b)
  | None => (true, b)
  end.

Definition SetData (data : Pointer) (b : IndexBuffer) : bool * IndexBuffer :=
  if isNull data then
    (false, logBufferError "Null pointer for index buffer data" b)
  else if indexSize_ b =? 0 then
    (false, logBufferError "Index size not defined, can not set index buffer data" b)
  else
    writeRange data 0 (indexCount_ b) 0 (wrap32 (indexCount_ b * indexSize_ b)) true b.

Definition SetDataRange (data : Pointer) (start count : Z) (discard : bool)
    (b : IndexBuffer) : bool * IndexBuffer :=
  if (start =? 0) && (count =? indexCount_ b) then SetData data b
  else if isNull data then
    (false, logBufferError "Null pointer for index buffer data" b)
  else if indexSize_ b =? 0 then
    (false, logBufferError "Index size not defined, can not set index buffer data" b)
  else if indexCount_ b <? wrap32 (start + count) then
    (false, logBufferError "Illegal range for setting new index buffer data" b)
  else if count =? 0 then (true, b)
  else
    writeRange data start count (wrap32 (start * indexSize_ b))
      (wrap32 (count * indexSize_ b)) discard b.

(** [Lock]; [Graphics::ReserveScratchBuffer], which is not among the
    sources, is taken to hand out memory. *)
Definition Lock (start count : Z) (discard : bool) (b : IndexBuffer)
    : Pointer * IndexBuffer :=
  if negb (bool_decide (lockState_ b = LOCK_NONE)) then
    (NullPtr, logBufferError "Index buffer already locked" b)
  else if indexSize_ b =? 0 then
    (NullPtr, logBufferError "Index size not defined, can not lock index buffer" b)
  else if indexCount_ b <? wrap32 (start + count) then
    (NullPtr, logBufferError "Illegal range for locking index buffer" b)
  else if count =? 0 then (NullPtr, b)
  else
    let b := b <| lockStart_ := start |> <| lockCount_ := count |> in
    (* Because shadow data must be kept in sync, can only lock hardware
       buffer if not shadowed *)
    if bool_decide (is_Some (object_ b)) && negb (bool_decide (is_Some (shadowData_ b)))
       && dynamic_ b
    then MapBuffer start count discard b
    else if bool_decide (is_Some (shadowData_ b)) then
      (ShadowPtr (wrap32 (start * indexSize_ b)), b <| lockState_ := LOCK_SHADOW |>)
    else if graphics_ b then
      (ScratchPtr, b <| lockState_ := LOCK_SCRATCH |> <| lockScratchData_ := true |>)
    else (NullPtr, b).

(** [Unlock]; the discard flag of [SetDataRange] defaults to [false]. *)
Definition Unlock (b : IndexBuffer) : IndexBuffer :=
  match lockState_ b with
  | LOCK_HARDWARE => UnmapBuffer b
  | LOCK_SHADOW =>
      let b := (SetDataRange (ShadowPtr (wrap32 (lockStart_ b * indexSize_ b)))
                  (lockStart_ b) (lockCount_ b) false b).2 in
      b <| lockState_ := LOCK_NONE |>
  | LOCK_SCRATCH =>
      let b := (SetDataRange (if lockScratchData_ b then ScratchPtr else NullPtr)
                  (lockStart_ b) (lockCount_ b) false b).2 in
      b <| lockScratchData_ := false |> <| lockState_ := LOCK_NONE |>
  | LOCK_NONE => b
  end.

End WithPlatform.

End IndexBuffers.

(** ** Properties of index buffers *)

Section IndexBufferProperties.

Context {platform : Platform}.

Import IndexBuffers.

Lemma MapBuffer_shadowData start count discard b :
  shadowData_ (MapBuffer start count discard b).2 = shadowData_ b.
Proof. unfold MapBuffer. destruct (object_ b); [destruct (mapAnswer b)|]; reflexivity. Qed.

Lemma UnmapBuffer_shadowData b : shadowData_ (UnmapBuffer b) = shadowData_ b.
Proof. unfold UnmapBuffer. destruct (object_ b); [case_bool_decide|]; reflexivity. Qed.

Lemma MapBuffer_object start count discard b :
  object_ (MapBuffer start count discard b).2 = object_ b.
Proof. unfold MapBuffer. destruct (object_ b) eqn:E; [destruct (mapAnswer b)|]; cbn; done. Qed.

Lemma UnmapBuffer_unlocks b :
  is_Some (object_ b) -> lockState_ b = LOCK_HARDWARE -> lockState_ (UnmapBuffer b) = LOCK_NONE.
Proof.
  intros [o Ho] Hl. unfold UnmapBuffer. rewrite Ho.
  rewrite bool_decide_eq_true_2 by done. reflexivity.
Qed.

Lemma MapBuffer_cases start count discard b :
  ((MapBuffer start count discard b).1 = NullPtr
   /\ lockState_ (MapBuffer start count discard b).2 = lockState_ b)
  \/ ((MapBuffer start count discard b).1 = MappedPtr
      /\ is_Some (object_ b)
      /\ lockState_ (MapBuffer start count discard b).2 = LOCK_HARDWARE).
Proof.
  unfold MapBuffer. destruct (object_ b); [destruct (mapAnswer b)|]; cbn; eauto.
Qed.

(** What [writeRange] does to the shadow copy, whatever becomes of the GPU
    object. *)
Lemma writeRange_shadowData data start count offset size discard b :
  shadowData_ (writeRange data start count offset size discard b).2
  = match shadowData_ b with
    | Some shadow =>
        if bool_decide (data = ShadowPtr offset) then Some shadow
        else Some (list_inserts (Z.to_nat offset) (bytesAt data size b) shadow)
    | None => None
    end.
Proof.
  unfold writeRange.
  set (b1 := match shadowData_ b with Some _ => _ | None => b end).
  assert (Hb1 : shadowData_ b1
                = match shadowData_ b with
                  | Some shadow =>
                      if bool_decide (data = ShadowPtr offset) then Some shadow
                      else Some (list_inserts (Z.to_nat offset) (bytesAt data size b) shadow)
                  | None => None
                  end).
  { subst b1. destruct (shadowData_ b) eqn:E; [case_bool_decide|]; cbn; done. }
  rewrite <- Hb1. clearbody b1.
  destruct (object_ b1); [|done].
  destruct (dynamic_ b1); [|done].
  destruct (isNull (MapBuffer start count discard b1).1); cbn.
  - apply MapBuffer_shadowData.
  - rewrite UnmapBuffer_shadowData. cbn. apply MapBuffer_shadowData.
Qed.

(** X18.  [IndexBuffer::SetData] fails in exactly three cases: the data
    pointer is null, the index size is not defined, or the buffer is dynamic
    with a GPU object and the device does not map it. *)
Theorem IndexBuffer_SetData_fails_iff (data : Pointer) (b : IndexBuffer) :
  (SetData data b).1 = false
  <-> data = NullPtr \/ indexSize_ b = 0
      \/ (is_Some (object_ b) /\ dynamic_ b = true /\ mapAnswer b = false).
Proof.
  unfold SetData.
  destruct (isNull data) eqn:Hnull.
  { split; [|done]. intros _. left. by destruct data. }
  destruct (indexSize_ b =? 0) eqn:Hsize.
  { split; [|done]. intros _. right. left. lia. }
  assert (Hdata : data <> NullPtr) by (intros ->; done).
  assert (Hsz : indexSize_ b <> 0) by lia.
  unfold writeRange.
  set (b1 := match shadowData_ b with Some _ => _ | None => b end).
  assert (Hb1 : object_ b1 = object_ b /\ dynamic_ b1 = dynamic_ b
                /\ mapAnswer b1 = mapAnswer b).
  { subst b1. destruct (shadowData_ b); [case_bool_decide|]; done. }
  destruct Hb1 as (Ho & Hd & Ha). rewrite <- Ho, <- Hd, <- Ha. clearbody b1.
  destruct (object_ b1) as [o|] eqn:Eo.
  - destruct (dynamic_ b1) eqn:Ed.
    + unfold MapBuffer. rewrite Eo. cbn.
      destruct (mapAnswer b1) eqn:Ea; cbn.
      * split; [done|]. intros [?|[?|(_ & _ & ?)]]; done.
      * split; [|done]. intros _. right. right. eauto.
    + cbn. split; [done|]. intros [?|[?|(_ & ? & _)]]; done.
  - cbn. split; [done|]. intros [?|[?|([? ?] & _ & _)]]; done.
Qed.

(** X19.  [IndexBuffer::SetDataRange] refuses a null data pointer, an
    undefined index size and a range that ends (after the 32-bit addition)
    behind the last index: it returns [false] and nothing but the error log
    changes. *)
Theorem IndexBuffer_SetDataRange_refuses (data : Pointer) (start count : Z) (discard : bool)
    (b : IndexBuffer) :
  0 <= indexCount_ b ->
  data = NullPtr \/ indexSize_ b = 0 \/ indexCount_ b < wrap32 (start + count) ->
  let r := SetDataRange data start count discard b in
  r.1 = false
  /\ length (logMessages r.2) = S (length (logMessages b))
  /\ r.2 <| logMessages := logMessages b |> = b.
Proof.
  intros Hcount Hbad r. subst r. unfold SetDataRange, SetData.
  assert (Hlog : forall msg,
             (false, logBufferError msg b).1 = false
             /\ length (logMessages (false, logBufferError msg b).2) = S (length (logMessages b))
             /\ (false, logBufferError msg b).2 <| logMessages := logMessages b |> = b).
  { intros msg. cbn [fst snd]. split; [done|]. split; [|by destruct b].
    unfold logBufferError. cbn. unfold RecordSettersUsingExistingGetters.const.
    rewrite length_app. cbn. lia. }
  destruct ((start =? 0) && (count =? indexCount_ b)) eqn:Hwhole.
  - apply andb_true_iff in Hwhole as [Hs Hc].
    assert (start = 0) as -> by lia. assert (count = indexCount_ b) as -> by lia.
    destruct (isNull data) eqn:Hnull; [apply Hlog|].
    destruct (indexSize_ b =? 0) eqn:Hsize; [apply Hlog|].
    exfalso. destruct Hbad as [->|[?|Hr]]; [done|lia|].
    unfold wrap32 in Hr. rewrite Z.add_0_l in Hr.
    pose proof (Z.mod_le (indexCount_ b) (2 ^ 32) Hcount ltac:(lia)). lia.
  - destruct (isNull data) eqn:Hnull; [apply Hlog|].
    destruct (indexSize_ b =? 0) eqn:Hsize; [apply Hlog|].
    destruct (indexCount_ b <? wrap32 (start + count)) eqn:Hrange; [apply Hlog|].
    exfalso. destruct Hbad as [->|[?|Hr]]; [done|lia|lia].
Qed.

(** X20.  An accepted [IndexBuffer::SetDataRange] from caller memory writes
    the bytes of the indices [start .. start + count) of the shadow copy and
    no other byte, also when the upload to the GPU object fails. *)
Theorem IndexBuffer_SetDataRange_shadow (bytes shadow : list Z) (start count : Z)
    (discard : bool) (b : IndexBuffer) :
  shadowData_ b = Some shadow ->
  0 < indexSize_ b -> 0 <= start -> 0 <= count ->
  start + count <= indexCount_ b ->
  indexCount_ b * indexSize_ b < 2 ^ 32 ->
  length shadow = Z.to_nat (indexCount_ b * indexSize_ b) ->
  (Z.to_nat (count * indexSize_ b) <= length bytes)%nat ->
  exists shadow',
    shadowData_ (SetDataRange (HostPtr bytes) start count discard b).2 = Some shadow'
    /\ length shadow' = length shadow
    /\ forall i : nat,
         shadow' !! i
         = if bool_decide (Z.to_nat (start * indexSize_ b) <= i
                           < Z.to_nat ((start + count) * indexSize_ b))%nat
           then bytes !! (i - Z.to_nat (start * indexSize_ b))%nat
           else shadow !! i.
Proof.
  intros Hshadow Hsize Hstart Hcount Hrange Hfit Hlen Hbytes.
  assert (Hwrap : forall x, 0 <= x <= indexCount_ b -> wrap32 (x * indexSize_ b) = x * indexSize_ b).
  { intros x Hx. unfold wrap32. apply Z.mod_small. nia. }
  assert (Hwrite : forall d,
    exists shadow',
      shadowData_ (writeRange (HostPtr bytes) start count (start * indexSize_ b)
                     (count * indexSize_ b) d b).2 = Some shadow'
      /\ length shadow' = length shadow
      /\ forall i : nat,
           shadow' !! i
           = if bool_decide (Z.to_nat (start * indexSize_ b) <= i
                             < Z.to_nat ((start + count) * indexSize_ b))%nat
             then bytes !! (i - Z.to_nat (start * indexSize_ b))%nat
             else shadow !! i).
  { intros d. rewrite writeRange_shadowData, Hshadow.
    rewrite bool_decide_eq_false_2 by done.
    eexists. split; [reflexivity|]. split; [by rewrite length_inserts|].
    intros i. unfold bytesAt.
    assert (Hk : length (take (Z.to_nat (count * indexSize_ b)) bytes)
                 = Z.to_nat (count * indexSize_ b)) by (rewrite length_take; lia).
    assert (Hend : (Z.to_nat ((start + count) * indexSize_ b)
                    = Z.to_nat (start * indexSize_ b) + Z.to_nat (count * indexSize_ b))%nat)
      by nia.
    case_bool_decide as Hi.
    - rewrite list_lookup_inserts by (rewrite ?Hk; nia).
      rewrite lookup_take_lt by lia. reflexivity.
    - destruct (decide (i < Z.to_nat (start * indexSize_ b))%nat).
      + by rewrite list_lookup_inserts_lt.
      + rewrite list_lookup_inserts_ge; [done|]. rewrite Hk. lia. }
  unfold SetDataRange, SetData. cbn [isNull].
  replace (indexSize_ b =? 0) with false by lia.
  destruct ((start =? 0) && (count =? indexCount_ b)) eqn:Hwhole.
  - apply andb_true_iff in Hwhole as [Hs Hc].
    assert (start = 0) as -> by lia. assert (count = indexCount_ b) as Hc' by lia.
    rewrite Hwrap by lia. specialize (Hwrite true).
    rewrite Hc' in Hwrite. rewrite Z.mul_0_l in Hwrite. rewrite Hc'. exact Hwrite.
  - replace (indexCount_ b <? wrap32 (start + count)) with false.
    2: { unfold wrap32. rewrite Z.mod_small by nia. lia. }
    destruct (count =? 0) eqn:Hzero.
    + assert (count = 0) as -> by lia. exists shadow. cbn. split; [done|]. split; [done|].
      intros i. rewrite bool_decide_eq_false_2; [done|]. rewrite Z.add_0_r. lia.
    + rewrite !Hwrap by lia. apply Hwrite.
Qed.

(** X21.  [IndexBuffer::Lock] hands out nothing for a buffer that is
    already locked, has no index size, or for a range that ends behind the
    last index, and then only the error log changes; an empty range is
    refused without an error and without any change. *)
Theorem IndexBuffer_Lock_refuses (start count : Z) (discard : bool) (b : IndexBuffer) :
  lockState_ b <> LOCK_NONE \/ indexSize_ b = 0 \/ indexCount_ b < wrap32 (start + count)
  \/ count = 0 ->
  let r := Lock start count discard b in
  r.1 = NullPtr
  /\ r.2 <| logMessages := logMessages b |> = b
  /\ (lockState_ b = LOCK_NONE -> indexSize_ b <> 0 ->
      wrap32 (start + count) <= indexCount_ b -> r.2 = b).
Proof.
  intros Hbad r. subst r. unfold Lock.
  assert (Hlog : forall msg, (logBufferError msg b) <| logMessages := logMessages b |> = b)
    by (intros; by destruct b).
  case_bool_decide as Hlock; cbn [negb].
  - destruct (indexSize_ b =? 0) eqn:Hsize.
    { cbn. split; [done|]. split; [apply Hlog|]. intros; lia. }
    destruct (indexCount_ b <? wrap32 (start + count)) eqn:Hrange.
    { cbn. split; [done|]. split; [apply Hlog|]. intros; lia. }
    destruct (count =? 0) eqn:Hzero.
    { cbn. split; [done|]. split; [by destruct b|]. done. }
    exfalso. destruct Hbad as [?|[?|[?|?]]]; [done|lia|lia|lia].
  - cbn. split; [done|]. split; [apply Hlog|]. intros; done.
Qed.

(** X22.  A [Lock] that hands out memory leaves the buffer locked with the
    requested range recorded, so that a second [Lock] is refused; [Unlock]
    then brings the buffer back to [LOCK_NONE]. *)
Theorem IndexBuffer_Lock_Unlock (start count : Z) (discard : bool) (b : IndexBuffer) :
  (Lock start count discard b).1 <> NullPtr ->
  let b1 := (Lock start count discard b).2 in
  lockState_ b1 <> LOCK_NONE
  /\ lockStart_ b1 = start /\ lockCount_ b1 = count
  /\ (forall start' count' discard', (Lock start' count' discard' b1).1 = NullPtr)
  /\ lockState_ (Unlock b1) = LOCK_NONE.
Proof.
  intros Hptr b1.
  assert (Hlocked : lockState_ b1 <> LOCK_NONE /\ lockStart_ b1 = start /\ lockCount_ b1 = count
                    /\ (lockState_ b1 = LOCK_HARDWARE -> is_Some (object_ b1))).
  { subst b1. revert Hptr. unfold Lock.
    case_bool_decide; cbn [negb]; [|done].
    destruct (indexSize_ b =? 0); [done|].
    destruct (indexCount_ b <? wrap32 (start + count)); [done|].
    destruct (count =? 0); [done|].
    cbn.
    destruct (bool_decide (is_Some (object_ b)) && negb (bool_decide (is_Some (shadowData_ b)))
              && dynamic_ b) eqn:Hhw.
    - unfold MapBuffer. cbn. destruct (object_ b) eqn:Ho; [|done].
      destruct (mapAnswer _); cbn; [|done]. intros _. rewrite Ho. eauto.
    - clear Hhw. destruct (bool_decide (is_Some (shadowData_ b)));
        [cbn; intros _; repeat split; done|].
      destruct (graphics_ b); [cbn; intros _; repeat split; done|done]. }
  destruct Hlocked as (Hl & Hs & Hc & Hobj).
  split; [done|]. split; [done|]. split; [done|]. split.
  - intros. unfold Lock. rewrite bool_decide_eq_false_2 by done. reflexivity.
  - unfold Unlock. destruct (lockState_ b1) eqn:E; [done| |done|done].
    apply UnmapBuffer_unlocks; auto.
Qed.

(** X23.  [Unlock] of a shadow-locked, static buffer with a GPU object
    sends exactly the locked range of the shadow copy to the device, in one
    [UpdateBuffer] call, and leaves the shadow copy as the caller filled
    it. *)
Theorem IndexBuffer_Unlock_shadow (shadow : list Z) (buffer : nat) (b : IndexBuffer) :
  lockState_ b = LOCK_SHADOW ->
  shadowData_ b = Some shadow -> object_ b = Some buffer -> dynamic_ b = false ->
  0 < indexSize_ b -> 0 <= lockStart_ b -> 0 < lockCount_ b ->
  lockStart_ b + lockCount_ b <= indexCount_ b ->
  indexCount_ b * indexSize_ b < 2 ^ 32 ->
  let b' := Unlock b in
  let offset := lockStart_ b * indexSize_ b in
  let size := lockCount_ b * indexSize_ b in
  shadowData_ b' = Some shadow
  /\ lockState_ b' = LOCK_NONE
  /\ deviceTrace b'
     = deviceTrace b
       ++ [DevUpdateBuffer buffer offset size
             (take (Z.to_nat size) (drop (Z.to_nat offset) shadow))].
Proof.
  intros Hl Hshadow Hobj Hdyn Hsize Hstart Hcount Hrange Hfit. cbv zeta.
  set (offset := lockStart_ b * indexSize_ b).
  set (size := lockCount_ b * indexSize_ b).
  assert (Hwrap : forall x, 0 <= x <= indexCount_ b -> wrap32 (x * indexSize_ b) = x * indexSize_ b).
  { intros x Hx. unfold wrap32. apply Z.mod_small. nia. }
  assert (Hwrite : forall s c d,
    writeRange (ShadowPtr offset) s c offset size d b
    = (true, bufferCall (DevUpdateBuffer buffer offset size
                           (take (Z.to_nat size) (drop (Z.to_nat offset) shadow))) b)).
  { intros. unfold writeRange. rewrite Hshadow.
    rewrite bool_decide_eq_true_2 by done. cbn [negb]. rewrite Hobj, Hdyn.
    unfold bytesAt. rewrite Hshadow. reflexivity. }
  assert (Hset : SetDataRange (ShadowPtr (wrap32 (lockStart_ b * indexSize_ b)))
                   (lockStart_ b) (lockCount_ b) false b
                 = (true, bufferCall (DevUpdateBuffer buffer offset size
                           (take (Z.to_nat size) (drop (Z.to_nat offset) shadow))) b)).
  { rewrite (Hwrap (lockStart_ b)) by lia.
    unfold SetDataRange, SetData. cbn [isNull].
    replace (indexSize_ b =? 0) with false by lia.
    destruct ((lockStart_ b =? 0) && (lockCount_ b =? indexCount_ b)) eqn:Hwhole.
    - apply andb_true_iff in Hwhole as [Hs Hc].
      assert (Hs' : lockStart_ b = 0) by lia. assert (Hc' : lockCount_ b = indexCount_ b) by lia.
      rewrite (Hwrap (indexCount_ b)) by lia.
      replace (indexCount_ b * indexSize_ b) with size by (subst size; by rewrite Hc').
      assert (Hoff : offset = 0) by (subst offset; rewrite Hs'; lia).
      change (lockStart_ b * indexSize_ b) with offset.
      rewrite <- (Hwrite 0 (indexCount_ b) true). by rewrite Hoff.
    - replace (indexCount_ b <? wrap32 (lockStart_ b + lockCount_ b)) with false.
      2: { unfold wrap32. rewrite Z.mod_small by nia. lia. }
      replace (lockCount_ b =? 0) with false by lia.
      rewrite !Hwrap by lia. apply Hwrite. }
  unfold Unlock. rewrite Hl. cbv zeta. rewrite Hset. cbn.
  split; [done|]. split; done.
Qed.

End IndexBufferProperties.

(** *** A concrete index buffer

    Six 16-bit indices with a shadow copy and a static GPU object. *)

Definition sampleIndexBuffer : IndexBuffers.IndexBuffer :=
  IndexBuffers.mkIndexBuffer true (Some 81%nat) (Some [0; 0; 0; 0; 0; 0; 0; 0; 0; 0; 0; 0])
    6 2 IndexBuffers.LOCK_NONE 0 0 false false [] [] [].

(** The sample buffer with the indices 1 and 2 locked. *)
Definition lockedIndexBuffer : IndexBuffers.IndexBuffer :=
  (IndexBuffers.Lock 1 2 false sampleIndexBuffer).2.

Lemma IndexBuffer_SetDataRange_refuses_witness :
  (IndexBuffers.SetDataRange IndexBuffers.NullPtr 1 2 false sampleIndexBuffer).1 = false.
Proof.
  refine (proj1 (IndexBuffer_SetDataRange_refuses IndexBuffers.NullPtr 1 2 false
                   sampleIndexBuffer _ _)).
  - vm_compute. discriminate.
  - left. reflexivity.
Defined.

Lemma IndexBuffer_SetDataRange_shadow_witness :
  exists shadow',
    IndexBuffers.shadowData_
      (IndexBuffers.SetDataRange (IndexBuffers.HostPtr [1; 2; 3; 4]) 1 2 false
         sampleIndexBuffer).2 = Some shadow'
    /\ length shadow' = 12%nat.
Proof.
  destruct (IndexBuffer_SetDataRange_shadow [1; 2; 3; 4] [0; 0; 0; 0; 0; 0; 0; 0; 0; 0; 0; 0]
              1 2 false sampleIndexBuffer) as (shadow' & Hshadow & Hlength & _).
  - reflexivity.
  - vm_compute. reflexivity.
  - lia.
  - lia.
  - vm_compute. discriminate.
  - vm_compute. reflexivity.
  - reflexivity.
  - vm_compute. lia.
  - exists shadow'. split; [exact Hshadow|exact Hlength].
Defined.

Lemma IndexBuffer_Lock_refuses_witness :
  (IndexBuffers.Lock 1 0 false sampleIndexBuffer).1 = IndexBuffers.NullPtr.
Proof.
  refine (proj1 (IndexBuffer_Lock_refuses 1 0 false sampleIndexBuffer _)).
  right. right. right. reflexivity.
Defined.

Lemma IndexBuffer_Lock_Unlock_witness :
  IndexBuffers.lockState_ (IndexBuffers.Unlock lockedIndexBuffer) = IndexBuffers.LOCK_NONE.
Proof.
  refine (proj2 (proj2 (proj2 (proj2 (IndexBuffer_Lock_Unlock 1 2 false sampleIndexBuffer _))))).
  vm_compute. discriminate.
Defined.

Lemma IndexBuffer_Unlock_shadow_witness :
  IndexBuffers.deviceTrace (IndexBuffers.Unlock lockedIndexBuffer)
  = [IndexBuffers.DevUpdateBuffer 81 2 4 [0; 0; 0; 0]].
Proof.
  refine (eq_trans (proj2 (proj2 (IndexBuffer_Unlock_shadow [0; 0; 0; 0; 0; 0; 0; 0; 0; 0; 0; 0]
                                    81 lockedIndexBuffer _ _ _ _ _ _ _ _ _))) _).
  - vm_compute. reflexivity.
  - vm_compute. reflexivity.
  - vm_compute. reflexivity.
  - vm_compute. reflexivity.
  - vm_compute. reflexivity.
  - vm_compute. discriminate.
  - vm_compute. reflexivity.
  - vm_compute. discriminate.
  - vm_compute. reflexivity.
  - vm_compute. reflexivity.
Defined.
